(** * Constraint-model formulation layer of the course scheduler

    Shallow embedding of [src/fall26/scheduler.py]: the functions that turn
    the scheduling tables into a MILP instance ([build_model] and the
    [add_*_constraints] builders, [create_section_capacity_map],
    [create_section_type_map]), together with the meaning of the produced
    model (valuations, satisfied constraints, objective value).

    The Gurobi model is a piece of mutable state that the builders extend
    (variables, constraints) while they also print to standard output and
    may raise; this is modelled by a state-and-exception monad [M]. *)

From Stdlib Require Import List String Ascii ZArith QArith Qround Lia Bool.
From Stdlib Require Decimal DecimalString.
Import ListNotations.

Local Open Scope Z_scope.
Local Open Scope string_scope.
Local Open Scope list_scope.

(* ================================================================== *)
(** ** Python strings *)
(* ================================================================== *)

Module Py.

(** [a == b] on strings, stopping at the first difference. *)
Fixpoint eqb (a b : string) : bool :=
  match a, b with
  | EmptyString, EmptyString => true
  | String c1 a', String c2 b' => if Ascii.eqb c1 c2 then eqb a' b' else false
  | _, _ => false
  end.

(** [str.isspace] on the ASCII range. *)
Definition is_space (c : ascii) : bool :=
  let n := nat_of_ascii c in
  (((9 <=? n) && (n <=? 13)) || ((28 <=? n) && (n <=? 32)))%nat.

Fixpoint lstrip (s : string) : string :=
  match s with
  | EmptyString => EmptyString
  | String c s' => if is_space c then lstrip s' else s
  end.

Definition rev_string (s : string) : string :=
  string_of_list_ascii (List.rev (list_ascii_of_string s)).

(** [s.strip()] *)
Definition strip (s : string) : string :=
  rev_string (lstrip (rev_string (lstrip s))).

Definition lower_char (c : ascii) : ascii :=
  let n := nat_of_ascii c in
  if ((65 <=? n) && (n <=? 90))%nat then ascii_of_nat (n + 32) else c.

(** [s.lower()] *)
Fixpoint lower (s : string) : string :=
  match s with
  | EmptyString => EmptyString
  | String c s' => String (lower_char c) (lower s')
  end.

(** [s.split(sep)] for a non-empty separator: [skip] counts the
    characters of a matched separator that are still to be dropped and
    [cur] is the piece being read. *)
Fixpoint split_go (sep s : string) (skip : nat) (cur : string) : list string :=
  match s with
  | EmptyString => [cur]
  | String c s' =>
      match skip with
      | S k => split_go sep s' k cur
      | O =>
          if String.prefix sep s
          then cur :: split_go sep s' (String.length sep - 1) EmptyString
          else split_go sep s' O (cur ++ String c EmptyString)
      end
  end.

Definition split (s sep : string) : list string := split_go sep s O EmptyString.

(** [l[1:-1]] *)
Definition slice_1_m1 {A} (l : list A) : list A := removelast (tl l).

(** [str(n)] for an [int]. *)
Definition str (n : Z) : string := DecimalString.NilZero.string_of_int (Z.to_int n).

Definition digit_of (c : ascii) : option Z :=
  let n := nat_of_ascii c in
  if ((48 <=? n) && (n <=? 57))%nat then Some (Z.of_nat (n - 48)) else None.

Fixpoint digits_go (s : string) (acc : Z) : option Z :=
  match s with
  | EmptyString => Some acc
  | String c s' =>
      match digit_of c with
      | Some d => digits_go s' (10 * acc + d)
      | None => None
      end
  end.

(** [int(s)] on a string free of underscores: surrounding white space,
    an optional sign, then at least one digit; [None] stands for
    [ValueError]. *)
Definition int (s : string) : option Z :=
  match strip s with
  | EmptyString => None
  | String "-" (String _ _ as ds) => option_map Z.opp (digits_go ds 0)
  | String "+" (String _ _ as ds) => digits_go ds 0
  | ds => digits_go ds 0
  end.

(** f-string concatenation. *)
Definition cat (l : list string) : string := String.concat "" l.

(** [range(1, n + 1)] *)
Definition range1 (n : Z) : list Z := map Z.of_nat (seq 1 (Z.to_nat n)).

(** [x in l] for a list of strings. *)
Definition mem (x : string) (l : list string) : bool := existsb (eqb x) l.

(** [l.index(x)]: [None] stands for [ValueError]. *)
Fixpoint index (x : string) (l : list string) : option nat :=
  match l with
  | [] => None
  | y :: t => if eqb y x then Some O else option_map S (index x t)
  end.

(** [Series.unique()]: the distinct values in order of first appearance. *)
Fixpoint unique (l : list string) : list string :=
  match l with
  | [] => []
  | x :: t => x :: filter (fun y => negb (eqb y x)) (unique t)
  end.

(** [s[i]] as a one-character string. *)
Definition char_at (i : nat) (s : string) : string := String.substring i 1 s.

End Py.

Declare Scope py_scope.
Notation "a =? b" := (Py.eqb a b) (at level 70) : py_scope.
Local Open Scope py_scope.

(* ================================================================== *)
(** ** Python dicts (insertion ordered) *)
(* ================================================================== *)

Section Dict.
Context {K V : Type} (eqb : K -> K -> bool).

Fixpoint dict_get (k : K) (d : list (K * V)) : option V :=
  match d with
  | [] => None
  | (k', v) :: t => if eqb k' k then Some v else dict_get k t
  end.

(** [d[k] = v]: an existing key keeps its position. *)
Fixpoint dict_set (k : K) (v : V) (d : list (K * V)) : list (K * V) :=
  match d with
  | [] => [(k, v)]
  | (k', v') :: t => if eqb k' k then (k, v) :: t else (k', v') :: dict_set k v t
  end.
End Dict.

Definition Var := nat.

(** The [variables] dict of [build_model]: name to Gurobi variable. *)
Definition VarDict := list (string * Var).
Definition vget (name : string) (variables : VarDict) : option Var :=
  dict_get Py.eqb name variables.
Definition vset (name : string) (v : Var) (variables : VarDict) : VarDict :=
  dict_set Py.eqb name v variables.

(** The variable registered under [name], if there is one: the guard
    [if name in variables: l.append(variables[name])]. *)
Definition present (variables : VarDict) (name : string) : list Var :=
  match vget name variables with Some v => [v] | None => [] end.

Definition SectionKey := (string * string * Z)%type.
Definition key_eqb (a b : SectionKey) : bool :=
  let '(c1, i1, n1) := a in
  let '(c2, i2, n2) := b in
  if c1 =? c2 then if i1 =? i2 then (n1 =? n2)%Z else false else false.

Definition Quad := (string * string * string * string)%type.
Definition pair_eqb (a b : string * string) : bool :=
  if fst a =? fst b then snd a =? snd b else false.

(* ================================================================== *)
(** ** Input tables *)
(* ================================================================== *)

(** A row of the Assignments sheet before aggregation. [Section_Type] is
    [None] for an empty (NaN) cell. *)
Record RawRow := mkRaw {
  raw_Course : string;
  raw_Instructor : string;
  raw_Capacity : Z;
  raw_Sections : Z;
  raw_Section_Type : option string
}.

(** The assignments table handed to the map builders; [has_Section_Type]
    tells whether the column exists. *)
Record RawTable := mkRawTable {
  has_Section_Type : bool;
  raw_rows : list RawRow
}.

(** A row of the aggregated frame [df]. [Course_Number] is the digit run
    extracted from the course code. *)
Record Row := mkRow {
  Course : string;
  Instructor : string;
  Course_Number : option string;
  Email : string;
  Sections : Z
}.

Definition DataFrame := list Row.

(** A row of the pre-scheduled sheet. *)
Record PreRow := mkPre {
  pre_Instructor : string;
  pre_Day : string;
  pre_Time : string
}.

(** A spreadsheet cell as pandas delivers it. *)
Inductive Cell :=
| CStr (s : string)
| CFloat
| COther.

(** A row of the "Constraints & Preferences" sheet. *)
Record PrefRow := mkPref {
  Instructor_UCID_Type : Cell;
  Slots : Cell
}.

(** A row of the "General Preferences" sheet; [None] is a NaN cell. *)
Record GPRow := mkGP {
  gp_Email : option string;
  gp_Preference : option string;
  gp_Day_Preference : option string;
  gp_Consecutive_Preference : option string
}.

Record GPSheet := mkGPSheet {
  gp_ncols : nat;
  gp_rows : list GPRow
}.

(** Everything [build_model] reads from the workbook. [general_preferences]
    is [None] when the sheet cannot be read. *)
Record Workbook := mkWorkbook {
  pre_scheduled : list PreRow;
  constraints_sheet : list PrefRow;
  general_preferences : option GPSheet
}.

(* ================================================================== *)
(** ** Linear expressions, constraints, the model *)
(* ================================================================== *)

Record LinExpr := mkLin {
  terms : list (Z * Var);
  const : Q
}.

Inductive Sense := LE | EQ.

Record Constr := mkConstr {
  lhs : LinExpr;
  sense : Sense;
  rhs : LinExpr;
  cname : string
}.

Definition lin0 : LinExpr := mkLin [] 0%Q.
Definition lvar (v : Var) : LinExpr := mkLin [(1, v)] 0%Q.
Definition lnum (n : Z) : LinExpr := mkLin [] (inject_Z n).
Definition lfrac (q : Q) : LinExpr := mkLin [] q.
(** [sum(vs)] and [gp.quicksum(vs)] *)
Definition lsum (vs : list Var) : LinExpr := mkLin (map (fun v => (1, v)) vs) 0%Q.
Definition ladd (a b : LinExpr) : LinExpr :=
  mkLin (terms a ++ terms b) (const a + const b)%Q.
Definition lscale (k : Z) (a : LinExpr) : LinExpr :=
  mkLin (map (fun t => (k * fst t, snd t)) (terms a)) (inject_Z k * const a)%Q.
Definition lsub (a b : LinExpr) : LinExpr := ladd a (lscale (-1) b).

Inductive exn :=
| KeyError (k : string)
| ValueError
| AttributeError
| IndexError
| SheetError.

(** The state the builders work on: the Gurobi model (all variables are
    [GRB.BINARY]; a variable is its position in [mvars], which records the
    name it was given), standard output, and the [LinExpr] accumulators the
    objective is assembled in. *)
Record State := mkState {
  mvars : list string;
  mconstrs : list Constr;
  mobjective : option LinExpr;
  stdout : list string;
  total_points : LinExpr;
  format_penalty_sum : LinExpr;
  day_penalty_sum : LinExpr;
  consecutive_penalty_sum : LinExpr
}.

Definition empty_state : State :=
  mkState [] [] None [] lin0 lin0 lin0 lin0.

Inductive Res (A : Type) :=
| Ok (a : A) (s : State)
| Raise (e : exn) (s : State).
Arguments Ok {A} a s.
Arguments Raise {A} e s.

Definition M (A : Type) := State -> Res A.

Definition ret {A} (a : A) : M A := fun s => Ok a s.
Definition bind {A B} (m : M A) (k : A -> M B) : M B :=
  fun s => match m s with
           | Ok a s' => k a s'
           | Raise e s' => Raise e s'
           end.
Definition raise {A} (e : exn) : M A := fun s => Raise e s.
(** [try: m except Exception as e: h e] *)
Definition try_except {A} (m : M A) (h : exn -> M A) : M A :=
  fun s => match m s with
           | Ok a s' => Ok a s'
           | Raise e s' => h e s'
           end.

Declare Scope monad_scope.
Delimit Scope monad_scope with monad.
Notation "x <- m ;; k" := (bind m (fun x => k))
  (at level 61, m at next level, right associativity) : monad_scope.
Notation "m ;; k" := (bind m (fun _ => k))
  (at level 61, right associativity) : monad_scope.
Local Open Scope monad_scope.

(** [for x in xs: body x] *)
Fixpoint for_ {A} (xs : list A) (body : A -> M unit) : M unit :=
  match xs with
  | [] => ret tt
  | x :: t => body x ;; for_ t body
  end.

(** A loop that threads a local accumulator. *)
Fixpoint foldM {A B} (body : B -> A -> M B) (xs : list A) (b : B) : M B :=
  match xs with
  | [] => ret b
  | x :: t => b' <- body b x ;; foldM body t b'
  end.

Inductive ctl := Next | Break.

(** A loop whose body may [break]. *)
Fixpoint for_ctl {A} (xs : list A) (body : A -> M ctl) : M unit :=
  match xs with
  | [] => ret tt
  | x :: t => c <- body x ;;
              match c with
              | Next => for_ctl t body
              | Break => ret tt
              end
  end.

Definition when (b : bool) (m : M unit) : M unit := if b then m else ret tt.

(** [model.addVar(vtype=GRB.BINARY, name=name)] *)
Definition addVar (name : string) : M Var :=
  fun s => Ok (List.length (mvars s))
              (mkState (mvars s ++ [name]) (mconstrs s) (mobjective s) (stdout s)
                 (total_points s) (format_penalty_sum s) (day_penalty_sum s)
                 (consecutive_penalty_sum s)).

(** [model.addConstr(lhs sense rhs, name=name)] *)
Definition addConstr (l : LinExpr) (sn : Sense) (r : LinExpr) (name : string) : M unit :=
  fun s => Ok tt
              (mkState (mvars s) (mconstrs s ++ [mkConstr l sn r name]) (mobjective s)
                 (stdout s) (total_points s) (format_penalty_sum s) (day_penalty_sum s)
                 (consecutive_penalty_sum s)).

Definition print (line : string) : M unit :=
  fun s => Ok tt
              (mkState (mvars s) (mconstrs s) (mobjective s) (stdout s ++ [line])
                 (total_points s) (format_penalty_sum s) (day_penalty_sum s)
                 (consecutive_penalty_sum s)).

(** [model.setObjective(e, GRB.MAXIMIZE)] *)
Definition setObjective (e : LinExpr) : M unit :=
  fun s => Ok tt
              (mkState (mvars s) (mconstrs s) (Some e) (stdout s)
                 (total_points s) (format_penalty_sum s) (day_penalty_sum s)
                 (consecutive_penalty_sum s)).

Definition get_total_points : M LinExpr := fun s => Ok (total_points s) s.
Definition get_format_penalty_sum : M LinExpr := fun s => Ok (format_penalty_sum s) s.
Definition get_day_penalty_sum : M LinExpr := fun s => Ok (day_penalty_sum s) s.
Definition get_consecutive_penalty_sum : M LinExpr :=
  fun s => Ok (consecutive_penalty_sum s) s.

Definition set_total_points (e : LinExpr) : M unit :=
  fun s => Ok tt
              (mkState (mvars s) (mconstrs s) (mobjective s) (stdout s)
                 e (format_penalty_sum s) (day_penalty_sum s)
                 (consecutive_penalty_sum s)).

(** [total_points += e] *)
Definition add_total_points (e : LinExpr) : M unit :=
  fun s => Ok tt
              (mkState (mvars s) (mconstrs s) (mobjective s) (stdout s)
                 (ladd (total_points s) e) (format_penalty_sum s) (day_penalty_sum s)
                 (consecutive_penalty_sum s)).

Definition set_format_penalty_sum (e : LinExpr) : M unit :=
  fun s => Ok tt
              (mkState (mvars s) (mconstrs s) (mobjective s) (stdout s)
                 (total_points s) e (day_penalty_sum s) (consecutive_penalty_sum s)).

Definition add_format_penalty_sum (e : LinExpr) : M unit :=
  fun s => Ok tt
              (mkState (mvars s) (mconstrs s) (mobjective s) (stdout s)
                 (total_points s) (ladd (format_penalty_sum s) e) (day_penalty_sum s)
                 (consecutive_penalty_sum s)).

Definition set_day_penalty_sum (e : LinExpr) : M unit :=
  fun s => Ok tt
              (mkState (mvars s) (mconstrs s) (mobjective s) (stdout s)
                 (total_points s) (format_penalty_sum s) e (consecutive_penalty_sum s)).

Definition add_day_penalty_sum (e : LinExpr) : M unit :=
  fun s => Ok tt
              (mkState (mvars s) (mconstrs s) (mobjective s) (stdout s)
                 (total_points s) (format_penalty_sum s) (ladd (day_penalty_sum s) e)
                 (consecutive_penalty_sum s)).

Definition set_consecutive_penalty_sum (e : LinExpr) : M unit :=
  fun s => Ok tt
              (mkState (mvars s) (mconstrs s) (mobjective s) (stdout s)
                 (total_points s) (format_penalty_sum s) (day_penalty_sum s) e).

Definition add_consecutive_penalty_sum (e : LinExpr) : M unit :=
  fun s => Ok tt
              (mkState (mvars s) (mconstrs s) (mobjective s) (stdout s)
                 (total_points s) (format_penalty_sum s) (day_penalty_sum s)
                 (ladd (consecutive_penalty_sum s) e)).

(* ================================================================== *)
(** ** Section numbering: [create_section_capacity_map], [create_section_type_map] *)
(* ================================================================== *)

(** [DataFrame.sort_values(by=...)] on several columns is a stable sort;
    [leb] is the lexicographic order of the chosen columns. *)
Section Sort.
Context {A : Type} (leb : A -> A -> bool).

Fixpoint insert_sorted (x : A) (l : list A) : list A :=
  match l with
  | [] => [x]
  | y :: t => if leb x y then x :: y :: t else y :: insert_sorted x t
  end.

Definition sort_values (l : list A) : list A := fold_right insert_sorted [] l.
End Sort.

Definition leb_Course_Instructor (a b : RawRow) : bool :=
  match String.compare (raw_Course a) (raw_Course b) with
  | Lt => true
  | Gt => false
  | Eq => String.leb (raw_Instructor a) (raw_Instructor b)
  end.

Definition leb_Course_Instructor_Capacity (a b : RawRow) : bool :=
  match String.compare (raw_Course a) (raw_Course b) with
  | Lt => true
  | Gt => false
  | Eq => match String.compare (raw_Instructor a) (raw_Instructor b) with
          | Lt => true
          | Gt => false
          | Eq => (raw_Capacity a <=? raw_Capacity b)%Z
          end
  end.

Definition leb_key (a b : string * string) : bool :=
  match String.compare (fst a) (fst b) with
  | Lt => true
  | Gt => false
  | Eq => String.leb (snd a) (snd b)
  end.

Fixpoint unique_keys (l : list (string * string)) : list (string * string) :=
  match l with
  | [] => []
  | x :: t => x :: filter (fun y => negb (pair_eqb y x)) (unique_keys t)
  end.

(** [df.groupby(['Course', 'Instructor'])]: the groups in key order, each
    with its rows in frame order. *)
Definition groupby_Course_Instructor (rows : list RawRow)
  : list ((string * string) * list RawRow) :=
  map (fun k =>
         (k, filter (fun r => pair_eqb (raw_Course r, raw_Instructor r) k) rows))
      (sort_values leb_key
         (unique_keys (map (fun r => (raw_Course r, raw_Instructor r)) rows))).

(** [for _ in range(count): m[(course, instructor, section_number)] = value;
    section_number += 1] *)
Fixpoint number_sections {V} (course instructor : string) (value : V)
  (count : nat) (acc : list (SectionKey * V) * Z) : list (SectionKey * V) * Z :=
  match count with
  | O => acc
  | S k =>
      let '(m, section_number) := acc in
      number_sections course instructor value k
        (dict_set key_eqb (course, instructor, section_number) value m,
         section_number + 1)
  end.

(** The body shared by the two map builders: number the sections of every
    (course, instructor) group of the sorted frame. *)
Definition number_groups {V} (value_of : RawRow -> V) (df_sorted : list RawRow)
  : list (SectionKey * V) :=
  fold_left
    (fun m grp =>
       let '((course, instructor), group) := grp in
       fst (fold_left
              (fun acc row =>
                 let num_sections := raw_Sections row in
                 let course_str := Py.strip course in
                 let instructor_str := Py.strip instructor in
                 number_sections course_str instructor_str (value_of row)
                   (Z.to_nat num_sections) acc)
              group (m, 1)))
    (groupby_Course_Instructor df_sorted) [].

Definition create_section_capacity_map (df : RawTable) : list (SectionKey * Z) :=
  let df_sorted := sort_values leb_Course_Instructor_Capacity (raw_rows df) in
  number_groups raw_Capacity df_sorted.

Definition create_section_type_map (df : RawTable) : list (SectionKey * option string) :=
  if negb (has_Section_Type df) then []
  else
    let df_sorted := sort_values leb_Course_Instructor (raw_rows df) in
    number_groups raw_Section_Type df_sorted.

(* ================================================================== *)
(** ** Variable names *)
(* ================================================================== *)

Definition X_name (course instructor : string) (section_id part : Z) (day slot : string)
  : string :=
  Py.cat ["X_"; course; "_"; instructor; "_"; Py.str section_id; "_"; Py.str part;
          "_"; day; "_"; slot].

Definition parts12 : list Z := [1; 2].

(** The time slots and days fixed in [main]. *)
Definition time_slots_main : list string :=
  ["8:30-10:00 AM"; "10:00-11:30 AM"; "11:30-1:00 PM"; "1:00-2:30 PM";
   "2:30-4:00 PM"; "4:00-5:30 PM"; "6:00-7:30 PM"; "7:30-9:00 PM"].
Definition days_main : list string :=
  ["Monday"; "Tuesday"; "Wednesday"; "Thursday"; "Friday"].

(** The binary variables of [build_model]. *)
Definition create_variables (df : DataFrame) (time_slots days : list string)
  : M VarDict :=
  foldM (fun variables row =>
    let course := Course row in
    let instructor := Instructor row in
    let num_sections := Sections row in
    if (num_sections =? 0)%Z then ret variables
    else
      foldM (fun variables section_id =>
        foldM (fun variables part =>
          foldM (fun variables day =>
            foldM (fun variables slot =>
              let var_name := X_name course instructor section_id part day slot in
              v <- addVar var_name ;;
              ret (vset var_name v variables))
            time_slots variables)
          days variables)
        parts12 variables)
      (Py.range1 num_sections) variables)
  df [].

(* ================================================================== *)
(** ** [add_basic_constraints] *)
(* ================================================================== *)

(** The variables of one (section, part) over all (day, slot) pairs. *)
Definition section_vars (variables : VarDict) (time_slots days : list string)
  (course instructor : string) (section_id part : Z) : list Var :=
  flat_map (fun day =>
    flat_map (fun slot =>
      present variables (X_name course instructor section_id part day slot))
    time_slots)
  days.

(** The variables of one instructor at one (day, slot). *)
Definition instructor_vars (df : DataFrame) (variables : VarDict)
  (instructor day slot : string) : list Var :=
  flat_map (fun row =>
    let course := Course row in
    let num_sections := Sections row in
    flat_map (fun section_id =>
      flat_map (fun part =>
        present variables (X_name course instructor section_id part day slot))
      parts12)
    (Py.range1 num_sections))
  (filter (fun r => Instructor r =? instructor) df).

Definition nonempty {A} (l : list A) : bool :=
  match l with [] => false | _ => true end.

Definition add_basic_constraints (df : DataFrame) (variables : VarDict)
  (time_slots days : list string) : M unit :=
  (* Each section part must be scheduled exactly once *)
  for_ df (fun row =>
    let course := Course row in
    let instructor := Instructor row in
    let num_sections := Sections row in
    if (num_sections =? 0)%Z then ret tt
    else
      for_ (Py.range1 num_sections) (fun section_id =>
        for_ parts12 (fun part =>
          let svars := section_vars variables time_slots days course instructor
                         section_id part in
          when (nonempty svars)
            (addConstr (lsum svars) EQ (lnum 1)
               (Py.cat ["unique_slot_"; course; "_"; instructor; "_";
                        Py.str section_id; "_"; Py.str part]))))) ;;
  (* Instructor conflict constraints *)
  for_ (Py.unique (map Instructor df)) (fun instructor =>
    for_ days (fun day =>
      for_ time_slots (fun slot =>
        let ivars := instructor_vars df variables instructor day slot in
        when (nonempty ivars)
          (addConstr (lsum ivars) LE (lnum 1)
             (Py.cat ["one_section_per_slot_"; instructor; "_"; day; "_"; slot]))))).

(* ================================================================== *)
(** ** [add_balance_constraints] *)
(* ================================================================== *)

(** [str(stype)] of a section-type cell. *)
Definition str_cell (c : option string) : string :=
  match c with Some s => s | None => "nan" end.

Definition TypeMap := list (SectionKey * option string).
Definition CapacityMap := list (SectionKey * Z).

Definition is_jersey_city (stype : option string) : bool :=
  Py.lower (Py.strip (str_cell stype)) =? "jersey city".

Definition field (i : nat) (parts : list string) : string := nth i parts "".

Definition is_jc_var (section_type_map : TypeMap) (var_name : string) : bool :=
  let parts := Py.split var_name "_" in
  if (List.length parts <? 7)%nat then false
  else
    let course := field 1 parts in
    let instructor := field 2 parts in
    match Py.int (field 3 parts) with
    | None => false
    | Some section_id =>
        let stype :=
          match dict_get key_eqb (course, instructor, section_id) section_type_map with
          | Some t => t
          | None => Some ""
          end in
        is_jersey_city stype
    end.

Definition banned_slots : list (string * string) :=
  [("Friday", "11:30-1:00 PM");
   ("Wednesday", "2:30-4:00 PM");
   ("Wednesday", "4:00-5:30 PM")].

Definition slot_percentages : list ((string * string) * Q) :=
  [(("Monday", "8:30-10:00 AM"), 20#100); (("Tuesday", "8:30-10:00 AM"), 20#100);
   (("Wednesday", "8:30-10:00 AM"), 25#100); (("Thursday", "8:30-10:00 AM"), 20#100);
   (("Friday", "8:30-10:00 AM"), 20#100);
   (("Monday", "10:00-11:30 AM"), 20#100); (("Tuesday", "10:00-11:30 AM"), 20#100);
   (("Wednesday", "10:00-11:30 AM"), 25#100); (("Thursday", "10:00-11:30 AM"), 20#100);
   (("Friday", "10:00-11:30 AM"), 20#100);
   (("Monday", "11:30-1:00 PM"), 20#100); (("Tuesday", "11:30-1:00 PM"), 20#100);
   (("Wednesday", "11:30-1:00 PM"), 25#100); (("Thursday", "11:30-1:00 PM"), 20#100);
   (("Friday", "11:30-1:00 PM"), 0#100);
   (("Monday", "1:00-2:30 PM"), 20#100); (("Tuesday", "1:00-2:30 PM"), 20#100);
   (("Wednesday", "1:00-2:30 PM"), 25#100); (("Thursday", "1:00-2:30 PM"), 20#100);
   (("Friday", "1:00-2:30 PM"), 20#100);
   (("Monday", "2:30-4:00 PM"), 20#100); (("Tuesday", "2:30-4:00 PM"), 20#100);
   (("Wednesday", "2:30-4:00 PM"), 0#100); (("Thursday", "2:30-4:00 PM"), 20#100);
   (("Friday", "2:30-4:00 PM"), 20#100);
   (("Monday", "4:00-5:30 PM"), 20#100); (("Tuesday", "4:00-5:30 PM"), 20#100);
   (("Wednesday", "4:00-5:30 PM"), 0#100); (("Thursday", "4:00-5:30 PM"), 20#100);
   (("Friday", "4:00-5:30 PM"), 20#100);
   (("Monday", "6:00-7:30 PM"), 20#100); (("Tuesday", "6:00-7:30 PM"), 20#100);
   (("Wednesday", "6:00-7:30 PM"), 20#100); (("Thursday", "6:00-7:30 PM"), 20#100);
   (("Friday", "6:00-7:30 PM"), 20#100);
   (("Monday", "7:30-9:00 PM"), 20#100); (("Tuesday", "7:30-9:00 PM"), 20#100);
   (("Wednesday", "7:30-9:00 PM"), 20#100); (("Thursday", "7:30-9:00 PM"), 20#100);
   (("Friday", "7:30-9:00 PM"), 20#100)].

Definition evening_percentage : Q := 20#100.
Definition evening_slots : list string := ["6:00-7:30 PM"; "7:30-9:00 PM"].

(** [2 * sum(int(row['# Sections']) for row in df)] *)
Definition total_section_parts (df : DataFrame) : Z :=
  2 * fold_right (fun row acc => Sections row + acc) 0 df.

(** The float expressions [(p / 6) * total] are read as exact rationals. *)
Definition max_section_parts_slot (percentage : Q) (total : Z) : Z :=
  Qceiling ((percentage / 6) * inject_Z total).
Definition max_section_parts_evening (total : Z) : Q :=
  (evening_percentage / 6) * inject_Z total.

(** [[variables[n] for n in variables if p n]] *)
Definition vars_where (p : string -> bool) (variables : VarDict) : list Var :=
  map snd (filter (fun kv => p (fst kv)) variables).

Definition at_day_slot (day slot var_name : string) : bool :=
  let parts := Py.split var_name "_" in
  (7 <=? List.length parts)%nat && (field 5 parts =? day) && (field 6 parts =? slot).

Definition at_slot (slot var_name : string) : bool :=
  let parts := Py.split var_name "_" in
  (7 <=? List.length parts)%nat && (field 6 parts =? slot).

(** The variables an evening cap sums: those at [slot], any day, whose
    section is not a Jersey City one. *)
Definition evening_vars (section_type_map : TypeMap) (variables : VarDict)
  (slot : string) : list Var :=
  vars_where (fun n => at_slot slot n && negb (is_jc_var section_type_map n)) variables.

Definition add_balance_constraints (df : DataFrame) (variables : VarDict)
  (time_slots days : list string) (excel_file : Workbook)
  (section_type_map : TypeMap) : M unit :=
  let df_pre_scheduled := pre_scheduled excel_file in
  (* Enforce pre-scheduled courses *)
  for_ df_pre_scheduled (fun row =>
    let instructor := pre_Instructor row in
    let day := pre_Day row in
    let time_slot := pre_Time row in
    for_ variables (fun kv =>
      let var_name := fst kv in
      let var_parts := Py.split var_name "_" in
      when ((7 <=? List.length var_parts)%nat
            && (field 2 var_parts =? instructor)
            && (field 5 var_parts =? day)
            && (field 6 var_parts =? time_slot))
        (addConstr (lvar (snd kv)) EQ (lnum 0)
           (Py.cat ["block_"; instructor; "_"; day; "_"; time_slot])))) ;;
  let total := total_section_parts df in
  (* EXPLICIT BAN *)
  for_ banned_slots (fun ds =>
    let '(day, slot) := ds in
    let slot_vars := vars_where (at_day_slot day slot) variables in
    when (nonempty slot_vars)
      (addConstr (lsum slot_vars) EQ (lnum 0) (Py.cat ["BANNED_SLOT_"; day; "_"; slot]) ;;
       print (Py.cat ["BANNED: "; day; " "; slot; " - ";
                      Py.str (Z.of_nat (List.length slot_vars));
                      " variables forced to 0"]))) ;;
  (* balance constraints for non-banned slots only *)
  for_ slot_percentages (fun entry =>
    let '((day, slot), percentage) := entry in
    if existsb (pair_eqb (day, slot)) banned_slots then ret tt
    else
      let slot_vars :=
        vars_where (fun n => at_day_slot day slot n
                             && negb (is_jc_var section_type_map n)) variables in
      when (nonempty slot_vars)
        (addConstr (lsum slot_vars) LE (lnum (max_section_parts_slot percentage total))
           (Py.cat ["balance_slot_"; day; "_"; slot]))) ;;
  (* Evening slot constraints *)
  for_ evening_slots (fun slot =>
    let evars := evening_vars section_type_map variables slot in
    when (nonempty evars)
      (addConstr (lsum evars) LE (lfrac (max_section_parts_evening total))
         (Py.cat ["balance_evening_"; slot]))).

(* ================================================================== *)
(** ** [add_pattern_constraints] *)
(* ================================================================== *)

Definition valid_start_times : list string := ["8:30-10:00 AM"; "6:00-7:30 PM"].
Definition friday_start_times : list string :=
  ["8:30-10:00 AM"; "1:00-2:30 PM"; "2:30-4:00 PM";
   "4:00-5:30 PM"; "6:00-7:30 PM"; "7:30-9:00 PM"].

(** [time_slots.index(slot2) == time_slots.index(slot1) + 1] *)
Definition next_slot (time_slots : list string) (slot1 slot2 : string) : bool :=
  match Py.index slot2 time_slots, Py.index slot1 time_slots with
  | Some i2, Some i1 => (i2 =? i1 + 1)%nat
  | _, _ => false
  end.

(** The test of the graduate branch (both parts on [day1]). *)
Definition grad_ok (time_slots : list string) (day1 slot1 slot2 : string) : bool :=
  if day1 =? "Friday"
  then Py.mem slot1 friday_start_times && next_slot time_slots slot1 slot2
  else Py.mem slot1 valid_start_times && next_slot time_slots slot1 slot2.

(** The test of the undergraduate branch (same slot, two days). *)
Definition undergrad_ok (day1 day2 : string) : bool :=
  ((day1 =? "Monday") && Py.mem day2 ["Wednesday"; "Thursday"])
  || ((day1 =? "Tuesday") && Py.mem day2 ["Thursday"; "Friday"])
  || ((day1 =? "Wednesday") && (day2 =? "Friday")).

Definition Y_name (course instructor : string) (section_id : Z)
  (day1 slot1 day2 slot2 : string) : string :=
  Py.cat ["Y_"; course; "_"; instructor; "_"; Py.str section_id; "_";
          day1; "_"; slot1; "_"; day2; "_"; slot2].

(** [y_var_dict], keyed by [(day1, slot1, day2, slot2)]: kept as a map from
    [(day1, slot1)] to a map from [(day2, slot2)], which the lookups of the
    link constraints walk in two short steps. *)
Definition YDict := list ((string * string) * list ((string * string) * Var)).

Definition ydict_get (k : Quad) (d : YDict) : option Var :=
  let '(day1, slot1, day2, slot2) := k in
  match dict_get pair_eqb (day1, slot1) d with
  | Some inner => dict_get pair_eqb (day2, slot2) inner
  | None => None
  end.

(** [y_var_dict[k] = v] *)
Definition ydict_set (k : Quad) (v : Var) (d : YDict) : YDict :=
  let '(day1, slot1, day2, slot2) := k in
  let inner := match dict_get pair_eqb (day1, slot1) d with
               | Some inner => inner
               | None => []
               end in
  dict_set pair_eqb (day1, slot1) (dict_set pair_eqb (day2, slot2) v inner) d.

(** [y_var_dict[k]] *)
Definition yget (k : Quad) (d : YDict) : M Var :=
  match ydict_get k d with
  | Some v => ret v
  | None => raise (KeyError "y_var_dict")
  end.

(** [[y_var_dict[k] for k in ks]] *)
Definition yget_all (ks : list Quad) (d : YDict) : M (list Var) :=
  foldM (fun acc k => v <- yget k d ;; ret (acc ++ [v])) ks [].

(** The body of the four nested loops over (day1, slot1, day2, slot2):
    one pairing variable and the constraint it receives. *)
Definition pair_step (time_slots : list string) (course instructor : string)
  (section_id : Z) (grad_var undergrad_var : Var) (acc : YDict * list Var)
  (day1 slot1 day2 slot2 : string) : M (YDict * list Var) :=
  let '(y_var_dict, compatible_pairs) := acc in
  y_var <- addVar (Y_name course instructor section_id day1 slot1 day2 slot2) ;;
  (if day1 =? day2 then
     (* Graduate pattern (consecutive slots on same day) *)
     if grad_ok time_slots day1 slot1 slot2
     then addConstr (lvar y_var) LE (lvar grad_var) ""
     else addConstr (lvar y_var) EQ (lnum 0) ""
   else if negb (day1 =? day2) && (slot1 =? slot2) then
     (* Undergraduate pattern (same slot, different valid day pairs) *)
     if undergrad_ok day1 day2
     then addConstr (lvar y_var) LE (lvar undergrad_var) ""
     else addConstr (lvar y_var) EQ (lnum 0) ""
   else addConstr (lvar y_var) EQ (lnum 0) "") ;;
  ret (ydict_set (day1, slot1, day2, slot2) y_var y_var_dict,
       compatible_pairs ++ [y_var]).

(** The pairing variables of one section; returns [y_var_dict] and
    [compatible_pairs]. *)
Definition create_pairs (time_slots days : list string)
  (course instructor : string) (section_id : Z) (grad_var undergrad_var : Var)
  : M (YDict * list Var) :=
  foldM (fun acc day1 =>
    foldM (fun acc slot1 =>
      foldM (fun acc day2 =>
        foldM (fun acc slot2 =>
          pair_step time_slots course instructor section_id grad_var undergrad_var
            acc day1 slot1 day2 slot2)
        time_slots acc)
      days acc)
    time_slots acc)
  days ([], []).

(** The special constraint inside the section loop: [course[2] == "7"]
    tests the third character of the course code. *)
Definition add_no_8_30_constraints (variables : VarDict) (days : list string)
  (course instructor : string) (section_id : Z) : M unit :=
  when ((3 <=? String.length course)%nat && (Py.char_at 2 course =? "7"))
    (for_ days (fun day1 =>
       let var_part1 := X_name course instructor section_id 1 day1 "8:30-10:00 AM" in
       match vget var_part1 variables with
       | Some x =>
           addConstr (lvar x) EQ (lnum 0)
             (Py.cat ["no_8_30_to_10_CS7XX_"; course; "_"; instructor; "_";
                      Py.str section_id; "_"; day1])
       | None => ret tt
       end)).

(** The body of [for section_id in range(1, N + 1)]. *)
Definition section_patterns (variables : VarDict) (time_slots days : list string)
  (course instructor : string) (section_id : Z) : M unit :=
  grad_var <- addVar (Py.cat ["Grad_"; course; "_"; instructor; "_";
                              Py.str section_id]) ;;
  undergrad_var <- addVar (Py.cat ["Undergrad_"; course; "_"; instructor; "_";
                                   Py.str section_id]) ;;
  yc <- create_pairs time_slots days course instructor section_id
          grad_var undergrad_var ;;
  let '(y_var_dict, compatible_pairs) := yc in
  (* Courses with 3rd digit = 7 cannot have Part 1 at 8:30-10:00 AM *)
  add_no_8_30_constraints variables days course instructor section_id ;;
  (* Link constraints *)
  for_ days (fun day1 =>
    for_ time_slots (fun slot1 =>
      let var_part1 := X_name course instructor section_id 1 day1 slot1 in
      match vget var_part1 variables with
      | Some x =>
          y_vars_for_part1 <-
            yget_all (flat_map (fun day2 =>
                        map (fun slot2 => (day1, slot1, day2, slot2)) time_slots)
                      days) y_var_dict ;;
          addConstr (lsum y_vars_for_part1) EQ (lvar x)
            (Py.cat ["part1_link_"; course; "_"; instructor; "_";
                     Py.str section_id; "_"; day1; "_"; slot1])
      | None => ret tt
      end)) ;;
  for_ days (fun day2 =>
    for_ time_slots (fun slot2 =>
      let var_part2 := X_name course instructor section_id 2 day2 slot2 in
      match vget var_part2 variables with
      | Some x =>
          y_vars_for_part2 <-
            yget_all (flat_map (fun day1 =>
                        map (fun slot1 => (day1, slot1, day2, slot2)) time_slots)
                      days) y_var_dict ;;
          addConstr (lsum y_vars_for_part2) EQ (lvar x)
            (Py.cat ["part2_link_"; course; "_"; instructor; "_";
                     Py.str section_id; "_"; day2; "_"; slot2])
      | None => ret tt
      end)) ;;
  (* Exactly one pair and one pattern *)
  addConstr (lsum compatible_pairs) EQ (lnum 1)
    (Py.cat ["select_one_pair_"; course; "_"; instructor; "_"; Py.str section_id]) ;;
  addConstr (ladd (lvar grad_var) (lvar undergrad_var)) EQ (lnum 1)
    (Py.cat ["select_one_pattern_"; course; "_"; instructor; "_"; Py.str section_id]).

Definition add_pattern_constraints (df : DataFrame) (variables : VarDict)
  (time_slots days : list string) : M unit :=
  for_ (Py.unique (map Course df)) (fun course =>
    for_ (Py.unique (map Instructor df)) (fun instructor =>
      let course_instructor_rows :=
        filter (fun r => (Course r =? course) && (Instructor r =? instructor)) df in
      match course_instructor_rows with
      | [] => ret tt
      | row0 :: _ =>
          for_ (Py.range1 (Sections row0))
            (section_patterns variables time_slots days course instructor)
      end)).

(* ================================================================== *)
(** ** [add_course_block_constraints] *)
(* ================================================================== *)

Definition course_blocks : list (list string) :=
  [["CS114"; "IS210"; "CS450"; "CS337"];
   ["CS241"; "CS280"; "IS350"];
   ["CS288"; "CS332"; "CS301"; "CS356"];
   ["CS341"; "CS350"; "CS351"; "CS331"; "CS375"];
   ["CS435"; "CS490"; "CS485"; "CS370"; "CS375"];
   ["CS485"; "CS491"; "CS450"; "CS482"];
   ["CS610"; "CS630"; "CS631"; "CS656"; "DS675"; "CS675"; "CS670"];
   ["DS677"; "DS669"; "DS650"; "CS670"; "CS610"; "CS665"; "CS667"; "CS732"; "DS680"];
   ["CS608"; "CS645"; "CS646"; "CS647"; "CS648"; "CS678"; "CS696"];
   ["IS455"; "IS645"];
   ["IT220"; "IT230"; "IT240"; "IT302"];
   ["IT256"; "IT266"; "IT286"; "IT360"; "IT380"; "IT383"; "IT386"];
   ["IT120"; "IT240"]].

Definition special_blocks : list (list string) :=
  [["CS288"; "CS332"; "CS301"; "CS356"];
   ["CS341"; "CS350"; "CS351"; "CS331"; "CS375"]].

Fixpoint list_eqb (a b : list string) : bool :=
  match a, b with
  | [], [] => true
  | x :: a', y :: b' => (x =? y) && list_eqb a' b'
  | _, _ => false
  end.

(** The names this builder looks up carry no section index. *)
Definition block_var_name (course instructor : string) (part : Z) (day slot : string)
  : string :=
  Py.cat ["X_"; course; "_"; instructor; "_"; Py.str part; "_"; day; "_"; slot].

Definition instructors_of (df : DataFrame) (course : string) : list string :=
  Py.unique (map Instructor (filter (fun r => Course r =? course) df)).

Definition add_course_block_constraints (df : DataFrame) (variables : VarDict)
  (time_slots days : list string) : M unit :=
  for_ course_blocks (fun block =>
    for_ block (fun course1 =>
      for_ block (fun course2 =>
        when (negb (course1 =? course2))
          (for_ (instructors_of df course1) (fun instructor1 =>
             for_ (instructors_of df course2) (fun instructor2 =>
               for_ days (fun day =>
                 for_ time_slots (fun slot =>
                   let var_course1_part1 := block_var_name course1 instructor1 1 day slot in
                   let var_course1_part2 := block_var_name course1 instructor1 2 day slot in
                   let var_course2_part1 := block_var_name course2 instructor2 1 day slot in
                   let var_course2_part2 := block_var_name course2 instructor2 2 day slot in
                   let max_constraint :=
                     if existsb (list_eqb block) special_blocks then 2 else 1 in
                   match vget var_course1_part1 variables,
                         vget var_course2_part1 variables with
                   | Some a, Some b =>
                       addConstr (ladd (lvar a) (lvar b)) LE (lnum max_constraint)
                         (Py.cat ["no_same_day_slot_"; course1; "_"; instructor1; "_";
                                  course2; "_"; instructor2; "_"; day; "_"; slot;
                                  "_part1"])
                   | _, _ => ret tt
                   end ;;
                   match vget var_course1_part2 variables,
                         vget var_course2_part2 variables with
                   | Some a, Some b =>
                       addConstr (ladd (lvar a) (lvar b)) LE (lnum max_constraint)
                         (Py.cat ["no_same_day_slot_"; course1; "_"; instructor1; "_";
                                  course2; "_"; instructor2; "_"; day; "_"; slot;
                                  "_part2"])
                   | _, _ => ret tt
                   end)))))))).

(* ================================================================== *)
(** ** [add_consecutive_slots_constraints] *)
(* ================================================================== *)

(** [(time_slots[i], time_slots[i+1], time_slots[i+2])] for
    [i in range(len(time_slots) - 2)] *)
Fixpoint windows3 (l : list string) : list (string * string * string) :=
  match l with
  | a :: t =>
      match t with
      | b :: c :: _ => (a, b, c) :: windows3 t
      | _ => []
      end
  | [] => []
  end.

(** [(time_slots[i], time_slots[i+1])] for [i in range(len(time_slots) - 1)] *)
Fixpoint windows2 (l : list string) : list (string * string) :=
  match l with
  | a :: t =>
      match t with
      | b :: _ => (a, b) :: windows2 t
      | [] => []
      end
  | [] => []
  end.

(** [course1 != course2 or section_id1 != section_id2 or part1 != part2] *)
Definition differ (c1 : string) (s1 p1 : Z) (c2 : string) (s2 p2 : Z) : bool :=
  negb (c1 =? c2) || negb (s1 =? s2)%Z || negb (p1 =? p2)%Z.

Definition add_consecutive_slots_constraints (df : DataFrame) (variables : VarDict)
  (time_slots days : list string) : M unit :=
  for_ (Py.unique (map Instructor df)) (fun instructor =>
    for_ days (fun day =>
      for_ (windows3 time_slots) (fun w =>
        let '(slot1, slot2, slot3) := w in
        let instructor_df := filter (fun r => Instructor r =? instructor) df in
        for_ instructor_df (fun row1 =>
          let course1 := Course row1 in
          let num_sections1 := Sections row1 in
          if (num_sections1 =? 0)%Z then ret tt else
          for_ (Py.range1 num_sections1) (fun section_id1 =>
            for_ parts12 (fun part1 =>
              let var_name1 := X_name course1 instructor section_id1 part1 day slot1 in
              for_ instructor_df (fun row2 =>
                let course2 := Course row2 in
                let num_sections2 := Sections row2 in
                if (num_sections2 =? 0)%Z then ret tt else
                for_ (Py.range1 num_sections2) (fun section_id2 =>
                  for_ parts12 (fun part2 =>
                    let var_name2 :=
                      X_name course2 instructor section_id2 part2 day slot2 in
                    when (differ course1 section_id1 part1 course2 section_id2 part2)
                      (for_ instructor_df (fun row3 =>
                         let course3 := Course row3 in
                         let num_sections3 := Sections row3 in
                         if (num_sections3 =? 0)%Z then ret tt else
                         for_ (Py.range1 num_sections3) (fun section_id3 =>
                           for_ parts12 (fun part3 =>
                             let var_name3 :=
                               X_name course3 instructor section_id3 part3 day slot3 in
                             when (differ course1 section_id1 part1
                                     course3 section_id3 part3
                                   && differ course2 section_id2 part2
                                        course3 section_id3 part3)
                               (let consecutive_sum :=
                                  lsum (present variables var_name1
                                        ++ present variables var_name2
                                        ++ present variables var_name3) in
                                addConstr consecutive_sum LE (lnum 2)
                                  (Py.cat ["consecutive_slots_constraint_"; instructor;
                                           "_"; day; "_"; slot1; "_"; slot2; "_";
                                           slot3]))))))))))))))).

(* ================================================================== *)
(** ** [add_jersey_city_constraints] *)
(* ================================================================== *)

Definition evening_start : string := "6:00-7:30 PM".
Definition evening_next : string := "7:30-9:00 PM".
Definition prev_slot : string := "4:00-5:30 PM".

Definition add_jersey_city_constraints (df : DataFrame) (variables : VarDict)
  (time_slots days : list string) (section_type_map : TypeMap) : M unit :=
  (* 1. Force JC sections to evening 3-hour pattern *)
  for_ section_type_map (fun item =>
    let '((course, instructor, section_id), stype) := item in
    if negb (is_jersey_city stype) then ret tt else
    for_ days (fun day =>
      for_ time_slots (fun slot =>
        let var1_name := X_name course instructor section_id 1 day slot in
        match vget var1_name variables with
        | Some x =>
            when (negb (slot =? evening_start))
              (addConstr (lvar x) EQ (lnum 0)
                 (Py.cat ["JC_part1_fix_"; course; "_"; instructor; "_";
                          Py.str section_id; "_"; day; "_"; slot]))
        | None => ret tt
        end ;;
        let var2_name := X_name course instructor section_id 2 day slot in
        match vget var2_name variables with
        | Some x =>
            when (negb (slot =? evening_next))
              (addConstr (lvar x) EQ (lnum 0)
                 (Py.cat ["JC_part2_fix_"; course; "_"; instructor; "_";
                          Py.str section_id; "_"; day; "_"; slot]))
        | None => ret tt
        end))) ;;
  (* 2. No more than 3 Jersey City sections per day *)
  for_ days (fun day =>
    let jc_day_vars :=
      flat_map (fun item =>
        let '((course, instructor, section_id), stype) := item in
        if negb (is_jersey_city stype) then []
        else present variables (X_name course instructor section_id 1 day evening_start))
      section_type_map in
    when (nonempty jc_day_vars)
      (addConstr (lsum jc_day_vars) LE (lnum 3) (Py.cat ["JC_max3_per_day_"; day]))) ;;
  (* 3. Travel buffer *)
  for_ (Py.unique (map Instructor df)) (fun instructor =>
    for_ days (fun day =>
      let mine :=
        filter (fun item =>
                  let '((_, instr_key, _), _) := item in instr_key =? instructor)
               section_type_map in
      let jc_vars :=
        flat_map (fun item : SectionKey * option string =>
          let '((course, _, section_id), stype) := item in
          if is_jersey_city stype
          then present variables (X_name course instructor section_id 1 day evening_start)
          else [])
        mine in
      let other_prevslot_vars :=
        flat_map (fun item : SectionKey * option string =>
          let '((course, _, section_id), stype) := item in
          if is_jersey_city stype then []
          else flat_map (fun part =>
                 present variables (X_name course instructor section_id part day prev_slot))
               parts12)
        mine in
      for_ jc_vars (fun v_jc =>
        for_ other_prevslot_vars (fun v_other =>
          addConstr (ladd (lvar v_jc) (lvar v_other)) LE (lnum 1)
            (Py.cat ["JC_travel_buffer_"; instructor; "_"; day]))))).


(* ================================================================== *)
(** ** [add_additional_constraints] *)
(* ================================================================== *)

Definition lterm (k : Z) (v : Var) : LinExpr := mkLin [(k, v)] 0%Q.

Definition restricted_time_slots : list string :=
  ["8:30-10:00 AM"; "10:00-11:30 AM"; "6:00-7:30 PM"; "7:30-9:00 PM"].

Definition restricted_day : string := "Monday".
Definition restricted_time_slot : string := "4:00-5:30 PM".

(** [course_number > 199 and capacity and capacity < 35], with [capacity]
    the result of [section_capacity_map.get(...)]. *)
Definition may_use_restricted_slot (course_number : Z) (capacity : option Z) : bool :=
  (199 <? course_number)%Z
  && match capacity with
     | None => false
     | Some c => negb (c =? 0)%Z && (c <? 35)%Z
     end.

(** [int(row['Course_Number']) if pd.notna(row['Course_Number']) else 0] *)
Definition course_number_of (row : Row) : M Z :=
  match Course_Number row with
  | None => ret 0
  | Some s => match Py.int s with
              | Some n => ret n
              | None => raise ValueError
              end
  end.

(** Part 2 of the builder: the Monday 4:00-5:30 PM restriction. *)
Definition add_restricted_slot_constraints (df : DataFrame) (variables : VarDict)
  (section_capacity_map : CapacityMap) : M unit :=
  for_ df (fun row =>
    let course := Course row in
    let instructor := Instructor row in
    course_number <- course_number_of row ;;
    for_ (Py.range1 (Sections row)) (fun sc =>
      let capacity := dict_get key_eqb (course, instructor, sc) section_capacity_map in
      when (negb (may_use_restricted_slot course_number capacity))
        (for_ (Py.range1 (Sections row)) (fun section_id =>
           for_ parts12 (fun part =>
             let var_name := X_name course instructor section_id part
                               restricted_day restricted_time_slot in
             match vget var_name variables with
             | Some x =>
                 addConstr (lvar x) EQ (lnum 0)
                   (Py.cat ["restricted_slot_"; course; "_"; instructor; "_";
                            Py.str section_id; "_"; Py.str part; "_";
                            restricted_day; "_"; restricted_time_slot])
             | None => ret tt
             end))))).

Definition cell_eqb (a b : option string) : bool :=
  match a, b with
  | Some x, Some y => x =? y
  | None, None => true
  | _, _ => false
  end.

(** [general_preferences_df.set_index('Email')[column].to_dict()] *)
Definition to_dict (column : GPRow -> option string) (rows : list GPRow)
  : list (option string * option string) :=
  fold_left (fun d row => dict_set cell_eqb (gp_Email row) (column row) d) rows [].

Definition condensed : string := "I prefer to condense my sections into fewer days".

Definition ZDict := list ((string * string) * Var).

(** The X variables of [instructor] on [day], over all courses, sections,
    parts and slots. *)
Definition relevant_x_vars (df : DataFrame) (variables : VarDict)
  (time_slots : list string) (instructor day : string) : list Var :=
  flat_map (fun course =>
    match filter (fun r => (Course r =? course) && (Instructor r =? instructor)) df with
    | [] => []
    | row0 :: _ =>
        flat_map (fun section_id =>
          flat_map (fun part =>
            flat_map (fun slot =>
              present variables (X_name course instructor section_id part day slot))
            time_slots)
          parts12)
        (Py.range1 (Sections row0))
    end)
  (Py.unique (map Course df)).

(** Part 4 of the builder: format preferences. *)
Definition add_format_preferences (df : DataFrame) (variables : VarDict)
  (time_slots days : list string) (sheet : GPSheet) : M unit :=
  set_format_penalty_sum lin0 ;;
  let penalty_value := -8 in
  for_ (gp_rows sheet) (fun row =>
    match gp_Email row, gp_Preference row with
    | Some email, Some preference =>
        match filter (fun r => Email r =? email) df with
        | [] => ret tt
        | r0 :: _ =>
            let instructor_name := Instructor r0 in
            let instructor_courses := filter (fun r => Instructor r =? instructor_name) df in
            for_ instructor_courses (fun course_row =>
              let course := Course course_row in
              let num_sections := Sections course_row in
              for_ (Py.range1 num_sections) (fun section_id =>
                for_ days (fun day =>
                  for_ (windows2 time_slots) (fun w =>
                    let '(slot1, slot2) := w in
                    match vget (X_name course instructor_name section_id 1 day slot1)
                               variables,
                          vget (X_name course instructor_name section_id 2 day slot2)
                               variables with
                    | Some part1_var, Some part2_var =>
                        penalty_var <- addVar (Py.cat ["Penalty_"; instructor_name; "_";
                                                       day; "_"; slot1; "_"; slot2]) ;;
                        (if preference =? "3-hour format" then
                           addConstr (lsub (lvar part1_var) (lvar part2_var)) LE
                             (lvar penalty_var) "" ;;
                           addConstr (lsub (lvar part2_var) (lvar part1_var)) LE
                             (lvar penalty_var) ""
                         else if preference =? "1.5+1.5 hour format" then
                           addConstr (lsub (ladd (lvar part1_var) (lvar part2_var))
                                        (lvar penalty_var)) LE (lnum 1) ""
                         else ret tt) ;;
                        add_format_penalty_sum (lterm penalty_value penalty_var)
                    | _, _ => ret tt
                    end))))
        end
    | _, _ => ret tt
    end).

(** Part 5 of the builder: day preferences. *)
Definition add_day_preferences (df : DataFrame) (variables : VarDict)
  (time_slots days : list string) (sheet : GPSheet) : M unit :=
  let day_preference_dict := to_dict gp_Day_Preference (gp_rows sheet) in
  z_vars <-
    foldM (fun z_vars instructor =>
      foldM (fun z_vars day =>
        z_var <- addVar (Py.cat ["Z_"; instructor; "_"; day]) ;;
        let xs := relevant_x_vars df variables time_slots instructor day in
        for_ xs (fun x_var => addConstr (lvar x_var) LE (lvar z_var) "") ;;
        when (negb (nonempty xs)) (addConstr (lvar z_var) EQ (lnum 0) "") ;;
        ret (dict_set pair_eqb (instructor, day) z_var z_vars))
      days z_vars)
    (Py.unique (map Instructor df)) ([] : ZDict) ;;
  set_day_penalty_sum lin0 ;;
  for_ (Py.unique (map Instructor df)) (fun instructor =>
    match filter (fun r => Instructor r =? instructor) df with
    | [] => ret tt
    | r0 :: _ =>
        let email := Email r0 in
        let prefers_condensed_days :=
          cell_eqb (match dict_get cell_eqb (Some email) day_preference_dict with
                    | Some v => v
                    | None => Some "No"
                    end) (Some condensed) in
        let penalty_value := if prefers_condensed_days then -8 else -3 in
        for_ days (fun day =>
          match dict_get pair_eqb (instructor, day) z_vars with
          | Some z_var => add_day_penalty_sum (lterm penalty_value z_var)
          | None => raise (KeyError "z_vars")
          end)
    end) ;;
  day_penalty <- get_day_penalty_sum ;;
  add_total_points day_penalty.

(** Part 6 of the builder: consecutive-slot aversion. *)
Definition add_consecutive_preferences (df : DataFrame) (variables : VarDict)
  (time_slots days : list string) (sheet : GPSheet) : M unit :=
  let consecutive_preference := to_dict gp_Consecutive_Preference (gp_rows sheet) in
  set_consecutive_penalty_sum lin0 ;;
  let penalty_value := -2048 in
  for_ consecutive_preference (fun item =>
    let '(email, prefers_consecutive) := item in
    if negb (cell_eqb prefers_consecutive (Some "No")) then ret tt else
    match email with
    | None => ret tt
    | Some email =>
      match filter (fun r => Email r =? email) df with
      | [] => ret tt
      | r0 :: _ =>
        let instructor_name := Instructor r0 in
        for_ days (fun day =>
          for_ (windows2 time_slots) (fun w =>
            let '(slot1, slot2) := w in
            for_ (Py.unique (map Course df)) (fun course =>
              match filter (fun r => (Instructor r =? instructor_name)
                                     && (Course r =? course)) df with
              | [] => ret tt
              | row0 :: _ =>
                for_ (Py.range1 (Sections row0)) (fun section_id =>
                  match vget (X_name course instructor_name section_id 1 day slot1)
                             variables,
                        vget (X_name course instructor_name section_id 2 day slot2)
                             variables with
                  | Some x_var1, Some x_var2 =>
                      penalty_var <- addVar (Py.cat ["ConsecutivePenalty_"; instructor_name;
                                                     "_"; day; "_"; slot1; "_"; slot2]) ;;
                      addConstr (lsub (ladd (lvar x_var1) (lvar x_var2))
                                   (lterm 2 penalty_var)) LE (lnum 1) "" ;;
                      add_consecutive_penalty_sum (lterm penalty_value penalty_var)
                  | _, _ => ret tt
                  end)
              end)))
      end
    end) ;;
  consecutive_penalty <- get_consecutive_penalty_sum ;;
  add_total_points consecutive_penalty.

Definition exn_text (e : exn) : string :=
  match e with
  | KeyError k => k
  | ValueError => "ValueError"
  | AttributeError => "AttributeError"
  | IndexError => "list index out of range"
  | SheetError => "Worksheet named 'General Preferences' not found"
  end.

Definition add_additional_constraints (df : DataFrame) (variables : VarDict)
  (time_slots days : list string) (excel_file : Workbook)
  (section_capacity_map : CapacityMap) : M unit :=
  (* 1. Restricted time slots constraint *)
  for_ (Py.unique (map Instructor df)) (fun instructor =>
    for_ days (fun day =>
      let restricted_vars :=
        flat_map (fun course =>
          flat_map (fun course_row =>
            flat_map (fun section_id =>
              flat_map (fun part =>
                flat_map (fun slot =>
                  present variables (X_name course instructor section_id part day slot))
                restricted_time_slots)
              parts12)
            (Py.range1 (Sections course_row)))
          (filter (fun r => (Instructor r =? instructor) && (Course r =? course)) df))
        (Py.unique (map Course df)) in
      when (nonempty restricted_vars)
        (addConstr (lsum restricted_vars) LE (lnum 3)
           (Py.cat ["restricted_time_slots_"; instructor; "_"; day])))) ;;
  (* 2. Monday 4:00-5:30 PM restriction *)
  add_restricted_slot_constraints df variables section_capacity_map ;;
  (* 3. Evening timing constraint *)
  for_ df (fun row =>
    let course := Course row in
    let instructor := Instructor row in
    let num_sections := Sections row in
    if (num_sections =? 0)%Z then ret tt else
    for_ (Py.range1 num_sections) (fun section_id =>
      for_ days (fun day =>
        match vget (X_name course instructor section_id 1 day "6:00-7:30 PM") variables,
              vget (X_name course instructor section_id 2 day "7:30-9:00 PM") variables with
        | Some p1, Some p2 =>
            addConstr (lvar p1) EQ (lvar p2)
              (Py.cat ["timing_constraint_"; course; "_"; instructor; "_";
                       Py.str section_id; "_"; day])
        | _, _ => ret tt
        end))) ;;
  (* 4.-6. General Preferences *)
  try_except
    (match general_preferences excel_file with
     | None => raise SheetError
     | Some sheet =>
         if (gp_ncols sheet <? 3)%nat then raise IndexError else
         add_format_preferences df variables time_slots days sheet ;;
         when (3 <? gp_ncols sheet)%nat
           (add_day_preferences df variables time_slots days sheet) ;;
         when (5 <? gp_ncols sheet)%nat
           (add_consecutive_preferences df variables time_slots days sheet) ;;
         format_penalty <- get_format_penalty_sum ;;
         add_total_points format_penalty
     end)
    (fun e =>
       print (Py.cat ["Warning: Could not process General Preferences sheet: ";
                      exn_text e])).

(* ================================================================== *)
(** ** [add_preference_constraints] *)
(* ================================================================== *)

Definition time_slot_mapping : list (string * string) :=
  [("M", "Monday"); ("T", "Tuesday"); ("W", "Wednesday"); ("R", "Thursday");
   ("F", "Friday")].

Definition time_slot_index : list (string * string) :=
  [("1", "8:30-10:00 AM"); ("2", "10:00-11:30 AM"); ("3", "11:30-1:00 PM");
   ("4", "1:00-2:30 PM"); ("5", "2:30-4:00 PM"); ("6", "4:00-5:30 PM");
   ("7", "6:00-7:30 PM"); ("8", "7:30-9:00 PM")].

(** [d[k]] on a dict with string keys. *)
Definition getitem (d : list (string * string)) (k : string) : M string :=
  match dict_get Py.eqb k d with
  | Some v => ret v
  | None => raise (KeyError k)
  end.

Definition is_protected (constraint_type : string) : bool :=
  Py.mem (Py.strip constraint_type) ["Health"; "Religion"].

Definition points_of (constraint_type : string) : Z :=
  let t := Py.strip constraint_type in
  if Py.mem t ["Health"; "Religion"] then -2048
  else if t =? "Pref-1" then 8
  else if t =? "Pref-2" then 4
  else if t =? "Pref-3" then 2
  else if t =? "Childcare" then -1024
  else -8.

Definition Slack_name (course instructor : string) (section_id part : Z)
  (day slot : string) : string :=
  Py.cat ["Slack_"; course; "_"; instructor; "_"; Py.str section_id; "_"; Py.str part;
          "_"; day; "_"; slot].

(** The innermost step: what one existing variable of the instructor at a
    blocked (day, slot) receives. *)
Definition apply_preference (constraint_type : string) (points : Z)
  (slack_var_name : string) (x : Var) : M unit :=
  if is_protected constraint_type then
    slack_var <- addVar slack_var_name ;;
    addConstr (lvar x) LE (lvar slack_var) "" ;;
    add_total_points (lterm (-2048) slack_var)
  else
    add_total_points (lterm points x).

(** The body of [for slot_code in blocked_slots]. *)
Definition process_slot_code (df : DataFrame) (variables : VarDict)
  (email constraint_type : string) (points : Z) (slot_code : string) : M unit :=
  if (String.length slot_code <? 2)%nat then ret tt else
  let day_abbrev := Py.char_at 0 slot_code in
  let time_slot_num := Py.char_at 1 slot_code in
  day_full <- getitem time_slot_mapping day_abbrev ;;
  time_slot_full <- getitem time_slot_index time_slot_num ;;
  match filter (fun r => Email r =? email) df with
  | [] => ret tt
  | r0 :: _ =>
      let instructor_name := Instructor r0 in
      for_ (map Course (filter (fun r => Instructor r =? instructor_name) df))
        (fun course =>
           let filtered_df := filter (fun r => Course r =? course) df in
           when (nonempty filtered_df)
             (match filter (fun r => (Instructor r =? instructor_name)
                                     && (Course r =? course)) filtered_df with
              | [] => raise IndexError
              | r1 :: _ =>
                  let num_sections := Sections r1 in
                  for_ (Py.range1 num_sections) (fun section_id =>
                    for_ parts12 (fun part =>
                      let var_name := X_name course instructor_name section_id part
                                        day_full time_slot_full in
                      match vget var_name variables with
                      | Some x =>
                          apply_preference constraint_type points
                            (Slack_name course instructor_name section_id part
                               day_full time_slot_full) x
                      | None => ret tt
                      end))
              end))
  end.

(** The body of [for _, row in df_constraints.iterrows()]. *)
Definition process_pref_row (df : DataFrame) (variables : VarDict) (row : PrefRow)
  : M ctl :=
  let instructor_info := Instructor_UCID_Type row in
  let slots := Slots row in
  match instructor_info with
  | CFloat => ret Break
  | COther => raise AttributeError
  | CStr info =>
      match Py.split info ": " with
      | [email; constraint_type] =>
          let points := points_of constraint_type in
          match slots with
          | CStr s =>
              let blocked_slots := Py.slice_1_m1 (Py.split s "|") in
              for_ blocked_slots
                (process_slot_code df variables email constraint_type points) ;;
              ret Next
          | _ => raise AttributeError
          end
      | _ => raise ValueError
      end
  end.

Definition add_preference_constraints (df : DataFrame) (variables : VarDict)
  (time_slots days : list string) (excel_file : Workbook)
  (section_capacity_map : CapacityMap) : M unit :=
  set_total_points lin0 ;;
  let df_constraints := constraints_sheet excel_file in
  for_ctl df_constraints (process_pref_row df variables) ;;
  add_additional_constraints df variables time_slots days excel_file
    section_capacity_map ;;
  objective <- get_total_points ;;
  setObjective objective.

(* ================================================================== *)
(** ** [build_model] *)
(* ================================================================== *)

Definition build_model (df : DataFrame) (excel_file : Workbook)
  (time_slots days : list string) (section_capacity_map : CapacityMap)
  (section_type_map : TypeMap) : M VarDict :=
  variables <- create_variables df time_slots days ;;
  add_basic_constraints df variables time_slots days ;;
  add_balance_constraints df variables time_slots days excel_file section_type_map ;;
  add_pattern_constraints df variables time_slots days ;;
  add_course_block_constraints df variables time_slots days ;;
  add_consecutive_slots_constraints df variables time_slots days ;;
  add_jersey_city_constraints df variables time_slots days section_type_map ;;
  add_preference_constraints df variables time_slots days excel_file
    section_capacity_map ;;
  ret variables.

(** The model [main] solves: built from scratch with the fixed days and
    time slots. *)
Definition build (df : DataFrame) (excel_file : Workbook)
  (section_capacity_map : CapacityMap) (section_type_map : TypeMap) : Res VarDict :=
  build_model df excel_file time_slots_main days_main section_capacity_map
    section_type_map empty_state.

(* ================================================================== *)
(** ** Meaning of a model *)
(* ================================================================== *)

Definition Valuation := Var -> Z.

Definition eval_terms (v : Valuation) (ts : list (Z * Var)) : Z :=
  fold_right (fun t acc => fst t * v (snd t) + acc) 0 ts.

Definition eval (v : Valuation) (e : LinExpr) : Q :=
  (inject_Z (eval_terms v (terms e)) + const e)%Q.

Definition sat (v : Valuation) (c : Constr) : Prop :=
  match sense c with
  | LE => (eval v (lhs c) <= eval v (rhs c))%Q
  | EQ => (eval v (lhs c) == eval v (rhs c))%Q
  end.

Definition satb (v : Valuation) (c : Constr) : bool :=
  match sense c with
  | LE => Qle_bool (eval v (lhs c)) (eval v (rhs c))
  | EQ => Qeq_bool (eval v (lhs c)) (eval v (rhs c))
  end.

Definition binary (v : Valuation) (x : Var) : Prop := v x = 0 \/ v x = 1.

(** A solution Gurobi may return for the model in [s]: every variable is
    binary, every constraint holds. *)
Definition solution (s : State) (v : Valuation) : Prop :=
  (forall x, (x < List.length (mvars s))%nat -> binary v x)
  /\ Forall (sat v) (mconstrs s).

Definition solutionb (s : State) (v : Valuation) : bool :=
  forallb (fun x => (v x =? 0)%Z || (v x =? 1)%Z) (seq 0 (List.length (mvars s)))
  && forallb (satb v) (mconstrs s).

(** The value of the objective ([0] when none was set). *)
Definition objective_value (s : State) (v : Valuation) : Q :=
  match mobjective s with
  | Some e => eval v e
  | None => 0%Q
  end.

(** The valuation that sets exactly the variables named in [ones] to 1. *)
Definition valuation_of (s : State) (ones : list string) : Valuation :=
  fun x => match nth_error (mvars s) x with
           | Some name => if Py.mem name ones then 1 else 0
           | None => 0
           end.

(* ================================================================== *)
(** ** Growth of the model *)
(* ================================================================== *)

Definition state_of {A} (r : Res A) : State :=
  match r with Ok _ s => s | Raise _ s => s end.

(** [s'] has the variables and constraints of [s], in the same places,
    and possibly more. *)
Definition extends (s s' : State) : Prop :=
  (exists vs, mvars s' = mvars s ++ vs) /\ (exists cs, mconstrs s' = mconstrs s ++ cs).

(** [s'] extends [s] and its objective accumulator [total_points] has the
    terms of [s]'s, in the same places, and possibly more. *)
Definition grows (s s' : State) : Prop :=
  extends s s'
  /\ exists ts, terms (total_points s') = terms (total_points s) ++ ts.

(** A computation whose final state is related to its initial state,
    whether it returns or raises. *)
Definition mono_rel (R : State -> State -> Prop) {A} (m : M A) : Prop :=
  forall s, R s (state_of (m s)).

Abbreviation mono := (mono_rel extends).

Class Growth (R : State -> State -> Prop) : Prop := {
  growth_refl : forall s, R s s;
  growth_trans : forall a b c, R a b -> R b c -> R a c
}.


(** A step on a local accumulator that preserves a property of the
    accumulator and the state, and one that establishes a property. *)
Definition pres {B} (P : B -> State -> Prop) (f : B -> M B) : Prop :=
  forall b s b' s', P b s -> f b s = Ok b' s' -> P b' s'.

Definition sets {B} (Q : B -> Prop) (f : B -> M B) : Prop :=
  forall b s b' s', f b s = Ok b' s' -> Q b'.

(** The value of the variable registered under [name] ([0] if none). *)
Definition x_value (variables : VarDict) (v : Valuation) (name : string) : Z :=
  match vget name variables with Some x => v x | None => 0 end.

(** [sum(v[x] for x in xs)] *)
Definition sumv (v : Valuation) (xs : list Var) : Z :=
  fold_right (fun x acc => v x + acc) 0 xs.

(** Every variable of the dict is a variable of the model. *)
Definition vars_bounded (variables : VarDict) (s : State) : Prop :=
  forall n x, vget n variables = Some x -> (x < List.length (mvars s))%nat.

(* ================================================================== *)
(** ** Concrete inputs *)
(* ================================================================== *)

Definition ok_vars (r : Res VarDict) : VarDict :=
  match r with Ok variables _ => variables | Raise _ _ => [] end.

Definition is_ok {A} (r : Res A) : bool :=
  match r with Ok _ _ => true | Raise _ _ => false end.

(** One instructor teaching one section of a 300-level course. *)
Definition tiny_row : Row := mkRow "CS300" "Smith" (Some "300") "smith@x" 1.
Definition tiny_df : DataFrame := [tiny_row].
Definition tiny_wb : Workbook := mkWorkbook [] [] None.
Definition tiny_cap : CapacityMap := [(("CS300", "Smith", 1), 30)].
Abbreviation tiny_build := (build tiny_df tiny_wb tiny_cap []).
Abbreviation tiny_vars := (ok_vars tiny_build).
Abbreviation tiny_state := (state_of tiny_build).

(* ================================================================== *)
(** ** Meeting patterns *)
(* ================================================================== *)

(** The (day1, slot1, day2, slot2) combinations in loop order. *)
Definition quads (time_slots days : list string) : list Quad :=
  flat_map (fun day1 =>
    flat_map (fun slot1 =>
      flat_map (fun day2 =>
        map (fun slot2 => (day1, slot1, day2, slot2)) time_slots)
      days)
    time_slots)
  days.

(** [slot2] comes right after [slot1] in the list of time slots. *)
Definition follows (time_slots : list string) (slot1 slot2 : string) : Prop :=
  exists i, nth_error time_slots i = Some slot1 /\ nth_error time_slots (S i) = Some slot2.

(** Graduate pattern: same day, consecutive slots, start slot in the
    whitelist of the day (a larger one on Friday). *)
Definition graduate_pattern (time_slots : list string) (q : Quad) : Prop :=
  let '(day1, slot1, day2, slot2) := q in
  day1 = day2
  /\ follows time_slots slot1 slot2
  /\ ((day1 = "Friday" /\ In slot1 friday_start_times)
      \/ (day1 <> "Friday" /\ In slot1 valid_start_times)).

Definition allowed_day_pairs : list (string * string) :=
  [("Monday", "Wednesday"); ("Monday", "Thursday"); ("Tuesday", "Thursday");
   ("Tuesday", "Friday"); ("Wednesday", "Friday")].

(** Undergraduate pattern: same slot, day pair in the allowed list. *)
Definition undergraduate_pattern (q : Quad) : Prop :=
  let '(day1, slot1, day2, slot2) := q in
  slot1 = slot2 /\ In (day1, day2) allowed_day_pairs.

(** The tests of the two branches of [pair_step]. *)
Definition matches_grad (time_slots : list string) (q : Quad) : bool :=
  let '(day1, slot1, day2, slot2) := q in
  (day1 =? day2) && grad_ok time_slots day1 slot1 slot2.

Definition matches_undergrad (q : Quad) : bool :=
  let '(day1, slot1, day2, slot2) := q in
  negb (day1 =? day2) && (slot1 =? slot2) && undergrad_ok day1 day2.

(** The constraint [pair_step] gives the pairing variable [y] of [q]. *)
Definition pair_constr (time_slots : list string) (q : Quad) (y grad undergrad : Var)
  : Constr :=
  if matches_grad time_slots q then mkConstr (lvar y) LE (lvar grad) ""
  else if matches_undergrad q then mkConstr (lvar y) LE (lvar undergrad) ""
  else mkConstr (lvar y) EQ (lnum 0) "".

Fixpoint pair_constrs (time_slots : list string) (grad undergrad : Var) (y : Var)
  (qs : list Quad) : list Constr :=
  match qs with
  | [] => []
  | q :: t => pair_constr time_slots q y grad undergrad
              :: pair_constrs time_slots grad undergrad (S y) t
  end.

Definition Y_name_of (course instructor : string) (section_id : Z) (q : Quad) : string :=
  let '(day1, slot1, day2, slot2) := q in
  Y_name course instructor section_id day1 slot1 day2 slot2.

(** A preference sheet whose single row lists a one-character slot code
    between two well-formed ones, the same row without that code, and a
    row with a code whose day letter is unknown. *)
Definition short_code_wb : Workbook :=
  mkWorkbook [] [mkPref (CStr "smith@x: Pref-1") (CStr "|M1|M|T2|")] None.
Definition short_code_removed_wb : Workbook :=
  mkWorkbook [] [mkPref (CStr "smith@x: Pref-1") (CStr "|M1|T2|")] None.
Definition bad_code_wb : Workbook :=
  mkWorkbook [] [mkPref (CStr "smith@x: Pref-1") (CStr "|M1|X1|T2|")] None.

(** C9 as the spec words it, for a workbook [wb] with a malformed slot
    code and the workbook [wb_without] that lacks only that code: the
    build does not fail, something is printed for the entry, and the
    model is the one of [wb_without]. *)
Definition skipped_with_warning (df : DataFrame) (wb wb_without : Workbook)
  (cm : CapacityMap) (tm : TypeMap) : Prop :=
  exists variables s,
    build df wb cm tm = Ok variables s
    /\ stdout s <> stdout (state_of (build df wb_without cm tm))
    /\ mconstrs s = mconstrs (state_of (build df wb_without cm tm))
    /\ mobjective s = mobjective (state_of (build df wb_without cm tm)).

(** A protected row that lists Monday, slot 1 twice. *)
Definition dup_wb : Workbook :=
  mkWorkbook [] [mkPref (CStr "smith@x: Health") (CStr "|M1|M1|")] None.
Abbreviation dup_build := (build tiny_df dup_wb tiny_cap []).
Abbreviation dup_vars := (ok_vars dup_build).
Abbreviation dup_state := (state_of dup_build).

(** The two protected (section, part, day, slot) of that input. *)
Definition dup_protected : list string :=
  [X_name "CS300" "Smith" 1 1 "Monday" "8:30-10:00 AM";
   X_name "CS300" "Smith" 1 2 "Monday" "8:30-10:00 AM"].

(** C3 as the spec words it: whatever the assignment variables are, the
    objective can be as high as minus one protected weight per distinct
    protected (section, part, day, slot) whose variable is 1. *)
Definition charged_once_per_violation (s : State) (variables : VarDict)
  (protected : list string) : Prop :=
  forall v, solution s v ->
    exists v',
      solution s v'
      /\ (forall name, In name protected ->
            x_value variables v' name = x_value variables v name)
      /\ (objective_value s v'
          == inject_Z (-2048 * Z.of_nat
                         (List.length
                            (filter (fun name => (x_value variables v name =? 1)%Z)
                               protected))))%Q.

(** Part 1 on Monday 8:30, part 2 on Monday 10:00 (graduate pattern),
    both slack variables of part 1 set. *)
Definition dup_ones : list string :=
  ["X_CS300_Smith_1_1_Monday_8:30-10:00 AM";
   "X_CS300_Smith_1_2_Monday_10:00-11:30 AM";
   "Y_CS300_Smith_1_Monday_8:30-10:00 AM_Monday_10:00-11:30 AM";
   "Grad_CS300_Smith_1";
   "Slack_CS300_Smith_1_1_Monday_8:30-10:00 AM"].

(* ================================================================== *)
(** ** Inputs for the Monday 4:00-5:30 PM restriction and the section maps *)
(* ================================================================== *)

(** One 300-level course with two sections: section 1 has 30 seats,
    section 2 has 40. *)
Definition c4_df : DataFrame := [mkRow "CS300" "Smith" (Some "300") "smith@x" 2].
Definition c4_cap : CapacityMap :=
  [(("CS300", "Smith", 1), 30); (("CS300", "Smith", 2), 40)].
Abbreviation c4_build := (build c4_df tiny_wb c4_cap []).
Abbreviation c4_vars := (ok_vars c4_build).
Abbreviation c4_state := (state_of c4_build).

(** Two offerings of one course and instructor: the Jersey City one with
    40 seats comes first in the table, the regular one with 30 seats
    second. *)
Definition c7_table : RawTable :=
  mkRawTable true
    [mkRaw "CS100" "Smith" 40 1 (Some "Jersey City");
     mkRaw "CS100" "Smith" 30 1 (Some "Regular")].

(* ================================================================== *)
(** ** The first-morning-slot rule *)
(* ================================================================== *)

(** The test of the rule in the code: [len(course) >= 3 and course[2] == "7"]. *)
Definition third_char_is_7 (course : string) : bool :=
  (3 <=? String.length course)%nat && (Py.char_at 2 course =? "7").

(** The name the rule gives its constraints. *)
Definition no_8_30_name (course instructor : string) (section_id : Z) (day : string)
  : string :=
  Py.cat ["no_8_30_to_10_CS7XX_"; course; "_"; instructor; "_"; Py.str section_id;
          "_"; day].

(** A constraint carries the rule's name prefix. *)
Definition rule_named (c : Constr) : bool :=
  String.prefix "no_8_30_to_10_CS7XX_" (cname c).

(** A constraint is one the rule emits: [x == 0] under the rule's name,
    for a course that passes the rule's test. *)
Definition from_rule (c : Constr) : Prop :=
  exists course instructor section_id day x,
    third_char_is_7 course = true
    /\ c = mkConstr (lvar x) EQ (lnum 0) (no_8_30_name course instructor section_id day).

Definition rule_only (c : Constr) : Prop := rule_named c = true -> from_rule c.

(** The relation between the states before and after a step that adds
    no constraint under the rule's name other than the rule's own. *)
Definition keeps_rule (s s' : State) : Prop :=
  Forall rule_only (mconstrs s) -> Forall rule_only (mconstrs s').

(** C6 as the spec words it: the numeric code of the course (the digits
    [load_and_process_data] extracts into [Course_Number]) has three digits
    and the middle one is 7. *)
Definition middle_digit_is_7 (row : Row) : bool :=
  match Course_Number row with
  | Some n => (String.length n =? 3)%nat && (Py.char_at 1 n =? "7")
  | None => false
  end.

(** Some constraint of the model is [x == 0]. *)
Definition zero_forced (s : State) (x : Var) : Prop :=
  exists n, In (mkConstr (lvar x) EQ (lnum 0) n) (mconstrs s).

Definition zero_constrb (x : Var) (c : Constr) : bool :=
  match terms (lhs c), sense c with
  | [(1, y)], EQ => Nat.eqb y x
  | _, _ => false
  end.

Definition middle_digit_rule (df : DataFrame) (variables : VarDict) (s : State) : Prop :=
  forall row section_id day x,
    In row df -> In section_id (Py.range1 (Sections row)) -> In day days_main ->
    vget (X_name (Course row) (Instructor row) section_id 1 day "8:30-10:00 AM") variables
    = Some x ->
    (middle_digit_is_7 row = true -> zero_forced s x)
    /\ (middle_digit_is_7 row = false -> ~ zero_forced s x).

(** CS675: the numeric code 675 has middle digit 7, the third character
    of the course is 6.  CS732: middle digit 3, third character 7. *)
Definition c6_df : DataFrame := [mkRow "CS675" "Smith" (Some "675") "smith@x" 1].
Definition c6_cap : CapacityMap := [(("CS675", "Smith", 1), 30)].
Abbreviation c6_build := (build c6_df tiny_wb c6_cap []).
Abbreviation c6_vars := (ok_vars c6_build).
Abbreviation c6_state := (state_of c6_build).

Definition c6b_row : Row := mkRow "CS732" "Smith" (Some "732") "smith@x" 1.
Definition c6b_df : DataFrame := [c6b_row].
Definition c6b_cap : CapacityMap := [(("CS732", "Smith", 1), 30)].
Abbreviation c6b_build := (build c6b_df tiny_wb c6b_cap []).
Abbreviation c6b_vars := (ok_vars c6b_build).
Abbreviation c6b_state := (state_of c6b_build).
From Stdlib Require DecimalPos.

(* ================================================================== *)
(** ** Names without underscores *)
(* ================================================================== *)

(** The string has no ["_"]: the condition under which the fields of a
    variable name are found again by [split('_')]. *)
Fixpoint no_underscore (s : string) : bool :=
  match s with
  | EmptyString => true
  | String c s' => if Ascii.eqb c "_" then false else no_underscore s'
  end.

(** The entries of the variable dictionary are variables of the model,
    registered there under the entry's own name, and every name is the
    name of a (row, section, part, day, slot) of the frame. *)
Definition entries_named (df : DataFrame) (ts ds : list string)
  (variables : VarDict) (s : State) : Prop :=
  forall n x, In (n, x) variables ->
    nth_error (mvars s) x = Some n
    /\ exists row section_id part day slot,
         In row df /\ In section_id (Py.range1 (Sections row)) /\ In part parts12
         /\ In day ds /\ In slot ts
         /\ n = X_name (Course row) (Instructor row) section_id part day slot.

(** The variables the restricted-slot rule of [add_additional_constraints]
    sums for one instructor and day: all parts of all sections of the
    instructor at 8:30, 10:00, 6:00 PM and 7:30 PM. *)
Definition restricted_vars (df : DataFrame) (variables : VarDict)
  (instructor day : string) : list Var :=
  flat_map (fun course =>
    flat_map (fun course_row =>
      flat_map (fun section_id =>
        flat_map (fun part =>
          flat_map (fun slot =>
            present variables (X_name course instructor section_id part day slot))
          restricted_time_slots)
        parts12)
      (Py.range1 (Sections course_row)))
    (filter (fun r => (Instructor r =? instructor) && (Course r =? course)) df))
  (Py.unique (map Course df)).

(** The step returns normally from every state. *)
Definition never_raises {A} (m : M A) : Prop :=
  forall t, exists a t', m t = Ok a t'.

(** A slot code the preference loop can process: too short (it is
    skipped), or a day letter and a slot digit the two tables know. *)
Definition well_formed_code (code : string) : Prop :=
  (String.length code < 2)%nat
  \/ (dict_get Py.eqb (Py.char_at 0 code) time_slot_mapping <> None
      /\ dict_get Py.eqb (Py.char_at 1 code) time_slot_index <> None).

(** A row of the constraints sheet the preference loop can process: a
    float cell in the instructor column (the loop stops there), or a
    string of the form "email: type" with a string of slot codes. *)
Definition well_formed_row (r : PrefRow) : Prop :=
  match Instructor_UCID_Type r with
  | CFloat => True
  | COther => False
  | CStr info =>
      exists email ct,
        Py.split info ": " = [email; ct]
        /\ exists s, Slots r = CStr s
                     /\ Forall well_formed_code (Py.slice_1_m1 (Py.split s "|"))
  end.

(** [int(row['Course_Number'])] succeeds (or the cell is NaN). *)
Definition course_number_ok (row : Row) : Prop :=
  match Course_Number row with
  | None => True
  | Some c => Py.int c <> None
  end.

(** The step raises [e] from every state. *)
Definition always_raises {A} (e : exn) (m : M A) : Prop :=
  forall t, exists t', m t = Raise e t'.

(** The key the lookups of a slot code fail on: the day letter when it
    is unknown, else the slot digit. *)
Definition unknown_key (code : string) : string :=
  match dict_get Py.eqb (Py.char_at 0 code) time_slot_mapping with
  | None => Py.char_at 0 code
  | Some _ => Py.char_at 1 code
  end.

(** The exception the head of the row loop raises on a row, if any:
    [instructor_info.split(": ")] on a cell that is neither a string nor
    a float, the unpacking of its result into two names, and
    [slots.split("|")] on a cell that is not a string. *)
Definition row_error (r : PrefRow) : option exn :=
  match Instructor_UCID_Type r with
  | CFloat => None
  | COther => Some AttributeError
  | CStr info =>
      match Py.split info ": " with
      | [_; _] => match Slots r with
                  | CStr _ => None
                  | _ => Some AttributeError
                  end
      | _ => Some ValueError
      end
  end.

(* ================================================================== *)
(** ** Concrete models and schedules *)
(* ================================================================== *)

(** The build succeeded and the named variables, set to 1 with all the
    others at 0, satisfy the model. *)
Definition check_solution (r : Res VarDict) (ones : list string) : bool :=
  if is_ok r then solutionb (state_of r) (valuation_of (state_of r) ones) else false.

(** Smith is committed elsewhere on Tuesday at 8:30. *)
Definition pre_wb : Workbook :=
  mkWorkbook [mkPre "Smith" "Tuesday" "8:30-10:00 AM"] [] None.
Abbreviation pre_build := (build tiny_df pre_wb tiny_cap []).
Abbreviation pre_vars := (ok_vars pre_build).
Abbreviation pre_state := (state_of pre_build).

(** Both parts on Monday morning, graduate pattern. *)
Definition morning_ones : list string :=
  ["X_CS300_Smith_1_1_Monday_8:30-10:00 AM";
   "X_CS300_Smith_1_2_Monday_10:00-11:30 AM";
   "Y_CS300_Smith_1_Monday_8:30-10:00 AM_Monday_10:00-11:30 AM";
   "Grad_CS300_Smith_1"].

(** Two sections of one instructor, placed on Friday. *)
Definition c4_ones : list string :=
  ["X_CS300_Smith_1_1_Friday_8:30-10:00 AM";
   "X_CS300_Smith_1_2_Friday_10:00-11:30 AM";
   "X_CS300_Smith_2_1_Friday_1:00-2:30 PM";
   "X_CS300_Smith_2_2_Friday_2:30-4:00 PM";
   "Y_CS300_Smith_1_Friday_8:30-10:00 AM_Friday_10:00-11:30 AM";
   "Y_CS300_Smith_2_Friday_1:00-2:30 PM_Friday_2:30-4:00 PM";
   "Grad_CS300_Smith_1";
   "Grad_CS300_Smith_2"].

(** The one section is a Jersey City section, meeting on Monday evening. *)
Definition jc_tm : TypeMap := [(("CS300", "Smith", 1), Some "Jersey City")].
Abbreviation jc_build := (build tiny_df tiny_wb tiny_cap jc_tm).
Abbreviation jc_vars := (ok_vars jc_build).
Abbreviation jc_state := (state_of jc_build).
Definition jc_ones : list string :=
  ["X_CS300_Smith_1_1_Monday_6:00-7:30 PM";
   "X_CS300_Smith_1_2_Monday_7:30-9:00 PM";
   "Y_CS300_Smith_1_Monday_6:00-7:30 PM_Monday_7:30-9:00 PM";
   "Grad_CS300_Smith_1"].

(** A Pref-1 row for Monday slot 1 and Tuesday slot 2. *)
Abbreviation pref_build := (build tiny_df short_code_removed_wb tiny_cap []).
Abbreviation pref_vars := (ok_vars pref_build).
Abbreviation pref_state := (state_of pref_build).

(** The variables the Jersey City daily limit sums on [day]: part 1 at
    6:00-7:30 PM of every Jersey City entry of the type map. *)
Definition jc_day_vars (section_type_map : TypeMap) (variables : VarDict) (day : string)
  : list Var :=
  flat_map (fun item =>
    let '((course, instructor, section_id), stype) := item in
    if negb (is_jersey_city stype) then []
    else present variables (X_name course instructor section_id 1 day evening_start))
  section_type_map.

(** [s'] extends [s] and the accumulator [acc] has the terms of [s]'s, in
    the same places, and possibly more. *)
Definition grows_on (acc : State -> LinExpr) (s s' : State) : Prop :=
  extends s s' /\ exists ts, terms (acc s') = terms (acc s) ++ ts.

(** [f"Penalty_{instructor_name}_{day}_{slot1}_{slot2}"] *)
Definition Penalty_name (instructor_name day slot1 slot2 : string) : string :=
  Py.cat ["Penalty_"; instructor_name; "_"; day; "_"; slot1; "_"; slot2].

(** [f"ConsecutivePenalty_{instructor_name}_{day}_{slot1}_{slot2}"] *)
Definition ConsecutivePenalty_name (instructor_name day slot1 slot2 : string) : string :=
  Py.cat ["ConsecutivePenalty_"; instructor_name; "_"; day; "_"; slot1; "_"; slot2].

(** [f"Z_{instructor}_{day}"] *)
Definition Z_name (instructor day : string) : string :=
  Py.cat ["Z_"; instructor; "_"; day].

(** What a teaching day of [instructor] costs: [-8] when the sheet's entry
    for the e-mail address of the instructor's first row is the condensed
    choice, [-3] otherwise (also without an entry). *)
Definition day_penalty (df : DataFrame) (sheet : GPSheet) (instructor : string) : Z :=
  match filter (fun r => Instructor r =? instructor) df with
  | [] => 0
  | r0 :: _ =>
      if cell_eqb
           (match dict_get cell_eqb (Some (Email r0))
                    (to_dict gp_Day_Preference (gp_rows sheet)) with
            | Some v => v
            | None => Some "No"
            end) (Some condensed)
      then -8 else -3
  end.

(** The body of [for day in days] in the first loop of the day
    preferences: the indicator of ([instructor], [day]) and its links. *)
Definition day_body (df : DataFrame) (variables : VarDict) (time_slots : list string)
  (instructor : string) (z_vars : ZDict) (day : string) : M ZDict :=
  z_var <- addVar (Py.cat ["Z_"; instructor; "_"; day]) ;;
  let xs := relevant_x_vars df variables time_slots instructor day in
  for_ xs (fun x_var => addConstr (lvar x_var) LE (lvar z_var) "") ;;
  when (negb (nonempty xs)) (addConstr (lvar z_var) EQ (lnum 0) "") ;;
  ret (dict_set pair_eqb (instructor, day) z_var z_vars).

(** What the model holds for every entry of [z_vars]: the variable is
    named after its key and bounds every assignment variable of the
    instructor on the day (it is fixed to 0 when there is none). *)
Definition z_ok (df : DataFrame) (variables : VarDict) (time_slots : list string)
  (z_vars : ZDict) (s : State) : Prop :=
  forall instructor day z,
    dict_get pair_eqb (instructor, day) z_vars = Some z ->
    nth_error (mvars s) z = Some (Z_name instructor day)
    /\ (forall x, In x (relevant_x_vars df variables time_slots instructor day) ->
          In (mkConstr (lvar x) LE (lvar z) "") (mconstrs s))
    /\ (relevant_x_vars df variables time_slots instructor day = [] ->
          In (mkConstr (lvar z) EQ (lnum 0) "") (mconstrs s)).

(** A General Preferences sheet of six columns with one row: Smith asks
    for the 3-hour format, condensed days and no consecutive slots. *)
Definition gp_row : GPRow :=
  mkGP (Some "smith@x") (Some "3-hour format") (Some condensed) (Some "No").
Definition gp_sheet : GPSheet := mkGPSheet 6 [gp_row].
Definition gp_wb : Workbook := mkWorkbook [] [] (Some gp_sheet).
Abbreviation gp_build := (build tiny_df gp_wb tiny_cap []).
Abbreviation gp_vars := (ok_vars gp_build).
Abbreviation gp_state := (state_of gp_build).

(** Both parts on Monday morning, one after the other: Monday is a
    teaching day and the consecutive pair is paid for. *)
Definition gp_ones : list string :=
  ["X_CS300_Smith_1_1_Monday_8:30-10:00 AM";
   "X_CS300_Smith_1_2_Monday_10:00-11:30 AM";
   "Y_CS300_Smith_1_Monday_8:30-10:00 AM_Monday_10:00-11:30 AM";
   "Grad_CS300_Smith_1";
   "Z_Smith_Monday";
   "ConsecutivePenalty_Smith_Monday_8:30-10:00 AM_10:00-11:30 AM"].

(** A sum of penalties of the model in [s]: every term has a coefficient
    that is not positive on a variable of the model, and there is no
    constant. *)
Definition penalty_expr (s : State) (e : LinExpr) : Prop :=
  Forall (fun t => fst t <= 0 /\ (snd t < List.length (mvars s))%nat) (terms e)
  /\ (const e == 0)%Q.

(** [s'] extends [s] and the four accumulators are as in [s]. *)
Definition keeps_sums (s s' : State) : Prop :=
  extends s s'
  /\ total_points s' = total_points s
  /\ format_penalty_sum s' = format_penalty_sum s
  /\ day_penalty_sum s' = day_penalty_sum s
  /\ consecutive_penalty_sum s' = consecutive_penalty_sum s.

(** A computation that keeps a property of the model when it returns. *)
Definition invariant {A} (I : State -> Prop) (m : M A) : Prop :=
  forall s a s', I s -> m s = Ok a s' -> I s'.

(** [total_points] and [format_penalty_sum] are sums of penalties. *)
Definition penal (s : State) : Prop :=
  penalty_expr s (total_points s) /\ penalty_expr s (format_penalty_sum s).

(** Every entry of [z_vars] is a variable of the model. *)
Definition z_bounded (z_vars : ZDict) (s : State) : Prop :=
  forall k z, dict_get pair_eqb k z_vars = Some z -> (z < List.length (mvars s))%nat.

(* ================================================================== *)
(** ** [write_schedule_files]: the schedule read off a solution *)
(* ================================================================== *)

(** The number a string of decimal digits stands for, read from the left
    with [acc] already read. *)
Fixpoint uint_val (d : Decimal.uint) (acc : Z) : Z :=
  match d with
  | Decimal.Nil => acc
  | Decimal.D0 l => uint_val l (10 * acc + 0)
  | Decimal.D1 l => uint_val l (10 * acc + 1)
  | Decimal.D2 l => uint_val l (10 * acc + 2)
  | Decimal.D3 l => uint_val l (10 * acc + 3)
  | Decimal.D4 l => uint_val l (10 * acc + 4)
  | Decimal.D5 l => uint_val l (10 * acc + 5)
  | Decimal.D6 l => uint_val l (10 * acc + 6)
  | Decimal.D7 l => uint_val l (10 * acc + 7)
  | Decimal.D8 l => uint_val l (10 * acc + 8)
  | Decimal.D9 l => uint_val l (10 * acc + 9)
  end.

(** One line of [schedule]:
    [(course, instructor, email, section_id, part, day, slot, stype)]. *)
Definition ScheduleEntry : Type :=
  (string * string * string * string * string * string * string * option string)%type.

(** [df[df['Instructor'] == instructor]['Email'].iloc[0]], or [""] when
    the instructor has no row. *)
Definition email_of (df : DataFrame) (instructor : string) : string :=
  match filter (fun r => Instructor r =? instructor) df with
  | r0 :: _ => Email r0
  | [] => ""
  end.

(** [section_type_map.get((course.strip(), instructor.strip(), sec_id_int),
    "Unknown")], with [sec_id_int = None] after a [ValueError]. *)
Definition stype_of (section_type_map : TypeMap) (course instructor section_id : string)
  : option string :=
  match Py.int section_id with
  | Some sec_id_int =>
      match dict_get key_eqb (Py.strip course, Py.strip instructor, sec_id_int)
              section_type_map with
      | Some stype => stype
      | None => Some "Unknown"
      end
  | None => Some "Unknown"
  end.

(** What the loop over [model.getVars()] appends for a variable named
    [varName] that passed the test on its value and its prefix. *)
Definition schedule_entry (df : DataFrame) (section_type_map : TypeMap)
  (varName : string) : list ScheduleEntry :=
  let parts := Py.split varName "_" in
  if (7 <=? List.length parts)%nat then
    match firstn 6 parts with
    | [_; course; instructor; section_id; part; day] =>
        let slot := String.concat "_" (skipn 6 parts) in
        [(course, instructor, email_of df instructor, section_id, part, day, slot,
          stype_of section_type_map course instructor section_id)]
    | _ => []
    end
  else [].

(** [schedule] before it is sorted: the entries of the variables, in the
    order of the model, whose value exceeds 0.5 and whose name starts
    with ["X_"]. *)
Definition schedule (s : State) (v : Valuation) (df : DataFrame)
  (section_type_map : TypeMap) : list ScheduleEntry :=
  flat_map (fun x =>
    match nth_error (mvars s) x with
    | Some varName =>
        if (0 <? v x)%Z && String.prefix "X_" varName
        then schedule_entry df section_type_map varName
        else []
    | None => []
    end) (seq 0 (List.length (mvars s))).

(** The names [build_model] gives its assignment variables, in the order
    of creation. *)
Definition all_names (df : DataFrame) (time_slots days : list string) : list string :=
  flat_map (fun row =>
    if (Sections row =? 0)%Z then []
    else
      flat_map (fun section_id =>
        flat_map (fun part =>
          flat_map (fun day =>
            map (fun slot => X_name (Course row) (Instructor row) section_id part day slot)
                time_slots)
          days)
        parts12)
      (Py.range1 (Sections row)))
  df.

(** [s'] extends [s] and none of its new variables has a name that starts
    with ["X_"]. *)
Definition no_new_X (s s' : State) : Prop :=
  extends s s'
  /\ forall x name, nth_error (mvars s') x = Some name ->
       String.prefix "X_" name = true -> (x < List.length (mvars s))%nat.

(** The (course, instructor) pair of a row. *)
Definition row_key (r : Row) : string * string := (Course r, Instructor r).

(** The line of [schedule] for a part of a section of [row] placed at
    ([day], [slot]). *)
Definition entry_of (df : DataFrame) (section_type_map : TypeMap) (row : Row)
  (section_id part : Z) (day slot : string) : ScheduleEntry :=
  (Course row, Instructor row, email_of df (Instructor row), Py.str section_id,
   Py.str part, day, slot,
   match dict_get key_eqb (Py.strip (Course row), Py.strip (Instructor row), section_id)
           section_type_map with
   | Some stype => stype
   | None => Some "Unknown"
   end).

(* ================================================================== *)
(** ** [write_percentages_analysis]: counting the placed parts *)
(* ================================================================== *)

(** [schedule_counts]: a count per (day, slot). *)
Definition Counts := list ((string * string) * Z).

(** [{(day, slot): 0 for day in days for slot in time_slots}] *)
Definition zero_counts (time_slots days : list string) : Counts :=
  fold_left (fun d k => dict_set pair_eqb k 0 d)
    (flat_map (fun day => map (fun slot => (day, slot)) time_slots) days) [].

(** A loop over [xs] that threads [b] and stops at the first failure. *)
Fixpoint fold_opt {A B} (f : A -> B -> option B) (xs : list A) (b : B) : option B :=
  match xs with
  | [] => Some b
  | x :: t => match f x b with
              | Some b' => fold_opt f t b'
              | None => None
              end
  end.

(** The body of the innermost loop: [if var_name in variables and
    variables[var_name].X > 0.5: schedule_counts[(day, slot)] += 1;
    total_classes += 1]. [None] stands for [KeyError]. *)
Definition count_part (variables : VarDict) (v : Valuation) (var_name day slot : string)
  (acc : Counts * Z) : option (Counts * Z) :=
  let '(schedule_counts, total_classes) := acc in
  match vget var_name variables with
  | Some x =>
      if (0 <? v x)%Z then
        match dict_get pair_eqb (day, slot) schedule_counts with
        | Some c =>
            Some (dict_set pair_eqb (day, slot) (c + 1) schedule_counts, total_classes + 1)
        | None => None
        end
      else Some acc
  | None => Some acc
  end.

(** [schedule_counts] and [total_classes] after the loops. *)
Definition count_classes (df : DataFrame) (variables : VarDict) (v : Valuation)
  (time_slots days : list string) : option (Counts * Z) :=
  fold_opt (fun row acc =>
    let course := Course row in
    let instructor := Instructor row in
    let num_sections := Sections row in
    if (num_sections =? 0)%Z then Some acc
    else
      fold_opt (fun section_id acc =>
        fold_opt (fun part acc =>
          fold_opt (fun day acc =>
            fold_opt (fun slot acc =>
              count_part variables v
                (X_name course instructor section_id part day slot) day slot acc)
            time_slots acc)
          days acc)
        parts12 acc)
      (Py.range1 num_sections) acc)
  df (zero_counts time_slots days, 0).

(** The number of section parts a valuation places at ([day], [slot]),
    counted row by row. *)
Definition parts_at (df : DataFrame) (variables : VarDict) (v : Valuation)
  (day slot : string) : Z :=
  sumv v
    (flat_map (fun row =>
       flat_map (fun section_id =>
         flat_map (fun part =>
           present variables (X_name (Course row) (Instructor row) section_id part day slot))
         parts12)
       (Py.range1 (Sections row)))
     df).

(** A step that adds [w] to the total and [wk k] to the count of every
    key [k], as long as the keys in [P] have a count. *)
Definition adds (P : string * string -> Prop) (w : Z) (wk : string * string -> Z)
  (g : Counts * Z -> option (Counts * Z)) : Prop :=
  forall counts total,
    (forall k, P k -> dict_get pair_eqb k counts <> None) ->
    exists counts' total',
      g (counts, total) = Some (counts', total')
      /\ total' = total + w
      /\ forall k, dict_get pair_eqb k counts'
                   = option_map (fun c => c + wk k) (dict_get pair_eqb k counts).
(* ================================================================== *)
(** ** Facts about strings and dicts *)
(* ================================================================== *)

Lemma Py_eqb_eq (a b : string) : Py.eqb a b = true <-> a = b.
Proof.
  revert b. induction a as [|c a IH]; intros [|d b]; simpl; split; intros H;
    try discriminate; try reflexivity.
  - destruct (Ascii.eqb c d) eqn:E; [|discriminate].
    apply Ascii.eqb_eq in E. apply IH in H. now subst.
  - injection H as -> ->. rewrite Ascii.eqb_refl. now apply IH.
Qed.

Lemma Py_eqb_refl (a : string) : Py.eqb a a = true.
Proof. now apply Py_eqb_eq. Qed.

Lemma Py_eqb_neq (a b : string) : Py.eqb a b = false <-> a <> b.
Proof.
  split; intros H.
  - intros E. apply Py_eqb_eq in E. congruence.
  - destruct (Py.eqb a b) eqn:E; [|reflexivity]. apply Py_eqb_eq in E. contradiction.
Qed.

Lemma Py_mem_In (x : string) (l : list string) : Py.mem x l = true <-> In x l.
Proof.
  unfold Py.mem. rewrite existsb_exists. split.
  - intros (y & Hy & E). apply Py_eqb_eq in E. now subst.
  - intros H. exists x. split; [assumption | apply Py_eqb_refl].
Qed.

Lemma pair_eqb_eq (a b : string * string) : pair_eqb a b = true <-> a = b.
Proof.
  destruct a as [a1 a2], b as [b1 b2]. unfold pair_eqb. simpl.
  destruct (Py.eqb a1 b1) eqn:E1.
  - apply Py_eqb_eq in E1. subst. rewrite Py_eqb_eq. split; congruence.
  - apply Py_eqb_neq in E1. split; [discriminate | congruence].
Qed.

Lemma Py_unique_In (x : string) (l : list string) : In x (Py.unique l) <-> In x l.
Proof.
  induction l as [|y l IH]; simpl; [tauto|].
  rewrite filter_In, IH. split.
  - intros [H | [H _]]; auto.
  - intros [H | H]; [now left|].
    destruct (Py.eqb x y) eqn:E.
    + left. apply Py_eqb_eq in E. congruence.
    + right. split; [assumption | reflexivity].
Qed.

Lemma Py_range1_In (k n : Z) : In k (Py.range1 n) <-> (1 <= k <= n)%Z.
Proof.
  unfold Py.range1. rewrite in_map_iff. split.
  - intros (i & <- & Hi). apply in_seq in Hi. lia.
  - intros H. exists (Z.to_nat k). split; [lia|]. apply in_seq. lia.
Qed.

Section DictFacts.
Context {K V : Type} (eqb : K -> K -> bool).
Hypothesis eqb_eq : forall a b, eqb a b = true <-> a = b.

Lemma dict_get_set_same (k : K) (v : V) (d : list (K * V)) :
  dict_get eqb k (dict_set eqb k v d) = Some v.
Proof.
  induction d as [|[k' v'] d IH]; simpl.
  - now rewrite (proj2 (eqb_eq k k) eq_refl).
  - destruct (eqb k' k) eqn:E; simpl.
    + now rewrite (proj2 (eqb_eq k k) eq_refl).
    + now rewrite E.
Qed.

Lemma dict_get_set_other (k k0 : K) (v : V) (d : list (K * V)) :
  k0 <> k -> dict_get eqb k0 (dict_set eqb k v d) = dict_get eqb k0 d.
Proof.
  intros Hne. induction d as [|[k' v'] d IH]; simpl.
  - destruct (eqb k k0) eqn:E; [|reflexivity].
    apply eqb_eq in E. congruence.
  - destruct (eqb k' k) eqn:E; simpl.
    + apply eqb_eq in E. subst k'.
      destruct (eqb k k0) eqn:E'; [|reflexivity].
      apply eqb_eq in E'. congruence.
    + destruct (eqb k' k0); [reflexivity | apply IH].
Qed.

Lemma dict_get_In (k : K) (v : V) (d : list (K * V)) :
  dict_get eqb k d = Some v -> In v (map snd d).
Proof.
  induction d as [|[k' v'] d IH]; simpl; [discriminate|].
  destruct (eqb k' k); [intros [= ->]; now left | auto].
Qed.
End DictFacts.

Lemma vget_vset_same (n : string) (x : Var) (d : VarDict) :
  vget n (vset n x d) = Some x.
Proof. apply dict_get_set_same, Py_eqb_eq. Qed.

Lemma vget_vset_other (n n0 : string) (x : Var) (d : VarDict) :
  n0 <> n -> vget n0 (vset n x d) = vget n0 d.
Proof. apply dict_get_set_other, Py_eqb_eq. Qed.

Lemma vget_vset_some (n n0 : string) (x : Var) (d : VarDict) :
  vget n0 d <> None -> vget n0 (vset n x d) <> None.
Proof.
  intros H. destruct (string_dec n0 n) as [->|Hne].
  - now rewrite vget_vset_same.
  - now rewrite vget_vset_other.
Qed.

(* ================================================================== *)
(** ** Facts about the monad: the model only grows *)
(* ================================================================== *)

Lemma extends_refl s : extends s s.
Proof. split; exists []; now rewrite app_nil_r. Qed.

Lemma extends_trans s1 s2 s3 : extends s1 s2 -> extends s2 s3 -> extends s1 s3.
Proof.
  intros [[v1 H1] [c1 H1']] [[v2 H2] [c2 H2']]. split.
  - exists (v1 ++ v2). now rewrite H2, H1, app_assoc.
  - exists (c1 ++ c2). now rewrite H2', H1', app_assoc.
Qed.

Lemma extends_constr s s' c : extends s s' -> In c (mconstrs s) -> In c (mconstrs s').
Proof. intros [_ [cs ->]] H. apply in_or_app. now left. Qed.

Lemma extends_nvars s s' :
  extends s s' -> (List.length (mvars s) <= List.length (mvars s'))%nat.
Proof. intros [[vs ->] _]. rewrite length_app. lia. Qed.

Lemma extends_name s s' x n :
  extends s s' -> nth_error (mvars s) x = Some n -> nth_error (mvars s') x = Some n.
Proof.
  intros [[vs ->] _] H. rewrite nth_error_app1; [assumption|].
  apply nth_error_Some. congruence.
Qed.

Lemma grows_refl s : grows s s.
Proof. split; [apply extends_refl | exists []; now rewrite app_nil_r]. Qed.

Lemma grows_trans s1 s2 s3 : grows s1 s2 -> grows s2 s3 -> grows s1 s3.
Proof.
  intros [E1 [t1 H1]] [E2 [t2 H2]]. split; [eapply extends_trans; eassumption|].
  exists (t1 ++ t2). now rewrite H2, H1, app_assoc.
Qed.

#[export] Instance Growth_extends : Growth extends :=
  {| growth_refl := extends_refl; growth_trans := extends_trans |}.

#[export] Instance Growth_grows : Growth grows :=
  {| growth_refl := grows_refl; growth_trans := grows_trans |}.

Section Monotone.
Context {R : State -> State -> Prop} `{Growth R}.

Lemma mono_ret {A} (a : A) : mono_rel R (ret a).
Proof. intros s. apply growth_refl. Qed.

Lemma mono_raise {A} e : mono_rel R (@raise A e).
Proof. intros s. apply growth_refl. Qed.

Lemma mono_bind {A B} (m : M A) (k : A -> M B) :
  mono_rel R m -> (forall a, mono_rel R (k a)) -> mono_rel R (bind m k).
Proof.
  intros Hm Hk s. unfold bind. specialize (Hm s).
  destruct (m s) as [a s1 | e s1]; simpl in *; [|assumption].
  eapply growth_trans; [eassumption | apply Hk].
Qed.

Lemma mono_try {A} (m : M A) (h : exn -> M A) :
  mono_rel R m -> (forall e, mono_rel R (h e)) -> mono_rel R (try_except m h).
Proof.
  intros Hm Hh s. unfold try_except. specialize (Hm s).
  destruct (m s) as [a s1 | e s1]; simpl in *; [assumption|].
  eapply growth_trans; [eassumption | apply Hh].
Qed.

Lemma mono_for {A} (xs : list A) (body : A -> M unit) :
  (forall x, mono_rel R (body x)) -> mono_rel R (for_ xs body).
Proof.
  intros Hb. induction xs as [|x xs IH]; simpl.
  - apply mono_ret.
  - apply mono_bind; [apply Hb | intros _; apply IH].
Qed.

Lemma mono_foldM {A B} (body : B -> A -> M B) (xs : list A) (b : B) :
  (forall b x, mono_rel R (body b x)) -> mono_rel R (foldM body xs b).
Proof.
  intros Hb. revert b. induction xs as [|x xs IH]; intros b; simpl.
  - apply mono_ret.
  - apply mono_bind; [apply Hb | intros b'; apply IH].
Qed.

Lemma mono_for_ctl {A} (xs : list A) (body : A -> M ctl) :
  (forall x, mono_rel R (body x)) -> mono_rel R (for_ctl xs body).
Proof.
  intros Hb. induction xs as [|x xs IH]; simpl.
  - apply mono_ret.
  - apply mono_bind; [apply Hb | intros [|]; [apply IH | apply mono_ret]].
Qed.

Lemma mono_when (b : bool) (m : M unit) : mono_rel R m -> mono_rel R (when b m).
Proof. intros Hm. destruct b; simpl; [assumption | apply mono_ret]. Qed.

Lemma mono_Ok {A} (m : M A) s a s' : mono_rel R m -> m s = Ok a s' -> R s s'.
Proof. intros Hm Hrun. specialize (Hm s). now rewrite Hrun in Hm. Qed.

End Monotone.

Lemma mono_addVar n : mono (addVar n).
Proof. intros s. split; simpl; [now exists [n] | exists []; now rewrite app_nil_r]. Qed.

Lemma mono_addConstr l sn r n : mono (addConstr l sn r n).
Proof.
  intros s. split; simpl; [exists []; now rewrite app_nil_r | now eexists].
Qed.

(** Steps that leave variables and constraints alone. *)
Lemma mono_same {A} (m : M A) :
  (forall s, mvars (state_of (m s)) = mvars s /\ mconstrs (state_of (m s)) = mconstrs s) ->
  mono m.
Proof.
  intros Hs s. destruct (Hs s) as [Hv Hc]. split; [exists [] | exists []];
    rewrite app_nil_r; assumption.
Qed.

Lemma grows_addVar n : mono_rel grows (addVar n).
Proof.
  intros s. split; [apply mono_addVar | exists []; simpl; now rewrite app_nil_r].
Qed.

Lemma grows_addConstr l sn r n : mono_rel grows (addConstr l sn r n).
Proof.
  intros s. split; [apply mono_addConstr | exists []; simpl; now rewrite app_nil_r].
Qed.

Lemma grows_add_total_points e : mono_rel grows (add_total_points e).
Proof.
  intros s. split; [apply mono_same; intros; now split | simpl; now eexists].
Qed.

(** Steps that leave variables, constraints and [total_points] alone. *)
Lemma grows_same {A} (m : M A) :
  (forall s, mvars (state_of (m s)) = mvars s
             /\ mconstrs (state_of (m s)) = mconstrs s
             /\ total_points (state_of (m s)) = total_points s) ->
  mono_rel grows m.
Proof.
  intros Hs s. destruct (Hs s) as (Hv & Hc & Ht). split.
  - split; [exists [] | exists []]; rewrite app_nil_r; assumption.
  - exists []. now rewrite app_nil_r, Ht.
Qed.

Ltac mono_prim :=
  first [ apply mono_same; intros ?; split; reflexivity
        | apply grows_same; intros ?; repeat split; reflexivity ].

Ltac mono_step :=
  lazymatch goal with
  | |- mono_rel _ (bind _ _) => apply mono_bind; [| intros ?]
  | |- mono_rel _ (for_ _ _) => apply mono_for; intros ?
  | |- mono_rel _ (foldM _ _ _) => apply mono_foldM; intros ? ?
  | |- mono_rel _ (for_ctl _ _) => apply mono_for_ctl; intros ?
  | |- mono_rel _ (when _ _) => apply mono_when
  | |- mono_rel _ (try_except _ _) => apply mono_try; [| intros ?]
  | |- mono_rel _ (ret _) => apply mono_ret
  | |- mono_rel _ (raise _) => apply mono_raise
  | |- mono_rel _ (addVar _) => first [apply mono_addVar | apply grows_addVar]
  | |- mono_rel _ (addConstr _ _ _ _) => first [apply mono_addConstr | apply grows_addConstr]
  | |- mono_rel grows (add_total_points _) => apply grows_add_total_points
  | |- mono_rel _ (print _) => mono_prim
  | |- mono_rel _ (setObjective _) => mono_prim
  | |- mono_rel _ get_total_points => mono_prim
  | |- mono_rel _ get_format_penalty_sum => mono_prim
  | |- mono_rel _ get_day_penalty_sum => mono_prim
  | |- mono_rel _ get_consecutive_penalty_sum => mono_prim
  | |- mono_rel _ (set_total_points _) => mono_prim
  | |- mono_rel _ (add_total_points _) => mono_prim
  | |- mono_rel _ (set_format_penalty_sum _) => mono_prim
  | |- mono_rel _ (add_format_penalty_sum _) => mono_prim
  | |- mono_rel _ (set_day_penalty_sum _) => mono_prim
  | |- mono_rel _ (add_day_penalty_sum _) => mono_prim
  | |- mono_rel _ (set_consecutive_penalty_sum _) => mono_prim
  | |- mono_rel _ (add_consecutive_penalty_sum _) => mono_prim
  | |- mono_rel _ (match ?x with _ => _ end) => destruct x
  | |- mono_rel _ (let _ := _ in _) => cbv zeta
  end.

Ltac mono_tac := repeat mono_step.

Lemma mono_create_variables df ts ds : mono (create_variables df ts ds).
Proof. unfold create_variables. mono_tac. Qed.

Lemma mono_add_basic_constraints df vars ts ds : mono (add_basic_constraints df vars ts ds).
Proof. unfold add_basic_constraints. mono_tac. Qed.

Lemma mono_add_balance_constraints df vars ts ds wb tm :
  mono (add_balance_constraints df vars ts ds wb tm).
Proof. unfold add_balance_constraints. mono_tac. Qed.

Lemma mono_yget_all ks d : mono (yget_all ks d).
Proof. unfold yget_all, yget. mono_tac. Qed.

Lemma mono_create_pairs ts ds c i sec g u : mono (create_pairs ts ds c i sec g u).
Proof. unfold create_pairs, pair_step. mono_tac. Qed.

Lemma mono_add_no_8_30_constraints vars ds c i sec :
  mono (add_no_8_30_constraints vars ds c i sec).
Proof. unfold add_no_8_30_constraints. mono_tac. Qed.

Lemma mono_section_patterns vars ts ds c i sec : mono (section_patterns vars ts ds c i sec).
Proof.
  unfold section_patterns. mono_tac;
    first [apply mono_create_pairs | apply mono_add_no_8_30_constraints
          | apply mono_yget_all].
Qed.

Lemma mono_add_pattern_constraints df vars ts ds : mono (add_pattern_constraints df vars ts ds).
Proof. unfold add_pattern_constraints. mono_tac. apply mono_section_patterns. Qed.

Lemma mono_add_course_block_constraints df vars ts ds :
  mono (add_course_block_constraints df vars ts ds).
Proof. unfold add_course_block_constraints. mono_tac. Qed.

Lemma mono_add_consecutive_slots_constraints df vars ts ds :
  mono (add_consecutive_slots_constraints df vars ts ds).
Proof. unfold add_consecutive_slots_constraints. mono_tac. Qed.

Lemma mono_add_jersey_city_constraints df vars ts ds tm :
  mono (add_jersey_city_constraints df vars ts ds tm).
Proof. unfold add_jersey_city_constraints. mono_tac. Qed.

Lemma mono_add_restricted_slot_constraints df vars cm :
  mono (add_restricted_slot_constraints df vars cm).
Proof. unfold add_restricted_slot_constraints, course_number_of. mono_tac. Qed.

Lemma mono_add_format_preferences df vars ts ds sh :
  mono (add_format_preferences df vars ts ds sh).
Proof. unfold add_format_preferences. mono_tac. Qed.

Lemma mono_add_day_preferences df vars ts ds sh :
  mono (add_day_preferences df vars ts ds sh).
Proof. unfold add_day_preferences. mono_tac. Qed.

Lemma mono_add_consecutive_preferences df vars ts ds sh :
  mono (add_consecutive_preferences df vars ts ds sh).
Proof. unfold add_consecutive_preferences. mono_tac. Qed.

Lemma mono_add_additional_constraints df vars ts ds wb cm :
  mono (add_additional_constraints df vars ts ds wb cm).
Proof.
  unfold add_additional_constraints. mono_tac;
    first [apply mono_add_restricted_slot_constraints
          | apply mono_add_format_preferences
          | apply mono_add_day_preferences
          | apply mono_add_consecutive_preferences].
Qed.

Lemma mono_apply_preference ct p n x : mono (apply_preference ct p n x).
Proof. unfold apply_preference. mono_tac. Qed.

Lemma mono_process_slot_code df vars e ct p c : mono (process_slot_code df vars e ct p c).
Proof.
  unfold process_slot_code, getitem. mono_tac; apply mono_apply_preference.
Qed.

Lemma mono_process_pref_row df vars row : mono (process_pref_row df vars row).
Proof. unfold process_pref_row. mono_tac; apply mono_process_slot_code. Qed.

Lemma mono_add_preference_constraints df vars ts ds wb cm :
  mono (add_preference_constraints df vars ts ds wb cm).
Proof.
  unfold add_preference_constraints. mono_tac;
    first [apply mono_process_pref_row | apply mono_add_additional_constraints].
Qed.

(* ================================================================== *)
(** ** Running binds and loops *)
(* ================================================================== *)

Lemma bind_Ok {A B} (m : M A) (k : A -> M B) s b s' :
  bind m k s = Ok b s' -> exists a s1, m s = Ok a s1 /\ k a s1 = Ok b s'.
Proof.
  unfold bind. destruct (m s) as [a s1 | e s1]; [|discriminate].
  intros H. now exists a, s1.
Qed.

Lemma for_In {A} (xs : list A) (body : A -> M unit) s s' x :
  (forall y, mono (body y)) ->
  for_ xs body s = Ok tt s' -> In x xs ->
  exists s1 s2, extends s s1 /\ body x s1 = Ok tt s2 /\ extends s2 s'.
Proof.
  intros Hm. revert s. induction xs as [|y xs IH]; intros s H Hin; [contradiction|].
  simpl in H. apply bind_Ok in H as ([] & s1 & H1 & H2).
  destruct Hin as [-> | Hin].
  - exists s, s1. split; [apply extends_refl | split; [assumption|]].
    eapply mono_Ok; [|exact H2]. now apply mono_for.
  - destruct (IH _ H2 Hin) as (s3 & s4 & E1 & E2 & E3).
    exists s3, s4. split; [|split; assumption].
    eapply extends_trans; [|exact E1]. eapply mono_Ok; [apply Hm | exact H1].
Qed.

Lemma foldM_pres {A B} (P : B -> State -> Prop) (body : B -> A -> M B) (xs : list A) :
  (forall x, In x xs -> pres P (fun b => body b x)) ->
  pres P (fun b => foldM body xs b).
Proof.
  induction xs as [|x xs IH]; intros H b s b' s' HP Hrun; simpl in Hrun.
  - injection Hrun as <- <-. assumption.
  - apply bind_Ok in Hrun as (b1 & s1 & H1 & H2).
    eapply IH; [| |exact H2].
    + intros y Hy. apply H. now right.
    + eapply (H x); [now left | exact HP | exact H1].
Qed.

Lemma foldM_sets {A B} (Q : B -> Prop) (body : B -> A -> M B) (xs : list A) (x : A) :
  In x xs ->
  (forall y, pres (fun b _ => Q b) (fun b => body b y)) ->
  sets Q (fun b => body b x) ->
  sets Q (fun b => foldM body xs b).
Proof.
  intros Hin Hk Hs. induction xs as [|y xs IH]; [contradiction|].
  intros b s b' s' Hrun. simpl in Hrun.
  apply bind_Ok in Hrun as (b1 & s1 & H1 & H2).
  destruct Hin as [-> | Hin].
  - assert (Q b1) by (eapply Hs; exact H1).
    eapply (foldM_pres (fun b _ => Q b)); [| |exact H2]; [|assumption].
    intros z _. apply Hk.
  - eapply IH; [assumption | exact H2].
Qed.

(* ================================================================== *)
(** ** Sums of binary values *)
(* ================================================================== *)

Lemma eval_terms_lsum v xs : eval_terms v (terms (lsum xs)) = sumv v xs.
Proof.
  unfold lsum, sumv. simpl. induction xs as [|x xs IH]; simpl; [reflexivity|].
  rewrite IH. destruct (v x); reflexivity.
Qed.

Lemma Qeq_inject_Z a b : (inject_Z a + 0 == inject_Z b + 0)%Q <-> a = b.
Proof. unfold Qeq, Qplus, inject_Z. simpl. lia. Qed.

Lemma Qle_inject_Z a b : (inject_Z a + 0 <= inject_Z b + 0)%Q <-> (a <= b)%Z.
Proof. unfold Qle, Qplus, inject_Z. simpl. lia. Qed.

Lemma Qeq_inject_Z_const a b : (inject_Z a + 0 == inject_Z 0 + inject_Z b)%Q <-> a = b.
Proof. unfold Qeq, Qplus, inject_Z. simpl. lia. Qed.

Lemma Qle_inject_Z_const a b : (inject_Z a + 0 <= inject_Z 0 + inject_Z b)%Q <-> (a <= b)%Z.
Proof. unfold Qle, Qplus, inject_Z. simpl. lia. Qed.

(** [sum(xs) == k] and [sum(xs) <= k] for an integer [k]. *)
Lemma sat_sum_eq v xs k n : sat v (mkConstr (lsum xs) EQ (lnum k) n) <-> sumv v xs = k.
Proof.
  unfold sat, eval. cbn [sense lhs rhs]. rewrite eval_terms_lsum.
  cbn [lnum terms const lsum eval_terms fold_right]. apply Qeq_inject_Z_const.
Qed.

Lemma sat_sum_le v xs k n : sat v (mkConstr (lsum xs) LE (lnum k) n) <-> (sumv v xs <= k)%Z.
Proof.
  unfold sat, eval. cbn [sense lhs rhs]. rewrite eval_terms_lsum.
  cbn [lnum terms const lsum eval_terms fold_right]. apply Qle_inject_Z_const.
Qed.

(** [x == 0], [x <= y] and [x == y] for variables. *)
Ltac sat_norm :=
  unfold sat, eval;
  cbn [sense lhs rhs lvar lnum lterm lfrac lsub ladd lscale terms const eval_terms
       fold_right map app fst snd];
  unfold Qeq, Qle, Qplus, Qmult, inject_Z;
  cbn [Qnum Qden Pos.mul].

Lemma sat_var_eq0 v x n : sat v (mkConstr (lvar x) EQ (lnum 0) n) <-> v x = 0.
Proof. sat_norm. lia. Qed.

Lemma sat_var_le v x y n : sat v (mkConstr (lvar x) LE (lvar y) n) <-> (v x <= v y)%Z.
Proof. sat_norm. lia. Qed.

Lemma sat_var_eq v x y n : sat v (mkConstr (lvar x) EQ (lvar y) n) <-> v x = v y.
Proof. sat_norm. lia. Qed.

Lemma sat_two_eq1 v x y n :
  sat v (mkConstr (ladd (lvar x) (lvar y)) EQ (lnum 1) n) <-> v x + v y = 1.
Proof. sat_norm. lia. Qed.

Lemma solution_sat s v c : solution s v -> In c (mconstrs s) -> sat v c.
Proof. intros [_ H] Hin. rewrite Forall_forall in H. now apply H. Qed.

Lemma solution_binary s v x :
  solution s v -> (x < List.length (mvars s))%nat -> binary v x.
Proof. intros [H _]. apply H. Qed.

Lemma sumv_app v xs ys : sumv v (xs ++ ys) = sumv v xs + sumv v ys.
Proof. unfold sumv. induction xs as [|x xs IH]; simpl; [reflexivity | rewrite IH; lia]. Qed.

(** A sum over keys: each key contributes the value of its variable. *)
Lemma sumv_flat_map_present {K} (variables : VarDict) v (name : K -> string) (ks : list K) :
  sumv v (flat_map (fun k => present variables (name k)) ks)
  = fold_right (fun k acc => x_value variables v (name k) + acc) 0 ks.
Proof.
  induction ks as [|k ks IH]; simpl; [reflexivity|].
  rewrite sumv_app, IH. unfold present, x_value.
  destruct (vget (name k) variables); simpl; lia.
Qed.

(** If values in {0, 1} sum to 1 over a duplicate-free list of keys,
    exactly one key has value 1. *)
Lemma sum_one_unique {K} (f : K -> Z) (ks : list K) :
  NoDup ks ->
  (forall k, In k ks -> f k = 0 \/ f k = 1) ->
  fold_right (fun k acc => f k + acc) 0 ks = 1 ->
  exists k, In k ks /\ f k = 1 /\ forall k', In k' ks -> k' <> k -> f k' = 0.
Proof.
  induction ks as [|k ks IH]; intros Hnd Hb Hs; simpl in Hs; [lia|].
  inversion Hnd as [|? ? Hnin Hnd']; subst.
  assert (Hnn : forall l, (forall q, In q l -> f q = 0 \/ f q = 1) ->
                          0 <= fold_right (fun q acc => f q + acc) 0 l).
  { induction l as [|q l IHl]; intros Hq; simpl; [lia|].
    assert (0 <= fold_right (fun q acc => f q + acc) 0 l)
      by (apply IHl; intros; apply Hq; now right).
    destruct (Hq q (or_introl eq_refl)); lia. }
  assert (Hz : forall l, (forall q, In q l -> f q = 0 \/ f q = 1) ->
                         fold_right (fun q acc => f q + acc) 0 l = 0 ->
                         forall q, In q l -> f q = 0).
  { induction l as [|q l IHl]; intros Hq H0 q' Hq'; [contradiction|].
    simpl in H0.
    assert (0 <= fold_right (fun q acc => f q + acc) 0 l)
      by (apply Hnn; intros; apply Hq; now right).
    destruct (Hq q (or_introl eq_refl)) as [E|E]; [|lia].
    destruct Hq' as [<-|Hq']; [assumption|].
    apply IHl; [intros; apply Hq; now right | lia | assumption]. }
  assert (Hks : forall q, In q ks -> f q = 0 \/ f q = 1) by (intros; apply Hb; now right).
  destruct (Hb k (or_introl eq_refl)) as [E|E].
  - destruct (IH Hnd' Hks) as (k0 & Hin & H1 & Hrest); [lia|].
    exists k0. repeat split; [now right | assumption |].
    intros k' [<-|Hk'] Hne; [assumption | now apply Hrest].
  - exists k. repeat split; [now left | assumption |].
    intros k' [<-|Hk'] Hne; [congruence|].
    apply (Hz ks Hks); [lia | assumption].
Qed.

Lemma flat_map_prod {A B C} (g : A -> B -> list C) (xs : list A) (ys : list B) :
  flat_map (fun x => flat_map (fun y => g x y) ys) xs
  = flat_map (fun p => g (fst p) (snd p)) (list_prod xs ys).
Proof.
  induction xs as [|x xs IH]; simpl; [reflexivity|].
  rewrite flat_map_app, IH. f_equal. clear IH.
  induction ys as [|y ys IHy]; simpl; [reflexivity | now rewrite IHy].
Qed.

Lemma x_value_binary variables v s name :
  vars_bounded variables s -> solution s v ->
  x_value variables v name = 0 \/ x_value variables v name = 1.
Proof.
  intros Hb Hs. unfold x_value. destruct (vget name variables) as [x|] eqn:E; [|now left].
  eapply solution_binary; [exact Hs | eapply Hb; exact E].
Qed.

Lemma vars_bounded_extends variables s s' :
  vars_bounded variables s -> extends s s' -> vars_bounded variables s'.
Proof.
  intros H He n x Hx. specialize (H n x Hx). apply extends_nvars in He. lia.
Qed.

(* ================================================================== *)
(** ** The variables created by [build_model] *)
(* ================================================================== *)

Lemma pres_ret {B} (P : B -> State -> Prop) : pres P (fun b => ret b).
Proof. intros b s b' s' HP [= <- <-]. exact HP. Qed.

Lemma new_var_bounded name :
  pres vars_bounded (fun variables => v <- addVar name ;; ret (vset name v variables)).
Proof.
  intros d s d' s' HP Hrun. cbv [bind addVar ret] in Hrun. injection Hrun as <- <-.
  intros n x Hx. cbn [mvars]. rewrite length_app. simpl.
  destruct (string_dec n name) as [->|Hne].
  - rewrite vget_vset_same in Hx. injection Hx as <-. lia.
  - rewrite vget_vset_other in Hx by assumption. specialize (HP n x Hx). lia.
Qed.

Lemma new_var_keeps key name :
  pres (fun d _ => vget key d <> None)
       (fun variables => v <- addVar name ;; ret (vset name v variables)).
Proof.
  intros d s d' s' HP Hrun. cbv [bind addVar ret] in Hrun. injection Hrun as <- <-.
  now apply vget_vset_some.
Qed.

Lemma new_var_sets name :
  sets (fun d => vget name d <> None)
       (fun variables => v <- addVar name ;; ret (vset name v variables)).
Proof.
  intros d s d' s' Hrun. cbv [bind addVar ret] in Hrun. injection Hrun as <- <-.
  now rewrite vget_vset_same.
Qed.

Lemma create_variables_bounded df ts ds s variables s' :
  create_variables df ts ds s = Ok variables s' -> vars_bounded variables s'.
Proof.
  intros H. unfold create_variables in H.
  eapply (foldM_pres vars_bounded); only 3: exact H; [|intros n x; discriminate].
  intros row _. cbv beta zeta. destruct (Sections row =? 0)%Z; [apply pres_ret|].
  repeat (apply foldM_pres; intros ? _). apply new_var_bounded.
Qed.

Lemma create_variables_present df ts ds s variables s' row section_id part day slot :
  create_variables df ts ds s = Ok variables s' ->
  In row df -> In section_id (Py.range1 (Sections row)) -> In part parts12 ->
  In day ds -> In slot ts ->
  vget (X_name (Course row) (Instructor row) section_id part day slot) variables <> None.
Proof.
  intros H Hrow Hsec Hpart Hday Hslot. unfold create_variables in H.
  set (key := X_name (Course row) (Instructor row) section_id part day slot).
  assert (Hkeep : forall r, pres (fun d _ => vget key d <> None)
            (fun variables =>
               if (Sections r =? 0)%Z then ret variables
               else foldM (fun variables section_id =>
                      foldM (fun variables part =>
                        foldM (fun variables day =>
                          foldM (fun variables slot =>
                            v <- addVar (X_name (Course r) (Instructor r) section_id
                                           part day slot) ;;
                            ret (vset (X_name (Course r) (Instructor r) section_id
                                         part day slot) v variables))
                          ts variables) ds variables) parts12 variables)
                    (Py.range1 (Sections r)) variables)).
  { intros r. destruct (Sections r =? 0)%Z; [apply pres_ret|].
    repeat (apply foldM_pres; intros ? _). apply new_var_keeps. }
  eapply (foldM_sets (fun d => vget key d <> None)); only 4: exact H; [exact Hrow | |].
  - intros r. apply Hkeep.
  - cbv beta zeta. apply Py_range1_In in Hsec.
    destruct (Sections row =? 0)%Z eqn:E; [lia|].
    apply (foldM_sets _ _ _ section_id); [now apply Py_range1_In | |].
    { intros y. repeat (apply foldM_pres; intros ? _). apply new_var_keeps. }
    apply (foldM_sets _ _ _ part); [assumption | |].
    { intros y. repeat (apply foldM_pres; intros ? _). apply new_var_keeps. }
    apply (foldM_sets _ _ _ day); [assumption | |].
    { intros y. repeat (apply foldM_pres; intros ? _). apply new_var_keeps. }
    apply (foldM_sets _ _ _ slot); [assumption | |].
    { intros y. apply new_var_keeps. }
    apply new_var_sets.
Qed.

Lemma NoDup_list_prod {A B} (l : list A) (l' : list B) :
  NoDup l -> NoDup l' -> NoDup (list_prod l l').
Proof.
  intros Hl Hl'. induction Hl as [|a l Hnin Hl IH]; simpl; [constructor|].
  apply NoDup_app.
  - clear -Hl'. induction Hl' as [|b l' Hb Hl' IH]; simpl; constructor; [|assumption].
    rewrite in_map_iff. intros (b' & [= <-] & Hb'). contradiction.
  - assumption.
  - intros [a' b] H1 H2. apply in_map_iff in H1 as (b' & [= <- <-] & _).
    apply in_prod_iff in H2 as [H2 _]. contradiction.
Qed.

Lemma NoDup_days_main : NoDup days_main.
Proof. repeat constructor; simpl; intuition discriminate. Qed.

Lemma NoDup_time_slots_main : NoDup time_slots_main.
Proof. repeat constructor; simpl; intuition discriminate. Qed.

(* ================================================================== *)
(** ** The stages of [build_model] *)
(* ================================================================== *)

Lemma build_model_stages df wb ts ds cm tm s0 variables s :
  build_model df wb ts ds cm tm s0 = Ok variables s ->
  exists s1 s2 s3 s4 s5 s6 s7,
    create_variables df ts ds s0 = Ok variables s1
    /\ add_basic_constraints df variables ts ds s1 = Ok tt s2
    /\ add_balance_constraints df variables ts ds wb tm s2 = Ok tt s3
    /\ add_pattern_constraints df variables ts ds s3 = Ok tt s4
    /\ add_course_block_constraints df variables ts ds s4 = Ok tt s5
    /\ add_consecutive_slots_constraints df variables ts ds s5 = Ok tt s6
    /\ add_jersey_city_constraints df variables ts ds tm s6 = Ok tt s7
    /\ add_preference_constraints df variables ts ds wb cm s7 = Ok tt s.
Proof.
  unfold build_model. intros H.
  apply bind_Ok in H as (vars & s1 & H1 & H).
  apply bind_Ok in H as ([] & s2 & H2 & H).
  apply bind_Ok in H as ([] & s3 & H3 & H).
  apply bind_Ok in H as ([] & s4 & H4 & H).
  apply bind_Ok in H as ([] & s5 & H5 & H).
  apply bind_Ok in H as ([] & s6 & H6 & H).
  apply bind_Ok in H as ([] & s7 & H7 & H).
  apply bind_Ok in H as ([] & s8 & H8 & H).
  injection H as <- <-.
  now exists s1, s2, s3, s4, s5, s6, s7.
Qed.

(** What the stages leave behind: how the final model extends the
    intermediate ones. *)
Lemma build_model_extends df wb ts ds cm tm s0 variables s :
  build_model df wb ts ds cm tm s0 = Ok variables s ->
  exists s1 s2 s3 s4 s5 s6 s7,
    (create_variables df ts ds s0 = Ok variables s1
     /\ add_basic_constraints df variables ts ds s1 = Ok tt s2
     /\ add_balance_constraints df variables ts ds wb tm s2 = Ok tt s3
     /\ add_pattern_constraints df variables ts ds s3 = Ok tt s4
     /\ add_preference_constraints df variables ts ds wb cm s7 = Ok tt s)
    /\ extends s1 s /\ extends s2 s /\ extends s3 s /\ extends s4 s
    /\ extends s5 s /\ extends s6 s /\ extends s7 s.
Proof.
  intros H. apply build_model_stages in H
    as (s1 & s2 & s3 & s4 & s5 & s6 & s7 & H1 & H2 & H3 & H4 & H5 & H6 & H7 & H8).
  pose proof (mono_Ok _ _ _ _ (mono_add_basic_constraints _ _ _ _) H2) as E2.
  pose proof (mono_Ok _ _ _ _ (mono_add_balance_constraints _ _ _ _ _ _) H3) as E3.
  pose proof (mono_Ok _ _ _ _ (mono_add_pattern_constraints _ _ _ _) H4) as E4.
  pose proof (mono_Ok _ _ _ _ (mono_add_course_block_constraints _ _ _ _) H5) as E5.
  pose proof (mono_Ok _ _ _ _ (mono_add_consecutive_slots_constraints _ _ _ _) H6) as E6.
  pose proof (mono_Ok _ _ _ _ (mono_add_jersey_city_constraints _ _ _ _ _) H7) as E7.
  pose proof (mono_Ok _ _ _ _ (mono_add_preference_constraints _ _ _ _ _ _) H8) as E8.
  exists s1, s2, s3, s4, s5, s6, s7.
  assert (extends s6 s) by (eapply extends_trans; eassumption).
  assert (extends s5 s) by (eapply extends_trans; eassumption).
  assert (extends s4 s) by (eapply extends_trans; eassumption).
  assert (extends s3 s) by (eapply extends_trans; eassumption).
  assert (extends s2 s) by (eapply extends_trans; eassumption).
  assert (extends s1 s) by (eapply extends_trans; eassumption).
  split; [repeat split; assumption|].
  repeat (split; [assumption|]). assumption.
Qed.

Lemma build_vars_bounded df wb ts ds cm tm s0 variables s :
  build_model df wb ts ds cm tm s0 = Ok variables s -> vars_bounded variables s.
Proof.
  intros H. apply build_model_extends in H
    as (s1 & s2 & s3 & s4 & s5 & s6 & s7 & (H1 & _) & E1 & _).
  eapply vars_bounded_extends; [|exact E1]. eapply create_variables_bounded; exact H1.
Qed.

(* ================================================================== *)
(** ** C1: every section part is scheduled exactly once *)
(* ================================================================== *)

Lemma when_true_Ok (m : M unit) s s' : when true m s = Ok tt s' -> m s = Ok tt s'.
Proof. exact (fun H => H). Qed.

Lemma addConstr_In l sn r n s s' :
  addConstr l sn r n s = Ok tt s' -> In (mkConstr l sn r n) (mconstrs s').
Proof.
  unfold addConstr. intros [= <-]. cbn [mconstrs]. apply in_or_app. right. now left.
Qed.

Lemma section_vars_nonempty variables ts ds c i sec part day slot :
  In day ds -> In slot ts ->
  vget (X_name c i sec part day slot) variables <> None ->
  nonempty (section_vars variables ts ds c i sec part) = true.
Proof.
  intros Hd Hs Hx.
  destruct (vget (X_name c i sec part day slot) variables) as [x|] eqn:E; [|contradiction].
  assert (Hin : In x (section_vars variables ts ds c i sec part)).
  { unfold section_vars. apply in_flat_map. exists day. split; [assumption|].
    apply in_flat_map. exists slot. split; [assumption|].
    unfold present. rewrite E. now left. }
  destruct (section_vars variables ts ds c i sec part); [contradiction | reflexivity].
Qed.

Lemma add_basic_unique_slot df variables ts ds s1 s2 row section_id part :
  add_basic_constraints df variables ts ds s1 = Ok tt s2 ->
  In row df -> In section_id (Py.range1 (Sections row)) -> In part parts12 ->
  nonempty (section_vars variables ts ds (Course row) (Instructor row) section_id part)
  = true ->
  In (mkConstr
        (lsum (section_vars variables ts ds (Course row) (Instructor row) section_id part))
        EQ (lnum 1)
        (Py.cat ["unique_slot_"; Course row; "_"; Instructor row; "_";
                 Py.str section_id; "_"; Py.str part]))
     (mconstrs s2).
Proof.
  intros H Hrow Hsec Hpart Hne. unfold add_basic_constraints in H.
  apply bind_Ok in H as ([] & sa & Ha & Hb).
  eapply extends_constr.
  { eapply mono_Ok; [|exact Hb]. mono_tac. }
  clear Hb. eapply for_In in Ha as (t1 & t2 & _ & Hrun & E2); [| intros; mono_tac | exact Hrow].
  eapply extends_constr; [exact E2|]. clear E2.
  cbv beta zeta in Hrun.
  assert (E0 : (Sections row =? 0)%Z = false) by (apply Py_range1_In in Hsec; lia).
  rewrite E0 in Hrun.
  eapply for_In in Hrun as (t3 & t4 & _ & Hrun & E2); [| intros; mono_tac | exact Hsec].
  eapply extends_constr; [exact E2|]. clear E2.
  eapply for_In in Hrun as (t5 & t6 & _ & Hrun & E2); [| intros; mono_tac | exact Hpart].
  eapply extends_constr; [exact E2|]. clear E2.
  cbv beta zeta in Hrun. rewrite Hne in Hrun.
  apply when_true_Ok in Hrun. eapply addConstr_In. exact Hrun.
Qed.

(** C1. For every row of the course/instructor frame, every section index
    1..N of it and every part in {1, 2}: the 40 assignment variables of
    that (section, part) exist, the built model contains the constraint
    that their sum over all (day, slot) pairs equals 1, and in every
    solution exactly one (day, slot) pair carries the value 1. *)
Theorem C1_exactly_one_slot :
  forall df wb cm tm variables s row section_id part,
    build df wb cm tm = Ok variables s ->
    In row df ->
    In section_id (Py.range1 (Sections row)) ->
    In part parts12 ->
    (forall day slot, In day days_main -> In slot time_slots_main ->
       vget (X_name (Course row) (Instructor row) section_id part day slot) variables
       <> None)
    /\ In (mkConstr
             (lsum (section_vars variables time_slots_main days_main
                      (Course row) (Instructor row) section_id part))
             EQ (lnum 1)
             (Py.cat ["unique_slot_"; Course row; "_"; Instructor row; "_";
                      Py.str section_id; "_"; Py.str part]))
          (mconstrs s)
    /\ forall v, solution s v ->
         exists day slot,
           In day days_main /\ In slot time_slots_main
           /\ x_value variables v
                (X_name (Course row) (Instructor row) section_id part day slot) = 1
           /\ forall day' slot',
                In day' days_main -> In slot' time_slots_main ->
                (day', slot') <> (day, slot) ->
                x_value variables v
                  (X_name (Course row) (Instructor row) section_id part day' slot') = 0.
Proof.
  intros df wb cm tm variables s row section_id part Hb Hrow Hsec Hpart.
  unfold build in Hb.
  pose proof (build_vars_bounded _ _ _ _ _ _ _ _ _ Hb) as Hbound.
  apply build_model_extends in Hb
    as (s1 & s2 & s3 & s4 & s5 & s6 & s7 & (H1 & H2 & _) & E1 & E2 & _).
  assert (Hpres : forall day slot, In day days_main -> In slot time_slots_main ->
            vget (X_name (Course row) (Instructor row) section_id part day slot) variables
            <> None).
  { intros day slot Hd Hs. eapply create_variables_present; eassumption. }
  assert (Hc : In (mkConstr
             (lsum (section_vars variables time_slots_main days_main
                      (Course row) (Instructor row) section_id part))
             EQ (lnum 1)
             (Py.cat ["unique_slot_"; Course row; "_"; Instructor row; "_";
                      Py.str section_id; "_"; Py.str part]))
          (mconstrs s)).
  { eapply extends_constr; [exact E2|].
    eapply add_basic_unique_slot; try eassumption.
    apply (section_vars_nonempty _ _ _ _ _ _ _ "Monday" "8:30-10:00 AM");
      [now left | now left |].
    apply Hpres; now left. }
  split; [exact Hpres | split; [exact Hc|]].
  intros v Hsol.
  pose proof (solution_sat _ _ _ Hsol Hc) as Hsat.
  apply sat_sum_eq in Hsat. unfold section_vars in Hsat.
  rewrite (flat_map_prod
             (fun day slot =>
                present variables
                  (X_name (Course row) (Instructor row) section_id part day slot)))
    in Hsat.
  rewrite (sumv_flat_map_present variables v
             (fun p => X_name (Course row) (Instructor row) section_id part
                         (fst p) (snd p))) in Hsat.
  apply (sum_one_unique
           (fun p => x_value variables v
                       (X_name (Course row) (Instructor row) section_id part
                          (fst p) (snd p)))) in Hsat.
  - destruct Hsat as ([day slot] & Hin & Hone & Hrest).
    apply in_prod_iff in Hin as [Hd Hs].
    exists day, slot. repeat split; try assumption.
    intros day' slot' Hd' Hs' Hne.
    apply (Hrest (day', slot')); [now apply in_prod_iff | assumption].
  - apply NoDup_list_prod; [apply NoDup_days_main | apply NoDup_time_slots_main].
  - intros p _. eapply x_value_binary; eassumption.
Qed.

Lemma is_ok_eq (r : Res VarDict) : is_ok r = true -> r = Ok (ok_vars r) (state_of r).
Proof. destruct r; [reflexivity | discriminate]. Qed.

Lemma tiny_build_ok : tiny_build = Ok tiny_vars tiny_state.
Proof. apply is_ok_eq. vm_compute. reflexivity. Qed.

Lemma C1_exactly_one_slot_witness :
  tiny_build = Ok tiny_vars tiny_state
  /\ In tiny_row tiny_df
  /\ In 1 (Py.range1 (Sections tiny_row))
  /\ In 2 parts12
  /\ In (mkConstr
           (lsum (section_vars tiny_vars time_slots_main days_main
                    (Course tiny_row) (Instructor tiny_row) 1 2))
           EQ (lnum 1)
           (Py.cat ["unique_slot_"; Course tiny_row; "_"; Instructor tiny_row; "_";
                    Py.str 1; "_"; Py.str 2]))
        (mconstrs tiny_state).
Proof.
  pose proof tiny_build_ok as Hb.
  assert (Hrow : In tiny_row tiny_df) by (now left).
  assert (Hsec : In 1 (Py.range1 (Sections tiny_row))) by (now left).
  assert (Hpart : In 2 parts12) by (right; now left).
  split; [exact Hb | split; [exact Hrow | split; [exact Hsec | split; [exact Hpart|]]]].
  exact (proj1 (proj2 (C1_exactly_one_slot tiny_df tiny_wb tiny_cap [] tiny_vars tiny_state
                         tiny_row 1 2 Hb Hrow Hsec Hpart))).
Defined.

(* ================================================================== *)
(** ** C2: meeting patterns *)
(* ================================================================== *)

Lemma foldM_app {A B} (f : B -> A -> M B) (l1 l2 : list A) b s :
  foldM f (l1 ++ l2) b s = bind (foldM f l1 b) (fun b' => foldM f l2 b') s.
Proof.
  revert b s. induction l1 as [|x l1 IH]; intros b s; simpl; [reflexivity|].
  unfold bind. destruct (f b x s) as [b1 s1 | e s1]; [|reflexivity].
  rewrite IH. reflexivity.
Qed.

Lemma foldM_map {A B C} (f : B -> C -> M B) (h : A -> C) (l : list A) b s :
  foldM f (map h l) b s = foldM (fun b x => f b (h x)) l b s.
Proof.
  revert b s. induction l as [|x l IH]; intros b s; simpl; [reflexivity|].
  unfold bind. destruct (f b (h x) s) as [b1 s1 | e s1]; [apply IH | reflexivity].
Qed.

Lemma foldM_flat_map {A B C} (h : B -> A -> M B) (G : B -> C -> M B) (g : A -> list C)
  (xs : list A) :
  (forall x b s, h b x s = foldM G (g x) b s) ->
  forall b s, foldM h xs b s = foldM G (flat_map g xs) b s.
Proof.
  intros H. induction xs as [|x xs IH]; intros b s; simpl; [reflexivity|].
  rewrite foldM_app. unfold bind. rewrite H.
  destruct (foldM G (g x) b s) as [b1 s1 | e s1]; [apply IH | reflexivity].
Qed.

(** The four nested loops visit the combinations of [quads] in order. *)
Lemma create_pairs_flat ts ds c i sec g u s :
  create_pairs ts ds c i sec g u s
  = foldM (fun acc q =>
             let '(day1, slot1, day2, slot2) := q in
             pair_step ts c i sec g u acc day1 slot1 day2 slot2)
          (quads ts ds) ([], []) s.
Proof.
  unfold create_pairs, quads.
  apply foldM_flat_map. intros day1 b1 s1.
  apply foldM_flat_map. intros slot1 b2 s2.
  apply foldM_flat_map. intros day2 b3 s3.
  now rewrite foldM_map.
Qed.

Lemma pair_step_run ts c i sec g u d pairs day1 slot1 day2 slot2 st :
  exists st',
    pair_step ts c i sec g u (d, pairs) day1 slot1 day2 slot2 st
    = Ok (ydict_set (day1, slot1, day2, slot2) (List.length (mvars st)) d,
          pairs ++ [List.length (mvars st)]) st'
    /\ mvars st' = mvars st ++ [Y_name c i sec day1 slot1 day2 slot2]
    /\ mconstrs st'
       = mconstrs st
         ++ [pair_constr ts (day1, slot1, day2, slot2) (List.length (mvars st)) g u].
Proof.
  unfold pair_step, pair_constr, matches_grad, matches_undergrad.
  cbv [bind addVar ret].
  destruct (Py.eqb day1 day2); cbn [negb andb].
  - destruct (grad_ok ts day1 slot1 slot2); cbv [addConstr];
      eexists; (split; [reflexivity | split; reflexivity]).
  - destruct (Py.eqb slot1 slot2); [destruct (undergrad_ok day1 day2)|];
      cbv [addConstr]; eexists; (split; [reflexivity | split; reflexivity]).
Qed.

Lemma run_quads ts c i sec g u (qs : list Quad) :
  forall d pairs st,
  exists d' st',
    foldM (fun acc q =>
             let '(day1, slot1, day2, slot2) := q in
             pair_step ts c i sec g u acc day1 slot1 day2 slot2)
          qs (d, pairs) st
    = Ok (d', pairs ++ seq (List.length (mvars st)) (List.length qs)) st'
    /\ mvars st' = mvars st ++ map (Y_name_of c i sec) qs
    /\ mconstrs st' = mconstrs st ++ pair_constrs ts g u (List.length (mvars st)) qs.
Proof.
  induction qs as [|[[[day1 slot1] day2] slot2] qs IH]; intros d pairs st.
  - exists d, st. simpl. now rewrite !app_nil_r.
  - destruct (pair_step_run ts c i sec g u d pairs day1 slot1 day2 slot2 st)
      as (st1 & Hrun & Hv & Hc).
    destruct (IH (ydict_set (day1, slot1, day2, slot2) (List.length (mvars st)) d)
                 (pairs ++ [List.length (mvars st)]) st1) as (d' & st' & Hrun' & Hv' & Hc').
    exists d', st'.
    assert (Hlen : List.length (mvars st1) = S (List.length (mvars st)))
      by (rewrite Hv, length_app; simpl; lia).
    rewrite Hlen in Hrun', Hc'.
    split; [|split].
    + cbn [foldM]. unfold bind. rewrite Hrun. rewrite Hrun'.
      now rewrite <- app_assoc.
    + rewrite Hv', Hv, <- app_assoc. reflexivity.
    + rewrite Hc', Hc, <- app_assoc. reflexivity.
Qed.

Lemma pair_constrs_nth ts g u (base : nat) qs k q :
  nth_error qs k = Some q ->
  In (pair_constr ts q (base + k)%nat g u) (pair_constrs ts g u base qs).
Proof.
  revert base k. induction qs as [|q0 qs IH]; intros base [|k] H; simpl in H;
    try discriminate.
  - injection H as ->. rewrite Nat.add_0_r. now left.
  - right. replace (base + S k)%nat with (S base + k)%nat by lia. now apply IH.
Qed.

Lemma addVar_run n s a s' :
  addVar n s = Ok a s' ->
  a = List.length (mvars s) /\ mvars s' = mvars s ++ [n] /\ mconstrs s' = mconstrs s.
Proof. unfold addVar. intros [= <- <-]. repeat split. Qed.

Lemma nth_error_app_new {A} (l : list A) (x : A) : nth_error (l ++ [x]) (List.length l) = Some x.
Proof. rewrite nth_error_app2 by lia. now rewrite Nat.sub_diag. Qed.

Lemma section_patterns_spec variables ts ds c i sec t1 t2 :
  section_patterns variables ts ds c i sec t1 = Ok tt t2 ->
  let grad := List.length (mvars t1) in
  let undergrad := S grad in
  let base := S (S grad) in
  nth_error (mvars t2) grad = Some (Py.cat ["Grad_"; c; "_"; i; "_"; Py.str sec])
  /\ nth_error (mvars t2) undergrad
     = Some (Py.cat ["Undergrad_"; c; "_"; i; "_"; Py.str sec])
  /\ (forall k q, nth_error (quads ts ds) k = Some q ->
        nth_error (mvars t2) (base + k)%nat = Some (Y_name_of c i sec q)
        /\ In (pair_constr ts q (base + k)%nat grad undergrad) (mconstrs t2))
  /\ In (mkConstr (lsum (seq base (List.length (quads ts ds)))) EQ (lnum 1)
           (Py.cat ["select_one_pair_"; c; "_"; i; "_"; Py.str sec]))
        (mconstrs t2)
  /\ In (mkConstr (ladd (lvar grad) (lvar undergrad)) EQ (lnum 1)
           (Py.cat ["select_one_pattern_"; c; "_"; i; "_"; Py.str sec]))
        (mconstrs t2).
Proof.
  intros H grad undergrad base. unfold section_patterns in H.
  apply bind_Ok in H as (g & ta & Hg & H).
  apply addVar_run in Hg as (Eg & Hva & Hca).
  apply bind_Ok in H as (u & tb & Hu & H).
  apply addVar_run in Hu as (Eu & Hvb & Hcb).
  apply bind_Ok in H as ([d pairs] & tc & Hp & H).
  rewrite create_pairs_flat in Hp.
  destruct (run_quads ts c i sec g u (quads ts ds) [] [] tb)
    as (d' & tc' & Hrun & Hvc & Hcc).
  pose proof (eq_trans (eq_sym Hrun) Hp) as Heq. clear Hp Hrun.
  injection Heq as <- <- <-. cbn [app] in H.
  assert (Elen_b : List.length (mvars tb) = base).
  { rewrite Hvb, Hva, !length_app. simpl. unfold base, grad. lia. }
  assert (Eu' : u = undergrad).
  { rewrite Eu, Hva, length_app. simpl. unfold undergrad, grad. lia. }
  rewrite Elen_b in *. clear Eu. subst g u.
  apply bind_Ok in H as ([] & td & Hd & H).
  apply bind_Ok in H as ([] & te & He & H).
  apply bind_Ok in H as ([] & tf & Hf & H).
  apply bind_Ok in H as ([] & tg & Hpair & Hpat).
  assert (Ecd : extends tc' td)
    by (eapply mono_Ok; [apply mono_add_no_8_30_constraints | exact Hd]).
  assert (Ede : extends td te)
    by (eapply mono_Ok; [|exact He]; mono_tac; apply mono_yget_all).
  assert (Eef : extends te tf)
    by (eapply mono_Ok; [|exact Hf]; mono_tac; apply mono_yget_all).
  assert (Efg : extends tf tg) by (eapply mono_Ok; [apply mono_addConstr | exact Hpair]).
  assert (Eg2 : extends tg t2) by (eapply mono_Ok; [apply mono_addConstr | exact Hpat]).
  assert (Ec2 : extends tc' t2) by eauto 10 using extends_trans.
  assert (Eb : extends tb tc').
  { split; [now eexists; exact Hvc | now eexists; exact Hcc]. }
  assert (Ea : extends ta tb).
  { split; [now eexists; exact Hvb | exists []; now rewrite app_nil_r]. }
  assert (Ea2 : extends ta t2) by eauto 10 using extends_trans.
  assert (Eb2 : extends tb t2) by (eapply extends_trans; eassumption).
  split; [|split; [|split; [|split]]].
  - eapply extends_name; [exact Ea2|]. rewrite Hva. apply nth_error_app_new.
  - eapply extends_name; [exact Eb2|]. rewrite Hvb.
    replace undergrad with (List.length (mvars ta))
      by (rewrite Hva, length_app; simpl; unfold undergrad, grad; lia).
    apply nth_error_app_new.
  - intros k q Hq. split.
    + eapply extends_name; [exact Ec2|]. rewrite Hvc.
      rewrite nth_error_app2 by lia.
      replace (base + k - List.length (mvars tb))%nat with k by lia.
      rewrite nth_error_map, Hq. reflexivity.
    + eapply extends_constr; [exact Ec2|]. rewrite Hcc. apply in_or_app. right.
      now apply pair_constrs_nth.
  - eapply extends_constr; [exact Eg2|]. eapply addConstr_In. exact Hpair.
  - eapply addConstr_In. exact Hpat.
Qed.

Lemma index_nth x l i : Py.index x l = Some i -> nth_error l i = Some x.
Proof.
  revert i. induction l as [|y l IH]; intros i H; simpl in H; [discriminate|].
  destruct (Py.eqb y x) eqn:E.
  - injection H as <-. apply Py_eqb_eq in E. now subst.
  - destruct (Py.index x l) as [j|]; [|discriminate]. injection H as <-.
    simpl. now apply IH.
Qed.

Lemma nth_index x l i : NoDup l -> nth_error l i = Some x -> Py.index x l = Some i.
Proof.
  intros Hnd. revert i. induction Hnd as [|y l Hnin Hnd IH]; intros [|i] H; simpl in H;
    try discriminate.
  - injection H as ->. simpl. now rewrite Py_eqb_refl.
  - simpl. destruct (Py.eqb y x) eqn:E.
    + apply Py_eqb_eq in E. subst. apply nth_error_In in H. contradiction.
    + now rewrite (IH _ H).
Qed.

Lemma next_slot_follows ts slot1 slot2 :
  NoDup ts -> next_slot ts slot1 slot2 = true <-> follows ts slot1 slot2.
Proof.
  intros Hnd. unfold next_slot, follows. split.
  - destruct (Py.index slot2 ts) as [i2|] eqn:E2; [|discriminate].
    destruct (Py.index slot1 ts) as [i1|] eqn:E1; [|discriminate].
    intros H. apply Nat.eqb_eq in H. subst i2. exists i1.
    apply index_nth in E1, E2. rewrite Nat.add_1_r in E2. now split.
  - intros (i & H1 & H2).
    rewrite (nth_index _ _ _ Hnd H1), (nth_index _ _ _ Hnd H2).
    apply Nat.eqb_eq. lia.
Qed.

Lemma matches_grad_iff ts q :
  NoDup ts -> matches_grad ts q = true <-> graduate_pattern ts q.
Proof.
  intros Hnd. destruct q as [[[day1 slot1] day2] slot2].
  unfold matches_grad, graduate_pattern, grad_ok.
  rewrite andb_true_iff, Py_eqb_eq.
  destruct (Py.eqb day1 "Friday") eqn:EF.
  - apply Py_eqb_eq in EF. rewrite andb_true_iff, Py_mem_In, (next_slot_follows _ _ _ Hnd).
    split.
    + intros (Hd & Hs & Hf). repeat split; try assumption. left. now split.
    + intros (Hd & Hf & [[_ Hin] | [Hne _]]); [|contradiction]. now repeat split.
  - apply Py_eqb_neq in EF. rewrite andb_true_iff, Py_mem_In, (next_slot_follows _ _ _ Hnd).
    split.
    + intros (Hd & Hs & Hf). repeat split; try assumption. right. now split.
    + intros (Hd & Hf & [[HF _] | [_ Hin]]); [contradiction|]. now repeat split.
Qed.

Lemma matches_undergrad_iff q : matches_undergrad q = true <-> undergraduate_pattern q.
Proof.
  destruct q as [[[day1 slot1] day2] slot2].
  unfold matches_undergrad, undergraduate_pattern, undergrad_ok, allowed_day_pairs.
  rewrite !andb_true_iff, !orb_true_iff, !andb_true_iff, negb_true_iff,
    !Py_mem_In, !Py_eqb_eq, Py_eqb_neq.
  simpl. split.
  - intros [[Hne Hs] H]. split; [assumption|].
    destruct H as [[[-> [<-|[<-|[]]]] | [-> [<-|[<-|[]]]]] | [-> ->]]; tauto.
  - intros [Hs H]. repeat split; try assumption.
    + destruct H as [E|[E|[E|[E|[E|[]]]]]]; injection E as <- <-; discriminate.
    + destruct H as [E|[E|[E|[E|[E|[]]]]]]; injection E as <- <-; tauto.
Qed.

Lemma graduate_not_undergraduate ts q :
  graduate_pattern ts q -> ~ undergraduate_pattern q.
Proof.
  destruct q as [[[day1 slot1] day2] slot2]. intros (-> & _) [_ H].
  unfold allowed_day_pairs in H. simpl in H.
  destruct H as [E|[E|[E|[E|[E|[]]]]]]; injection E as <- E; discriminate.
Qed.

Lemma Py_unique_map_In {A} (f : A -> string) (l : list A) (r : A) :
  In r l -> In (f r) (Py.unique (map f l)).
Proof. intros H. apply Py_unique_In. now apply in_map. Qed.

(** The run of the section body inside [add_pattern_constraints]. *)
Lemma add_pattern_section df variables ts ds s3 s4 course instructor row0 rest sec :
  add_pattern_constraints df variables ts ds s3 = Ok tt s4 ->
  In course (map Course df) -> In instructor (map Instructor df) ->
  filter (fun r => (Course r =? course) && (Instructor r =? instructor)) df
  = row0 :: rest ->
  In sec (Py.range1 (Sections row0)) ->
  exists t1 t2,
    section_patterns variables ts ds course instructor sec t1 = Ok tt t2
    /\ extends s3 t1 /\ extends t2 s4.
Proof.
  intros H Hc Hi Hf Hsec. unfold add_pattern_constraints in H.
  apply Py_unique_In in Hc, Hi.
  eapply for_In in H as (a1 & a2 & Ea & H & Ea');
    [| intros; mono_tac; apply mono_section_patterns | exact Hc].
  eapply for_In in H as (b1 & b2 & Eb & H & Eb');
    [| intros; mono_tac; apply mono_section_patterns | exact Hi].
  cbv zeta in H. rewrite Hf in H.
  eapply for_In in H as (c1 & c2 & Ec & H & Ec');
    [| intros; apply mono_section_patterns | exact Hsec].
  exists c1, c2. split; [exact H | split]; eauto 10 using extends_trans.
Qed.

Lemma pair_constr_sat ts q y grad undergrad v :
  NoDup ts ->
  sat v (pair_constr ts q y grad undergrad) -> v y = 1 ->
  (graduate_pattern ts q /\ 1 <= v grad) \/ (undergraduate_pattern q /\ 1 <= v undergrad).
Proof.
  intros Hnd Hsat Hy. unfold pair_constr in Hsat.
  destruct (matches_grad ts q) eqn:EG.
  - apply sat_var_le in Hsat. left. split; [now apply matches_grad_iff | lia].
  - destruct (matches_undergrad q) eqn:EU.
    + apply sat_var_le in Hsat. right. split; [now apply matches_undergrad_iff | lia].
    + apply sat_var_eq0 in Hsat. lia.
Qed.

Lemma nth_error_lt {A} (l : list A) k x : nth_error l k = Some x -> (k < List.length l)%nat.
Proof. intros H. apply nth_error_Some. congruence. Qed.

Lemma quads_In ts ds day1 slot1 day2 slot2 :
  In day1 ds -> In slot1 ts -> In day2 ds -> In slot2 ts ->
  exists k, nth_error (quads ts ds) k = Some (day1, slot1, day2, slot2).
Proof.
  intros H1 H2 H3 H4. apply In_nth_error. unfold quads.
  apply in_flat_map. exists day1. split; [assumption|].
  apply in_flat_map. exists slot1. split; [assumption|].
  apply in_flat_map. exists day2. split; [assumption|].
  apply in_map_iff. now exists slot2.
Qed.

(** C2. For every section (course, instructor, index 1..N): the model has
    the two pattern indicators constrained to sum to 1, the 1600 pairing
    variables constrained to sum to 1, and for every combination
    (day1, slot1, day2, slot2) the constraint of its pairing variable:
    bounded by the Graduate indicator when the combination is a graduate
    pattern, by the Undergraduate indicator when it is an undergraduate
    pattern, and forced to 0 otherwise.  Hence in every solution exactly
    one indicator and exactly one pairing variable are 1, and the selected
    pair matches the rules of the selected pattern. *)
Theorem C2_pattern_selection :
  forall df wb cm tm variables s course instructor row0 rest section_id,
    build df wb cm tm = Ok variables s ->
    In course (map Course df) ->
    In instructor (map Instructor df) ->
    filter (fun r => (Course r =? course) && (Instructor r =? instructor)) df
    = row0 :: rest ->
    In section_id (Py.range1 (Sections row0)) ->
    exists grad undergrad base : Var,
      nth_error (mvars s) grad
      = Some (Py.cat ["Grad_"; course; "_"; instructor; "_"; Py.str section_id])
      /\ nth_error (mvars s) undergrad
         = Some (Py.cat ["Undergrad_"; course; "_"; instructor; "_"; Py.str section_id])
      /\ In (mkConstr (ladd (lvar grad) (lvar undergrad)) EQ (lnum 1)
               (Py.cat ["select_one_pattern_"; course; "_"; instructor; "_";
                        Py.str section_id]))
            (mconstrs s)
      /\ In (mkConstr
               (lsum (seq base (List.length (quads time_slots_main days_main))))
               EQ (lnum 1)
               (Py.cat ["select_one_pair_"; course; "_"; instructor; "_";
                        Py.str section_id]))
            (mconstrs s)
      /\ (forall day1 slot1 day2 slot2,
            In day1 days_main -> In slot1 time_slots_main ->
            In day2 days_main -> In slot2 time_slots_main ->
            exists k, nth_error (quads time_slots_main days_main) k
                      = Some (day1, slot1, day2, slot2))
      /\ (forall k q,
            nth_error (quads time_slots_main days_main) k = Some q ->
            nth_error (mvars s) (base + k)%nat
            = Some (Y_name_of course instructor section_id q)
            /\ (graduate_pattern time_slots_main q ->
                In (mkConstr (lvar (base + k)%nat) LE (lvar grad) "") (mconstrs s))
            /\ (undergraduate_pattern q ->
                In (mkConstr (lvar (base + k)%nat) LE (lvar undergrad) "") (mconstrs s))
            /\ (~ graduate_pattern time_slots_main q -> ~ undergraduate_pattern q ->
                In (mkConstr (lvar (base + k)%nat) EQ (lnum 0) "") (mconstrs s)))
      /\ forall v, solution s v ->
           ((v grad = 1 /\ v undergrad = 0) \/ (v grad = 0 /\ v undergrad = 1))
           /\ exists k q,
                nth_error (quads time_slots_main days_main) k = Some q
                /\ v (base + k)%nat = 1
                /\ (forall k',
                      (k' < List.length (quads time_slots_main days_main))%nat ->
                      k' <> k -> v (base + k')%nat = 0)
                /\ ((graduate_pattern time_slots_main q /\ v grad = 1)
                    \/ (undergraduate_pattern q /\ v undergrad = 1)).
Proof.
  intros df wb cm tm variables s course instructor row0 rest section_id
    Hb Hc Hi Hf Hsec.
  unfold build in Hb.
  apply build_model_extends in Hb
    as (s1 & s2 & s3 & s4 & s5 & s6 & s7 & (_ & _ & _ & H4 & _) & _ & _ & _ & E4 & _).
  destruct (add_pattern_section _ _ _ _ _ _ _ _ _ _ _ H4 Hc Hi Hf Hsec)
    as (t1 & t2 & Hrun & _ & Et).
  assert (E2 : extends t2 s) by (eapply extends_trans; eassumption).
  apply section_patterns_spec in Hrun. cbv zeta in Hrun.
  destruct Hrun as (Hg & Hu & Hq & Hpair & Hpat).
  set (grad := List.length (mvars t1)) in *.
  set (undergrad := S grad) in *. set (base := S (S grad)) in *.
  set (Q := quads time_slots_main days_main) in *.
  pose proof NoDup_time_slots_main as Hnd.
  assert (HG : nth_error (mvars s) grad
               = Some (Py.cat ["Grad_"; course; "_"; instructor; "_"; Py.str section_id]))
    by (eapply extends_name; eassumption).
  assert (HU : nth_error (mvars s) undergrad
               = Some (Py.cat ["Undergrad_"; course; "_"; instructor; "_";
                               Py.str section_id]))
    by (eapply extends_name; eassumption).
  assert (HPat : In (mkConstr (ladd (lvar grad) (lvar undergrad)) EQ (lnum 1)
               (Py.cat ["select_one_pattern_"; course; "_"; instructor; "_";
                        Py.str section_id])) (mconstrs s))
    by (eapply extends_constr; eassumption).
  assert (HPair : In (mkConstr (lsum (seq base (List.length Q))) EQ (lnum 1)
               (Py.cat ["select_one_pair_"; course; "_"; instructor; "_";
                        Py.str section_id])) (mconstrs s))
    by (eapply extends_constr; eassumption).
  assert (HY : forall k q, nth_error Q k = Some q ->
             nth_error (mvars s) (base + k)%nat
             = Some (Y_name_of course instructor section_id q)
             /\ In (pair_constr time_slots_main q (base + k)%nat grad undergrad)
                   (mconstrs s)).
  { intros k q Hk. destruct (Hq k q Hk) as [A B]. split.
    - eapply extends_name; eassumption.
    - eapply extends_constr; eassumption. }
  exists grad, undergrad, base.
  split; [exact HG | split; [exact HU | split; [exact HPat | split; [exact HPair|]]]].
  split; [intros; now apply quads_In|].
  split.
  - intros k q Hk. destruct (HY k q Hk) as [A B]. split; [exact A|].
    unfold pair_constr in B. split; [|split].
    + intros HGp. apply (matches_grad_iff _ _ Hnd) in HGp. now rewrite HGp in B.
    + intros HUp.
      destruct (matches_grad time_slots_main q) eqn:EG.
      * apply (matches_grad_iff _ _ Hnd) in EG.
        now apply graduate_not_undergraduate in EG.
      * apply matches_undergrad_iff in HUp. now rewrite HUp in B.
    + intros HnG HnU.
      destruct (matches_grad time_slots_main q) eqn:EG;
        [apply (matches_grad_iff _ _ Hnd) in EG; contradiction|].
      destruct (matches_undergrad q) eqn:EU;
        [apply matches_undergrad_iff in EU; contradiction|].
      exact B.
  - intros v Hsol.
    assert (Bg : binary v grad)
      by (eapply solution_binary; [eassumption | eapply nth_error_lt; eassumption]).
    assert (Bu : binary v undergrad)
      by (eapply solution_binary; [eassumption | eapply nth_error_lt; eassumption]).
    pose proof (solution_sat _ _ _ Hsol HPat) as Sp. apply sat_two_eq1 in Sp.
    pose proof (solution_sat _ _ _ Hsol HPair) as Ss. apply sat_sum_eq in Ss.
    split; [destruct Bg, Bu; lia|].
    apply (sum_one_unique v) in Ss.
    + destruct Ss as (y & Hy & Hone & Hrest).
      apply in_seq in Hy.
      assert (Hk : exists q, nth_error Q (y - base) = Some q).
      { destruct (nth_error Q (y - base)) as [q|] eqn:E; [now exists q|].
        apply nth_error_None in E. lia. }
      destruct Hk as [q Hk]. exists (y - base)%nat, q.
      replace (base + (y - base))%nat with y by lia.
      split; [exact Hk | split; [exact Hone | split]].
      * intros k' Hk' Hne. apply Hrest; [apply in_seq; lia | lia].
      * destruct (HY _ _ Hk) as [_ B].
        replace (base + (y - base))%nat with y in B by lia.
        pose proof (solution_sat _ _ _ Hsol B) as SB.
        destruct (pair_constr_sat _ _ _ _ _ _ Hnd SB Hone) as [[P L] | [P L]];
          [left | right]; (split; [exact P | destruct Bg, Bu; lia]).
    + apply seq_NoDup.
    + intros y Hy. apply in_seq in Hy.
      assert (Hk : exists q, nth_error Q (y - base) = Some q).
      { destruct (nth_error Q (y - base)) as [q|] eqn:E; [now exists q|].
        apply nth_error_None in E. lia. }
      destruct Hk as [q Hk]. destruct (HY _ _ Hk) as [A _].
      replace (base + (y - base))%nat with y in A by lia.
      eapply solution_binary; [eassumption | eapply nth_error_lt; eassumption].
Qed.

Lemma C2_pattern_selection_witness :
  tiny_build = Ok tiny_vars tiny_state
  /\ In "CS300" (map Course tiny_df)
  /\ In "Smith" (map Instructor tiny_df)
  /\ filter (fun r => (Course r =? "CS300") && (Instructor r =? "Smith")) tiny_df
     = tiny_row :: []
  /\ In 1 (Py.range1 (Sections tiny_row))
  /\ exists grad undergrad base : Var,
       nth_error (mvars tiny_state) grad
       = Some (Py.cat ["Grad_"; "CS300"; "_"; "Smith"; "_"; Py.str 1])
       /\ nth_error (mvars tiny_state) undergrad
          = Some (Py.cat ["Undergrad_"; "CS300"; "_"; "Smith"; "_"; Py.str 1])
       /\ In (mkConstr (ladd (lvar grad) (lvar undergrad)) EQ (lnum 1)
                (Py.cat ["select_one_pattern_"; "CS300"; "_"; "Smith"; "_"; Py.str 1]))
             (mconstrs tiny_state)
       /\ In (mkConstr
                (lsum (seq base (List.length (quads time_slots_main days_main))))
                EQ (lnum 1)
                (Py.cat ["select_one_pair_"; "CS300"; "_"; "Smith"; "_"; Py.str 1]))
             (mconstrs tiny_state).
Proof.
  pose proof tiny_build_ok as Hb.
  assert (Hc : In "CS300" (map Course tiny_df)) by (now left).
  assert (Hi : In "Smith" (map Instructor tiny_df)) by (now left).
  assert (Hf : filter (fun r => (Course r =? "CS300") && (Instructor r =? "Smith")) tiny_df
               = tiny_row :: []) by reflexivity.
  assert (Hsec : In 1 (Py.range1 (Sections tiny_row))) by (now left).
  split; [exact Hb | split; [exact Hc | split; [exact Hi | split; [exact Hf |
    split; [exact Hsec|]]]]].
  destruct (C2_pattern_selection tiny_df tiny_wb tiny_cap [] tiny_vars tiny_state
              "CS300" "Smith" tiny_row [] 1 Hb Hc Hi Hf Hsec)
    as (grad & undergrad & base & A & B & C & D & _).
  exists grad, undergrad, base. split; [exact A | split; [exact B | split; [exact C | exact D]]].
Defined.

(* ================================================================== *)
(** ** The preference stage only adds to the objective accumulator *)
(* ================================================================== *)

Lemma grows_apply_preference ct p n x : mono_rel grows (apply_preference ct p n x).
Proof. unfold apply_preference. mono_tac. Qed.

Lemma grows_process_slot_code df vars e ct p c :
  mono_rel grows (process_slot_code df vars e ct p c).
Proof. unfold process_slot_code, getitem. mono_tac; apply grows_apply_preference. Qed.

Lemma grows_process_pref_row df vars row : mono_rel grows (process_pref_row df vars row).
Proof. unfold process_pref_row. mono_tac; apply grows_process_slot_code. Qed.

Lemma grows_add_restricted_slot_constraints df vars cm :
  mono_rel grows (add_restricted_slot_constraints df vars cm).
Proof. unfold add_restricted_slot_constraints, course_number_of. mono_tac. Qed.

Lemma grows_add_format_preferences df vars ts ds sh :
  mono_rel grows (add_format_preferences df vars ts ds sh).
Proof. unfold add_format_preferences. mono_tac. Qed.

Lemma grows_add_day_preferences df vars ts ds sh :
  mono_rel grows (add_day_preferences df vars ts ds sh).
Proof. unfold add_day_preferences. mono_tac. Qed.

Lemma grows_add_consecutive_preferences df vars ts ds sh :
  mono_rel grows (add_consecutive_preferences df vars ts ds sh).
Proof. unfold add_consecutive_preferences. mono_tac. Qed.

Lemma grows_add_additional_constraints df vars ts ds wb cm :
  mono_rel grows (add_additional_constraints df vars ts ds wb cm).
Proof.
  unfold add_additional_constraints. mono_tac;
    first [apply grows_add_restricted_slot_constraints
          | apply grows_add_format_preferences
          | apply grows_add_day_preferences
          | apply grows_add_consecutive_preferences].
Qed.

(* ================================================================== *)
(** ** Runs that agree *)
(* ================================================================== *)

Lemma bind_ext {A B} (m m' : M A) (k k' : A -> M B) :
  (forall s, m s = m' s) -> (forall a s, k a s = k' a s) ->
  forall s, bind m k s = bind m' k' s.
Proof.
  intros Hm Hk s. unfold bind. rewrite Hm.
  destruct (m' s) as [a s1 | e s1]; [apply Hk | reflexivity].
Qed.

Lemma for_ext {A} (body body' : A -> M unit) (xs : list A) :
  (forall x s, body x s = body' x s) -> forall s, for_ xs body s = for_ xs body' s.
Proof.
  intros Hb. induction xs as [|x xs IH]; intros s; simpl; [reflexivity|].
  apply bind_ext; [apply Hb | intros _; apply IH].
Qed.

Lemma for_ctl_cut {A} (body : A -> M ctl) (pre : list A) (r : A) (post : list A) :
  (forall s s', body r s <> Ok Next s') ->
  forall s, for_ctl (pre ++ r :: post) body s = for_ctl (pre ++ [r]) body s.
Proof.
  intros Hr. induction pre as [|x pre IH]; intros s; simpl.
  - unfold bind. destruct (body r s) as [[|] s1 | e s1] eqn:E; try reflexivity.
    exfalso. eapply Hr. exact E.
  - apply bind_ext; [reflexivity|]. intros [|] s1; [apply IH | reflexivity].
Qed.

Lemma for_ctl_break {A} (body : A -> M ctl) (pre : list A) (r : A) (post : list A) :
  (forall s, body r s = Ok Break s) ->
  forall s, for_ctl (pre ++ r :: post) body s = for_ctl pre body s.
Proof.
  intros Hr. induction pre as [|x pre IH]; intros s; simpl.
  - unfold bind. now rewrite Hr.
  - apply bind_ext; [reflexivity|]. intros [|] s1; [apply IH | reflexivity].
Qed.

Lemma for_ctl_replace {A} (body : A -> M ctl) (pre : list A) (r r' : A) (post : list A) :
  (forall s, body r s = body r' s) ->
  forall s, for_ctl (pre ++ r :: post) body s = for_ctl (pre ++ r' :: post) body s.
Proof.
  intros Hr. induction pre as [|x pre IH]; intros s; simpl.
  - apply bind_ext; [apply Hr | reflexivity].
  - apply bind_ext; [reflexivity|]. intros [|] s1; [apply IH | reflexivity].
Qed.

(** Skipping an element whose body does nothing. *)
Lemma for_skip {A} (body : A -> M unit) (pre : list A) (c : A) (post : list A) :
  (forall s, body c s = Ok tt s) ->
  forall s, for_ (pre ++ c :: post) body s = for_ (pre ++ post) body s.
Proof.
  intros Hc. induction pre as [|x pre IH]; intros s; simpl.
  - unfold bind. now rewrite Hc.
  - apply bind_ext; [reflexivity | intros _; apply IH].
Qed.

(** The workbook enters [build_model] through its three sheets only. *)
Lemma build_model_ext df wb wb' ts ds cm tm :
  pre_scheduled wb = pre_scheduled wb' ->
  general_preferences wb = general_preferences wb' ->
  (forall variables s,
     for_ctl (constraints_sheet wb) (process_pref_row df variables) s
     = for_ctl (constraints_sheet wb') (process_pref_row df variables) s) ->
  forall s0, build_model df wb ts ds cm tm s0 = build_model df wb' ts ds cm tm s0.
Proof.
  intros Hp Hg Hc s0. unfold build_model.
  apply bind_ext; [reflexivity|]. intros variables s1.
  apply bind_ext; [reflexivity|]. intros _ s2.
  apply bind_ext.
  { intros s. unfold add_balance_constraints. now rewrite Hp. }
  intros _ s3.
  apply bind_ext; [reflexivity|]. intros _ s4.
  apply bind_ext; [reflexivity|]. intros _ s5.
  apply bind_ext; [reflexivity|]. intros _ s6.
  apply bind_ext; [reflexivity|]. intros _ s7.
  apply bind_ext; [|reflexivity].
  intros s. unfold add_preference_constraints.
  apply bind_ext; [reflexivity|]. intros _ s8.
  apply bind_ext; [apply Hc|]. intros _ s9.
  apply bind_ext; [|reflexivity].
  intros s'. unfold add_additional_constraints. now rewrite Hg.
Qed.

(* ================================================================== *)
(** ** C10: the row loop stops at the first non-string instructor cell *)
(* ================================================================== *)

Lemma process_pref_row_non_string df variables r :
  (forall info, Instructor_UCID_Type r <> CStr info) ->
  forall s s', process_pref_row df variables r s <> Ok Next s'.
Proof.
  intros Hr s s'. unfold process_pref_row.
  destruct (Instructor_UCID_Type r) as [info| |]; [now elim (Hr info) | |]; discriminate.
Qed.

Lemma process_pref_row_float df variables r :
  Instructor_UCID_Type r = CFloat ->
  forall s, process_pref_row df variables r s = Ok Break s.
Proof. intros Hr s. unfold process_pref_row. now rewrite Hr. Qed.

(** C10. When a row of the constraints sheet has an instructor field that
    is not a string, the model, the objective and the output are the ones
    obtained from the sheet cut off after that row: no later row,
    well-formed or not, contributes anything.  When the field is a float
    (a NaN cell) the row itself contributes nothing either. *)
Theorem C10_rows_after_non_string_ignored :
  forall df ps gp ts ds cm tm s0 pre r post,
    (forall info, Instructor_UCID_Type r <> CStr info) ->
    build_model df (mkWorkbook ps (pre ++ r :: post) gp) ts ds cm tm s0
    = build_model df (mkWorkbook ps (pre ++ [r]) gp) ts ds cm tm s0
    /\ (Instructor_UCID_Type r = CFloat ->
        build_model df (mkWorkbook ps (pre ++ r :: post) gp) ts ds cm tm s0
        = build_model df (mkWorkbook ps pre gp) ts ds cm tm s0).
Proof.
  intros df ps gp ts ds cm tm s0 pre r post Hr. split.
  - apply build_model_ext; [reflexivity | reflexivity |].
    intros variables s. cbn [constraints_sheet].
    apply for_ctl_cut. now apply process_pref_row_non_string.
  - intros Hf. apply build_model_ext; [reflexivity | reflexivity |].
    intros variables s. cbn [constraints_sheet].
    apply for_ctl_break. now apply process_pref_row_float.
Qed.

Lemma C10_rows_after_non_string_ignored_witness :
  (forall info, Instructor_UCID_Type (mkPref CFloat (CStr "|M2|")) <> CStr info)
  /\ build_model tiny_df
       (mkWorkbook [] ([mkPref (CStr "smith@x: Pref-1") (CStr "|M1|")]
                       ++ mkPref CFloat (CStr "|M2|")
                       :: [mkPref (CStr "smith@x: Health") (CStr "|M3|")]) None)
       time_slots_main days_main tiny_cap [] empty_state
     = build_model tiny_df
         (mkWorkbook [] [mkPref (CStr "smith@x: Pref-1") (CStr "|M1|")] None)
         time_slots_main days_main tiny_cap [] empty_state.
Proof.
  assert (Hr : forall info, Instructor_UCID_Type (mkPref CFloat (CStr "|M2|")) <> CStr info)
    by (intros info; discriminate).
  split; [exact Hr|].
  exact (proj2 (C10_rows_after_non_string_ignored tiny_df [] None time_slots_main days_main
                  tiny_cap [] empty_state
                  [mkPref (CStr "smith@x: Pref-1") (CStr "|M1|")]
                  (mkPref CFloat (CStr "|M2|"))
                  [mkPref (CStr "smith@x: Health") (CStr "|M3|")] Hr) eq_refl).
Defined.

(* ================================================================== *)
(** ** C9: malformed slot codes *)
(* ================================================================== *)

Lemma process_slot_code_short df variables email ct points c :
  (String.length c < 2)%nat ->
  forall s, process_slot_code df variables email ct points c s = Ok tt s.
Proof.
  intros Hc s. unfold process_slot_code.
  apply Nat.ltb_lt in Hc. now rewrite Hc.
Qed.

Lemma process_pref_row_short df variables info slots slots' pre c post :
  Py.slice_1_m1 (Py.split slots "|") = pre ++ c :: post ->
  (String.length c < 2)%nat ->
  Py.slice_1_m1 (Py.split slots' "|") = pre ++ post ->
  forall s, process_pref_row df variables (mkPref (CStr info) (CStr slots)) s
            = process_pref_row df variables (mkPref (CStr info) (CStr slots')) s.
Proof.
  intros H1 Hc H2 s. unfold process_pref_row. cbn [Instructor_UCID_Type Slots].
  destruct (Py.split info ": ") as [|email [|ct [|]]]; try reflexivity.
  rewrite H1, H2. apply bind_ext; [|reflexivity].
  apply for_skip. now apply process_slot_code_short.
Qed.

Lemma short_code_skipped df ps gp ts ds cm tm s0 before after info slots slots' pre c post :
  Py.slice_1_m1 (Py.split slots "|") = pre ++ c :: post ->
  (String.length c < 2)%nat ->
  Py.slice_1_m1 (Py.split slots' "|") = pre ++ post ->
  build_model df
    (mkWorkbook ps (before ++ mkPref (CStr info) (CStr slots) :: after) gp)
    ts ds cm tm s0
  = build_model df
      (mkWorkbook ps (before ++ mkPref (CStr info) (CStr slots') :: after) gp)
      ts ds cm tm s0.
Proof.
  intros H1 Hc H2. apply build_model_ext; [reflexivity | reflexivity |].
  intros variables s. cbn [constraints_sheet].
  apply for_ctl_replace. now apply (process_pref_row_short _ _ _ _ _ pre c post).
Qed.



Lemma is_ok_Ok {A} (r : Res A) a s : r = Ok a s -> is_ok r = true.
Proof. now intros ->. Qed.

Lemma state_of_Ok {A} (r : Res A) a s : r = Ok a s -> state_of r = s.
Proof. now intros ->. Qed.

Lemma short_code_build_eq :
  build tiny_df short_code_wb tiny_cap [] = build tiny_df short_code_removed_wb tiny_cap [].
Proof.
  unfold build, short_code_wb, short_code_removed_wb.
  apply (short_code_skipped tiny_df [] None time_slots_main days_main tiny_cap []
           empty_state [] [] "smith@x: Pref-1" "|M1|M|T2|" "|M1|T2|" ["M1"] "M" ["T2"]);
    [reflexivity | simpl; lia | reflexivity].
Qed.


(* ================================================================== *)
(** ** C3: protected preferences and their slack variables *)
(* ================================================================== *)

Section LoopRuns.
Context {R : State -> State -> Prop} `{Growth R}.

Lemma for_In_rel {A} (xs : list A) (body : A -> M unit) s s' x :
  (forall y, mono_rel R (body y)) ->
  for_ xs body s = Ok tt s' -> In x xs ->
  exists s1 s2, R s s1 /\ body x s1 = Ok tt s2 /\ R s2 s'.
Proof.
  intros Hm. revert s. induction xs as [|y xs IH]; intros s Hrun Hin; [contradiction|].
  simpl in Hrun. apply bind_Ok in Hrun as ([] & s1 & H1 & H2).
  destruct Hin as [-> | Hin].
  - exists s, s1. split; [apply growth_refl | split; [assumption|]].
    eapply mono_Ok; [|exact H2]. now apply mono_for.
  - destruct (IH _ H2 Hin) as (s3 & s4 & E1 & E2 & E3).
    exists s3, s4. split; [|split; assumption].
    eapply growth_trans; [|exact E1]. eapply mono_Ok; [apply Hm | exact H1].
Qed.

Lemma for_ctl_In_rel {A} (body : A -> M ctl) (before : list A) (r : A) (after : list A)
  s s' :
  (forall y, mono_rel R (body y)) ->
  Forall (fun y => forall t t', body y t <> Ok Break t') before ->
  for_ctl (before ++ r :: after) body s = Ok tt s' ->
  exists s1 c s2, R s s1 /\ body r s1 = Ok c s2 /\ R s2 s'.
Proof.
  intros Hm Hb. revert s. induction Hb as [|y before Hy Hb IH]; intros s Hrun.
  - cbn [app for_ctl] in Hrun. apply bind_Ok in Hrun as (c & s1 & H1 & H2).
    exists s, c, s1. split; [apply growth_refl | split; [assumption|]].
    destruct c.
    + eapply mono_Ok; [|exact H2]. now apply mono_for_ctl.
    + injection H2 as <-. apply growth_refl.
  - cbn [app for_ctl] in Hrun. apply bind_Ok in Hrun as (c & s1 & H1 & H2).
    destruct c; [|now elim (Hy s s1)].
    destruct (IH _ H2) as (s3 & c' & s4 & E1 & E2 & E3).
    exists s3, c', s4. split; [|split; assumption].
    eapply growth_trans; [|exact E1]. eapply mono_Ok; [apply Hm | exact H1].
Qed.

End LoopRuns.

Lemma grows_extends s s' : grows s s' -> extends s s'.
Proof. now intros [E _]. Qed.

Lemma grows_term s s' t :
  grows s s' -> In t (terms (total_points s)) -> In t (terms (total_points s')).
Proof. intros [_ [ts ->]] Hin. apply in_or_app. now left. Qed.

(** What a protected listing does for one existing variable. *)
Lemma apply_preference_protected ct points name x s s' :
  is_protected ct = true ->
  apply_preference ct points name x s = Ok tt s' ->
  let slack := List.length (mvars s) in
  nth_error (mvars s') slack = Some name
  /\ In (mkConstr (lvar x) LE (lvar slack) "") (mconstrs s')
  /\ In (-2048, slack) (terms (total_points s')).
Proof.
  intros Hp Hrun. unfold apply_preference in Hrun. rewrite Hp in Hrun.
  cbv [bind addVar addConstr add_total_points] in Hrun. injection Hrun as <-.
  cbn [mvars mconstrs total_points ladd lterm terms].
  split; [apply nth_error_app_new | split; apply in_or_app; right; now left].
Qed.

(** The run of [process_slot_code] on a well-formed code of a protected
    row reaches every existing variable of the instructor at that slot. *)
Lemma process_slot_code_hit df variables email ct points code s s'
      day_full slot_full r0 rest course r1 rest1 section_id part x :
  is_protected ct = true ->
  process_slot_code df variables email ct points code s = Ok tt s' ->
  (2 <= String.length code)%nat ->
  dict_get Py.eqb (Py.char_at 0 code) time_slot_mapping = Some day_full ->
  dict_get Py.eqb (Py.char_at 1 code) time_slot_index = Some slot_full ->
  filter (fun r => Email r =? email) df = r0 :: rest ->
  In course (map Course (filter (fun r => Instructor r =? Instructor r0) df)) ->
  filter (fun r => (Instructor r =? Instructor r0) && (Course r =? course))
         (filter (fun r => Course r =? course) df) = r1 :: rest1 ->
  In section_id (Py.range1 (Sections r1)) ->
  In part parts12 ->
  vget (X_name course (Instructor r0) section_id part day_full slot_full) variables
  = Some x ->
  exists slack,
    (List.length (mvars s) <= slack)%nat
    /\ nth_error (mvars s') slack
       = Some (Slack_name course (Instructor r0) section_id part day_full slot_full)
    /\ In (mkConstr (lvar x) LE (lvar slack) "") (mconstrs s')
    /\ In (-2048, slack) (terms (total_points s')).
Proof.
  intros Hp Hrun Hlen Hday Hslot Hemail Hcourse Hrow Hsec Hpart Hx.
  unfold process_slot_code in Hrun.
  assert (E : (String.length code <? 2)%nat = false) by (apply Nat.ltb_ge; lia).
  rewrite E in Hrun. unfold getitem in Hrun. rewrite Hday, Hslot in Hrun.
  apply bind_Ok in Hrun as (d & sd & Hd & Hrun). injection Hd as <- <-.
  apply bind_Ok in Hrun as (t & st & Hd & Hrun). injection Hd as <- <-.
  rewrite Hemail in Hrun.
  eapply (for_In_rel (R := grows)) in Hrun as (a1 & a2 & Ea & Hrun & Ea');
    [| intros; mono_tac; apply grows_apply_preference | exact Hcourse].
  cbv zeta in Hrun. rewrite Hrow in Hrun.
  assert (Hne : nonempty (filter (fun r => Course r =? course) df) = true).
  { destruct (filter (fun r => Course r =? course) df); [discriminate Hrow | reflexivity]. }
  rewrite Hne in Hrun. cbn [when] in Hrun.
  eapply (for_In_rel (R := grows)) in Hrun as (b1 & b2 & Eb & Hrun & Eb');
    [| intros; mono_tac; apply grows_apply_preference | exact Hsec].
  eapply (for_In_rel (R := grows)) in Hrun as (c1 & c2 & Ec & Hrun & Ec');
    [| intros; mono_tac; apply grows_apply_preference | exact Hpart].
  cbv zeta in Hrun. rewrite Hx in Hrun.
  destruct (apply_preference_protected _ _ _ _ _ _ Hp Hrun) as (Hn & Hc & Ht).
  assert (E1 : grows s c1) by eauto 10 using grows_trans.
  assert (E2 : grows c2 s') by eauto 10 using grows_trans.
  exists (List.length (mvars c1)). split; [|split; [|split]].
  - apply extends_nvars. now apply grows_extends.
  - eapply extends_name; [apply grows_extends; exact E2 | exact Hn].
  - eapply extends_constr; [apply grows_extends; exact E2 | exact Hc].
  - eapply grows_term; eassumption.
Qed.

Lemma process_pref_row_code df variables info slots email ct cb code ca t1 c t2 :
  Py.split info ": " = [email; ct] ->
  Py.slice_1_m1 (Py.split slots "|") = cb ++ code :: ca ->
  process_pref_row df variables (mkPref (CStr info) (CStr slots)) t1 = Ok c t2 ->
  exists u1 u2,
    grows t1 u1
    /\ process_slot_code df variables email ct (points_of ct) code u1 = Ok tt u2
    /\ grows u2 t2.
Proof.
  intros Hi Hs Hrun. unfold process_pref_row in Hrun.
  cbn [Instructor_UCID_Type Slots] in Hrun. rewrite Hi, Hs in Hrun.
  apply bind_Ok in Hrun as ([] & t3 & Hrun & Hret). injection Hret as <- <-.
  eapply (for_In_rel (R := grows)) in Hrun as (u1 & u2 & E1 & Hrun & E2);
    [| intros; apply grows_process_slot_code | apply in_elt].
  now exists u1, u2.
Qed.

Lemma process_pref_row_no_break df variables r :
  Instructor_UCID_Type r <> CFloat ->
  forall t t', process_pref_row df variables r t <> Ok Break t'.
Proof.
  intros Hr t t'. unfold process_pref_row.
  destruct (Instructor_UCID_Type r) as [info| |]; [| contradiction | discriminate].
  destruct (Py.split info ": ") as [|email [|ct [|]]]; try discriminate.
  destruct (Slots r); try discriminate.
  unfold bind. destruct (for_ _ _ t); discriminate.
Qed.

Lemma build_before_preferences df wb ts ds cm tm s0 variables s :
  build_model df wb ts ds cm tm s0 = Ok variables s ->
  exists s7,
    vars_bounded variables s7
    /\ add_preference_constraints df variables ts ds wb cm s7 = Ok tt s.
Proof.
  intros Hb. apply build_model_stages in Hb
    as (s1 & s2 & s3 & s4 & s5 & s6 & s7 & H1 & H2 & H3 & H4 & H5 & H6 & H7 & H8).
  exists s7. split; [|exact H8].
  pose proof (mono_Ok _ _ _ _ (mono_add_basic_constraints _ _ _ _) H2) as E2.
  pose proof (mono_Ok _ _ _ _ (mono_add_balance_constraints _ _ _ _ _ _) H3) as E3.
  pose proof (mono_Ok _ _ _ _ (mono_add_pattern_constraints _ _ _ _) H4) as E4.
  pose proof (mono_Ok _ _ _ _ (mono_add_course_block_constraints _ _ _ _) H5) as E5.
  pose proof (mono_Ok _ _ _ _ (mono_add_consecutive_slots_constraints _ _ _ _) H6) as E6.
  pose proof (mono_Ok _ _ _ _ (mono_add_jersey_city_constraints _ _ _ _ _) H7) as E7.
  eapply vars_bounded_extends; [eapply create_variables_bounded; exact H1|].
  eauto 10 using extends_trans.
Qed.

(** The shape of the preference stage: the rows are processed on an empty
    accumulator, the additional constraints follow, and the accumulator
    becomes the objective. *)
Lemma add_preference_run df variables ts ds wb cm s7 s :
  add_preference_constraints df variables ts ds wb cm s7 = Ok tt s ->
  exists a0 a1 a2,
    mvars a0 = mvars s7
    /\ for_ctl (constraints_sheet wb) (process_pref_row df variables) a0 = Ok tt a1
    /\ grows a1 a2
    /\ mvars s = mvars a2 /\ mconstrs s = mconstrs a2
    /\ mobjective s = Some (total_points a2).
Proof.
  intros Hrun. unfold add_preference_constraints in Hrun.
  apply bind_Ok in Hrun as ([] & a0 & H0 & Hrun).
  apply bind_Ok in Hrun as ([] & a1 & H1 & Hrun).
  apply bind_Ok in Hrun as ([] & a2 & H2 & Hrun).
  apply bind_Ok in Hrun as (obj & a3 & H3 & Hrun).
  exists a0, a1, a2.
  unfold set_total_points in H0. injection H0 as <-.
  unfold get_total_points in H3. injection H3 as <- <-.
  unfold setObjective in Hrun. injection Hrun as <-.
  split; [reflexivity | split; [exact H1 | split; [|repeat split]]].
  eapply (mono_Ok (R := grows)); [apply grows_add_additional_constraints | exact H2].
Qed.



Lemma satb_sound v c : satb v c = true -> sat v c.
Proof.
  unfold satb, sat. destruct (sense c); intros Hc.
  - now apply Qle_bool_iff.
  - now apply Qeq_bool_iff.
Qed.

Lemma solutionb_sound s v : solutionb s v = true -> solution s v.
Proof.
  unfold solutionb, solution. rewrite andb_true_iff, !forallb_forall.
  intros [Hb Hc]. split.
  - intros x Hx. specialize (Hb x). unfold binary.
    assert (Hin : In x (seq 0 (List.length (mvars s)))) by (apply in_seq; lia).
    apply Hb in Hin. apply orb_true_iff in Hin as [E|E]; apply Z.eqb_eq in E; auto.
  - apply Forall_forall. intros c Hin. apply satb_sound. now apply Hc.
Qed.

Lemma nth_error_constr s i c v :
  solution s v -> nth_error (mconstrs s) i = Some c -> sat v c.
Proof. intros Hs Hn. eapply solution_sat; [exact Hs | eapply nth_error_In; exact Hn]. Qed.

Lemma solution_nonneg s v x :
  solution s v -> (x <? List.length (mvars s))%nat = true -> 0 <= v x <= 1.
Proof.
  intros Hs Hx. apply Nat.ltb_lt in Hx.
  destruct (solution_binary _ _ _ Hs Hx) as [E|E]; rewrite E; lia.
Qed.

Lemma dup_build_ok : dup_build = Ok dup_vars dup_state.
Proof. apply is_ok_eq. vm_compute. reflexivity. Qed.

Lemma dup_objective :
  mobjective dup_state
  = Some (mkLin [(-2048, 1682%nat); (-2048, 1683%nat); (-2048, 1684%nat);
                 (-2048, 1685%nat)] 0%Q).
Proof. vm_compute. reflexivity. Qed.

Lemma dup_solution : solution dup_state (valuation_of dup_state dup_ones).
Proof. apply solutionb_sound. vm_compute. reflexivity. Qed.

Lemma dup_count :
  List.length
    (filter (fun name =>
               (x_value dup_vars (valuation_of dup_state dup_ones) name =? 1)%Z)
       dup_protected) = 1%nat.
Proof. vm_compute. reflexivity. Qed.

Lemma dup_x0_one :
  x_value dup_vars (valuation_of dup_state dup_ones)
    (X_name "CS300" "Smith" 1 1 "Monday" "8:30-10:00 AM") = 1.
Proof. vm_compute. reflexivity. Qed.

Lemma dup_x0 :
  vget (X_name "CS300" "Smith" 1 1 "Monday" "8:30-10:00 AM") dup_vars = Some 0%nat.
Proof. vm_compute. reflexivity. Qed.

Lemma dup_constraints :
  nth_error (mconstrs dup_state) 1766 = Some (mkConstr (lvar 0%nat) LE (lvar 1682%nat) "")
  /\ nth_error (mconstrs dup_state) 1768
     = Some (mkConstr (lvar 0%nat) LE (lvar 1684%nat) "")
  /\ (1683 <? List.length (mvars dup_state))%nat = true
  /\ (1685 <? List.length (mvars dup_state))%nat = true.
Proof. vm_compute. repeat split. Qed.


Lemma x_value_vget variables v name x :
  vget name variables = Some x -> x_value variables v name = v x.
Proof. unfold x_value. now intros ->. Qed.

Lemma objective_value_eval s v e :
  mobjective s = Some e -> objective_value s v = eval v e.
Proof. unfold objective_value. now intros ->. Qed.

(** One protected variable with two slack variables of weight 2048 each:
    no solution that keeps the variable at 1 pays only 2048. *)
Lemma double_listing_overcharged s variables protected name v0 x0 k1 k2 k3 k4 i1 i2 :
  solution s v0 ->
  In name protected ->
  List.length
    (filter (fun n => (x_value variables v0 n =? 1)%Z) protected) = 1%nat ->
  x_value variables v0 name = 1 ->
  vget name variables = Some x0 ->
  nth_error (mconstrs s) i1 = Some (mkConstr (lvar x0) LE (lvar k1) "") ->
  nth_error (mconstrs s) i2 = Some (mkConstr (lvar x0) LE (lvar k3) "") ->
  (k2 <? List.length (mvars s))%nat = true ->
  (k4 <? List.length (mvars s))%nat = true ->
  mobjective s
  = Some (mkLin [(-2048, k1); (-2048, k2); (-2048, k3); (-2048, k4)] 0%Q) ->
  ~ charged_once_per_violation s variables protected.
Proof.
  intros Hsol Hin Hcount Hone Hx C1 C2 L2 L4 Hobj Hclaim.
  destruct (Hclaim _ Hsol) as (v' & Hsol' & Hagree & Hval).
  rewrite Hcount in Hval.
  pose proof (Hagree _ Hin) as Hx0.
  rewrite Hone, (x_value_vget _ _ _ _ Hx) in Hx0.
  apply (nth_error_constr _ _ _ _ Hsol'), sat_var_le in C1.
  apply (nth_error_constr _ _ _ _ Hsol'), sat_var_le in C2.
  pose proof (solution_nonneg _ _ _ Hsol' L2) as B2.
  pose proof (solution_nonneg _ _ _ Hsol' L4) as B4.
  rewrite (objective_value_eval _ _ _ Hobj) in Hval.
  unfold eval, Qeq, Qplus, inject_Z in Hval.
  cbn [terms const eval_terms fold_right fst snd Qnum Qden Pos.mul] in Hval.
  lia.
Qed.


(* ================================================================== *)
(** ** C4: the Monday 4:00-5:30 PM restriction *)
(* ================================================================== *)

Lemma c4_build_facts :
  is_ok c4_build = true
  /\ vget (X_name "CS300" "Smith" 1 1 "Monday" "4:00-5:30 PM") c4_vars = Some 5%nat
  /\ nth_error (mconstrs c4_state) 4175
     = Some (mkConstr (lvar 5%nat) EQ (lnum 0)
               "restricted_slot_CS300_Smith_1_1_Monday_4:00-5:30 PM").
Proof. vm_compute. repeat split. Qed.

(** C4 (code evaluated at the failing input).  One row with two sections
    of CS300: section 1 has 30 seats, so it passes both tests of the
    restriction (300 > 199, 30 < 35); section 2 has 40 seats and fails.
    The built model nevertheless contains the constraint
    [X_CS300_Smith_1_1_Monday_4:00-5:30 PM == 0] under the restriction's
    name, so no solution places part 1 of section 1 on Monday 4:00. *)
Theorem C4_qualifying_section_zero_forced :
  is_ok c4_build = true
  /\ may_use_restricted_slot 300 (dict_get key_eqb ("CS300", "Smith", 1) c4_cap) = true
  /\ may_use_restricted_slot 300 (dict_get key_eqb ("CS300", "Smith", 2) c4_cap) = false
  /\ exists x,
       vget (X_name "CS300" "Smith" 1 1 restricted_day restricted_time_slot) c4_vars
       = Some x
       /\ In (mkConstr (lvar x) EQ (lnum 0)
                "restricted_slot_CS300_Smith_1_1_Monday_4:00-5:30 PM")
             (mconstrs c4_state)
       /\ forall v, solution c4_state v -> v x = 0.
Proof.
  destruct c4_build_facts as (Hok & Hx & Hc).
  split; [exact Hok|].
  split; [vm_compute; reflexivity|].
  split; [vm_compute; reflexivity|].
  exists 5%nat. split; [exact Hx|]. split.
  - eapply nth_error_In. exact Hc.
  - intros v Hv. eapply sat_var_eq0. eapply nth_error_constr; [exact Hv | exact Hc].
Qed.

(* ================================================================== *)
(** ** C7: section numbering of the capacity map and of the type map *)
(* ================================================================== *)

(** C7 (code evaluated at the failing input).  With the 40-seat Jersey
    City offering listed before the 30-seat regular one, the capacity map
    numbers the 30-seat offering as section 1, while the type map, sorted
    without the capacity, numbers the Jersey City offering as section 1:
    section 1 has the capacity of one row and the type of the other. *)
Theorem C7_maps_number_sections_differently :
  create_section_capacity_map c7_table
  = [(("CS100", "Smith", 1), 30); (("CS100", "Smith", 2), 40)]
  /\ create_section_type_map c7_table
     = [(("CS100", "Smith", 1), Some "Jersey City");
        (("CS100", "Smith", 2), Some "Regular")]
  /\ dict_get key_eqb ("CS100", "Smith", 1) (create_section_capacity_map c7_table)
     = Some (raw_Capacity (mkRaw "CS100" "Smith" 30 1 (Some "Regular")))
  /\ dict_get key_eqb ("CS100", "Smith", 1) (create_section_type_map c7_table)
     = Some (raw_Section_Type (mkRaw "CS100" "Smith" 40 1 (Some "Jersey City"))).
Proof. vm_compute. repeat split. Qed.

(* ================================================================== *)
(** ** C6: the first-morning-slot rule *)
(* ================================================================== *)

Lemma add_no_8_30_In variables ds c i sec t1 t2 day x :
  add_no_8_30_constraints variables ds c i sec t1 = Ok tt t2 ->
  third_char_is_7 c = true -> In day ds ->
  vget (X_name c i sec 1 day "8:30-10:00 AM") variables = Some x ->
  In (mkConstr (lvar x) EQ (lnum 0) (no_8_30_name c i sec day)) (mconstrs t2).
Proof.
  unfold add_no_8_30_constraints. fold (third_char_is_7 c). intros H E Hd Hx.
  rewrite E in H. apply when_true_Ok in H.
  eapply for_In in H as (a & b & _ & H & Eb); [| intros; mono_tac | exact Hd].
  cbv zeta in H. rewrite Hx in H. apply addConstr_In in H.
  eapply extends_constr; eassumption.
Qed.

Lemma section_patterns_no_8_30 variables ts ds c i sec t1 t2 :
  section_patterns variables ts ds c i sec t1 = Ok tt t2 ->
  exists u1 u2,
    add_no_8_30_constraints variables ds c i sec u1 = Ok tt u2 /\ extends u2 t2.
Proof.
  intros H. unfold section_patterns in H.
  apply bind_Ok in H as (g & ta & _ & H).
  apply bind_Ok in H as (u & tb & _ & H).
  apply bind_Ok in H as ([d pairs] & tc & _ & H).
  apply bind_Ok in H as ([] & td & Hd & H).
  exists tc, td. split; [exact Hd|].
  eapply mono_Ok; [|exact H].
  mono_tac; apply mono_yget_all.
Qed.

(** Steps that add constraints under the rule's name only for the rule. *)
Lemma keeps_rule_refl s : keeps_rule s s.
Proof. exact (fun H => H). Qed.

Lemma keeps_rule_trans a b c : keeps_rule a b -> keeps_rule b c -> keeps_rule a c.
Proof. unfold keeps_rule. auto. Qed.

#[export] Instance Growth_keeps_rule : Growth keeps_rule :=
  {| growth_refl := keeps_rule_refl; growth_trans := keeps_rule_trans |}.

Lemma keeps_rule_same {A} (m : M A) :
  (forall s, mconstrs (state_of (m s)) = mconstrs s) -> mono_rel keeps_rule m.
Proof. intros Hs s. unfold keeps_rule. now rewrite Hs. Qed.

Lemma keeps_rule_addConstr l sn r n :
  rule_only (mkConstr l sn r n) -> mono_rel keeps_rule (addConstr l sn r n).
Proof.
  intros Hc s Hs. cbn [addConstr state_of mconstrs].
  apply Forall_app. split; [exact Hs | now constructor].
Qed.

Lemma rule_only_other l sn r n :
  String.prefix "no_8_30_to_10_CS7XX_" n = false -> rule_only (mkConstr l sn r n).
Proof. unfold rule_only, rule_named. cbn [cname]. congruence. Qed.

Ltac rule_step :=
  lazymatch goal with
  | |- mono_rel _ (bind _ _) => apply mono_bind; [| intros ?]
  | |- mono_rel _ (for_ _ _) => apply mono_for; intros ?
  | |- mono_rel _ (foldM _ _ _) => apply mono_foldM; intros ? ?
  | |- mono_rel _ (for_ctl _ _) => apply mono_for_ctl; intros ?
  | |- mono_rel _ (when _ _) => apply mono_when
  | |- mono_rel _ (try_except _ _) => apply mono_try; [| intros ?]
  | |- mono_rel _ (ret _) => apply mono_ret
  | |- mono_rel _ (raise _) => apply mono_raise
  | |- mono_rel _ (addConstr _ _ _ _) =>
      apply keeps_rule_addConstr, rule_only_other; reflexivity
  | |- mono_rel _ (match ?x with _ => _ end) => destruct x
  | |- mono_rel _ (let _ := _ in _) => cbv zeta
  | |- mono_rel _ _ => apply keeps_rule_same; intros ?; reflexivity
  end.

Ltac rule_tac := repeat rule_step.

Lemma rule_create_variables df ts ds : mono_rel keeps_rule (create_variables df ts ds).
Proof. unfold create_variables. rule_tac. Qed.

Lemma rule_add_basic_constraints df vars ts ds :
  mono_rel keeps_rule (add_basic_constraints df vars ts ds).
Proof. unfold add_basic_constraints. rule_tac. Qed.

Lemma rule_add_balance_constraints df vars ts ds wb tm :
  mono_rel keeps_rule (add_balance_constraints df vars ts ds wb tm).
Proof. unfold add_balance_constraints. rule_tac. Qed.
Lemma rule_yget_all ks d : mono_rel keeps_rule (yget_all ks d).
Proof. unfold yget_all, yget. rule_tac. Qed.

Lemma rule_create_pairs ts ds c i sec g u :
  mono_rel keeps_rule (create_pairs ts ds c i sec g u).
Proof. unfold create_pairs, pair_step. rule_tac. Qed.

Lemma rule_add_no_8_30_constraints vars ds c i sec :
  mono_rel keeps_rule (add_no_8_30_constraints vars ds c i sec).
Proof.
  unfold add_no_8_30_constraints. fold (third_char_is_7 c).
  destruct (third_char_is_7 c) eqn:E; [|apply mono_ret].
  apply mono_for. intros day. cbv zeta.
  destruct (vget _ vars) as [x|]; [|apply mono_ret].
  apply keeps_rule_addConstr. intros _.
  exists c, i, sec, day, x. split; [exact E | reflexivity].
Qed.

Lemma rule_section_patterns vars ts ds c i sec :
  mono_rel keeps_rule (section_patterns vars ts ds c i sec).
Proof.
  unfold section_patterns. rule_tac;
    first [apply rule_create_pairs | apply rule_add_no_8_30_constraints
          | apply rule_yget_all].
Qed.

Lemma rule_add_pattern_constraints df vars ts ds :
  mono_rel keeps_rule (add_pattern_constraints df vars ts ds).
Proof. unfold add_pattern_constraints. rule_tac. apply rule_section_patterns. Qed.

Lemma rule_add_course_block_constraints df vars ts ds :
  mono_rel keeps_rule (add_course_block_constraints df vars ts ds).
Proof. unfold add_course_block_constraints. rule_tac. Qed.

Lemma rule_add_consecutive_slots_constraints df vars ts ds :
  mono_rel keeps_rule (add_consecutive_slots_constraints df vars ts ds).
Proof. unfold add_consecutive_slots_constraints. rule_tac. Qed.

Lemma rule_add_jersey_city_constraints df vars ts ds tm :
  mono_rel keeps_rule (add_jersey_city_constraints df vars ts ds tm).
Proof. unfold add_jersey_city_constraints. rule_tac. Qed.
Lemma rule_add_restricted_slot_constraints df vars cm :
  mono_rel keeps_rule (add_restricted_slot_constraints df vars cm).
Proof. unfold add_restricted_slot_constraints, course_number_of. rule_tac. Qed.

Lemma rule_add_format_preferences df vars ts ds sh :
  mono_rel keeps_rule (add_format_preferences df vars ts ds sh).
Proof. unfold add_format_preferences. rule_tac. Qed.

Lemma rule_add_day_preferences df vars ts ds sh :
  mono_rel keeps_rule (add_day_preferences df vars ts ds sh).
Proof. unfold add_day_preferences. rule_tac. Qed.

Lemma rule_add_consecutive_preferences df vars ts ds sh :
  mono_rel keeps_rule (add_consecutive_preferences df vars ts ds sh).
Proof. unfold add_consecutive_preferences. rule_tac. Qed.

Lemma rule_add_additional_constraints df vars ts ds wb cm :
  mono_rel keeps_rule (add_additional_constraints df vars ts ds wb cm).
Proof.
  unfold add_additional_constraints. rule_tac;
    first [apply rule_add_restricted_slot_constraints
          | apply rule_add_format_preferences
          | apply rule_add_day_preferences
          | apply rule_add_consecutive_preferences].
Qed.

Lemma rule_apply_preference ct p n x : mono_rel keeps_rule (apply_preference ct p n x).
Proof. unfold apply_preference. rule_tac. Qed.

Lemma rule_process_slot_code df vars e ct p c :
  mono_rel keeps_rule (process_slot_code df vars e ct p c).
Proof.
  unfold process_slot_code, getitem. rule_tac; apply rule_apply_preference.
Qed.

Lemma rule_process_pref_row df vars row : mono_rel keeps_rule (process_pref_row df vars row).
Proof. unfold process_pref_row. rule_tac; apply rule_process_slot_code. Qed.

Lemma rule_add_preference_constraints df vars ts ds wb cm :
  mono_rel keeps_rule (add_preference_constraints df vars ts ds wb cm).
Proof.
  unfold add_preference_constraints. rule_tac;
    first [apply rule_process_pref_row | apply rule_add_additional_constraints].
Qed.

Lemma rule_build_model df wb ts ds cm tm :
  mono_rel keeps_rule (build_model df wb ts ds cm tm).
Proof.
  unfold build_model. rule_tac;
    first [ apply rule_create_variables | apply rule_add_basic_constraints
          | apply rule_add_balance_constraints | apply rule_add_pattern_constraints
          | apply rule_add_course_block_constraints
          | apply rule_add_consecutive_slots_constraints
          | apply rule_add_jersey_city_constraints
          | apply rule_add_preference_constraints ].
Qed.

(** In a built model every constraint under the rule's name is the
    rule's own. *)
Lemma build_rule_only df wb cm tm variables s c :
  build df wb cm tm = Ok variables s ->
  In c (mconstrs s) -> rule_named c = true -> from_rule c.
Proof.
  intros Hb Hin. unfold build in Hb.
  pose proof (mono_Ok _ _ _ _ (rule_build_model df wb time_slots_main days_main cm tm) Hb)
    as Hk.
  assert (Hall : Forall rule_only (mconstrs s)) by (apply Hk; constructor).
  rewrite Forall_forall in Hall. now apply Hall.
Qed.

Lemma zero_forced_zero_constrb s x :
  zero_forced s x -> existsb (zero_constrb x) (mconstrs s) = true.
Proof.
  intros [n Hin]. apply existsb_exists. eexists. split; [exact Hin|].
  unfold zero_constrb. cbn [lhs sense lvar terms]. apply Nat.eqb_refl.
Qed.

(** A row whose numeric code has middle digit 7 and whose part-1 variable
    at 8:30 has no [x == 0] constraint refutes the rule as worded. *)
Lemma middle_digit_rule_fails df variables s row section_id day x :
  In row df -> In section_id (Py.range1 (Sections row)) -> In day days_main ->
  vget (X_name (Course row) (Instructor row) section_id 1 day "8:30-10:00 AM") variables
  = Some x ->
  middle_digit_is_7 row = true ->
  existsb (zero_constrb x) (mconstrs s) = false ->
  ~ middle_digit_rule df variables s.
Proof.
  intros Hrow Hsec Hday Hx Hmid Hnone Hrule.
  destruct (Hrule row section_id day x Hrow Hsec Hday Hx) as [Hyes _].
  apply Hyes, zero_forced_zero_constrb in Hmid. congruence.
Qed.

Lemma c6_build_facts :
  vget (X_name "CS675" "Smith" 1 1 "Monday" "8:30-10:00 AM") c6_vars = Some 0%nat
  /\ existsb (zero_constrb 0%nat) (mconstrs c6_state) = false.
Proof. vm_compute. split; reflexivity. Qed.

(** C6 as worded fails on CS675: its numeric code 675 has middle digit 7,
    yet the model has no constraint forcing part 1 of its section off
    Monday 8:30-10:00 AM. *)
Lemma C6_counterexample : ~ middle_digit_rule c6_df c6_vars c6_state.
Proof.
  destruct c6_build_facts as [Hx Hnone].
  apply (middle_digit_rule_fails c6_df c6_vars c6_state
           (mkRow "CS675" "Smith" (Some "675") "smith@x" 1) 1 "Monday" 0%nat).
  - left. reflexivity.
  - left. reflexivity.
  - left. reflexivity.
  - exact Hx.
  - reflexivity.
  - exact Hnone.
Qed.

(** C6, amended.  The rule tests the third character of the course code
    (a CS7XX course), not the middle digit of its number.  For every
    course whose third character is 7, every section of it, every day and
    the part-1 variable [x] at 8:30-10:00 AM, the built model contains the
    constraint [x == 0] under the rule's own name, so [x] is 0 in every
    solution; and every constraint of the model under the rule's name is
    such a constraint of a course whose third character is 7. *)
Theorem C6_third_character_rule :
  forall df wb cm tm variables s course instructor row0 rest section_id day x,
    build df wb cm tm = Ok variables s ->
    In course (map Course df) ->
    In instructor (map Instructor df) ->
    filter (fun r => (Course r =? course) && (Instructor r =? instructor)) df
    = row0 :: rest ->
    In section_id (Py.range1 (Sections row0)) ->
    third_char_is_7 course = true ->
    In day days_main ->
    vget (X_name course instructor section_id 1 day "8:30-10:00 AM") variables = Some x ->
    In (mkConstr (lvar x) EQ (lnum 0) (no_8_30_name course instructor section_id day))
       (mconstrs s)
    /\ (forall v, solution s v -> v x = 0)
    /\ (forall c, In c (mconstrs s) -> rule_named c = true -> from_rule c).
Proof.
  intros df wb cm tm variables s course instructor row0 rest section_id day x
    Hb Hc Hi Hf Hsec H7 Hday Hx.
  assert (Hin : In (mkConstr (lvar x) EQ (lnum 0)
                      (no_8_30_name course instructor section_id day)) (mconstrs s)).
  { pose proof Hb as Hb'. unfold build in Hb'.
    apply build_model_extends in Hb'
      as (s1 & s2 & s3 & s4 & s5 & s6 & s7 & (_ & _ & _ & H4 & _) & _ & _ & _ & E4 & _).
    destruct (add_pattern_section _ _ _ _ _ _ _ _ _ _ _ H4 Hc Hi Hf Hsec)
      as (t1 & t2 & Hrun & _ & Et).
    apply section_patterns_no_8_30 in Hrun as (u1 & u2 & Hrun & Eu).
    eapply extends_constr; [|eapply add_no_8_30_In; eassumption].
    eauto using extends_trans. }
  split; [exact Hin | split].
  - intros v Hv. eapply sat_var_eq0, solution_sat; eassumption.
  - intros c. eapply build_rule_only. exact Hb.
Qed.

Lemma C6_third_character_rule_witness :
  In (mkConstr (lvar 0%nat) EQ (lnum 0) (no_8_30_name "CS732" "Smith" 1 "Monday"))
     (mconstrs c6b_state)
  /\ (forall v, solution c6b_state v -> v 0%nat = 0)
  /\ (forall c, In c (mconstrs c6b_state) -> rule_named c = true -> from_rule c).
Proof.
  apply (C6_third_character_rule c6b_df tiny_wb c6b_cap [] c6b_vars c6b_state
           "CS732" "Smith" c6b_row [] 1 "Monday" 0%nat).
  - apply is_ok_eq. vm_compute. reflexivity.
  - left. reflexivity.
  - left. reflexivity.
  - reflexivity.
  - left. reflexivity.
  - reflexivity.
  - left. reflexivity.
  - vm_compute. reflexivity.
Defined.

(* ================================================================== *)
(** * Further properties of the builders *)
(* ================================================================== *)

(** Every stage of a successful build ran, and the model it left behind
    is part of the final one. *)
Lemma build_model_runs df wb ts ds cm tm s0 variables s :
  build_model df wb ts ds cm tm s0 = Ok variables s ->
  exists s1 s2 s3 s4 s5 s6 s7,
    (create_variables df ts ds s0 = Ok variables s1
     /\ add_basic_constraints df variables ts ds s1 = Ok tt s2
     /\ add_balance_constraints df variables ts ds wb tm s2 = Ok tt s3
     /\ add_pattern_constraints df variables ts ds s3 = Ok tt s4
     /\ add_course_block_constraints df variables ts ds s4 = Ok tt s5
     /\ add_consecutive_slots_constraints df variables ts ds s5 = Ok tt s6
     /\ add_jersey_city_constraints df variables ts ds tm s6 = Ok tt s7
     /\ add_preference_constraints df variables ts ds wb cm s7 = Ok tt s)
    /\ extends s1 s /\ extends s2 s /\ extends s3 s /\ extends s4 s
    /\ extends s5 s /\ extends s6 s /\ extends s7 s.
Proof.
  intros H. pose proof H as H'. apply build_model_stages in H'
    as (s1 & s2 & s3 & s4 & s5 & s6 & s7 & H1 & H2 & H3 & H4 & H5 & H6 & H7 & H8).
  pose proof (mono_Ok _ _ _ _ (mono_add_basic_constraints _ _ _ _) H2) as E2.
  pose proof (mono_Ok _ _ _ _ (mono_add_balance_constraints _ _ _ _ _ _) H3) as E3.
  pose proof (mono_Ok _ _ _ _ (mono_add_pattern_constraints _ _ _ _) H4) as E4.
  pose proof (mono_Ok _ _ _ _ (mono_add_course_block_constraints _ _ _ _) H5) as E5.
  pose proof (mono_Ok _ _ _ _ (mono_add_consecutive_slots_constraints _ _ _ _) H6) as E6.
  pose proof (mono_Ok _ _ _ _ (mono_add_jersey_city_constraints _ _ _ _ _) H7) as E7.
  pose proof (mono_Ok _ _ _ _ (mono_add_preference_constraints _ _ _ _ _ _) H8) as E8.
  exists s1, s2, s3, s4, s5, s6, s7.
  assert (extends s6 s) by (eapply extends_trans; eassumption).
  assert (extends s5 s) by (eapply extends_trans; eassumption).
  assert (extends s4 s) by (eapply extends_trans; eassumption).
  assert (extends s3 s) by (eapply extends_trans; eassumption).
  assert (extends s2 s) by (eapply extends_trans; eassumption).
  assert (extends s1 s) by (eapply extends_trans; eassumption).
  split; [repeat split; assumption|].
  repeat (split; [assumption|]). assumption.
Qed.

Lemma nonempty_In {A} (l : list A) (x : A) : In x l -> nonempty l = true.
Proof. destruct l; [contradiction | reflexivity]. Qed.

Lemma nonempty_false {A} (l : list A) : nonempty l = false -> l = [].
Proof. destruct l; [reflexivity | discriminate]. Qed.

Lemma sumv_nil v : sumv v [] = 0.
Proof. reflexivity. Qed.

(** In a sum of values in {0, 1}, any member is at most the sum. *)
Lemma sumv_member v xs x :
  (forall y, In y xs -> 0 <= v y) -> In x xs -> v x <= sumv v xs.
Proof.
  intros Hnn. induction xs as [|y xs IH]; intros Hin; [contradiction|].
  change (sumv v (y :: xs)) with (v y + sumv v xs).
  assert (0 <= sumv v xs).
  { clear IH Hin. induction xs as [|z xs IHx]; [reflexivity|].
    change (sumv v (z :: xs)) with (v z + sumv v xs).
    assert (0 <= v z) by (apply Hnn; right; now left).
    assert (0 <= sumv v xs) by (apply IHx; intros w Hw; apply Hnn;
                                 destruct Hw; [now left | right; now right]).
    lia. }
  destruct Hin as [-> | Hin]; [lia|].
  assert (0 <= v y) by (apply Hnn; now left).
  assert (v x <= sumv v xs) by (apply IH; [intros w Hw; apply Hnn; now right | assumption]).
  lia.
Qed.

Lemma sumv_nonneg v xs : (forall y, In y xs -> 0 <= v y) -> 0 <= sumv v xs.
Proof.
  induction xs as [|z xs IH]; intros Hnn; [reflexivity|].
  change (sumv v (z :: xs)) with (v z + sumv v xs).
  assert (0 <= v z) by (apply Hnn; now left).
  assert (0 <= sumv v xs) by (apply IH; intros w Hw; apply Hnn; now right).
  lia.
Qed.

(** A sum of nonnegative values that is 0 has every member 0. *)
Lemma sumv_zero v xs x :
  (forall y, In y xs -> 0 <= v y) -> sumv v xs <= 0 -> In x xs -> v x = 0.
Proof.
  intros Hnn Hs Hin. pose proof (sumv_member v xs x Hnn Hin).
  specialize (Hnn x Hin). lia.
Qed.

Lemma add_basic_one_section_per_slot df variables ts ds s1 s2 instructor day slot :
  add_basic_constraints df variables ts ds s1 = Ok tt s2 ->
  In day ds -> In slot ts ->
  nonempty (instructor_vars df variables instructor day slot) = true ->
  In (mkConstr (lsum (instructor_vars df variables instructor day slot)) LE (lnum 1)
        (Py.cat ["one_section_per_slot_"; instructor; "_"; day; "_"; slot]))
     (mconstrs s2).
Proof.
  intros H Hd Hs Hne. unfold add_basic_constraints in H.
  apply bind_Ok in H as ([] & sa & _ & Hb).
  assert (Hi : In instructor (Py.unique (map Instructor df))).
  { apply Py_unique_In. unfold instructor_vars in Hne.
    destruct (filter (fun r => Instructor r =? instructor) df) as [|r rs] eqn:E;
      [discriminate|].
    assert (Hr : In r (filter (fun r => Instructor r =? instructor) df))
      by (rewrite E; now left).
    apply filter_In in Hr as [Hr Hq]. apply Py_eqb_eq in Hq. subst instructor.
    now apply in_map. }
  eapply for_In in Hb as (t1 & t2 & _ & Hrun & E2); [| intros; mono_tac | exact Hi].
  eapply extends_constr; [exact E2|]. clear E2.
  eapply for_In in Hrun as (t3 & t4 & _ & Hrun & E2); [| intros; mono_tac | exact Hd].
  eapply extends_constr; [exact E2|]. clear E2.
  eapply for_In in Hrun as (t5 & t6 & _ & Hrun & E2); [| intros; mono_tac | exact Hs].
  eapply extends_constr; [exact E2|]. clear E2.
  cbv beta zeta in Hrun. rewrite Hne in Hrun.
  apply when_true_Ok in Hrun. eapply addConstr_In. exact Hrun.
Qed.

Lemma solution_var_nonneg variables s v n x :
  vars_bounded variables s -> solution s v -> vget n variables = Some x -> 0 <= v x <= 1.
Proof.
  intros Hb Hs Hx.
  destruct (solution_binary _ _ _ Hs (Hb _ _ Hx)) as [E|E]; rewrite E; lia.
Qed.
(** X1. An instructor is never in two places at once: for every
    instructor, day and slot, the parts of that instructor's sections
    placed at the (day, slot) number at most one in every solution. *)
Theorem X1_instructor_one_section_per_slot :
  forall df wb cm tm variables s instructor day slot v,
    build df wb cm tm = Ok variables s ->
    In day days_main -> In slot time_slots_main ->
    solution s v ->
    sumv v (instructor_vars df variables instructor day slot) <= 1.
Proof.
  intros df wb cm tm variables s instructor day slot v Hb Hd Hs Hv.
  unfold build in Hb.
  apply build_model_runs in Hb
    as (s1 & s2 & s3 & s4 & s5 & s6 & s7 & (_ & H2 & _) & _ & E2 & _).
  destruct (nonempty (instructor_vars df variables instructor day slot)) eqn:Hne.
  - eapply sat_sum_le, solution_sat; [exact Hv|].
    eapply extends_constr; [exact E2|].
    eapply add_basic_one_section_per_slot; eassumption.
  - apply nonempty_false in Hne. rewrite Hne. simpl. lia.
Qed.

Lemma X1_instructor_one_section_per_slot_witness :
  sumv (valuation_of dup_state dup_ones)
    (instructor_vars tiny_df dup_vars "Smith" "Monday" "8:30-10:00 AM") <= 1.
Proof.
  apply (X1_instructor_one_section_per_slot tiny_df dup_wb tiny_cap [] dup_vars dup_state
           "Smith" "Monday" "8:30-10:00 AM" (valuation_of dup_state dup_ones)).
  - exact dup_build_ok.
  - left. reflexivity.
  - left. reflexivity.
  - exact dup_solution.
Defined.
(* ================================================================== *)
(** ** Variable names and [split('_')] *)
(* ================================================================== *)

Lemma append_assoc (a b c : string) : ((a ++ b) ++ c)%string = (a ++ (b ++ c))%string.
Proof. induction a as [|x a IH]; simpl; [reflexivity | now rewrite IH]. Qed.

Lemma append_nil_r (a : string) : (a ++ "")%string = a.
Proof. induction a as [|x a IH]; simpl; [reflexivity | now rewrite IH]. Qed.

Lemma split_go_last (s cur : string) :
  no_underscore s = true -> Py.split_go "_" s 0 cur = [(cur ++ s)%string].
Proof.
  revert cur. induction s as [|c s IH]; intros cur H.
  - simpl. now rewrite append_nil_r.
  - simpl in H. destruct (Ascii.eqb c "_") eqn:E; [discriminate|].
    cbn [Py.split_go String.prefix].
    destruct (ascii_dec "_" c) as [<-|_]; [now rewrite Ascii.eqb_refl in E|].
    rewrite IH by assumption. now rewrite append_assoc.
Qed.

Lemma split_go_piece (s cur rest : string) :
  no_underscore s = true ->
  Py.split_go "_" (s ++ String "_" rest) 0 cur
  = (cur ++ s)%string :: Py.split_go "_" rest 0 "".
Proof.
  revert cur. induction s as [|c s IH]; intros cur H.
  - simpl. rewrite append_nil_r. now destruct rest.
  - simpl in H. destruct (Ascii.eqb c "_") eqn:E; [discriminate|].
    cbn [append Py.split_go String.prefix].
    destruct (ascii_dec "_" c) as [<-|_]; [now rewrite Ascii.eqb_refl in E|].
    rewrite IH by assumption. now rewrite append_assoc.
Qed.

Lemma no_underscore_uint (d : Decimal.uint) :
  no_underscore (DecimalString.NilEmpty.string_of_uint d) = true.
Proof. induction d; simpl; assumption || reflexivity. Qed.

Lemma no_underscore_str (n : Z) : no_underscore (Py.str n) = true.
Proof.
  unfold Py.str, DecimalString.NilZero.string_of_int.
  destruct (Z.to_int n) as [d|d]; unfold DecimalString.NilZero.string_of_uint.
  - destruct d; try apply (no_underscore_uint (_ d)); reflexivity.
  - change (no_underscore (match d with
                           | Decimal.Nil => "0"
                           | _ => DecimalString.NilEmpty.string_of_uint d
                           end) = true).
    destruct d; try apply (no_underscore_uint (_ d)); reflexivity.
Qed.

Lemma split_X_name c i sec part day slot :
  no_underscore c = true -> no_underscore i = true ->
  no_underscore day = true -> no_underscore slot = true ->
  Py.split (X_name c i sec part day slot) "_"
  = ["X"; c; i; Py.str sec; Py.str part; day; slot].
Proof.
  intros Hc Hi Hd Hs. unfold Py.split.
  change (X_name c i sec part day slot)
    with ("X" ++ String "_" (c ++ String "_" (i ++ String "_" (Py.str sec ++ String "_"
            (Py.str part ++ String "_" (day ++ String "_" slot))))))%string.
  rewrite split_go_piece by reflexivity.
  rewrite split_go_piece by assumption.
  rewrite split_go_piece by assumption.
  rewrite split_go_piece by apply no_underscore_str.
  rewrite split_go_piece by apply no_underscore_str.
  rewrite split_go_piece by assumption.
  rewrite split_go_last by assumption.
  reflexivity.
Qed.
Lemma at_day_slot_X_name c i sec part day slot day' slot' :
  no_underscore c = true -> no_underscore i = true ->
  no_underscore day = true -> no_underscore slot = true ->
  at_day_slot day' slot' (X_name c i sec part day slot) = (day =? day') && (slot =? slot').
Proof.
  intros Hc Hi Hd Hs. unfold at_day_slot. cbv zeta.
  rewrite split_X_name by assumption. reflexivity.
Qed.

Lemma at_slot_X_name c i sec part day slot slot' :
  no_underscore c = true -> no_underscore i = true ->
  no_underscore day = true -> no_underscore slot = true ->
  at_slot slot' (X_name c i sec part day slot) = (slot =? slot').
Proof.
  intros Hc Hi Hd Hs. unfold at_slot. cbv zeta.
  rewrite split_X_name by assumption. reflexivity.
Qed.

Lemma no_underscore_days day : In day days_main -> no_underscore day = true.
Proof. intros H. repeat (destruct H as [<-|H]; [reflexivity|]). contradiction. Qed.

Lemma no_underscore_slots slot : In slot time_slots_main -> no_underscore slot = true.
Proof. intros H. repeat (destruct H as [<-|H]; [reflexivity|]). contradiction. Qed.

Lemma vget_In n (variables : VarDict) x : vget n variables = Some x -> In (n, x) variables.
Proof.
  unfold vget. induction variables as [|[k y] d IH]; simpl; [discriminate|].
  destruct (Py.eqb k n) eqn:E.
  - intros [= ->]. apply Py_eqb_eq in E. subst. now left.
  - intros H. right. now apply IH.
Qed.

Lemma vars_where_In p (variables : VarDict) n x :
  vget n variables = Some x -> p n = true -> In x (vars_where p variables).
Proof.
  intros Hx Hp. unfold vars_where. apply in_map_iff. exists (n, x).
  split; [reflexivity|]. apply filter_In. split; [now apply vget_In | exact Hp].
Qed.

(** The four loops of [add_balance_constraints]. *)
Lemma add_balance_parts df variables ts ds wb tm s2 s3 :
  add_balance_constraints df variables ts ds wb tm s2 = Ok tt s3 ->
  exists a b c,
    for_ (pre_scheduled wb) (fun row =>
      for_ variables (fun kv =>
        when ((7 <=? List.length (Py.split (fst kv) "_"))%nat
              && (field 2 (Py.split (fst kv) "_") =? pre_Instructor row)
              && (field 5 (Py.split (fst kv) "_") =? pre_Day row)
              && (field 6 (Py.split (fst kv) "_") =? pre_Time row))
          (addConstr (lvar (snd kv)) EQ (lnum 0)
             (Py.cat ["block_"; pre_Instructor row; "_"; pre_Day row; "_";
                      pre_Time row])))) s2 = Ok tt a
    /\ for_ banned_slots (fun ds =>
         let '(day, slot) := ds in
         let slot_vars := vars_where (at_day_slot day slot) variables in
         when (nonempty slot_vars)
           (addConstr (lsum slot_vars) EQ (lnum 0)
              (Py.cat ["BANNED_SLOT_"; day; "_"; slot]) ;;
            print (Py.cat ["BANNED: "; day; " "; slot; " - ";
                           Py.str (Z.of_nat (List.length slot_vars));
                           " variables forced to 0"]))) a = Ok tt b
    /\ for_ slot_percentages (fun entry =>
         let '((day, slot), percentage) := entry in
         if existsb (pair_eqb (day, slot)) banned_slots then ret tt
         else
           let slot_vars :=
             vars_where (fun n => at_day_slot day slot n
                                  && negb (is_jc_var tm n)) variables in
           when (nonempty slot_vars)
             (addConstr (lsum slot_vars) LE
                (lnum (max_section_parts_slot percentage (total_section_parts df)))
                (Py.cat ["balance_slot_"; day; "_"; slot]))) b = Ok tt c
    /\ for_ evening_slots (fun slot =>
         let evars := evening_vars tm variables slot in
         when (nonempty evars)
           (addConstr (lsum evars) LE
              (lfrac (max_section_parts_evening (total_section_parts df)))
              (Py.cat ["balance_evening_"; slot]))) c = Ok tt s3
    /\ extends a s3 /\ extends b s3 /\ extends c s3.
Proof.
  intros H. unfold add_balance_constraints in H. cbv zeta in H.
  apply bind_Ok in H as ([] & a & Ha & H).
  apply bind_Ok in H as ([] & b & Hb & H).
  apply bind_Ok in H as ([] & c & Hc & H).
  exists a, b, c.
  assert (Ebc : extends b c) by (eapply mono_Ok; [|exact Hc]; mono_tac).
  assert (Eab : extends a b) by (eapply mono_Ok; [|exact Hb]; mono_tac).
  assert (Ec : extends c s3) by (eapply mono_Ok; [|exact H]; mono_tac).
  split; [exact Ha|]. split; [exact Hb|]. split; [exact Hc|]. split; [exact H|].
  split; [eauto using extends_trans|]. split; [eauto using extends_trans | exact Ec].
Qed.
(* ================================================================== *)
(** ** The variable dictionary *)
(* ================================================================== *)

Lemma dict_set_In {K V} (eqb : K -> K -> bool) k v (d : list (K * V)) k' v' :
  In (k', v') (dict_set eqb k v d) -> (k', v') = (k, v) \/ In (k', v') d.
Proof.
  induction d as [|[a b] d IH]; simpl.
  - intros [H|[]]. left. now symmetry.
  - destruct (eqb a k).
    + intros [H|H]; [left; now symmetry | right; now right].
    + intros [H|H]; [right; now left|].
      destruct (IH H) as [E|E]; [now left | right; now right].
Qed.

Lemma create_variables_entries df ts ds s variables s' :
  create_variables df ts ds s = Ok variables s' -> entries_named df ts ds variables s'.
Proof.
  intros H. unfold create_variables in H.
  eapply (foldM_pres (entries_named df ts ds)); only 3: exact H; [|intros n x []].
  intros row Hrow. cbv beta zeta. destruct (Sections row =? 0)%Z; [apply pres_ret|].
  apply foldM_pres; intros section_id Hsec.
  apply foldM_pres; intros part Hpart.
  apply foldM_pres; intros day Hday.
  apply foldM_pres; intros slot Hslot.
  intros d t d' t' HP Hrun. cbv [bind addVar ret] in Hrun. injection Hrun as <- <-.
  intros n x Hin. cbn [mvars]. unfold vset in Hin.
  apply dict_set_In in Hin as [E|Hin].
  - injection E as -> ->. split; [apply nth_error_app_new|].
    exists row, section_id, part, day, slot. repeat split; assumption.
  - destruct (HP n x Hin) as [Hn Hex]. split; [|exact Hex].
    rewrite nth_error_app1; [exact Hn|]. eapply nth_error_lt. exact Hn.
Qed.

Lemma entries_named_extends df ts ds variables s s' :
  entries_named df ts ds variables s -> extends s s' -> entries_named df ts ds variables s'.
Proof.
  intros H He n x Hin. destruct (H n x Hin) as [Hn Hex]. split; [|exact Hex].
  eapply extends_name; eassumption.
Qed.

Lemma build_entries_named df wb ts ds cm tm s0 variables s :
  build_model df wb ts ds cm tm s0 = Ok variables s -> entries_named df ts ds variables s.
Proof.
  intros H. apply build_model_runs in H
    as (s1 & s2 & s3 & s4 & s5 & s6 & s7 & (H1 & _) & E1 & _).
  eapply entries_named_extends; [|exact E1]. eapply create_variables_entries; exact H1.
Qed.

Lemma entry_binary df ts ds variables s v n x :
  entries_named df ts ds variables s -> solution s v -> In (n, x) variables ->
  0 <= v x <= 1.
Proof.
  intros He Hs Hin. destruct (He n x Hin) as [Hn _]. apply nth_error_lt in Hn.
  destruct (solution_binary _ _ _ Hs Hn) as [E|E]; rewrite E; lia.
Qed.

Lemma vars_where_entry p (variables : VarDict) x :
  In x (vars_where p variables) -> exists n, In (n, x) variables /\ p n = true.
Proof.
  unfold vars_where. intros H. apply in_map_iff in H as ([n y] & E & Hin).
  simpl in E. subst y. apply filter_In in Hin as [Hin Hp]. now exists n.
Qed.
(* ================================================================== *)
(** ** [add_balance_constraints] *)
(* ================================================================== *)

Lemma banned_no_underscore day slot :
  In (day, slot) banned_slots -> no_underscore day = true /\ no_underscore slot = true.
Proof.
  intros H. repeat (destruct H as [[= <- <-]|H]; [split; reflexivity|]). contradiction.
Qed.

(** X2. Banned (day, slot) pairs stay empty: in every solution every
    assignment variable whose name reads (by [split('_')]) as that day
    and slot is 0; in particular no part of any section of a course and
    instructor written without underscores is placed there. *)
Theorem X2_banned_slots_stay_empty :
  forall df wb cm tm variables s day slot v,
    build df wb cm tm = Ok variables s ->
    In (day, slot) banned_slots ->
    solution s v ->
    (forall n x, vget n variables = Some x -> at_day_slot day slot n = true -> v x = 0)
    /\ (forall c i sec part,
          no_underscore c = true -> no_underscore i = true ->
          x_value variables v (X_name c i sec part day slot) = 0).
Proof.
  intros df wb cm tm variables s day slot v Hb Hban Hv. unfold build in Hb.
  pose proof (build_entries_named _ _ _ _ _ _ _ _ _ Hb) as Hent.
  apply build_model_runs in Hb
    as (s1 & s2 & s3 & s4 & s5 & s6 & s7 & (_ & _ & H3 & _) & _ & _ & E3 & _).
  apply add_balance_parts in H3 as (a & b & c & _ & Hbn & _ & _ & _ & Eb & _).
  assert (Hall : forall n x, vget n variables = Some x ->
                   at_day_slot day slot n = true -> v x = 0).
  { intros n x Hx Hat.
    assert (Hin : In x (vars_where (at_day_slot day slot) variables))
      by (eapply vars_where_In; eassumption).
    eapply for_In in Hbn as (t1 & t2 & _ & Hrun & E2); [| intros [? ?]; mono_tac | exact Hban].
    cbv beta iota zeta in Hrun. rewrite (nonempty_In _ _ Hin) in Hrun.
    apply when_true_Ok in Hrun. apply bind_Ok in Hrun as ([] & t3 & Hc & Hp).
    apply addConstr_In in Hc.
    assert (Hin' : In (mkConstr (lsum (vars_where (at_day_slot day slot) variables)) EQ
                         (lnum 0) (Py.cat ["BANNED_SLOT_"; day; "_"; slot])) (mconstrs s)).
    { eapply extends_constr; [exact E3|]. eapply extends_constr; [exact Eb|].
      eapply extends_constr; [exact E2|].
      eapply extends_constr; [|exact Hc]. eapply mono_Ok; [|exact Hp]. mono_tac. }
    apply (solution_sat _ _ _ Hv), sat_sum_eq in Hin'.
    eapply sumv_zero; [| rewrite Hin'; lia | exact Hin].
    intros y Hy. apply vars_where_entry in Hy as (m & Hm & _).
    eapply entry_binary; eassumption. }
  split; [exact Hall|].
  intros c0 i sec part Hc Hi. unfold x_value.
  destruct (vget (X_name c0 i sec part day slot) variables) as [x|] eqn:Hx; [|reflexivity].
  apply (Hall _ _ Hx). destruct (banned_no_underscore _ _ Hban) as [Hd Hs].
  rewrite at_day_slot_X_name by assumption. now rewrite !Py_eqb_refl.
Qed.

Lemma X2_banned_slots_stay_empty_witness :
  (forall n x, vget n dup_vars = Some x ->
     at_day_slot "Friday" "11:30-1:00 PM" n = true ->
     valuation_of dup_state dup_ones x = 0)
  /\ (forall c i sec part,
        no_underscore c = true -> no_underscore i = true ->
        x_value dup_vars (valuation_of dup_state dup_ones)
          (X_name c i sec part "Friday" "11:30-1:00 PM") = 0).
Proof.
  apply (X2_banned_slots_stay_empty tiny_df dup_wb tiny_cap [] dup_vars dup_state
           "Friday" "11:30-1:00 PM" (valuation_of dup_state dup_ones)).
  - exact dup_build_ok.
  - left. reflexivity.
  - exact dup_solution.
Defined.

Lemma sat_sum_le_frac v xs q n :
  sat v (mkConstr (lsum xs) LE (lfrac q) n) <-> (inject_Z (sumv v xs) <= q)%Q.
Proof.
  unfold sat, eval. cbn [sense lhs rhs]. rewrite eval_terms_lsum.
  cbn [lfrac terms const lsum eval_terms fold_right].
  rewrite Qplus_0_r. change (inject_Z 0) with 0%Q. rewrite Qplus_0_l. reflexivity.
Qed.

Lemma evening_cap_below_one total :
  total < 30 -> (max_section_parts_evening total < 1)%Q.
Proof.
  intros H.
  cbv [max_section_parts_evening evening_percentage Qlt Qmult Qdiv Qinv inject_Z
       Qnum Qden Pos.mul Pos.add Pos.succ].
  lia.
Qed.


Lemma field_X_name c i sec part day slot :
  no_underscore c = true -> no_underscore i = true ->
  no_underscore day = true -> no_underscore slot = true ->
  let parts := Py.split (X_name c i sec part day slot) "_" in
  (7 <=? List.length parts)%nat = true
  /\ field 2 parts = i /\ field 5 parts = day /\ field 6 parts = slot.
Proof.
  intros Hc Hi Hd Hs. cbv zeta. rewrite split_X_name by assumption.
  repeat split; reflexivity.
Qed.

(** X5. Pre-scheduled commitments are blocked: for every row
    (instructor, day, time) of the pre-scheduled sheet, every assignment
    variable whose name reads as that instructor, day and time is 0 in
    every solution; in particular (names without underscores) no part of
    any section of that instructor is placed at that day and time. *)
Theorem X5_pre_scheduled_blocked :
  forall df wb cm tm variables s row v,
    build df wb cm tm = Ok variables s ->
    In row (pre_scheduled wb) ->
    solution s v ->
    (forall n x, vget n variables = Some x ->
       (7 <=? List.length (Py.split n "_"))%nat = true ->
       field 2 (Py.split n "_") = pre_Instructor row ->
       field 5 (Py.split n "_") = pre_Day row ->
       field 6 (Py.split n "_") = pre_Time row ->
       v x = 0)
    /\ (forall c sec part,
          no_underscore c = true -> no_underscore (pre_Instructor row) = true ->
          no_underscore (pre_Day row) = true -> no_underscore (pre_Time row) = true ->
          x_value variables v
            (X_name c (pre_Instructor row) sec part (pre_Day row) (pre_Time row)) = 0).
Proof.
  intros df wb cm tm variables s row v Hb Hrow Hv. unfold build in Hb.
  apply build_model_runs in Hb
    as (s1 & s2 & s3 & s4 & s5 & s6 & s7 & (_ & _ & H3 & _) & _ & _ & E3 & _).
  apply add_balance_parts in H3 as (a & b & c & Hpre & _ & _ & _ & Ea & _).
  assert (Hall : forall n x, vget n variables = Some x ->
            (7 <=? List.length (Py.split n "_"))%nat = true ->
            field 2 (Py.split n "_") = pre_Instructor row ->
            field 5 (Py.split n "_") = pre_Day row ->
            field 6 (Py.split n "_") = pre_Time row ->
            v x = 0).
  { intros n x Hx H7 H2 H5 H6.
    eapply for_In in Hpre as (t1 & t2 & _ & Hrun & E2); [| intros; mono_tac | exact Hrow].
    eapply for_In in Hrun as (t3 & t4 & _ & Hrun & E4);
      [| intros; mono_tac | exact (vget_In _ _ _ Hx)].
    cbn [fst snd] in Hrun. rewrite H7, H2, H5, H6, !Py_eqb_refl in Hrun.
    apply when_true_Ok, addConstr_In in Hrun.
    eapply sat_var_eq0, solution_sat; [exact Hv|].
    eapply extends_constr; [exact E3|]. eapply extends_constr; [exact Ea|].
    eapply extends_constr; [exact E2|]. eapply extends_constr; [exact E4|]. exact Hrun. }
  split; [exact Hall|].
  intros c0 sec part Hc Hi Hd Hs. unfold x_value.
  destruct (vget _ variables) as [x|] eqn:Hx; [|reflexivity].
  destruct (field_X_name c0 (pre_Instructor row) sec part (pre_Day row) (pre_Time row)
              Hc Hi Hd Hs) as (F7 & F2 & F5 & F6).
  now apply (Hall _ _ Hx).
Qed.
(* ================================================================== *)
(** ** [add_course_block_constraints] *)
(* ================================================================== *)

Lemma for_noop {A} (xs : list A) (body : A -> M unit) :
  (forall x, In x xs -> forall t, body x t = Ok tt t) ->
  forall t, for_ xs body t = Ok tt t.
Proof.
  induction xs as [|x xs IH]; intros H t; simpl; [reflexivity|].
  unfold bind. rewrite (H x) by now left. apply IH. intros y Hy. apply H. now right.
Qed.

Lemma when_noop b (m : M unit) :
  (forall t, m t = Ok tt t) -> forall t, when b m t = Ok tt t.
Proof. intros H t. destruct b; [apply H | reflexivity]. Qed.

Lemma split_block_var_name c i day slot (part : Z) :
  In part parts12 ->
  no_underscore c = true -> no_underscore i = true ->
  no_underscore day = true -> no_underscore slot = true ->
  Py.split (block_var_name c i part day slot) "_" = ["X"; c; i; Py.str part; day; slot].
Proof.
  intros Hp Hc Hi Hd Hs. unfold Py.split.
  change (block_var_name c i part day slot)
    with ("X" ++ String "_" (c ++ String "_" (i ++ String "_" (Py.str part ++ String "_"
            (day ++ String "_" slot)))))%string.
  rewrite split_go_piece by reflexivity.
  rewrite split_go_piece by assumption.
  rewrite split_go_piece by assumption.
  rewrite split_go_piece by apply no_underscore_str.
  rewrite split_go_piece by assumption.
  rewrite split_go_last by assumption.
  reflexivity.
Qed.

(** A name without the section index is not the name of any variable. *)
Lemma block_var_absent df variables s c i part day slot :
  entries_named df time_slots_main days_main variables s ->
  (forall row, In row df ->
     no_underscore (Course row) = true /\ no_underscore (Instructor row) = true) ->
  In part parts12 ->
  no_underscore c = true -> no_underscore i = true ->
  In day days_main -> In slot time_slots_main ->
  vget (block_var_name c i part day slot) variables = None.
Proof.
  intros Hent Hdf Hp Hc Hi Hd Hs.
  destruct (vget (block_var_name c i part day slot) variables) as [x|] eqn:Hx;
    [|reflexivity].
  apply vget_In, Hent in Hx as [_ (row & sec & part' & day' & slot' & Hrow & _ & _
                                    & Hd' & Hs' & E)].
  destruct (Hdf row Hrow) as [Hc' Hi'].
  apply (f_equal (fun n => List.length (Py.split n "_"))) in E.
  rewrite split_block_var_name in E
    by (try assumption; auto using no_underscore_days, no_underscore_slots).
  rewrite split_X_name in E by auto using no_underscore_days, no_underscore_slots.
  discriminate E.
Qed.

Lemma instructors_of_In df course i :
  In i (instructors_of df course) ->
  exists row, In row df /\ Course row = course /\ Instructor row = i.
Proof.
  unfold instructors_of. rewrite Py_unique_In, in_map_iff.
  intros (row & E & Hin). apply filter_In in Hin as [Hin Hc]. apply Py_eqb_eq in Hc.
  now exists row.
Qed.

(** X7. The course-block stage never adds anything: it looks variables
    up under names that lack the section index
    ([X_course_instructor_part_day_slot]), and when courses and
    instructors are written without underscores no variable of the model
    has such a name, so the stage returns the model unchanged. *)
Theorem X7_course_blocks_add_nothing :
  forall df wb cm tm variables s,
    build df wb cm tm = Ok variables s ->
    (forall row, In row df ->
       no_underscore (Course row) = true /\ no_underscore (Instructor row) = true) ->
    forall t, add_course_block_constraints df variables time_slots_main days_main t = Ok tt t.
Proof.
  intros df wb cm tm variables s Hb Hdf. unfold build in Hb.
  pose proof (build_entries_named _ _ _ _ _ _ _ _ _ Hb) as Hent.
  unfold add_course_block_constraints.
  apply for_noop; intros block _.
  apply for_noop; intros course1 _.
  apply for_noop; intros course2 _.
  apply when_noop.
  apply for_noop; intros instructor1 H1.
  apply for_noop; intros instructor2 H2.
  apply for_noop; intros day Hd.
  apply for_noop; intros slot Hs t.
  apply instructors_of_In in H1 as (r1 & Hr1 & <- & <-).
  destruct (Hdf r1 Hr1) as [Hc1 Hi1].
  cbv zeta. unfold bind.
  rewrite (block_var_absent df variables s (Course r1) (Instructor r1) 1 day slot)
    by (try assumption; now left).
  rewrite (block_var_absent df variables s (Course r1) (Instructor r1) 2 day slot)
    by (try assumption; right; now left).
  reflexivity.
Qed.
(* ================================================================== *)
(** ** [add_consecutive_slots_constraints] *)
(* ================================================================== *)

Lemma sumv_present variables v n : sumv v (present variables n) = x_value variables v n.
Proof. unfold present, x_value. destruct (vget n variables); simpl; lia. Qed.

Ltac enter_loop H Hin :=
  let t1 := fresh "t" in let t2 := fresh "t" in let E := fresh "E" in
  eapply for_In in H as (t1 & t2 & _ & H & E); [| intros; mono_tac | exact Hin];
  (eapply extends_constr; [exact E|]); clear E; cbv beta zeta in H.

Lemma sections_nonzero row sec : In sec (Py.range1 (Sections row)) -> (Sections row =? 0)%Z = false.
Proof. intros H. apply Py_range1_In in H. lia. Qed.

Lemma add_consecutive_window df variables ts ds s5 s6 instructor day slot1 slot2 slot3
      row1 sec1 part1 row2 sec2 part2 row3 sec3 part3 :
  add_consecutive_slots_constraints df variables ts ds s5 = Ok tt s6 ->
  In day ds -> In (slot1, slot2, slot3) (windows3 ts) ->
  In row1 (filter (fun r => Instructor r =? instructor) df) ->
  In sec1 (Py.range1 (Sections row1)) -> In part1 parts12 ->
  In row2 (filter (fun r => Instructor r =? instructor) df) ->
  In sec2 (Py.range1 (Sections row2)) -> In part2 parts12 ->
  In row3 (filter (fun r => Instructor r =? instructor) df) ->
  In sec3 (Py.range1 (Sections row3)) -> In part3 parts12 ->
  differ (Course row1) sec1 part1 (Course row2) sec2 part2 = true ->
  differ (Course row1) sec1 part1 (Course row3) sec3 part3 = true ->
  differ (Course row2) sec2 part2 (Course row3) sec3 part3 = true ->
  In (mkConstr
        (lsum (present variables (X_name (Course row1) instructor sec1 part1 day slot1)
               ++ present variables (X_name (Course row2) instructor sec2 part2 day slot2)
               ++ present variables (X_name (Course row3) instructor sec3 part3 day slot3)))
        LE (lnum 2)
        (Py.cat ["consecutive_slots_constraint_"; instructor; "_"; day; "_"; slot1; "_";
                 slot2; "_"; slot3]))
     (mconstrs s6).
Proof.
  intros H Hd Hw Hr1 Hs1 Hp1 Hr2 Hs2 Hp2 Hr3 Hs3 Hp3 D12 D13 D23.
  unfold add_consecutive_slots_constraints in H.
  assert (Hi : In instructor (Py.unique (map Instructor df))).
  { apply Py_unique_In. apply filter_In in Hr1 as [Hr1 E]. apply Py_eqb_eq in E.
    subst instructor. now apply in_map. }
  enter_loop H Hi. enter_loop H Hd.
  eapply for_In in H as (ta & tb & _ & H & E); [| intros [[? ?] ?]; mono_tac | exact Hw].
  eapply extends_constr; [exact E|]. clear E. cbv beta iota zeta in H.
  enter_loop H Hr1. rewrite (sections_nonzero _ _ Hs1) in H.
  enter_loop H Hs1. enter_loop H Hp1.
  enter_loop H Hr2. rewrite (sections_nonzero _ _ Hs2) in H.
  enter_loop H Hs2. enter_loop H Hp2.
  rewrite D12 in H. apply when_true_Ok in H.
  enter_loop H Hr3. rewrite (sections_nonzero _ _ Hs3) in H.
  enter_loop H Hs3. enter_loop H Hp3.
  rewrite D13, D23 in H. apply when_true_Ok in H.
  eapply addConstr_In. exact H.
Qed.

(** X8. No three in a row: for an instructor, a day and three
    consecutive slots, three different section parts of that instructor
    (each differing from the others in course, section or part) are
    never all placed in those three slots, one per slot. *)
Theorem X8_no_three_consecutive_slots :
  forall df wb cm tm variables s v instructor day slot1 slot2 slot3
         row1 sec1 part1 row2 sec2 part2 row3 sec3 part3,
    build df wb cm tm = Ok variables s ->
    solution s v ->
    In day days_main -> In (slot1, slot2, slot3) (windows3 time_slots_main) ->
    In row1 df -> Instructor row1 = instructor ->
    In sec1 (Py.range1 (Sections row1)) -> In part1 parts12 ->
    In row2 df -> Instructor row2 = instructor ->
    In sec2 (Py.range1 (Sections row2)) -> In part2 parts12 ->
    In row3 df -> Instructor row3 = instructor ->
    In sec3 (Py.range1 (Sections row3)) -> In part3 parts12 ->
    differ (Course row1) sec1 part1 (Course row2) sec2 part2 = true ->
    differ (Course row1) sec1 part1 (Course row3) sec3 part3 = true ->
    differ (Course row2) sec2 part2 (Course row3) sec3 part3 = true ->
    x_value variables v (X_name (Course row1) instructor sec1 part1 day slot1)
    + x_value variables v (X_name (Course row2) instructor sec2 part2 day slot2)
    + x_value variables v (X_name (Course row3) instructor sec3 part3 day slot3) <= 2.
Proof.
  intros df wb cm tm variables s v instructor day slot1 slot2 slot3
    row1 sec1 part1 row2 sec2 part2 row3 sec3 part3
    Hb Hv Hd Hw Hr1 Hi1 Hs1 Hp1 Hr2 Hi2 Hs2 Hp2 Hr3 Hi3 Hs3 Hp3 D12 D13 D23.
  unfold build in Hb.
  apply build_model_runs in Hb
    as (s1 & s2 & s3 & s4 & s5 & s6 & s7 & (_ & _ & _ & _ & _ & H6 & _)
        & _ & _ & _ & _ & _ & E6 & _).
  assert (F : forall r, In r df -> Instructor r = instructor ->
                In r (filter (fun r => Instructor r =? instructor) df)).
  { intros r Hr E. apply filter_In. split; [exact Hr | now apply Py_eqb_eq]. }
  pose proof (add_consecutive_window df variables _ _ _ _ instructor day slot1 slot2 slot3
                row1 sec1 part1 row2 sec2 part2 row3 sec3 part3 H6 Hd Hw
                (F _ Hr1 Hi1) Hs1 Hp1 (F _ Hr2 Hi2) Hs2 Hp2 (F _ Hr3 Hi3) Hs3 Hp3
                D12 D13 D23) as Hc.
  apply (extends_constr _ _ _ E6), (solution_sat _ _ _ Hv), sat_sum_le in Hc.
  rewrite !sumv_app, !sumv_present in Hc. lia.
Qed.
(* ================================================================== *)
(** ** [add_jersey_city_constraints] *)
(* ================================================================== *)

Lemma add_jersey_city_parts df variables ts ds tm s6 s7 :
  add_jersey_city_constraints df variables ts ds tm s6 = Ok tt s7 ->
  exists a b,
    for_ tm (fun item =>
      let '((course, instructor, section_id), stype) := item in
      if negb (is_jersey_city stype) then ret tt else
      for_ ds (fun day =>
        for_ ts (fun slot =>
          match vget (X_name course instructor section_id 1 day slot) variables with
          | Some x =>
              when (negb (slot =? evening_start))
                (addConstr (lvar x) EQ (lnum 0)
                   (Py.cat ["JC_part1_fix_"; course; "_"; instructor; "_";
                            Py.str section_id; "_"; day; "_"; slot]))
          | None => ret tt
          end ;;
          match vget (X_name course instructor section_id 2 day slot) variables with
          | Some x =>
              when (negb (slot =? evening_next))
                (addConstr (lvar x) EQ (lnum 0)
                   (Py.cat ["JC_part2_fix_"; course; "_"; instructor; "_";
                            Py.str section_id; "_"; day; "_"; slot]))
          | None => ret tt
          end))) s6 = Ok tt a
    /\ for_ ds (fun day =>
         let jc_day_vars :=
           flat_map (fun item =>
             let '((course, instructor, section_id), stype) := item in
             if negb (is_jersey_city stype) then []
             else present variables
                    (X_name course instructor section_id 1 day evening_start))
           tm in
         when (nonempty jc_day_vars)
           (addConstr (lsum jc_day_vars) LE (lnum 3) (Py.cat ["JC_max3_per_day_"; day])))
       a = Ok tt b
    /\ extends a s7 /\ extends b s7.
Proof.
  intros H. unfold add_jersey_city_constraints in H.
  apply bind_Ok in H as ([] & a & Ha & H).
  apply bind_Ok in H as ([] & b & Hb & H).
  exists a, b.
  assert (Eab : extends a b) by (eapply mono_Ok; [|exact Hb]; mono_tac).
  assert (Eb : extends b s7) by (eapply mono_Ok; [|exact H]; mono_tac).
  split; [exact Ha|]. split; [exact Hb|]. split; [eauto using extends_trans | exact Eb].
Qed.

(* ================================================================== *)
(** ** [add_additional_constraints] *)
(* ================================================================== *)

Lemma add_preference_additional df variables ts ds wb cm s7 s :
  add_preference_constraints df variables ts ds wb cm s7 = Ok tt s ->
  exists a1 a2,
    add_additional_constraints df variables ts ds wb cm a1 = Ok tt a2
    /\ extends s7 a1
    /\ mvars s = mvars a2 /\ mconstrs s = mconstrs a2
    /\ mobjective s = Some (total_points a2) /\ stdout s = stdout a2.
Proof.
  intros Hrun. unfold add_preference_constraints in Hrun.
  apply bind_Ok in Hrun as ([] & a0 & H0 & Hrun).
  apply bind_Ok in Hrun as ([] & a1 & H1 & Hrun).
  apply bind_Ok in Hrun as ([] & a2 & H2 & Hrun).
  apply bind_Ok in Hrun as (obj & a3 & H3 & Hrun).
  exists a1, a2.
  assert (E0 : extends s7 a0) by (eapply mono_Ok; [|exact H0]; mono_tac).
  assert (E1 : extends a0 a1).
  { eapply mono_Ok; [|exact H1]. mono_tac. apply mono_process_pref_row. }
  unfold get_total_points in H3. injection H3 as <- <-.
  unfold setObjective in Hrun. injection Hrun as <-.
  split; [exact H2|]. split; [eauto using extends_trans|]. repeat split.
Qed.

Lemma add_additional_parts df variables ts ds wb cm a1 a2 :
  add_additional_constraints df variables ts ds wb cm a1 = Ok tt a2 ->
  exists b1 b2 b3,
    for_ (Py.unique (map Instructor df)) (fun instructor =>
      for_ ds (fun day =>
        let restricted_vars :=
          flat_map (fun course =>
            flat_map (fun course_row =>
              flat_map (fun section_id =>
                flat_map (fun part =>
                  flat_map (fun slot =>
                    present variables (X_name course instructor section_id part day slot))
                  restricted_time_slots)
                parts12)
              (Py.range1 (Sections course_row)))
            (filter (fun r => (Instructor r =? instructor) && (Course r =? course)) df))
          (Py.unique (map Course df)) in
        when (nonempty restricted_vars)
          (addConstr (lsum restricted_vars) LE (lnum 3)
             (Py.cat ["restricted_time_slots_"; instructor; "_"; day])))) a1 = Ok tt b1
    /\ add_restricted_slot_constraints df variables cm b1 = Ok tt b2
    /\ for_ df (fun row =>
         if (Sections row =? 0)%Z then ret tt else
         for_ (Py.range1 (Sections row)) (fun section_id =>
           for_ ds (fun day =>
             match vget (X_name (Course row) (Instructor row) section_id 1 day
                           "6:00-7:30 PM") variables,
                   vget (X_name (Course row) (Instructor row) section_id 2 day
                           "7:30-9:00 PM") variables with
             | Some p1, Some p2 =>
                 addConstr (lvar p1) EQ (lvar p2)
                   (Py.cat ["timing_constraint_"; Course row; "_"; Instructor row; "_";
                            Py.str section_id; "_"; day])
             | _, _ => ret tt
             end))) b2 = Ok tt b3
    /\ extends b1 a2 /\ extends b2 a2 /\ extends b3 a2.
Proof.
  intros H. unfold add_additional_constraints in H.
  apply bind_Ok in H as ([] & b1 & H1 & H).
  apply bind_Ok in H as ([] & b2 & H2 & H).
  apply bind_Ok in H as ([] & b3 & H3 & H).
  exists b1, b2, b3.
  assert (E12 : extends b1 b2)
    by (eapply mono_Ok; [apply mono_add_restricted_slot_constraints | exact H2]).
  assert (E23 : extends b2 b3) by (eapply mono_Ok; [|exact H3]; mono_tac).
  assert (E3 : extends b3 a2).
  { eapply mono_Ok; [|exact H].
    mono_tac; first [apply mono_add_format_preferences | apply mono_add_day_preferences
                    | apply mono_add_consecutive_preferences]. }
  split; [exact H1|]. split; [exact H2|]. split; [exact H3|].
  split; [eauto using extends_trans|]. split; [eauto using extends_trans | exact E3].
Qed.

(** From a successful build to the run of its last stage. *)
Lemma build_additional df wb cm tm variables s :
  build df wb cm tm = Ok variables s ->
  exists a1 a2,
    add_additional_constraints df variables time_slots_main days_main wb cm a1 = Ok tt a2
    /\ mvars s = mvars a2 /\ mconstrs s = mconstrs a2
    /\ mobjective s = Some (total_points a2) /\ stdout s = stdout a2.
Proof.
  intros Hb. unfold build in Hb.
  apply build_model_runs in Hb
    as (s1 & s2 & s3 & s4 & s5 & s6 & s7 & (_ & _ & _ & _ & _ & _ & _ & H8) & _).
  apply add_preference_additional in H8 as (a1 & a2 & H & _ & R).
  now exists a1, a2.
Qed.

Lemma constr_of_stage (s a2 b : State) c :
  mconstrs s = mconstrs a2 -> extends b a2 -> In c (mconstrs b) -> In c (mconstrs s).
Proof. intros E Hb Hin. rewrite E. eapply extends_constr; eassumption. Qed.

(** X11. Evening meetings are three-hour blocks: for every section and
    day, part 1 sits at 6:00-7:30 PM exactly when part 2 sits at
    7:30-9:00 PM of the same day, in every solution. *)
Theorem X11_evening_parts_together :
  forall df wb cm tm variables s v row section_id day,
    build df wb cm tm = Ok variables s ->
    solution s v ->
    In row df -> In section_id (Py.range1 (Sections row)) -> In day days_main ->
    x_value variables v
      (X_name (Course row) (Instructor row) section_id 1 day "6:00-7:30 PM")
    = x_value variables v
        (X_name (Course row) (Instructor row) section_id 2 day "7:30-9:00 PM").
Proof.
  intros df wb cm tm variables s v row section_id day Hb Hv Hrow Hsec Hd.
  pose proof Hb as Hb'. unfold build in Hb'.
  apply build_model_runs in Hb' as (s1 & _ & _ & _ & _ & _ & _ & (H1 & _) & _).
  destruct (build_additional _ _ _ _ _ _ Hb) as (a1 & a2 & Ha & _ & Ec & _).
  apply add_additional_parts in Ha as (b1 & b2 & b3 & _ & _ & H3 & _ & _ & E3).
  eapply for_In in H3 as (t1 & t2 & _ & H & Et1); [| intros; mono_tac | exact Hrow].
  rewrite (sections_nonzero _ _ Hsec) in H.
  eapply for_In in H as (t3 & t4 & _ & H & Et3); [| intros; mono_tac | exact Hsec].
  eapply for_In in H as (t5 & t6 & _ & H & Et5); [| intros; mono_tac | exact Hd].
  cbv beta in H. unfold x_value.
  assert (P1 : vget (X_name (Course row) (Instructor row) section_id 1 day "6:00-7:30 PM")
                 variables <> None).
  { eapply create_variables_present; try eassumption; [now left | simpl; tauto]. }
  assert (P2 : vget (X_name (Course row) (Instructor row) section_id 2 day "7:30-9:00 PM")
                 variables <> None).
  { eapply create_variables_present; try eassumption; [right; now left | simpl; tauto]. }
  destruct (vget (X_name (Course row) (Instructor row) section_id 1 day "6:00-7:30 PM")
              variables) as [p1|]; [|contradiction].
  destruct (vget (X_name (Course row) (Instructor row) section_id 2 day "7:30-9:00 PM")
              variables) as [p2|]; [|contradiction].
  apply addConstr_In in H.
  eapply sat_var_eq, solution_sat; [exact Hv|].
  eapply constr_of_stage; [exact Ec | exact E3 |].
  eapply extends_constr; [exact Et1|]. eapply extends_constr; [exact Et3|].
  eapply extends_constr; [exact Et5|]. exact H.
Qed.
(** X10. At most three of the early and late slots per day: for every
    instructor and day, the parts of the instructor's sections placed at
    8:30, 10:00, 6:00 PM or 7:30 PM of that day number at most 3 in
    every solution. *)
Theorem X10_restricted_slots_at_most_three :
  forall df wb cm tm variables s v instructor day,
    build df wb cm tm = Ok variables s ->
    solution s v ->
    In instructor (map Instructor df) -> In day days_main ->
    sumv v (restricted_vars df variables instructor day) <= 3.
Proof.
  intros df wb cm tm variables s v instructor day Hb Hv Hi Hd.
  destruct (build_additional _ _ _ _ _ _ Hb) as (a1 & a2 & Ha & _ & Ec & _).
  apply add_additional_parts in Ha as (b1 & b2 & b3 & H1 & _ & _ & E1 & _).
  apply Py_unique_In in Hi.
  eapply for_In in H1 as (t1 & t2 & _ & H & Et1); [| intros; mono_tac | exact Hi].
  eapply for_In in H as (t3 & t4 & _ & H & Et3); [| intros; mono_tac | exact Hd].
  cbv beta zeta in H. fold (restricted_vars df variables instructor day) in H.
  destruct (nonempty (restricted_vars df variables instructor day)) eqn:Hne.
  - apply when_true_Ok, addConstr_In in H.
    eapply sat_sum_le, solution_sat; [exact Hv|].
    eapply constr_of_stage; [exact Ec | exact E1 |].
    eapply extends_constr; [exact Et1|]. eapply extends_constr; [exact Et3|]. exact H.
  - apply nonempty_false in Hne. rewrite Hne. simpl. lia.
Qed.

Lemma X10_restricted_slots_at_most_three_witness :
  sumv (valuation_of dup_state dup_ones) (restricted_vars tiny_df dup_vars "Smith" "Monday")
  <= 3.
Proof.
  apply (X10_restricted_slots_at_most_three tiny_df dup_wb tiny_cap [] dup_vars dup_state
           (valuation_of dup_state dup_ones) "Smith" "Monday").
  - exact dup_build_ok.
  - exact dup_solution.
  - left. reflexivity.
  - left. reflexivity.
Defined.

Lemma X11_evening_parts_together_witness :
  x_value dup_vars (valuation_of dup_state dup_ones)
    (X_name (Course tiny_row) (Instructor tiny_row) 1 1 "Monday" "6:00-7:30 PM")
  = x_value dup_vars (valuation_of dup_state dup_ones)
      (X_name (Course tiny_row) (Instructor tiny_row) 1 2 "Monday" "7:30-9:00 PM").
Proof.
  apply (X11_evening_parts_together tiny_df dup_wb tiny_cap [] dup_vars dup_state
           (valuation_of dup_state dup_ones) tiny_row 1 "Monday").
  - exact dup_build_ok.
  - exact dup_solution.
  - left. reflexivity.
  - left. reflexivity.
  - left. reflexivity.
Defined.

Lemma X7_course_blocks_add_nothing_witness :
  add_course_block_constraints tiny_df dup_vars time_slots_main days_main dup_state
  = Ok tt dup_state.
Proof.
  apply (X7_course_blocks_add_nothing tiny_df dup_wb tiny_cap [] dup_vars dup_state).
  - exact dup_build_ok.
  - intros row [<-|[]]. split; reflexivity.
Defined.
(* ================================================================== *)
(** ** Steps that cannot fail *)
(* ================================================================== *)

Lemma never_raises_ret {A} (a : A) : never_raises (ret a).
Proof. intros t. now exists a, t. Qed.

Lemma never_raises_bind {A B} (m : M A) (k : A -> M B) :
  never_raises m -> (forall a, never_raises (k a)) -> never_raises (bind m k).
Proof.
  intros Hm Hk t. destruct (Hm t) as (a & t1 & E). destruct (Hk a t1) as (b & t2 & E2).
  exists b, t2. unfold bind. now rewrite E.
Qed.

Lemma never_raises_for {A} (xs : list A) (body : A -> M unit) :
  (forall x, In x xs -> never_raises (body x)) -> never_raises (for_ xs body).
Proof.
  induction xs as [|x xs IH]; intros H; simpl; [apply never_raises_ret|].
  apply never_raises_bind; [apply H; now left | intros _; apply IH].
  intros y Hy. apply H. now right.
Qed.

Lemma never_raises_foldM {A B} (body : B -> A -> M B) (xs : list A) :
  (forall b x, In x xs -> never_raises (body b x)) ->
  forall b, never_raises (foldM body xs b).
Proof.
  induction xs as [|x xs IH]; intros H b; simpl; [apply never_raises_ret|].
  apply never_raises_bind; [apply H; now left | intros b'; apply IH].
  intros b0 y Hy. apply H. now right.
Qed.

Lemma never_raises_when b (m : M unit) : never_raises m -> never_raises (when b m).
Proof. intros H. destruct b; [exact H | apply never_raises_ret]. Qed.

Lemma never_raises_addConstr l sn r n : never_raises (addConstr l sn r n).
Proof. intros t. eexists _, _. reflexivity. Qed.

Lemma never_raises_addVar n : never_raises (addVar n).
Proof. intros t. eexists _, _. reflexivity. Qed.

Lemma never_raises_print line : never_raises (print line).
Proof. intros t. eexists _, _. reflexivity. Qed.

(** [try: m except Exception as e: print(...)] returns normally whatever
    [m] does. *)
Lemma never_raises_try_print (m : M unit) (msg : exn -> string) :
  never_raises (try_except m (fun e => print (msg e))).
Proof.
  intros t. unfold try_except. destruct (m t) as [[] t1 | e t1].
  - now exists tt, t1.
  - eexists _, _. reflexivity.
Qed.

Ltac total_step :=
  lazymatch goal with
  | |- never_raises (bind _ _) => apply never_raises_bind; [| intros ?]
  | |- never_raises (for_ _ _) => apply never_raises_for; intros ? ?
  | |- never_raises (foldM _ _ _) => apply never_raises_foldM; intros ? ? ?
  | |- never_raises (when _ _) => apply never_raises_when
  | |- never_raises (ret _) => apply never_raises_ret
  | |- never_raises (addConstr _ _ _ _) => apply never_raises_addConstr
  | |- never_raises (addVar _) => apply never_raises_addVar
  | |- never_raises (print _) => apply never_raises_print
  | |- never_raises (try_except _ (fun e => print _)) => apply never_raises_try_print
  | |- never_raises (match ?x with _ => _ end) => destruct x
  | |- never_raises (let _ := _ in _) => cbv zeta
  end.

Ltac total_tac := repeat total_step.

(** X12. The General Preferences sheet cannot abort the build: whatever
    the sheet holds (missing, too few columns, any rows), the last stage
    [add_additional_constraints] returns normally from every state as
    long as every course number reads as an integer; and when the sheet
    cannot be read, the stage prints one warning line and leaves the
    objective accumulator as it was. *)
Theorem X12_general_preferences_never_abort :
  forall df variables ts ds wb cm,
    (forall row, In row df ->
       Course_Number row = None
       \/ exists c n, Course_Number row = Some c /\ Py.int c = Some n) ->
    never_raises (add_additional_constraints df variables ts ds wb cm)
    /\ (general_preferences wb = None ->
        forall t t', add_additional_constraints df variables ts ds wb cm t = Ok tt t' ->
          total_points t' = total_points t
          /\ exists msg,
               stdout t'
               = stdout t
                 ++ [("Warning: Could not process General Preferences sheet: " ++ msg)%string]).
Proof.
  intros df variables ts ds wb cm Hnum. split.
  - unfold add_additional_constraints. total_tac.
    unfold add_restricted_slot_constraints. apply never_raises_for. intros row Hrow.
    cbv zeta. apply never_raises_bind; [|intros cn; total_tac].
    unfold course_number_of.
    destruct (Hnum row Hrow) as [-> | (c & n & -> & ->)]; apply never_raises_ret.
  - intros Hnone t t' Hrun. unfold add_additional_constraints in Hrun.
    apply bind_Ok in Hrun as ([] & b1 & H1 & Hrun).
    apply bind_Ok in Hrun as ([] & b2 & H2 & Hrun).
    apply bind_Ok in Hrun as ([] & b3 & H3 & Hrun).
    rewrite Hnone in Hrun. cbv [try_except raise print] in Hrun. injection Hrun as <-.
    cbn [total_points stdout].
    assert (K : forall (m : M unit) a b,
              mono_rel (fun s s' => total_points s' = total_points s
                                    /\ stdout s' = stdout s) m ->
              m a = Ok tt b -> total_points b = total_points a /\ stdout b = stdout a).
    { intros m a b Hm E. specialize (Hm a). now rewrite E in Hm. }
    assert (G : Growth (fun s s' => total_points s' = total_points s
                                    /\ stdout s' = stdout s)).
    { split; [now split | intros a b c [A1 A2] [B1 B2]; split; congruence]. }
    assert (P : forall l sn r n,
              mono_rel (fun s s' => total_points s' = total_points s
                                    /\ stdout s' = stdout s) (addConstr l sn r n))
      by (intros; intros s; now split).
    apply K in H1; [| mono_tac; apply P].
    apply K in H2;
      [| unfold add_restricted_slot_constraints, course_number_of; mono_tac; apply P].
    apply K in H3; [| mono_tac; apply P].
    destruct H1 as [A1 A2], H2 as [B1 B2], H3 as [C1 C2].
    split; [congruence|].
    eexists. rewrite C2, B2, A2. reflexivity.
Qed.
Lemma X12_general_preferences_never_abort_witness :
  never_raises (add_additional_constraints tiny_df dup_vars time_slots_main days_main
                  tiny_wb tiny_cap)
  /\ (general_preferences tiny_wb = None ->
      forall t t',
        add_additional_constraints tiny_df dup_vars time_slots_main days_main
          tiny_wb tiny_cap t = Ok tt t' ->
        total_points t' = total_points t
        /\ exists msg,
             stdout t'
             = stdout t
               ++ [("Warning: Could not process General Preferences sheet: " ++ msg)%string]).
Proof.
  apply (X12_general_preferences_never_abort tiny_df dup_vars time_slots_main days_main
           tiny_wb tiny_cap).
  intros row [<-|[]]. right. exists "300", 300. split; reflexivity.
Defined.

(* ================================================================== *)
(** ** The pairing dictionary and the link constraints *)
(* ================================================================== *)

Lemma ydict_get_set_same q v d : ydict_get q (ydict_set q v d) = Some v.
Proof.
  destruct q as [[[d1 s1] d2] s2]. unfold ydict_get, ydict_set.
  rewrite (dict_get_set_same pair_eqb pair_eqb_eq).
  apply (dict_get_set_same pair_eqb pair_eqb_eq).
Qed.

Lemma ydict_get_set_other q q0 v d :
  q0 <> q -> ydict_get q0 (ydict_set q v d) = ydict_get q0 d.
Proof.
  destruct q as [[[d1 s1] d2] s2], q0 as [[[e1 r1] e2] r2]. intros Hne.
  unfold ydict_get, ydict_set.
  destruct (pair_eqb (d1, s1) (e1, r1)) eqn:E.
  - apply pair_eqb_eq in E. injection E as <- <-.
    rewrite (dict_get_set_same pair_eqb pair_eqb_eq).
    rewrite (dict_get_set_other pair_eqb pair_eqb_eq) by congruence.
    destruct (dict_get pair_eqb (d1, s1) d); reflexivity.
  - rewrite (dict_get_set_other pair_eqb pair_eqb_eq); [reflexivity|].
    intros F. rewrite F, (proj2 (pair_eqb_eq _ _) eq_refl) in E. discriminate.
Qed.

(** After the four nested loops, the dictionary maps the [k]-th
    combination to the [k]-th pairing variable. *)
Lemma run_quads_dict ts c i sec g u (qs : list Quad) :
  NoDup qs ->
  forall d pairs st d' p' st',
    foldM (fun acc q =>
             let '(day1, slot1, day2, slot2) := q in
             pair_step ts c i sec g u acc day1 slot1 day2 slot2)
          qs (d, pairs) st = Ok (d', p') st' ->
    (forall k q, nth_error qs k = Some q ->
       ydict_get q d' = Some (List.length (mvars st) + k)%nat)
    /\ (forall q, ~ In q qs -> ydict_get q d' = ydict_get q d).
Proof.
  induction 1 as [|q0 qs Hnin Hnd IH]; intros d pairs st d' p' st' Hrun.
  - simpl in Hrun. injection Hrun as <- <- <-. split; [intros [|k] q Hk; discriminate|].
    reflexivity.
  - destruct q0 as [[[day1 slot1] day2] slot2].
    cbn [foldM] in Hrun. apply bind_Ok in Hrun as ([d1 p1] & st1 & Hstep & Hrun).
    destruct (pair_step_run ts c i sec g u d pairs day1 slot1 day2 slot2 st)
      as (st1' & Hs & Hv & _).
    rewrite Hs in Hstep. injection Hstep as <- <- <-.
    destruct (IH _ _ _ _ _ _ Hrun) as [Hk Hout]. split.
    + intros [|k] q Hq; simpl in Hq.
      * injection Hq as <-. rewrite Hout by assumption.
        etransitivity; [apply (ydict_get_set_same (day1, slot1, day2, slot2))|].
        f_equal. lia.
      * rewrite (Hk k q Hq), Hv, length_app. simpl. f_equal. lia.
    + intros q Hq. rewrite Hout by (intros F; apply Hq; now right).
      apply (ydict_get_set_other (day1, slot1, day2, slot2)).
      intros ->. apply Hq. now left.
Qed.
Lemma yget_all_In (ks : list Quad) d :
  forall acc t ys t',
    foldM (fun acc k => v <- yget k d ;; ret (acc ++ [v])) ks acc t = Ok ys t' ->
    (forall v, In v acc -> In v ys)
    /\ (forall q v, In q ks -> ydict_get q d = Some v -> In v ys).
Proof.
  induction ks as [|k ks IH]; intros acc t ys t' H; simpl in H.
  - injection H as <- <-. split; [auto | intros q v []].
  - apply bind_Ok in H as (acc1 & t1 & Hstep & H).
    apply bind_Ok in Hstep as (y & t0 & Hy & Hret). injection Hret as <- <-.
    unfold yget in Hy. destruct (ydict_get k d) as [y0|] eqn:E; [|discriminate].
    injection Hy as <- <-.
    destruct (IH _ _ _ _ H) as [Hacc Hks]. split.
    + intros v Hv. apply Hacc. apply in_or_app. now left.
    + intros q v [<-|Hq] Hg.
      * rewrite E in Hg. injection Hg as <-. apply Hacc. apply in_or_app. right. now left.
      * eapply Hks; eassumption.
Qed.

Lemma NoDup_map_inj {A B} (f : A -> B) (l : list A) :
  (forall a b, f a = f b -> a = b) -> NoDup l -> NoDup (map f l).
Proof.
  intros Hinj. induction 1 as [|a l Hnin Hnd IH]; simpl; constructor; [|assumption].
  rewrite in_map_iff. intros (b & E & Hb). apply Hinj in E. now subst.
Qed.

Lemma flat_map_map_prod {A B C} (h : A -> B -> C) (xs : list A) (ys : list B) :
  flat_map (fun x => map (fun y => h x y) ys) xs
  = map (fun p => h (fst p) (snd p)) (list_prod xs ys).
Proof.
  induction xs as [|x xs IH]; simpl; [reflexivity|].
  rewrite map_app, IH, map_map. reflexivity.
Qed.

Lemma quads_as_prod ts ds :
  quads ts ds
  = map (fun p => (fst (fst p), snd (fst p), fst (snd p), snd (snd p)))
        (list_prod (list_prod ds ts) (list_prod ds ts)).
Proof.
  unfold quads.
  rewrite (flat_map_prod (fun day1 slot1 =>
             flat_map (fun day2 => map (fun slot2 => (day1, slot1, day2, slot2)) ts) ds)).
  erewrite flat_map_ext.
  2:{ intros p. apply (flat_map_map_prod (fun day2 slot2 => (fst p, snd p, day2, slot2))). }
  apply (flat_map_map_prod
           (fun (p q : string * string) => (fst p, snd p, fst q, snd q))).
Qed.

Lemma NoDup_quads ts ds : NoDup ts -> NoDup ds -> NoDup (quads ts ds).
Proof.
  intros Ht Hd. rewrite quads_as_prod. apply NoDup_map_inj.
  - intros [[a b] [c d]] [[a' b'] [c' d']]. simpl. congruence.
  - apply NoDup_list_prod; apply NoDup_list_prod; assumption.
Qed.
Lemma yget_all_values (ks : list Quad) d :
  forall acc t ys t',
    foldM (fun acc k => v <- yget k d ;; ret (acc ++ [v])) ks acc t = Ok ys t' ->
    forall y, In y ys -> In y acc \/ exists q, In q ks /\ ydict_get q d = Some y.
Proof.
  induction ks as [|k ks IH]; intros acc t ys t' H y Hy; simpl in H.
  - injection H as <- <-. now left.
  - apply bind_Ok in H as (acc1 & t1 & Hstep & H).
    apply bind_Ok in Hstep as (y0 & t0 & Hy0 & Hret). injection Hret as <- <-.
    unfold yget in Hy0. destruct (ydict_get k d) as [y1|] eqn:E; [|discriminate].
    injection Hy0 as <- <-.
    destruct (IH _ _ _ _ H y Hy) as [Hacc | (q & Hq & Hg)].
    + apply in_app_or in Hacc as [Hacc | [<- | []]]; [now left|].
      right. exists k. split; [now left | exact E].
    + right. exists q. split; [now right | exact Hg].
Qed.

Lemma quad_eq_dec (a b : Quad) : {a = b} + {a <> b}.
Proof. repeat decide equality. Qed.

(** The pairing dictionary holds pairing variables only. *)
Lemma run_quads_values ts c i sec g u (qs : list Quad) st d' p' st' q y :
  NoDup qs ->
  foldM (fun acc q =>
           let '(day1, slot1, day2, slot2) := q in
           pair_step ts c i sec g u acc day1 slot1 day2 slot2)
        qs ([], []) st = Ok (d', p') st' ->
  ydict_get q d' = Some y ->
  exists k, nth_error qs k = Some q /\ y = (List.length (mvars st) + k)%nat.
Proof.
  intros Hnd Hrun Hg.
  destruct (run_quads_dict _ _ _ _ _ _ _ Hnd _ _ _ _ _ _ Hrun) as [Hin Hout].
  destruct (in_dec quad_eq_dec q qs) as [Hq|Hq].
  - apply In_nth_error in Hq as [k Hk]. exists k. split; [exact Hk|].
    rewrite (Hin k q Hk) in Hg. now injection Hg.
  - rewrite (Hout q Hq) in Hg. destruct q as [[[a b] e] f]. discriminate Hg.
Qed.

(** The link constraints of one section: the part-1 variable at
    (day1, slot1) equals a sum that contains the pairing variable of
    every combination starting there, and likewise for part 2 and the
    combinations ending at (day2, slot2). *)
Lemma section_patterns_links variables ts ds c i sec t1 t2 :
  NoDup (quads ts ds) ->
  section_patterns variables ts ds c i sec t1 = Ok tt t2 ->
  let base := S (S (List.length (mvars t1))) in
  (forall day1 slot1 x,
     In day1 ds -> In slot1 ts ->
     vget (X_name c i sec 1 day1 slot1) variables = Some x ->
     exists ys n,
       In (mkConstr (lsum ys) EQ (lvar x) n) (mconstrs t2)
       /\ (forall day2 slot2 k,
             In day2 ds -> In slot2 ts ->
             nth_error (quads ts ds) k = Some (day1, slot1, day2, slot2) ->
             In (base + k)%nat ys)
       /\ (forall y, In y ys ->
             exists k, (k < List.length (quads ts ds))%nat /\ y = (base + k)%nat))
  /\ (forall day2 slot2 x,
        In day2 ds -> In slot2 ts ->
        vget (X_name c i sec 2 day2 slot2) variables = Some x ->
        exists ys n,
          In (mkConstr (lsum ys) EQ (lvar x) n) (mconstrs t2)
          /\ (forall day1 slot1 k,
                In day1 ds -> In slot1 ts ->
                nth_error (quads ts ds) k = Some (day1, slot1, day2, slot2) ->
                In (base + k)%nat ys)
          /\ (forall y, In y ys ->
                exists k, (k < List.length (quads ts ds))%nat /\ y = (base + k)%nat)).
Proof.
  intros Hnd H base. unfold section_patterns in H.
  apply bind_Ok in H as (g & ta & Hg & H).
  apply addVar_run in Hg as (Eg & Hva & Hca).
  apply bind_Ok in H as (u & tb & Hu & H).
  apply addVar_run in Hu as (Eu & Hvb & Hcb).
  apply bind_Ok in H as ([d pairs] & tc & Hp & H).
  rewrite create_pairs_flat in Hp.
  destruct (run_quads_dict _ _ _ _ _ _ _ Hnd _ _ _ _ _ _ Hp) as [Hdict _].
  assert (Elen_b : List.length (mvars tb) = base).
  { rewrite Hvb, Hva, !length_app. simpl. unfold base. lia. }
  assert (Hvals : forall q y, ydict_get q d = Some y ->
            exists k, (k < List.length (quads ts ds))%nat /\ y = (base + k)%nat).
  { intros q y Hq.
    destruct (run_quads_values _ _ _ _ _ _ _ _ _ _ _ _ _ Hnd Hp Hq) as (k & Hk & ->).
    exists k. split; [eapply nth_error_lt; exact Hk | now rewrite Elen_b]. }
  rewrite Elen_b in Hdict. clear Hp.
  apply bind_Ok in H as ([] & td & Hd & H).
  apply bind_Ok in H as ([] & te & He & H).
  apply bind_Ok in H as ([] & tf & Hf & H).
  assert (Ef2 : extends tf t2) by (eapply mono_Ok; [|exact H]; mono_tac).
  assert (Eef : extends te tf)
    by (eapply mono_Ok; [|exact Hf]; mono_tac; apply mono_yget_all).
  split.
  - intros day1 slot1 x Hd1 Hs1 Hx.
    eapply for_In in He as (a1 & a2 & _ & He & E1);
      [| intros; mono_tac; apply mono_yget_all | exact Hd1].
    eapply for_In in He as (a3 & a4 & _ & He & E3);
      [| intros; mono_tac; apply mono_yget_all | exact Hs1].
    cbv beta zeta in He. rewrite Hx in He.
    apply bind_Ok in He as (ys & a5 & Hy & Hc).
    apply addConstr_In in Hc. eexists ys, _. split.
    + eapply extends_constr; [exact Ef2|]. eapply extends_constr; [exact Eef|].
      eapply extends_constr; [exact E1|]. eapply extends_constr; [exact E3|]. exact Hc.
    + unfold yget_all in Hy. pose proof (yget_all_values _ _ _ _ _ _ Hy) as Hv.
      apply yget_all_In in Hy as [_ Hy]. split.
      * intros day2 slot2 k Hd2 Hs2 Hk.
        eapply Hy; [|apply Hdict; exact Hk].
        apply in_flat_map. exists day2. split; [assumption|].
        apply in_map_iff. now exists slot2.
      * intros y Hin. destruct (Hv y Hin) as [[] | (q & _ & Hq)]. eapply Hvals; exact Hq.
  - intros day2 slot2 x Hd2 Hs2 Hx.
    eapply for_In in Hf as (a1 & a2 & _ & Hf & E1);
      [| intros; mono_tac; apply mono_yget_all | exact Hd2].
    eapply for_In in Hf as (a3 & a4 & _ & Hf & E3);
      [| intros; mono_tac; apply mono_yget_all | exact Hs2].
    cbv beta zeta in Hf. rewrite Hx in Hf.
    apply bind_Ok in Hf as (ys & a5 & Hy & Hc).
    apply addConstr_In in Hc. eexists ys, _. split.
    + eapply extends_constr; [exact Ef2|].
      eapply extends_constr; [exact E1|]. eapply extends_constr; [exact E3|]. exact Hc.
    + unfold yget_all in Hy. pose proof (yget_all_values _ _ _ _ _ _ Hy) as Hv.
      apply yget_all_In in Hy as [_ Hy]. split.
      * intros day1 slot1 k Hd1 Hs1 Hk.
        eapply Hy; [|apply Hdict; exact Hk].
        apply in_flat_map. exists day1. split; [assumption|].
        apply in_map_iff. now exists slot1.
      * intros y Hin. destruct (Hv y Hin) as [[] | (q & _ & Hq)]. eapply Hvals; exact Hq.
Qed.
(** [sum(ys) == x] *)
Lemma sat_sum_eq_var v ys x n :
  sat v (mkConstr (lsum ys) EQ (lvar x) n) <-> sumv v ys = v x.
Proof.
  unfold sat, eval. cbn [sense lhs rhs]. rewrite eval_terms_lsum.
  cbn [lvar terms const lsum eval_terms fold_right fst snd].
  unfold Qeq, Qplus, inject_Z. cbn [Qnum Qden Pos.mul]. lia.
Qed.

(** The pairing variable a solution selects for a section. *)
Lemma selected_pair df wb cm tm variables s course instructor row0 rest section_id v :
  build df wb cm tm = Ok variables s ->
  In course (map Course df) -> In instructor (map Instructor df) ->
  filter (fun r => (Course r =? course) && (Instructor r =? instructor)) df
  = row0 :: rest ->
  In section_id (Py.range1 (Sections row0)) ->
  solution s v ->
  exists t1 t2 k q,
    section_patterns variables time_slots_main days_main course instructor section_id t1
    = Ok tt t2
    /\ extends t2 s
    /\ nth_error (quads time_slots_main days_main) k = Some q
    /\ v (S (S (List.length (mvars t1))) + k)%nat = 1
    /\ (graduate_pattern time_slots_main q \/ undergraduate_pattern q)
    /\ (forall k', (k' < List.length (quads time_slots_main days_main))%nat ->
          0 <= v (S (S (List.length (mvars t1))) + k')%nat).
Proof.
  intros Hb Hc Hi Hf Hsec Hsol. unfold build in Hb.
  apply build_model_runs in Hb
    as (s1 & s2 & s3 & s4 & s5 & s6 & s7 & (_ & _ & _ & H4 & _) & _ & _ & _ & E4 & _).
  destruct (add_pattern_section _ _ _ _ _ _ _ _ _ _ _ H4 Hc Hi Hf Hsec)
    as (t1 & t2 & Hrun & _ & Et).
  assert (E2 : extends t2 s) by (eapply extends_trans; eassumption).
  pose proof Hrun as Hspec. apply section_patterns_spec in Hspec. cbv zeta in Hspec.
  destruct Hspec as (Hg & Hu & Hq & Hpair & Hpat).
  set (grad := List.length (mvars t1)) in *.
  set (base := S (S grad)) in *.
  set (Q := quads time_slots_main days_main) in *.
  pose proof NoDup_time_slots_main as Hnd.
  assert (HY : forall k q, nth_error Q k = Some q ->
             (base + k < List.length (mvars s))%nat
             /\ In (pair_constr time_slots_main q (base + k)%nat grad (S grad))
                   (mconstrs s)).
  { intros k q Hk. destruct (Hq k q Hk) as [A B]. split.
    - eapply nth_error_lt, extends_name; eassumption.
    - eapply extends_constr; eassumption. }
  assert (Hbin : forall y, In y (seq base (List.length Q)) -> v y = 0 \/ v y = 1).
  { intros y Hy. apply in_seq in Hy.
    assert (Hk : exists q, nth_error Q (y - base) = Some q).
    { destruct (nth_error Q (y - base)) as [q|] eqn:E; [now exists q|].
      apply nth_error_None in E. lia. }
    destruct Hk as [q Hk]. destruct (HY _ _ Hk) as [A _].
    replace (base + (y - base))%nat with y in A by lia.
    eapply solution_binary; eassumption. }
  pose proof (solution_sat _ _ _ Hsol (extends_constr _ _ _ E2 Hpair)) as Ss.
  apply sat_sum_eq in Ss.
  apply (sum_one_unique v) in Ss; [| apply seq_NoDup | exact Hbin].
  destruct Ss as (y & Hy & Hone & _). apply in_seq in Hy.
  assert (Hk : exists q, nth_error Q (y - base) = Some q).
  { destruct (nth_error Q (y - base)) as [q|] eqn:E; [now exists q|].
    apply nth_error_None in E. lia. }
  destruct Hk as [q Hk].
  exists t1, t2, (y - base)%nat, q.
  change (S (S (List.length (mvars t1)))) with base.
  replace (base + (y - base))%nat with y by lia.
  split; [exact Hrun | split; [exact E2 | split; [exact Hk | split; [exact Hone | split]]]].
  - destruct (HY _ _ Hk) as [_ B].
    replace (base + (y - base))%nat with y in B by lia.
    pose proof (solution_sat _ _ _ Hsol B) as SB.
    destruct (pair_constr_sat _ _ _ _ _ _ Hnd SB Hone) as [[P _] | [P _]]; auto.
  - intros k' Hk'. destruct (Hbin (base + k')%nat) as [E|E]; [apply in_seq; lia | |];
      rewrite E; lia.
Qed.

(** X6. The two parts of a section follow one meeting pattern: in every
    solution there is a combination (day1, slot1, day2, slot2) that is a
    graduate pattern (same day, consecutive slots, permitted start) or an
    undergraduate pattern (same slot, permitted pair of days) such that
    part 1 of the section is placed at (day1, slot1) and part 2 at
    (day2, slot2). *)
Theorem X6_parts_follow_one_pattern :
  forall df wb cm tm variables s row rest section_id v,
    build df wb cm tm = Ok variables s ->
    In row df ->
    filter (fun r => (Course r =? Course row) && (Instructor r =? Instructor row)) df
    = row :: rest ->
    In section_id (Py.range1 (Sections row)) ->
    solution s v ->
    exists day1 slot1 day2 slot2,
      In day1 days_main /\ In slot1 time_slots_main
      /\ In day2 days_main /\ In slot2 time_slots_main
      /\ (graduate_pattern time_slots_main (day1, slot1, day2, slot2)
          \/ undergraduate_pattern (day1, slot1, day2, slot2))
      /\ x_value variables v
           (X_name (Course row) (Instructor row) section_id 1 day1 slot1) = 1
      /\ x_value variables v
           (X_name (Course row) (Instructor row) section_id 2 day2 slot2) = 1.
Proof.
  intros df wb cm tm variables s row rest section_id v Hb Hrow Hf Hsec Hsol.
  destruct (selected_pair _ _ _ _ _ _ _ _ _ _ _ v Hb (in_map Course _ _ Hrow)
              (in_map Instructor _ _ Hrow) Hf Hsec Hsol)
    as (t1 & t2 & k & [[[day1 slot1] day2] slot2] & Hrun & E2 & Hk & Hone & Hpat & Hnn).
  pose proof (build_vars_bounded _ _ _ _ _ _ _ _ _ Hb) as Hbound.
  pose proof Hb as Hb'. unfold build in Hb'.
  apply build_model_runs in Hb' as (s1 & _ & _ & _ & _ & _ & _ & (H1 & _) & _).
  assert (HQ : In (day1, slot1, day2, slot2) (quads time_slots_main days_main))
    by (eapply nth_error_In; exact Hk).
  rewrite quads_as_prod in HQ. apply in_map_iff in HQ as ([[a b] [c d]] & E & HQ).
  cbn [fst snd] in E. injection E as -> -> -> ->.
  apply in_prod_iff in HQ as [HQ1 HQ2].
  apply in_prod_iff in HQ1 as [Hd1 Hs1]. apply in_prod_iff in HQ2 as [Hd2 Hs2].
  destruct (section_patterns_links _ _ _ _ _ _ _ _
              (NoDup_quads _ _ NoDup_time_slots_main NoDup_days_main) Hrun) as [L1 L2].
  exists day1, slot1, day2, slot2.
  repeat (split; [assumption|]).
  assert (Hge : forall ys x,
            (forall y, In y ys ->
               exists k', (k' < List.length (quads time_slots_main days_main))%nat
                          /\ y = (S (S (List.length (mvars t1))) + k')%nat) ->
            In (S (S (List.length (mvars t1))) + k)%nat ys ->
            sumv v ys = v x -> 0 <= v x <= 1 -> v x = 1).
  { intros ys x Hys Hin Hs Hb01.
    assert (v (S (S (List.length (mvars t1))) + k)%nat <= sumv v ys).
    { apply sumv_member; [|exact Hin].
      intros y Hy. destruct (Hys y Hy) as (k' & Hk' & ->). now apply Hnn. }
    lia. }
  split.
  - pose proof (create_variables_present _ _ _ _ _ _ row section_id 1 day1 slot1
                  H1 Hrow Hsec (or_introl eq_refl) Hd1 Hs1) as P.
    unfold x_value.
    destruct (vget (X_name (Course row) (Instructor row) section_id 1 day1 slot1)
                variables) as [x|] eqn:Hx; [|contradiction].
    destruct (L1 day1 slot1 x Hd1 Hs1 Hx) as (ys & n & Hc & Hin & Hys).
    apply (extends_constr _ _ _ E2), (solution_sat _ _ _ Hsol) in Hc.
    apply sat_sum_eq_var in Hc.
    apply (Hge ys x Hys (Hin day2 slot2 k Hd2 Hs2 Hk) Hc).
    eapply solution_var_nonneg; eassumption.
  - pose proof (create_variables_present _ _ _ _ _ _ row section_id 2 day2 slot2
                  H1 Hrow Hsec (or_intror (or_introl eq_refl)) Hd2 Hs2) as P.
    unfold x_value.
    destruct (vget (X_name (Course row) (Instructor row) section_id 2 day2 slot2)
                variables) as [x|] eqn:Hx; [|contradiction].
    destruct (L2 day2 slot2 x Hd2 Hs2 Hx) as (ys & n & Hc & Hin & Hys).
    apply (extends_constr _ _ _ E2), (solution_sat _ _ _ Hsol) in Hc.
    apply sat_sum_eq_var in Hc.
    apply (Hge ys x Hys (Hin day1 slot1 k Hd1 Hs1 Hk) Hc).
    eapply solution_var_nonneg; eassumption.
Qed.

Lemma X6_parts_follow_one_pattern_witness :
  exists day1 slot1 day2 slot2,
    In day1 days_main /\ In slot1 time_slots_main
    /\ In day2 days_main /\ In slot2 time_slots_main
    /\ (graduate_pattern time_slots_main (day1, slot1, day2, slot2)
        \/ undergraduate_pattern (day1, slot1, day2, slot2))
    /\ x_value dup_vars (valuation_of dup_state dup_ones)
         (X_name (Course tiny_row) (Instructor tiny_row) 1 1 day1 slot1) = 1
    /\ x_value dup_vars (valuation_of dup_state dup_ones)
         (X_name (Course tiny_row) (Instructor tiny_row) 1 2 day2 slot2) = 1.
Proof.
  apply (X6_parts_follow_one_pattern tiny_df dup_wb tiny_cap [] dup_vars dup_state
           tiny_row [] 1 (valuation_of dup_state dup_ones)).
  - exact dup_build_ok.
  - left. reflexivity.
  - reflexivity.
  - left. reflexivity.
  - exact dup_solution.
Defined.
(* ================================================================== *)
(** ** [add_preference_constraints]: preferences that are not protected *)
(* ================================================================== *)

Lemma apply_preference_soft ct points name x s s' :
  is_protected ct = false ->
  apply_preference ct points name x s = Ok tt s' ->
  In (points, x) (terms (total_points s')).
Proof.
  intros Hp Hrun. unfold apply_preference in Hrun. rewrite Hp in Hrun.
  cbv [add_total_points] in Hrun. injection Hrun as <-.
  cbn [total_points ladd lterm terms]. apply in_or_app. right. now left.
Qed.

Lemma process_slot_code_soft df variables email ct points code s s'
      day_full slot_full r0 rest course r1 rest1 section_id part x :
  is_protected ct = false ->
  process_slot_code df variables email ct points code s = Ok tt s' ->
  (2 <= String.length code)%nat ->
  dict_get Py.eqb (Py.char_at 0 code) time_slot_mapping = Some day_full ->
  dict_get Py.eqb (Py.char_at 1 code) time_slot_index = Some slot_full ->
  filter (fun r => Email r =? email) df = r0 :: rest ->
  In course (map Course (filter (fun r => Instructor r =? Instructor r0) df)) ->
  filter (fun r => (Instructor r =? Instructor r0) && (Course r =? course))
         (filter (fun r => Course r =? course) df) = r1 :: rest1 ->
  In section_id (Py.range1 (Sections r1)) ->
  In part parts12 ->
  vget (X_name course (Instructor r0) section_id part day_full slot_full) variables
  = Some x ->
  In (points, x) (terms (total_points s')).
Proof.
  intros Hp Hrun Hlen Hday Hslot Hemail Hcourse Hrow Hsec Hpart Hx.
  unfold process_slot_code in Hrun.
  assert (E : (String.length code <? 2)%nat = false) by (apply Nat.ltb_ge; lia).
  rewrite E in Hrun. unfold getitem in Hrun. rewrite Hday, Hslot in Hrun.
  apply bind_Ok in Hrun as (d & sd & Hd & Hrun). injection Hd as <- <-.
  apply bind_Ok in Hrun as (t & st & Hd & Hrun). injection Hd as <- <-.
  rewrite Hemail in Hrun.
  eapply (for_In_rel (R := grows)) in Hrun as (a1 & a2 & Ea & Hrun & Ea');
    [| intros; mono_tac; apply grows_apply_preference | exact Hcourse].
  cbv zeta in Hrun. rewrite Hrow in Hrun.
  assert (Hne : nonempty (filter (fun r => Course r =? course) df) = true).
  { destruct (filter (fun r => Course r =? course) df); [discriminate Hrow | reflexivity]. }
  rewrite Hne in Hrun. cbn [when] in Hrun.
  eapply (for_In_rel (R := grows)) in Hrun as (b1 & b2 & Eb & Hrun & Eb');
    [| intros; mono_tac; apply grows_apply_preference | exact Hsec].
  eapply (for_In_rel (R := grows)) in Hrun as (c1 & c2 & Ec & Hrun & Ec');
    [| intros; mono_tac; apply grows_apply_preference | exact Hpart].
  cbv zeta in Hrun. rewrite Hx in Hrun.
  pose proof (apply_preference_soft _ _ _ _ _ _ Hp Hrun) as Ht.
  assert (E2 : grows c2 s') by eauto 10 using grows_trans.
  eapply grows_term; eassumption.
Qed.

(* ================================================================== *)
(** ** The stages before the preference sheet cannot fail *)
(* ================================================================== *)

Lemma never_raises_create_variables df ts ds : never_raises (create_variables df ts ds).
Proof. unfold create_variables. total_tac. Qed.

Lemma never_raises_add_basic_constraints df variables ts ds :
  never_raises (add_basic_constraints df variables ts ds).
Proof. unfold add_basic_constraints. total_tac. Qed.

Lemma never_raises_add_balance_constraints df variables ts ds wb tm :
  never_raises (add_balance_constraints df variables ts ds wb tm).
Proof. unfold add_balance_constraints. total_tac. Qed.

Lemma never_raises_add_course_block_constraints df variables ts ds :
  never_raises (add_course_block_constraints df variables ts ds).
Proof. unfold add_course_block_constraints. total_tac. Qed.

Lemma never_raises_add_consecutive_slots_constraints df variables ts ds :
  never_raises (add_consecutive_slots_constraints df variables ts ds).
Proof. unfold add_consecutive_slots_constraints. total_tac. Qed.

Lemma never_raises_add_jersey_city_constraints df variables ts ds tm :
  never_raises (add_jersey_city_constraints df variables ts ds tm).
Proof. unfold add_jersey_city_constraints. total_tac. Qed.
Lemma never_raises_bind_post {A B} (P : A -> Prop) (m : M A) (k : A -> M B) :
  (forall t, exists a t', m t = Ok a t' /\ P a) ->
  (forall a, P a -> never_raises (k a)) -> never_raises (bind m k).
Proof.
  intros Hm Hk t. destruct (Hm t) as (a & t1 & E & Pa).
  destruct (Hk a Pa t1) as (b & t2 & E2).
  exists b, t2. unfold bind. now rewrite E.
Qed.

Lemma never_raises_yget_all ks d :
  (forall q, In q ks -> ydict_get q d <> None) -> never_raises (yget_all ks d).
Proof.
  intros H. unfold yget_all. apply never_raises_foldM. intros acc q Hq.
  apply never_raises_bind; [|intros y; apply never_raises_ret].
  unfold yget. destruct (ydict_get q d) eqn:E; [apply never_raises_ret|].
  now elim (H q Hq).
Qed.

Lemma never_raises_add_no_8_30_constraints variables ds c i sec :
  never_raises (add_no_8_30_constraints variables ds c i sec).
Proof. unfold add_no_8_30_constraints. total_tac. Qed.

Lemma never_raises_section_patterns variables ts ds c i sec :
  NoDup (quads ts ds) -> never_raises (section_patterns variables ts ds c i sec).
Proof.
  intros Hnd. unfold section_patterns.
  apply never_raises_bind; [apply never_raises_addVar | intros g].
  apply never_raises_bind; [apply never_raises_addVar | intros u].
  apply (never_raises_bind_post
           (fun yc => forall q, In q (quads ts ds) -> ydict_get q (fst yc) <> None)).
  - intros t. rewrite create_pairs_flat.
    destruct (run_quads ts c i sec g u (quads ts ds) [] [] t) as (d' & t' & Hrun & _).
    eexists _, t'. split; [exact Hrun|]. cbn [fst].
    intros q Hq. apply In_nth_error in Hq as [k Hk].
    destruct (run_quads_dict _ _ _ _ _ _ _ Hnd _ _ _ _ _ _ Hrun) as [Hd _].
    rewrite (Hd k q Hk). discriminate.
  - intros [d pairs] Hd. cbn [fst] in Hd.
    assert (Q1 : forall day1 slot1, In day1 ds -> In slot1 ts ->
              forall q, In q (flat_map (fun day2 =>
                                 map (fun slot2 => (day1, slot1, day2, slot2)) ts) ds) ->
                        ydict_get q d <> None).
    { intros day1 slot1 Hd1 Hs1 q Hq. apply Hd.
      apply in_flat_map in Hq as (day2 & Hd2 & Hq).
      apply in_map_iff in Hq as (slot2 & <- & Hs2).
      destruct (quads_In ts ds day1 slot1 day2 slot2 Hd1 Hs1 Hd2 Hs2) as [k Hk].
      eapply nth_error_In; exact Hk. }
    assert (Q2 : forall day2 slot2, In day2 ds -> In slot2 ts ->
              forall q, In q (flat_map (fun day1 =>
                                 map (fun slot1 => (day1, slot1, day2, slot2)) ts) ds) ->
                        ydict_get q d <> None).
    { intros day2 slot2 Hd2 Hs2 q Hq. apply Hd.
      apply in_flat_map in Hq as (day1 & Hd1 & Hq).
      apply in_map_iff in Hq as (slot1 & <- & Hs1).
      destruct (quads_In ts ds day1 slot1 day2 slot2 Hd1 Hs1 Hd2 Hs2) as [k Hk].
      eapply nth_error_In; exact Hk. }
    apply never_raises_bind; [apply never_raises_add_no_8_30_constraints | intros _].
    apply never_raises_bind.
    { apply never_raises_for; intros day1 Hd1. apply never_raises_for; intros slot1 Hs1.
      cbv zeta. destruct (vget _ variables); [|apply never_raises_ret].
      apply never_raises_bind; [|intros ys; apply never_raises_addConstr].
      apply never_raises_yget_all. now apply Q1. }
    intros _. apply never_raises_bind.
    { apply never_raises_for; intros day2 Hd2. apply never_raises_for; intros slot2 Hs2.
      cbv zeta. destruct (vget _ variables); [|apply never_raises_ret].
      apply never_raises_bind; [|intros ys; apply never_raises_addConstr].
      apply never_raises_yget_all. now apply Q2. }
    intros _. total_tac.
Qed.

Lemma never_raises_add_pattern_constraints df variables ts ds :
  NoDup (quads ts ds) -> never_raises (add_pattern_constraints df variables ts ds).
Proof.
  intros Hnd. unfold add_pattern_constraints. total_tac.
  now apply never_raises_section_patterns.
Qed.
(* ================================================================== *)
(** ** When the build succeeds *)
(* ================================================================== *)

Lemma never_raises_for_ctl {A} (xs : list A) (body : A -> M ctl) :
  (forall x, In x xs -> never_raises (body x)) -> never_raises (for_ctl xs body).
Proof.
  induction xs as [|x xs IH]; intros H; simpl; [apply never_raises_ret|].
  apply never_raises_bind; [apply H; now left|].
  intros [|]; [apply IH; intros y Hy; apply H; now right | apply never_raises_ret].
Qed.

Ltac total_prim := intros ?; eexists _, _; reflexivity.

Lemma never_raises_apply_preference ct points name x :
  never_raises (apply_preference ct points name x).
Proof. unfold apply_preference. total_tac; total_prim. Qed.

Lemma never_raises_process_slot_code df variables email ct points code :
  well_formed_code code ->
  never_raises (process_slot_code df variables email ct points code).
Proof.
  intros Hwf. unfold process_slot_code.
  destruct (String.length code <? 2)%nat eqn:E; [apply never_raises_ret|].
  destruct Hwf as [Hlt | [Hd Hs]]; [apply Nat.ltb_ge in E; lia|].
  unfold getitem.
  destruct (dict_get Py.eqb (Py.char_at 0 code) time_slot_mapping) as [day|];
    [|contradiction].
  destruct (dict_get Py.eqb (Py.char_at 1 code) time_slot_index) as [slot|];
    [|contradiction].
  apply never_raises_bind; [apply never_raises_ret | intros day_full].
  apply never_raises_bind; [apply never_raises_ret | intros slot_full].
  destruct (filter (fun r => Email r =? email) df) as [|r0 rest]; [apply never_raises_ret|].
  apply never_raises_for. intros course Hc. cbv zeta.
  apply never_raises_when.
  apply in_map_iff in Hc as (row & <- & Hrow). apply filter_In in Hrow as [Hrow Hi].
  assert (Hin : In row (filter (fun r => (Instructor r =? Instructor r0)
                                         && (Course r =? Course row))
                          (filter (fun r => Course r =? Course row) df))).
  { apply filter_In. split.
    - apply filter_In. split; [exact Hrow | apply Py_eqb_refl].
    - now rewrite Hi, Py_eqb_refl. }
  destruct (filter _ (filter _ df)) as [|r1 rest1]; [contradiction|].
  total_tac. apply never_raises_apply_preference.
Qed.

Lemma never_raises_process_pref_row df variables r :
  well_formed_row r -> never_raises (process_pref_row df variables r).
Proof.
  intros Hwf. unfold process_pref_row, well_formed_row in *.
  destruct (Instructor_UCID_Type r) as [info| |]; [| apply never_raises_ret | contradiction].
  destruct Hwf as (email & ct & -> & s & -> & Hcodes).
  apply never_raises_bind; [|intros _; apply never_raises_ret].
  apply never_raises_for. intros code Hcode.
  apply never_raises_process_slot_code.
  rewrite Forall_forall in Hcodes. now apply Hcodes.
Qed.

Lemma never_raises_add_additional_constraints df variables ts ds wb cm :
  (forall row, In row df -> course_number_ok row) ->
  never_raises (add_additional_constraints df variables ts ds wb cm).
Proof.
  intros Hnum. unfold add_additional_constraints. total_tac.
  unfold add_restricted_slot_constraints. apply never_raises_for. intros row Hrow.
  cbv zeta. apply never_raises_bind; [|intros cn; total_tac].
  unfold course_number_of. specialize (Hnum row Hrow). unfold course_number_ok in Hnum.
  destruct (Course_Number row) as [c|]; [|apply never_raises_ret].
  destruct (Py.int c); [apply never_raises_ret | contradiction].
Qed.

Lemma never_raises_add_preference_constraints df variables ts ds wb cm :
  Forall well_formed_row (constraints_sheet wb) ->
  (forall row, In row df -> course_number_ok row) ->
  never_raises (add_preference_constraints df variables ts ds wb cm).
Proof.
  intros Hwf Hnum. unfold add_preference_constraints.
  apply never_raises_bind; [total_prim | intros _].
  apply never_raises_bind.
  { apply never_raises_for_ctl. intros r Hr. apply never_raises_process_pref_row.
    rewrite Forall_forall in Hwf. now apply Hwf. }
  intros _. apply never_raises_bind;
    [now apply never_raises_add_additional_constraints | intros _].
  apply never_raises_bind; [total_prim | intros obj; total_prim].
Qed.

(* ================================================================== *)
(** ** When the build fails *)
(* ================================================================== *)

Lemma always_raises_bind_l {A B} e (m : M A) (k : A -> M B) :
  always_raises e m -> always_raises e (bind m k).
Proof. intros H t. destruct (H t) as (t' & E). exists t'. unfold bind. now rewrite E. Qed.

Lemma always_raises_bind_r {A B} e (m : M A) (k : A -> M B) :
  never_raises m -> (forall a, always_raises e (k a)) -> always_raises e (bind m k).
Proof.
  intros Hm Hk t. destruct (Hm t) as (a & t1 & E). destruct (Hk a t1) as (t2 & E2).
  exists t2. unfold bind. now rewrite E.
Qed.

Lemma always_raises_for {A} e (body : A -> M unit) pre c post :
  (forall x, In x pre -> never_raises (body x)) ->
  always_raises e (body c) ->
  always_raises e (for_ (pre ++ c :: post) body).
Proof.
  intros Hpre Hc. induction pre as [|x pre IH]; simpl.
  - now apply always_raises_bind_l.
  - apply always_raises_bind_r; [apply Hpre; now left | intros _].
    apply IH. intros y Hy. apply Hpre. now right.
Qed.

Lemma always_raises_for_ctl {A} e (body : A -> M ctl) pre c post :
  (forall x, In x pre -> forall t, exists t', body x t = Ok Next t') ->
  always_raises e (body c) ->
  always_raises e (for_ctl (pre ++ c :: post) body).
Proof.
  intros Hpre Hc. induction pre as [|x pre IH]; simpl.
  - now apply always_raises_bind_l.
  - intros t. destruct (Hpre x (or_introl eq_refl) t) as (t1 & E).
    destruct (IH (fun y Hy => Hpre y (or_intror Hy)) t1) as (t2 & E2).
    exists t2. unfold bind. now rewrite E.
Qed.

Lemma process_pref_row_next df variables r :
  well_formed_row r -> Instructor_UCID_Type r <> CFloat ->
  forall t, exists t', process_pref_row df variables r t = Ok Next t'.
Proof.
  intros Hwf Hnf t.
  destruct (never_raises_process_pref_row df variables r Hwf t) as ([|] & t' & E).
  - now exists t'.
  - now elim (process_pref_row_no_break df variables r Hnf t t').
Qed.

Lemma process_slot_code_bad df variables email ct points code :
  (2 <= String.length code)%nat ->
  ~ well_formed_code code ->
  always_raises (KeyError (unknown_key code))
    (process_slot_code df variables email ct points code).
Proof.
  intros Hlen Hbad. unfold process_slot_code, unknown_key.
  assert (E : (String.length code <? 2)%nat = false) by (apply Nat.ltb_ge; lia).
  rewrite E. unfold getitem.
  destruct (dict_get Py.eqb (Py.char_at 0 code) time_slot_mapping) as [day|] eqn:Ed.
  - destruct (dict_get Py.eqb (Py.char_at 1 code) time_slot_index) as [slot|] eqn:Es.
    + elim Hbad. right. rewrite Ed, Es. split; discriminate.
    + intros t. eexists. reflexivity.
  - intros t. eexists. reflexivity.
Qed.

(** X19. A slot code of two or more characters whose day letter or slot
    digit is unknown aborts the build: when the rows before it are well
    formed (and none stops the loop) and the codes before it in its row
    are well formed, [build_model] raises [KeyError] with the unknown
    letter (or, when the letter is known, the unknown digit), whatever
    follows in the sheet. *)
Theorem X19_unknown_code_raises_KeyError :
  forall df wb cm tm before info slots after email ct pre code post,
    constraints_sheet wb = before ++ mkPref (CStr info) (CStr slots) :: after ->
    Forall (fun r => well_formed_row r /\ Instructor_UCID_Type r <> CFloat) before ->
    Py.split info ": " = [email; ct] ->
    Py.slice_1_m1 (Py.split slots "|") = pre ++ code :: post ->
    Forall well_formed_code pre ->
    (2 <= String.length code)%nat ->
    ~ well_formed_code code ->
    exists s', build df wb cm tm = Raise (KeyError (unknown_key code)) s'.
Proof.
  intros df wb cm tm before info slots after email ct pre code post
    Hsheet Hbefore Hinfo Hcodes Hpre Hlen Hbad.
  assert (Hnd : NoDup (quads time_slots_main days_main))
    by (apply NoDup_quads; [apply NoDup_time_slots_main | apply NoDup_days_main]).
  assert (T : always_raises (KeyError (unknown_key code))
                (build_model df wb time_slots_main days_main cm tm)).
  { unfold build_model.
    apply always_raises_bind_r; [apply never_raises_create_variables | intros variables].
    apply always_raises_bind_r; [apply never_raises_add_basic_constraints | intros _].
    apply always_raises_bind_r; [apply never_raises_add_balance_constraints | intros _].
    apply always_raises_bind_r; [now apply never_raises_add_pattern_constraints | intros _].
    apply always_raises_bind_r;
      [apply never_raises_add_course_block_constraints | intros _].
    apply always_raises_bind_r;
      [apply never_raises_add_consecutive_slots_constraints | intros _].
    apply always_raises_bind_r; [apply never_raises_add_jersey_city_constraints | intros _].
    apply always_raises_bind_l. unfold add_preference_constraints.
    apply always_raises_bind_r; [total_prim | intros _].
    apply always_raises_bind_l. rewrite Hsheet.
    apply always_raises_for_ctl.
    - intros r Hr. rewrite Forall_forall in Hbefore. destruct (Hbefore r Hr) as [W F].
      now apply process_pref_row_next.
    - unfold process_pref_row. cbn [Instructor_UCID_Type Slots]. rewrite Hinfo, Hcodes.
      apply always_raises_bind_l. apply always_raises_for.
      + intros c Hc. apply never_raises_process_slot_code.
        rewrite Forall_forall in Hpre. now apply Hpre.
      + now apply process_slot_code_bad. }
  exact (T empty_state).
Qed.

Lemma X19_unknown_code_raises_KeyError_witness :
  exists s', build tiny_df bad_code_wb tiny_cap [] = Raise (KeyError (unknown_key "X1")) s'.
Proof.
  apply (X19_unknown_code_raises_KeyError tiny_df bad_code_wb tiny_cap []
           [] "smith@x: Pref-1" "|M1|X1|T2|" [] "smith@x" "Pref-1" ["M1"] "X1" ["T2"]).
  - reflexivity.
  - constructor.
  - reflexivity.
  - reflexivity.
  - constructor; [|constructor]. right. split; discriminate.
  - simpl. lia.
  - intros [H | [H _]]; [simpl in H; lia | now apply H].
Defined.

Lemma process_pref_row_error df variables r e :
  row_error r = Some e -> always_raises e (process_pref_row df variables r).
Proof.
  unfold row_error, process_pref_row. intros H t.
  destruct (Instructor_UCID_Type r) as [info| |]; [| discriminate |].
  - destruct (Py.split info ": ") as [|a [|b [|c l]]];
      try (injection H as <-; eexists; reflexivity).
    destruct (Slots r); [discriminate | |]; injection H as <-; eexists; reflexivity.
  - injection H as <-. eexists. reflexivity.
Qed.

(** X20. A malformed row aborts the build: when the rows before it are
    well formed (and none stops the loop), a row whose instructor cell is
    neither a string nor a float, or does not read as "email: type" (two
    fields around ": "), or whose slots cell is not a string (an empty
    cell), makes [build_model] raise (AttributeError, ValueError and
    AttributeError respectively), whatever follows in the sheet. *)
Theorem X20_malformed_row_raises :
  forall df wb cm tm before r after e,
    constraints_sheet wb = before ++ r :: after ->
    Forall (fun r => well_formed_row r /\ Instructor_UCID_Type r <> CFloat) before ->
    row_error r = Some e ->
    exists s', build df wb cm tm = Raise e s'.
Proof.
  intros df wb cm tm before r after e Hsheet Hbefore Herr.
  assert (Hnd : NoDup (quads time_slots_main days_main))
    by (apply NoDup_quads; [apply NoDup_time_slots_main | apply NoDup_days_main]).
  assert (T : always_raises e (build_model df wb time_slots_main days_main cm tm)).
  { unfold build_model.
    apply always_raises_bind_r; [apply never_raises_create_variables | intros variables].
    apply always_raises_bind_r; [apply never_raises_add_basic_constraints | intros _].
    apply always_raises_bind_r; [apply never_raises_add_balance_constraints | intros _].
    apply always_raises_bind_r; [now apply never_raises_add_pattern_constraints | intros _].
    apply always_raises_bind_r;
      [apply never_raises_add_course_block_constraints | intros _].
    apply always_raises_bind_r;
      [apply never_raises_add_consecutive_slots_constraints | intros _].
    apply always_raises_bind_r; [apply never_raises_add_jersey_city_constraints | intros _].
    apply always_raises_bind_l. unfold add_preference_constraints.
    apply always_raises_bind_r; [total_prim | intros _].
    apply always_raises_bind_l. rewrite Hsheet.
    apply always_raises_for_ctl.
    - intros r' Hr. rewrite Forall_forall in Hbefore. destruct (Hbefore r' Hr) as [W F].
      now apply process_pref_row_next.
    - now apply process_pref_row_error. }
  exact (T empty_state).
Qed.

Lemma X20_malformed_row_raises_witness :
  exists s',
    build tiny_df (mkWorkbook [] [mkPref (CStr "smith@x: Pref-1") CFloat] None) tiny_cap []
    = Raise AttributeError s'.
Proof.
  apply (X20_malformed_row_raises tiny_df
           (mkWorkbook [] [mkPref (CStr "smith@x: Pref-1") CFloat] None) tiny_cap []
           [] (mkPref (CStr "smith@x: Pref-1") CFloat) [] AttributeError).
  - reflexivity.
  - constructor.
  - reflexivity.
Defined.
(* ================================================================== *)
(** ** The variable dictionary and the names it is read back from *)
(* ================================================================== *)

(** X16. Dictionary and model agree on the assignment variables: every
    (row, section 1..N, part, day, slot) has an entry in the dictionary
    under its name [X_course_instructor_section_part_day_slot], the model
    variable of that entry carries the same name, and the dictionary has
    no other entries. *)
Theorem X16_variable_dictionary :
  forall df wb cm tm variables s,
    build df wb cm tm = Ok variables s ->
    (forall row section_id part day slot,
       In row df -> In section_id (Py.range1 (Sections row)) -> In part parts12 ->
       In day days_main -> In slot time_slots_main ->
       exists x,
         vget (X_name (Course row) (Instructor row) section_id part day slot) variables
         = Some x
         /\ nth_error (mvars s) x
            = Some (X_name (Course row) (Instructor row) section_id part day slot))
    /\ (forall n x, vget n variables = Some x ->
          nth_error (mvars s) x = Some n
          /\ exists row section_id part day slot,
               In row df /\ In section_id (Py.range1 (Sections row)) /\ In part parts12
               /\ In day days_main /\ In slot time_slots_main
               /\ n = X_name (Course row) (Instructor row) section_id part day slot).
Proof.
  intros df wb cm tm variables s Hb. unfold build in Hb.
  pose proof (build_entries_named _ _ _ _ _ _ _ _ _ Hb) as Hent.
  apply build_model_runs in Hb as (s1 & _ & _ & _ & _ & _ & _ & (H1 & _) & _).
  split.
  - intros row section_id part day slot Hrow Hsec Hpart Hd Hs.
    pose proof (create_variables_present _ _ _ _ _ _ row section_id part day slot
                  H1 Hrow Hsec Hpart Hd Hs) as P.
    destruct (vget (X_name (Course row) (Instructor row) section_id part day slot)
                variables) as [x|] eqn:Hx; [|contradiction].
    exists x. split; [reflexivity|]. apply vget_In in Hx. now apply Hent in Hx.
  - intros n x Hx. apply vget_In in Hx. now apply Hent.
Qed.

Lemma X16_variable_dictionary_witness :
  (forall row section_id part day slot,
     In row tiny_df -> In section_id (Py.range1 (Sections row)) -> In part parts12 ->
     In day days_main -> In slot time_slots_main ->
     exists x,
       vget (X_name (Course row) (Instructor row) section_id part day slot) dup_vars
       = Some x
       /\ nth_error (mvars dup_state) x
          = Some (X_name (Course row) (Instructor row) section_id part day slot))
  /\ (forall n x, vget n dup_vars = Some x ->
        nth_error (mvars dup_state) x = Some n
        /\ exists row section_id part day slot,
             In row tiny_df /\ In section_id (Py.range1 (Sections row)) /\ In part parts12
             /\ In day days_main /\ In slot time_slots_main
             /\ n = X_name (Course row) (Instructor row) section_id part day slot).
Proof.
  apply (X16_variable_dictionary tiny_df dup_wb tiny_cap [] dup_vars dup_state).
  exact dup_build_ok.
Defined.

(** X17. Reading a variable name back: when course, instructor, day and
    slot contain no underscore, [split('_')] of the name gives exactly
    the seven fields it was built from, so the day and slot tests of the
    balance rules recognise the variable; an instructor name with an
    underscore shifts the fields, and then no day of the week is found
    in the day position: the variable matches no (day, slot) test. *)
Theorem X17_variable_names_read_back :
  forall c i sec part day slot,
    no_underscore c = true -> no_underscore day = true -> no_underscore slot = true ->
    (no_underscore i = true ->
     Py.split (X_name c i sec part day slot) "_"
     = ["X"; c; i; Py.str sec; Py.str part; day; slot]
     /\ forall day' slot',
          at_day_slot day' slot' (X_name c i sec part day slot)
          = (day =? day') && (slot =? slot'))
    /\ (forall a b day' slot',
          i = (a ++ String "_" b)%string ->
          no_underscore a = true -> no_underscore b = true ->
          In part parts12 -> In day' days_main ->
          at_day_slot day' slot' (X_name c i sec part day slot) = false).
Proof.
  intros c i sec part day slot Hc Hd Hs. split.
  - intros Hi. split; [now apply split_X_name|].
    intros day' slot'. now apply at_day_slot_X_name.
  - intros a b day' slot' -> Ha Hb Hp Hd'. unfold at_day_slot, Py.split. cbv zeta.
    change (X_name c (a ++ String "_" b) sec part day slot)
      with ("X" ++ String "_" (c ++ String "_" ((a ++ String "_" b) ++ String "_"
              (Py.str sec ++ String "_" (Py.str part ++ String "_"
                 (day ++ String "_" slot))))))%string.
    rewrite (append_assoc a).
    change (String "_" b ++ String "_" (Py.str sec ++ String "_" (Py.str part ++ String "_"
              (day ++ String "_" slot))))%string
      with (String "_" (b ++ String "_" (Py.str sec ++ String "_" (Py.str part
              ++ String "_" (day ++ String "_" slot)))))%string.
    rewrite split_go_piece by reflexivity.
    rewrite split_go_piece by assumption.
    rewrite split_go_piece by assumption.
    rewrite split_go_piece by assumption.
    rewrite split_go_piece by apply no_underscore_str.
    rewrite split_go_piece by apply no_underscore_str.
    rewrite split_go_piece by assumption.
    rewrite split_go_last by assumption.
    cbn [List.length Nat.leb field nth andb append].
    assert (E : (Py.str part =? day') = false).
    { apply Py_eqb_neq.
      destruct Hp as [<-|[<-|[]]];
        repeat (destruct Hd' as [<-|Hd']; [discriminate|]); contradiction. }
    now rewrite E.
Qed.

Lemma X17_variable_names_read_back_witness :
  (no_underscore "Smith" = true ->
   Py.split (X_name "CS300" "Smith" 1 1 "Monday" "8:30-10:00 AM") "_"
   = ["X"; "CS300"; "Smith"; Py.str 1; Py.str 1; "Monday"; "8:30-10:00 AM"]
   /\ forall day' slot',
        at_day_slot day' slot' (X_name "CS300" "Smith" 1 1 "Monday" "8:30-10:00 AM")
        = ("Monday" =? day') && ("8:30-10:00 AM" =? slot'))
  /\ (forall a b day' slot',
        "Smith" = (a ++ String "_" b)%string ->
        no_underscore a = true -> no_underscore b = true ->
        In 1 parts12 -> In day' days_main ->
        at_day_slot day' slot' (X_name "CS300" "Smith" 1 1 "Monday" "8:30-10:00 AM")
        = false).
Proof.
  apply (X17_variable_names_read_back "CS300" "Smith" 1 1 "Monday" "8:30-10:00 AM");
    reflexivity.
Defined.
(* ================================================================== *)
(** ** Concrete schedules *)
(* ================================================================== *)

Lemma check_solution_sound r ones :
  check_solution r ones = true ->
  r = Ok (ok_vars r) (state_of r)
  /\ solution (state_of r) (valuation_of (state_of r) ones).
Proof.
  unfold check_solution. destruct (is_ok r) eqn:E; [|discriminate].
  intros H. split; [now apply is_ok_eq | now apply solutionb_sound].
Qed.

Lemma pre_facts :
  pre_build = Ok pre_vars pre_state
  /\ solution pre_state (valuation_of pre_state morning_ones).
Proof. apply check_solution_sound. vm_compute. reflexivity. Qed.

Lemma c4_facts :
  c4_build = Ok c4_vars c4_state
  /\ solution c4_state (valuation_of c4_state c4_ones).
Proof. apply check_solution_sound. vm_compute. reflexivity. Qed.

Lemma jc_facts :
  jc_build = Ok jc_vars jc_state
  /\ solution jc_state (valuation_of jc_state jc_ones).
Proof. apply check_solution_sound. vm_compute. reflexivity. Qed.

Lemma pref_facts :
  is_ok pref_build = true
  /\ vget (X_name "CS300" "Smith" 1 1 "Monday" "8:30-10:00 AM") pref_vars = Some 0%nat.
Proof. vm_compute. split; reflexivity. Qed.

Lemma X5_pre_scheduled_blocked_witness :
  (forall n x, vget n pre_vars = Some x ->
     (7 <=? List.length (Py.split n "_"))%nat = true ->
     field 2 (Py.split n "_") = "Smith" ->
     field 5 (Py.split n "_") = "Tuesday" ->
     field 6 (Py.split n "_") = "8:30-10:00 AM" ->
     valuation_of pre_state morning_ones x = 0)
  /\ (forall c sec part,
        no_underscore c = true -> no_underscore "Smith" = true ->
        no_underscore "Tuesday" = true -> no_underscore "8:30-10:00 AM" = true ->
        x_value pre_vars (valuation_of pre_state morning_ones)
          (X_name c "Smith" sec part "Tuesday" "8:30-10:00 AM") = 0).
Proof.
  destruct pre_facts as [Hb Hs].
  apply (X5_pre_scheduled_blocked tiny_df pre_wb tiny_cap [] pre_vars pre_state
           (mkPre "Smith" "Tuesday" "8:30-10:00 AM") (valuation_of pre_state morning_ones)).
  - exact Hb.
  - left. reflexivity.
  - exact Hs.
Defined.

Lemma X8_no_three_consecutive_slots_witness :
  x_value c4_vars (valuation_of c4_state c4_ones)
    (X_name "CS300" "Smith" 1 1 "Friday" "8:30-10:00 AM")
  + x_value c4_vars (valuation_of c4_state c4_ones)
      (X_name "CS300" "Smith" 1 2 "Friday" "10:00-11:30 AM")
  + x_value c4_vars (valuation_of c4_state c4_ones)
      (X_name "CS300" "Smith" 2 1 "Friday" "11:30-1:00 PM") <= 2.
Proof.
  destruct c4_facts as [Hb Hs].
  apply (X8_no_three_consecutive_slots c4_df tiny_wb c4_cap [] c4_vars c4_state
           (valuation_of c4_state c4_ones) "Smith" "Friday"
           "8:30-10:00 AM" "10:00-11:30 AM" "11:30-1:00 PM"
           (mkRow "CS300" "Smith" (Some "300") "smith@x" 2) 1 1
           (mkRow "CS300" "Smith" (Some "300") "smith@x" 2) 1 2
           (mkRow "CS300" "Smith" (Some "300") "smith@x" 2) 2 1).
  - exact Hb.
  - exact Hs.
  - simpl. tauto.
  - left. reflexivity.
  - left. reflexivity.
  - reflexivity.
  - left. reflexivity.
  - left. reflexivity.
  - left. reflexivity.
  - reflexivity.
  - left. reflexivity.
  - right. left. reflexivity.
  - left. reflexivity.
  - reflexivity.
  - right. left. reflexivity.
  - left. reflexivity.
  - reflexivity.
  - reflexivity.
  - reflexivity.
Defined.


Lemma add_jersey_city_travel df variables ts ds tm s6 s7 :
  add_jersey_city_constraints df variables ts ds tm s6 = Ok tt s7 ->
  exists b,
    for_ (Py.unique (map Instructor df)) (fun instructor =>
      for_ ds (fun day =>
        let mine :=
          filter (fun item =>
                    let '((_, instr_key, _), _) := item in instr_key =? instructor)
                 tm in
        let jc_vars :=
          flat_map (fun item : SectionKey * option string =>
            let '((course, _, section_id), stype) := item in
            if is_jersey_city stype
            then present variables (X_name course instructor section_id 1 day evening_start)
            else [])
          mine in
        let other_prevslot_vars :=
          flat_map (fun item : SectionKey * option string =>
            let '((course, _, section_id), stype) := item in
            if is_jersey_city stype then []
            else flat_map (fun part =>
                   present variables
                     (X_name course instructor section_id part day prev_slot))
                 parts12)
          mine in
        for_ jc_vars (fun v_jc =>
          for_ other_prevslot_vars (fun v_other =>
            addConstr (ladd (lvar v_jc) (lvar v_other)) LE (lnum 1)
              (Py.cat ["JC_travel_buffer_"; instructor; "_"; day]))))) b = Ok tt s7.
Proof.
  intros H. unfold add_jersey_city_constraints in H.
  apply bind_Ok in H as ([] & a & Ha & H).
  apply bind_Ok in H as ([] & b & Hb & H).
  now exists b.
Qed.

Lemma sat_two_le1 v x y n :
  sat v (mkConstr (ladd (lvar x) (lvar y)) LE (lnum 1) n) <-> v x + v y <= 1.
Proof. sat_norm. lia. Qed.



(* ================================================================== *)
(** ** The General Preferences sheet *)
(* ================================================================== *)

Lemma grows_on_refl acc s : grows_on acc s s.
Proof. split; [apply extends_refl | exists []; now rewrite app_nil_r]. Qed.

Lemma grows_on_trans acc s1 s2 s3 :
  grows_on acc s1 s2 -> grows_on acc s2 s3 -> grows_on acc s1 s3.
Proof.
  intros [E1 [t1 H1]] [E2 [t2 H2]]. split; [eapply extends_trans; eassumption|].
  exists (t1 ++ t2). now rewrite H2, H1, app_assoc.
Qed.

#[export] Instance Growth_grows_on acc : Growth (grows_on acc) :=
  {| growth_refl := grows_on_refl acc; growth_trans := grows_on_trans acc |}.

Lemma grows_on_term acc s s' t :
  grows_on acc s s' -> In t (terms (acc s)) -> In t (terms (acc s')).
Proof. intros [_ [ts ->]] Hin. apply in_or_app. now left. Qed.

Lemma grows_on_extends acc s s' : grows_on acc s s' -> extends s s'.
Proof. now intros [E _]. Qed.

Lemma grows_on_step acc {A} (m : M A) :
  mono m ->
  (forall s, exists ts, terms (acc (state_of (m s))) = terms (acc s) ++ ts) ->
  mono_rel (grows_on acc) m.
Proof. intros Hm Ht s. split; [apply Hm | apply Ht]. Qed.

Ltac acc_prim :=
  apply grows_on_step;
  [ first [ apply mono_addVar | apply mono_addConstr
          | apply mono_same; intros ?; split; reflexivity ]
  | intros ?; cbn;
    first [ exists []; rewrite app_nil_r; reflexivity | eexists; reflexivity ] ].

Ltac acc_tac := mono_tac; try acc_prim.

Lemma windows2_In (l : list string) a b : In (a, b) (windows2 l) -> In a l /\ In b l.
Proof.
  induction l as [|x [|y l] IH]; cbn [windows2]; try contradiction.
  intros [[= -> ->] | H].
  - split; [now left | right; now left].
  - destruct (IH H) as [Ha Hb]. split; now right.
Qed.

Lemma filter_head_In {A} (f : A -> bool) (l : list A) x rest :
  filter f l = x :: rest -> In x l /\ f x = true.
Proof.
  intros H. apply filter_In. rewrite H. now left.
Qed.

(** What the format loop does for one window of one section of the
    instructor a row names. *)
Lemma add_format_preferences_hit df variables ts ds sheet t t'
  row email preference r0 rest course_row section_id day slot1 slot2 p1 p2 :
  add_format_preferences df variables ts ds sheet t = Ok tt t' ->
  In row (gp_rows sheet) ->
  gp_Email row = Some email -> gp_Preference row = Some preference ->
  filter (fun r => Email r =? email) df = r0 :: rest ->
  In course_row (filter (fun r => Instructor r =? Instructor r0) df) ->
  In section_id (Py.range1 (Sections course_row)) ->
  In day ds -> In (slot1, slot2) (windows2 ts) ->
  vget (X_name (Course course_row) (Instructor r0) section_id 1 day slot1) variables
  = Some p1 ->
  vget (X_name (Course course_row) (Instructor r0) section_id 2 day slot2) variables
  = Some p2 ->
  exists pen,
    nth_error (mvars t') pen = Some (Penalty_name (Instructor r0) day slot1 slot2)
    /\ In (-8, pen) (terms (format_penalty_sum t'))
    /\ (preference = "3-hour format" ->
        In (mkConstr (lsub (lvar p1) (lvar p2)) LE (lvar pen) "") (mconstrs t')
        /\ In (mkConstr (lsub (lvar p2) (lvar p1)) LE (lvar pen) "") (mconstrs t'))
    /\ (preference = "1.5+1.5 hour format" ->
        In (mkConstr (lsub (ladd (lvar p1) (lvar p2)) (lvar pen)) LE (lnum 1) "")
           (mconstrs t')).
Proof.
  intros H Hrow He Hp Hf Hc Hsec Hd Hw H1 H2.
  unfold add_format_preferences in H.
  apply bind_Ok in H as ([] & t0 & _ & H). cbv zeta in H.
  eapply (for_In_rel (R := grows_on format_penalty_sum)) in H
    as (u1 & u2 & _ & H & G1); [| intros; acc_tac | exact Hrow].
  rewrite He, Hp, Hf in H.
  eapply (for_In_rel (R := grows_on format_penalty_sum)) in H
    as (u3 & u4 & _ & H & G3); [| intros; acc_tac | exact Hc].
  eapply (for_In_rel (R := grows_on format_penalty_sum)) in H
    as (u5 & u6 & _ & H & G5); [| intros; acc_tac | exact Hsec].
  eapply (for_In_rel (R := grows_on format_penalty_sum)) in H
    as (u7 & u8 & _ & H & G7); [| intros; acc_tac | exact Hd].
  eapply (for_In_rel (R := grows_on format_penalty_sum)) in H
    as (u9 & u10 & _ & H & G9); [| intros; acc_tac | exact Hw].
  cbv beta iota in H. rewrite H1, H2 in H.
  apply bind_Ok in H as (pen & w1 & Hv & H).
  apply addVar_run in Hv as (-> & Hvs & Hcs).
  apply bind_Ok in H as ([] & w2 & Hcon & H).
  assert (G : grows_on format_penalty_sum w2 t').
  { assert (G0 : grows_on format_penalty_sum w2 u10).
    { eapply (mono_Ok (R := grows_on format_penalty_sum)); [|exact H]. acc_tac. }
    eauto 10 using grows_on_trans. }
  assert (Ew : extends w1 w2).
  { eapply mono_Ok; [|exact Hcon]. mono_tac. }
  exists (List.length (mvars u9)). split; [|split; [|split]].
  - eapply extends_name; [eapply grows_on_extends; exact G|].
    eapply extends_name; [exact Ew|]. rewrite Hvs. apply nth_error_app_new.
  - eapply grows_on_term; [|].
    + assert (G0 : grows_on format_penalty_sum u10 t') by eauto 10 using grows_on_trans.
      exact G0.
    + unfold add_format_penalty_sum in H. injection H as <-. cbn.
      apply in_or_app. right. now left.
  - intros ->. cbn [Py.eqb] in Hcon.
    change (("3-hour format" =? "3-hour format")) with true in Hcon.
    apply bind_Ok in Hcon as ([] & w3 & Hc1 & Hc2).
    apply addConstr_In in Hc1. pose proof (addConstr_In _ _ _ _ _ _ Hc2) as Hc2'.
    assert (E3 : extends w3 w2) by (eapply mono_Ok; [|exact Hc2]; mono_tac).
    split; (eapply extends_constr; [eapply grows_on_extends; exact G|]).
    + eapply extends_constr; [exact E3 | exact Hc1].
    + exact Hc2'.
  - intros ->.
    change (("1.5+1.5 hour format" =? "3-hour format")) with false in Hcon.
    change (("1.5+1.5 hour format" =? "1.5+1.5 hour format")) with true in Hcon.
    apply addConstr_In in Hcon.
    eapply extends_constr; [eapply grows_on_extends; exact G | exact Hcon].
Qed.
Lemma cell_eqb_eq (a b : option string) : cell_eqb a b = true <-> a = b.
Proof.
  destruct a as [a|], b as [b|]; cbn [cell_eqb]; try (split; [discriminate | congruence]).
  - rewrite Py_eqb_eq. split; congruence.
  - tauto.
Qed.

Lemma dict_get_In_pair {K V} (eqb : K -> K -> bool) (k : K) (v : V) (d : list (K * V)) :
  (forall a b, eqb a b = true <-> a = b) ->
  dict_get eqb k d = Some v -> In (k, v) d.
Proof.
  intros Heq. induction d as [|[k' v'] d IH]; simpl; [discriminate|].
  destruct (eqb k' k) eqn:E.
  - apply Heq in E. subst. intros [= ->]. now left.
  - auto.
Qed.

(** What the consecutive-preference loop does for one window of one
    section of an instructor whose entry is "No". *)
Lemma add_consecutive_preferences_hit df variables ts ds sheet t t'
  email r0 rest day slot1 slot2 course row0 rest0 section_id x1 x2 :
  add_consecutive_preferences df variables ts ds sheet t = Ok tt t' ->
  dict_get cell_eqb (Some email) (to_dict gp_Consecutive_Preference (gp_rows sheet))
  = Some (Some "No") ->
  filter (fun r => Email r =? email) df = r0 :: rest ->
  In day ds -> In (slot1, slot2) (windows2 ts) ->
  In course (map Course df) ->
  filter (fun r => (Instructor r =? Instructor r0) && (Course r =? course)) df
  = row0 :: rest0 ->
  In section_id (Py.range1 (Sections row0)) ->
  vget (X_name course (Instructor r0) section_id 1 day slot1) variables = Some x1 ->
  vget (X_name course (Instructor r0) section_id 2 day slot2) variables = Some x2 ->
  exists pen,
    nth_error (mvars t') pen
    = Some (ConsecutivePenalty_name (Instructor r0) day slot1 slot2)
    /\ In (-2048, pen) (terms (total_points t'))
    /\ In (mkConstr (lsub (ladd (lvar x1) (lvar x2)) (lterm 2 pen)) LE (lnum 1) "")
          (mconstrs t').
Proof.
  intros H Hno Hf Hd Hw Hc Hr Hsec H1 H2.
  unfold add_consecutive_preferences in H. cbv zeta in H.
  apply bind_Ok in H as ([] & t0 & _ & H).
  apply bind_Ok in H as ([] & t1 & H & Hend).
  apply bind_Ok in Hend as (cp & t2 & Hget & Hend).
  unfold get_consecutive_penalty_sum in Hget. injection Hget as <- <-.
  apply dict_get_In_pair in Hno; [|exact cell_eqb_eq].
  eapply (for_In_rel (R := grows_on consecutive_penalty_sum)) in H
    as (u1 & u2 & _ & H & G1); [| intros [? ?]; acc_tac | exact Hno].
  cbv beta iota in H.
  change (negb (cell_eqb (Some "No") (Some "No"))) with false in H. cbv iota in H.
  rewrite Hf in H.
  eapply (for_In_rel (R := grows_on consecutive_penalty_sum)) in H
    as (u3 & u4 & _ & H & G3); [| intros; acc_tac | exact Hd].
  eapply (for_In_rel (R := grows_on consecutive_penalty_sum)) in H
    as (u5 & u6 & _ & H & G5); [| intros; acc_tac | exact Hw].
  cbv beta iota in H.
  apply Py_unique_In in Hc.
  eapply (for_In_rel (R := grows_on consecutive_penalty_sum)) in H
    as (u7 & u8 & _ & H & G7); [| intros; acc_tac | exact Hc].
  rewrite Hr in H.
  eapply (for_In_rel (R := grows_on consecutive_penalty_sum)) in H
    as (u9 & u10 & _ & H & G9); [| intros; acc_tac | exact Hsec].
  cbv beta in H. rewrite H1, H2 in H.
  apply bind_Ok in H as (pen & w1 & Hv & H).
  apply addVar_run in Hv as (-> & Hvs & Hcs).
  apply bind_Ok in H as ([] & w2 & Hcon & H).
  assert (G : grows_on consecutive_penalty_sum u10 t1) by eauto 10 using grows_on_trans.
  assert (E2 : extends w2 u10) by (eapply mono_Ok; [|exact H]; mono_tac).
  assert (Et : extends t1 t') by (eapply mono_Ok; [|exact Hend]; mono_tac).
  exists (List.length (mvars u9)). split; [|split].
  - eapply extends_name; [exact Et|].
    eapply extends_name; [eapply grows_on_extends; exact G|].
    eapply extends_name; [exact E2|].
    assert (E1 : extends w1 w2) by (eapply mono_Ok; [|exact Hcon]; mono_tac).
    eapply extends_name; [exact E1|]. rewrite Hvs. apply nth_error_app_new.
  - unfold add_total_points in Hend. injection Hend as <-. cbn.
    apply in_or_app. right.
    eapply grows_on_term; [exact G|].
    unfold add_consecutive_penalty_sum in H. injection H as <-. cbn.
    apply in_or_app. right. now left.
  - apply addConstr_In in Hcon.
    eapply extends_constr; [exact Et|].
    eapply extends_constr; [eapply grows_on_extends; exact G|].
    eapply extends_constr; [exact E2 | exact Hcon].
Qed.
(* ================================================================== *)
(** ** The objective without instructor preference rows *)
(* ================================================================== *)

Lemma penalty_expr_extends s s' e : extends s s' -> penalty_expr s e -> penalty_expr s' e.
Proof.
  intros E [Ht Hc]. split; [|exact Hc].
  eapply Forall_impl; [|exact Ht]. intros t [Hk Hx]. split; [exact Hk|].
  pose proof (extends_nvars _ _ E). lia.
Qed.

Lemma penalty_expr_lin0 s : penalty_expr s lin0.
Proof. split; [constructor | reflexivity]. Qed.

Lemma penalty_expr_ladd s a b :
  penalty_expr s a -> penalty_expr s b -> penalty_expr s (ladd a b).
Proof.
  intros [Ha Ca] [Hb Cb]. split; cbn.
  - apply Forall_app. now split.
  - rewrite Ca, Cb. reflexivity.
Qed.

Lemma penalty_expr_lterm s k p :
  k <= 0 -> (p < List.length (mvars s))%nat -> penalty_expr s (lterm k p).
Proof. intros Hk Hp. split; cbn; [|reflexivity]. constructor; [now split | constructor]. Qed.

Lemma keeps_sums_refl s : keeps_sums s s.
Proof. split; [apply extends_refl|]. now repeat split. Qed.

Lemma keeps_sums_trans a b c : keeps_sums a b -> keeps_sums b c -> keeps_sums a c.
Proof.
  intros (E1 & T1 & F1 & D1 & C1) (E2 & T2 & F2 & D2 & C2).
  split; [eapply extends_trans; eassumption|].
  split; [congruence|]. split; [congruence|]. split; congruence.
Qed.

#[export] Instance Growth_keeps_sums : Growth keeps_sums :=
  {| growth_refl := keeps_sums_refl; growth_trans := keeps_sums_trans |}.

Lemma keeps_sums_step {A} (m : M A) :
  mono m ->
  (forall s, total_points (state_of (m s)) = total_points s
             /\ format_penalty_sum (state_of (m s)) = format_penalty_sum s
             /\ day_penalty_sum (state_of (m s)) = day_penalty_sum s
             /\ consecutive_penalty_sum (state_of (m s)) = consecutive_penalty_sum s) ->
  mono_rel keeps_sums m.
Proof. intros Hm Hs s. split; [apply Hm | apply Hs]. Qed.

Ltac keeps_prim :=
  apply keeps_sums_step;
  [ first [ apply mono_addVar | apply mono_addConstr
          | apply mono_same; intros ?; split; reflexivity ]
  | intros ?; cbn; split; [reflexivity|]; split; [reflexivity|]; split; reflexivity ].

Ltac keeps_tac := mono_tac; try keeps_prim.

Lemma keeps_sums_penal s s' : keeps_sums s s' -> penal s -> penal s'.
Proof.
  intros (E & T & F & _) [Ht Hf]. split.
  - rewrite T. eapply penalty_expr_extends; eassumption.
  - rewrite F. eapply penalty_expr_extends; eassumption.
Qed.

Lemma invariant_ret {A} I (a : A) : invariant I (ret a).
Proof. intros s a' s' HI [= _ <-]. exact HI. Qed.

Lemma invariant_bind {A B} I (m : M A) (k : A -> M B) :
  invariant I m -> (forall a, invariant I (k a)) -> invariant I (bind m k).
Proof.
  intros Hm Hk s b s' HI Hrun. apply bind_Ok in Hrun as (a & s1 & H1 & H2).
  eapply Hk; [|exact H2]. eapply Hm; eassumption.
Qed.

Lemma invariant_for {A} I (xs : list A) (body : A -> M unit) :
  (forall x, In x xs -> invariant I (body x)) -> invariant I (for_ xs body).
Proof.
  induction xs as [|x xs IH]; intros H; simpl; [apply invariant_ret|].
  apply invariant_bind; [apply H; now left | intros _; apply IH].
  intros y Hy. apply H. now right.
Qed.

Lemma invariant_when I (b : bool) (m : M unit) : invariant I m -> invariant I (when b m).
Proof. intros H. destruct b; [exact H | apply invariant_ret]. Qed.

Lemma invariant_keeps {A} (I : State -> Prop) (m : M A) :
  (forall s s', keeps_sums s s' -> I s -> I s') ->
  mono_rel keeps_sums m -> invariant I m.
Proof.
  intros Hst Hm s a s' HI Hrun. eapply Hst; [|exact HI].
  eapply (mono_Ok (R := keeps_sums)); eassumption.
Qed.

Lemma invariant_run {A} (I : State -> Prop) (m : M A) s a s' :
  m s = Ok a s' -> invariant I m -> I s -> I s'.
Proof. intros Hrun Hm HI. eapply Hm; eassumption. Qed.

Lemma addVar_keeps n s p s' :
  addVar n s = Ok p s' ->
  keeps_sums s s' /\ (p < List.length (mvars s'))%nat.
Proof.
  intros H. split.
  - eapply (mono_Ok (R := keeps_sums)); [|exact H]. keeps_tac.
  - apply addVar_run in H as (-> & -> & _). rewrite length_app. simpl. lia.
Qed.

(** The format stage leaves sums of penalties. *)
Lemma add_format_preferences_penal df variables ts ds sheet t t' :
  add_format_preferences df variables ts ds sheet t = Ok tt t' ->
  penalty_expr t (total_points t) -> penal t'.
Proof.
  intros H Ht. unfold add_format_preferences in H.
  apply bind_Ok in H as ([] & t0 & Hset & H). cbv zeta in H.
  assert (H0 : penal t0).
  { unfold set_format_penalty_sum in Hset. injection Hset as <-.
    split; cbn; [exact Ht | apply penalty_expr_lin0]. }
  eapply (invariant_run penal); [exact H | | exact H0].
  apply invariant_for. intros row _.
  destruct (gp_Email row) as [email|]; [|apply invariant_ret].
  destruct (gp_Preference row) as [preference|]; [|apply invariant_ret].
  destruct (filter (fun r => Email r =? email) df) as [|r0 rest]; [apply invariant_ret|].
  apply invariant_for. intros course_row _.
  apply invariant_for. intros section_id _.
  apply invariant_for. intros day _.
  apply invariant_for. intros [slot1 slot2] _.
  destruct (vget _ variables) as [p1|]; [|apply invariant_ret].
  destruct (vget _ variables) as [p2|]; [|apply invariant_ret].
  intros s a s' HI Hrun.
  apply bind_Ok in Hrun as (pen & s1 & Hv & Hrun).
  apply addVar_keeps in Hv as [K1 Hp].
  apply bind_Ok in Hrun as ([] & s2 & Hc & Hrun).
  assert (K2 : keeps_sums s1 s2).
  { eapply (mono_Ok (R := keeps_sums)); [|exact Hc]. keeps_tac. }
  pose proof (keeps_sums_penal _ _ (keeps_sums_trans _ _ _ K1 K2) HI) as [Ht2 Hf2].
  unfold add_format_penalty_sum in Hrun. injection Hrun as <- <-.
  split; cbn; [exact Ht2|].
  apply penalty_expr_ladd; [exact Hf2|].
  apply penalty_expr_lterm; [lia|].
  destruct K2 as [E2 _]. pose proof (extends_nvars _ _ E2). cbn [mvars]. lia.
Qed.
Lemma day_body_run df variables ts instructor z_vars day s b' s' :
  day_body df variables ts instructor z_vars day s = Ok b' s' ->
  let z := List.length (mvars s) in
  b' = dict_set pair_eqb (instructor, day) z z_vars
  /\ extends s s'
  /\ nth_error (mvars s') z = Some (Z_name instructor day)
  /\ (forall x, In x (relevant_x_vars df variables ts instructor day) ->
        In (mkConstr (lvar x) LE (lvar z) "") (mconstrs s'))
  /\ (relevant_x_vars df variables ts instructor day = [] ->
        In (mkConstr (lvar z) EQ (lnum 0) "") (mconstrs s')).
Proof.
  intros H z. pose proof H as Hall. unfold day_body in H.
  apply bind_Ok in H as (z0 & s1 & Hv & H).
  apply addVar_run in Hv as (-> & Hvs & Hcs). cbv zeta in H.
  apply bind_Ok in H as ([] & s2 & Hfor & H).
  apply bind_Ok in H as ([] & s3 & Hwhen & H).
  injection H as <- <-.
  assert (E : extends s s3).
  { eapply mono_Ok; [|exact Hall]. unfold day_body. mono_tac. }
  assert (E3 : extends s2 s3) by (eapply mono_Ok; [|exact Hwhen]; mono_tac).
  split; [reflexivity|]. split; [exact E|]. split; [|split].
  - assert (E1 : extends s1 s3).
    { eapply extends_trans; [|exact E3]. eapply mono_Ok; [|exact Hfor]. mono_tac. }
    eapply extends_name; [exact E1|]. rewrite Hvs. apply nth_error_app_new.
  - intros x Hx.
    eapply for_In in Hfor as (u1 & u2 & _ & Hc & E2); [| intros; mono_tac | exact Hx].
    apply addConstr_In in Hc.
    eapply extends_constr; [exact E3|]. eapply extends_constr; [exact E2 | exact Hc].
  - intros Hnil. fold z in Hwhen. rewrite Hnil in Hwhen.
    apply when_true_Ok, addConstr_In in Hwhen. exact Hwhen.
Qed.

Lemma z_ok_extends df variables ts z_vars s s' :
  extends s s' -> z_ok df variables ts z_vars s -> z_ok df variables ts z_vars s'.
Proof.
  intros E H i d z Hz. destruct (H i d z Hz) as (Hn & Hc & H0).
  split; [eapply extends_name; eassumption|]. split.
  - intros x Hx. eapply extends_constr; [exact E | now apply Hc].
  - intros Hnil. eapply extends_constr; [exact E | now apply H0].
Qed.

Lemma day_body_pres df variables ts instructor day :
  pres (z_ok df variables ts) (fun b => day_body df variables ts instructor b day).
Proof.
  intros b s b' s' HP Hrun.
  apply day_body_run in Hrun as (-> & E & Hn & Hc & H0).
  intros i d z Hz.
  destruct (pair_eqb (i, d) (instructor, day)) eqn:Ek.
  - apply pair_eqb_eq in Ek. injection Ek as -> ->.
    rewrite (dict_get_set_same pair_eqb pair_eqb_eq) in Hz. injection Hz as <-.
    split; [exact Hn | split; assumption].
  - rewrite (dict_get_set_other pair_eqb pair_eqb_eq) in Hz.
    + eapply z_ok_extends; [exact E | exact HP | exact Hz].
    + intros Heq. rewrite Heq, (proj2 (pair_eqb_eq _ _) eq_refl) in Ek. discriminate.
Qed.

Lemma day_loop_ok df variables ts ds (xs : list string) s z_vars s' :
  foldM (fun z i => foldM (day_body df variables ts i) ds z) xs ([] : ZDict) s
  = Ok z_vars s' ->
  z_ok df variables ts z_vars s'.
Proof.
  intros H.
  eapply (foldM_pres (z_ok df variables ts)
            (fun z i => foldM (day_body df variables ts i) ds z) xs); [| |exact H].
  - intros i _. apply (foldM_pres (z_ok df variables ts) (day_body df variables ts i) ds).
    intros d _. apply day_body_pres.
  - intros i d z Hz. discriminate.
Qed.

Lemma dict_get_set_some {K V} (eqb : K -> K -> bool) (k k0 : K) (v : V) (d : list (K * V)) :
  (forall a b, eqb a b = true <-> a = b) ->
  dict_get eqb k0 d <> None -> dict_get eqb k0 (dict_set eqb k v d) <> None.
Proof.
  intros Heq Hd. destruct (eqb k0 k) eqn:E.
  - apply Heq in E. subst. now rewrite (dict_get_set_same eqb Heq).
  - rewrite (dict_get_set_other eqb Heq); [exact Hd|].
    intros ->. rewrite (proj2 (Heq k k) eq_refl) in E. discriminate.
Qed.

Lemma day_loop_keys df variables ts ds (xs : list string) s z_vars s' i d :
  foldM (fun z i => foldM (day_body df variables ts i) ds z) xs ([] : ZDict) s
  = Ok z_vars s' ->
  In i xs -> In d ds ->
  dict_get pair_eqb (i, d) z_vars <> None.
Proof.
  intros H Hi Hd.
  assert (Hk : forall j e, pres (fun b _ => dict_get pair_eqb (i, d) b <> None)
                             (fun b => day_body df variables ts j b e)).
  { intros j e b t b' t' HP Hrun. apply day_body_run in Hrun as (-> & _).
    apply dict_get_set_some; [exact pair_eqb_eq | exact HP]. }
  eapply (foldM_sets (fun b => dict_get pair_eqb (i, d) b <> None)
            (fun z i => foldM (day_body df variables ts i) ds z) xs i Hi); [| |exact H].
  - intros j. apply (foldM_pres (fun b _ => dict_get pair_eqb (i, d) b <> None)
                       (day_body df variables ts j) ds).
    intros e _. apply Hk.
  - apply (foldM_sets (fun b => dict_get pair_eqb (i, d) b <> None)
             (day_body df variables ts i) ds d Hd).
    + intros e. apply Hk.
    + intros b t b' t' Hrun. apply day_body_run in Hrun as (-> & _).
      rewrite (dict_get_set_same pair_eqb pair_eqb_eq). discriminate.
Qed.

Lemma instructor_rows_nonempty df instructor :
  In instructor (map Instructor df) ->
  filter (fun r => Instructor r =? instructor) df <> [].
Proof.
  intros H. apply in_map_iff in H as (r & <- & Hr).
  intros E. assert (Hin : In r (filter (fun r0 => Instructor r0 =? Instructor r) df)).
  { apply filter_In. split; [exact Hr | apply Py_eqb_refl]. }
  rewrite E in Hin. contradiction.
Qed.

(** What the day-preference stage leaves for one instructor and day. *)
Lemma add_day_preferences_hit df variables ts ds sheet t t' instructor day :
  add_day_preferences df variables ts ds sheet t = Ok tt t' ->
  In instructor (map Instructor df) -> In day ds ->
  exists z,
    nth_error (mvars t') z = Some (Z_name instructor day)
    /\ In (day_penalty df sheet instructor, z) (terms (total_points t'))
    /\ (forall x, In x (relevant_x_vars df variables ts instructor day) ->
          In (mkConstr (lvar x) LE (lvar z) "") (mconstrs t'))
    /\ (relevant_x_vars df variables ts instructor day = [] ->
          In (mkConstr (lvar z) EQ (lnum 0) "") (mconstrs t')).
Proof.
  intros H Hi Hd. unfold add_day_preferences in H. cbv zeta in H.
  apply bind_Ok in H as (z_vars & t1 & Hz & H).
  apply Py_unique_In in Hi.
  pose proof (day_loop_ok _ _ _ _ _ _ _ _ Hz) as Hok.
  pose proof (day_loop_keys _ _ _ _ _ _ _ _ _ _ Hz Hi Hd) as Hkey.
  destruct (dict_get pair_eqb (instructor, day) z_vars) as [z|] eqn:Eg; [|contradiction].
  destruct (Hok _ _ _ Eg) as (Hn & Hc & H0).
  apply bind_Ok in H as ([] & t2 & Hset & H).
  apply bind_Ok in H as ([] & t3 & Hloop & Hend).
  apply bind_Ok in Hend as (dp & t4 & Hget & Hend).
  unfold get_day_penalty_sum in Hget. injection Hget as <- <-.
  assert (E12 : extends t1 t2) by (eapply mono_Ok; [|exact Hset]; mono_tac).
  assert (E23 : extends t2 t3) by (eapply mono_Ok; [|exact Hloop]; mono_tac).
  assert (E3 : extends t3 t') by (eapply mono_Ok; [|exact Hend]; mono_tac).
  assert (E : extends t1 t') by eauto using extends_trans.
  exists z. split; [eapply extends_name; eassumption|]. split; [|split].
  - eapply (for_In_rel (R := grows_on day_penalty_sum)) in Hloop
      as (u1 & u2 & _ & Hb & G1); [| intros; acc_tac | exact Hi].
    unfold day_penalty.
    apply Py_unique_In, instructor_rows_nonempty in Hi.
    destruct (filter (fun r => Instructor r =? instructor) df) as [|r0 rest];
      [contradiction|].
    cbv zeta in Hb.
    eapply (for_In_rel (R := grows_on day_penalty_sum)) in Hb
      as (u3 & u4 & _ & Hb & G3); [| intros; acc_tac | exact Hd].
    rewrite Eg in Hb.
    unfold add_total_points in Hend. injection Hend as <-. cbn.
    apply in_or_app. right.
    eapply grows_on_term; [exact G1|]. eapply grows_on_term; [exact G3|].
    unfold add_day_penalty_sum in Hb. injection Hb as <-. cbn.
    apply in_or_app. right. now left.
  - intros x Hx. eapply extends_constr; [exact E | now apply Hc].
  - intros Hnil. eapply extends_constr; [exact E | now apply H0].
Qed.

Lemma never_raises_add_format_preferences df variables ts ds sheet :
  never_raises (add_format_preferences df variables ts ds sheet).
Proof. unfold add_format_preferences. total_tac; total_prim. Qed.

Lemma never_raises_add_consecutive_preferences df variables ts ds sheet :
  never_raises (add_consecutive_preferences df variables ts ds sheet).
Proof.
  unfold add_consecutive_preferences.
  total_tac; try total_prim.
  all: destruct (negb _); total_tac; total_prim.
Qed.

Lemma never_raises_add_day_preferences df variables ts ds sheet :
  never_raises (add_day_preferences df variables ts ds sheet).
Proof.
  unfold add_day_preferences. cbv zeta.
  apply (never_raises_bind_post
           (fun z_vars : ZDict =>
              forall i d, In i (Py.unique (map Instructor df)) -> In d ds ->
                dict_get pair_eqb (i, d) z_vars <> None)).
  - intros t.
    destruct (never_raises_foldM
                (fun z i => foldM (day_body df variables ts i) ds z)
                (Py.unique (map Instructor df))) with (b := ([] : ZDict)) (t := t)
      as (z_vars & t1 & E).
    { intros b i _. apply never_raises_foldM. intros b0 d _.
      unfold day_body. total_tac. }
    exists z_vars, t1. split; [exact E|].
    intros i d Hi Hd. eapply day_loop_keys; eassumption.
  - intros z_vars HP.
    apply never_raises_bind; [total_prim | intros _].
    apply never_raises_bind.
    { apply never_raises_for. intros i Hi.
      destruct (filter (fun r => Instructor r =? i) df) as [|r0 rest];
        [apply never_raises_ret|].
      apply never_raises_for. intros d Hd.
      destruct (dict_get pair_eqb (i, d) z_vars) eqn:E; [total_prim|].
      now elim (HP i d Hi Hd). }
    intros _. apply never_raises_bind; [total_prim | intros ?; total_prim].
Qed.

(** With a readable sheet of at least three columns the last stage runs
    its three preference parts in turn and adds the format penalties. *)
Lemma gp_block df variables ts ds wb cm sheet a1 a2 :
  general_preferences wb = Some sheet -> (3 <= gp_ncols sheet)%nat ->
  add_additional_constraints df variables ts ds wb cm a1 = Ok tt a2 ->
  exists b3 c1 c2 c3,
    keeps_sums a1 b3
    /\ add_format_preferences df variables ts ds sheet b3 = Ok tt c1
    /\ when (3 <? gp_ncols sheet)%nat
         (add_day_preferences df variables ts ds sheet) c1 = Ok tt c2
    /\ when (5 <? gp_ncols sheet)%nat
         (add_consecutive_preferences df variables ts ds sheet) c2 = Ok tt c3
    /\ add_total_points (format_penalty_sum c3) c3 = Ok tt a2.
Proof.
  intros Hs Hn H. unfold add_additional_constraints in H.
  apply bind_Ok in H as ([] & b1 & H1 & H).
  apply bind_Ok in H as ([] & b2 & H2 & H).
  apply bind_Ok in H as ([] & b3 & H3 & H).
  assert (E : keeps_sums a1 b3).
  { eapply keeps_sums_trans;
      [eapply (mono_Ok (R := keeps_sums)); [|exact H1]; keeps_tac|].
    eapply keeps_sums_trans;
      [eapply (mono_Ok (R := keeps_sums)); [|exact H2];
       unfold add_restricted_slot_constraints, course_number_of; keeps_tac|].
    eapply (mono_Ok (R := keeps_sums)); [|exact H3]. keeps_tac. }
  rewrite Hs in H.
  assert (Hlt : (gp_ncols sheet <? 3)%nat = false) by (apply Nat.ltb_ge; lia).
  rewrite Hlt in H.
  assert (T : never_raises
                (add_format_preferences df variables ts ds sheet ;;
                 when (3 <? gp_ncols sheet)%nat
                   (add_day_preferences df variables ts ds sheet) ;;
                 when (5 <? gp_ncols sheet)%nat
                   (add_consecutive_preferences df variables ts ds sheet) ;;
                 format_penalty <- get_format_penalty_sum ;;
                 add_total_points format_penalty)).
  { apply never_raises_bind; [apply never_raises_add_format_preferences | intros _].
    apply never_raises_bind;
      [apply never_raises_when, never_raises_add_day_preferences | intros _].
    apply never_raises_bind;
      [apply never_raises_when, never_raises_add_consecutive_preferences | intros _].
    apply never_raises_bind; [total_prim | intros ?; total_prim]. }
  destruct (T b3) as ([] & t' & Hrun).
  unfold try_except in H. rewrite Hrun in H. injection H as <-.
  apply bind_Ok in Hrun as ([] & c1 & Hf & Hrun).
  apply bind_Ok in Hrun as ([] & c2 & Hday & Hrun).
  apply bind_Ok in Hrun as ([] & c3 & Hcon & Hrun).
  apply bind_Ok in Hrun as (fp & c4 & Hget & Hrun).
  unfold get_format_penalty_sum in Hget. injection Hget as <- <-.
  exists b3, c1, c2, c3.
  split; [exact E|]. split; [exact Hf|]. split; [exact Hday|].
  split; [exact Hcon | exact Hrun].
Qed.
(** From a successful build with a readable sheet to the runs of the
    three preference parts. *)
Lemma build_gp df wb cm tm variables s sheet :
  build df wb cm tm = Ok variables s ->
  general_preferences wb = Some sheet -> (3 <= gp_ncols sheet)%nat ->
  exists s0 s1 c0 c1 c2 c3,
    create_variables df time_slots_main days_main s0 = Ok variables s1
    /\ add_format_preferences df variables time_slots_main days_main sheet c0 = Ok tt c1
    /\ when (3 <? gp_ncols sheet)%nat
         (add_day_preferences df variables time_slots_main days_main sheet) c1 = Ok tt c2
    /\ when (5 <? gp_ncols sheet)%nat
         (add_consecutive_preferences df variables time_slots_main days_main sheet) c2
       = Ok tt c3
    /\ mvars s = mvars c3 /\ mconstrs s = mconstrs c3
    /\ mobjective s = Some (ladd (total_points c3) (format_penalty_sum c3)).
Proof.
  intros Hb Hs Hn.
  pose proof Hb as Hb'. unfold build in Hb'.
  apply build_model_runs in Hb' as (s1 & _ & _ & _ & _ & _ & _ & (H1 & _) & _).
  destruct (build_additional _ _ _ _ _ _ Hb) as (a1 & a2 & Ha & Ev & Ec & Eo & _).
  destruct (gp_block _ _ _ _ _ _ _ _ _ Hs Hn Ha)
    as (b3 & c1 & c2 & c3 & _ & Hf & Hd & Hc & Hend).
  exists empty_state, s1, b3, c1, c2, c3.
  unfold add_total_points in Hend. injection Hend as <-.
  split; [exact H1|]. split; [exact Hf|]. split; [exact Hd|]. split; [exact Hc|].
  split; [exact Ev|]. split; [exact Ec | exact Eo].
Qed.

Lemma sat_diff_le v a b p n :
  sat v (mkConstr (lsub (lvar a) (lvar b)) LE (lvar p) n) <-> v a - v b <= v p.
Proof. sat_norm. lia. Qed.

Lemma sat_pair_minus_le1 v a b p n :
  sat v (mkConstr (lsub (ladd (lvar a) (lvar b)) (lvar p)) LE (lnum 1) n)
  <-> v a + v b - v p <= 1.
Proof. sat_norm. lia. Qed.

Lemma sat_pair_minus2_le1 v a b p n :
  sat v (mkConstr (lsub (ladd (lvar a) (lvar b)) (lterm 2 p)) LE (lnum 1) n)
  <-> v a + v b - 2 * v p <= 1.
Proof. sat_norm. lia. Qed.

Lemma when_extends (b : bool) (m : M unit) s s' :
  mono m -> when b m s = Ok tt s' -> extends s s'.
Proof. intros Hm H. eapply mono_Ok; [|exact H]. now apply mono_when. Qed.

Lemma when_grows_on acc (b : bool) (m : M unit) s s' :
  mono_rel (grows_on acc) m -> when b m s = Ok tt s' -> grows_on acc s s'.
Proof.
  intros Hm H. eapply (mono_Ok (R := grows_on acc)); [|exact H]. now apply mono_when.
Qed.

Lemma grows_on_format_day df variables ts ds sheet :
  mono_rel (grows_on format_penalty_sum) (add_day_preferences df variables ts ds sheet).
Proof. unfold add_day_preferences. acc_tac. Qed.

Lemma grows_on_format_consecutive df variables ts ds sheet :
  mono_rel (grows_on format_penalty_sum)
    (add_consecutive_preferences df variables ts ds sheet).
Proof. unfold add_consecutive_preferences. acc_tac. Qed.

Lemma grows_on_total_consecutive df variables ts ds sheet :
  mono_rel (grows_on total_points) (add_consecutive_preferences df variables ts ds sheet).
Proof. unfold add_consecutive_preferences. acc_tac. Qed.

(** X22. Format preferences: for every row of the General Preferences
    sheet with an e-mail address and a preference, every section of the
    instructor the address belongs to, every day and every pair of
    adjacent slots, the model has a variable [Penalty_...] that enters the
    objective with -8; in every solution it is at least the difference
    between "part 1 in the first slot" and "part 2 in the second" when the
    row asks for the 3-hour format, and at least their sum minus one when
    it asks for the 1.5+1.5 hour format. *)
Theorem X22_format_preference_penalty :
  forall df wb cm tm variables s sheet row email preference r0 rest course_row
         section_id day slot1 slot2,
    build df wb cm tm = Ok variables s ->
    general_preferences wb = Some sheet ->
    (3 <= gp_ncols sheet)%nat ->
    In row (gp_rows sheet) ->
    gp_Email row = Some email ->
    gp_Preference row = Some preference ->
    filter (fun r => Email r =? email) df = r0 :: rest ->
    In course_row (filter (fun r => Instructor r =? Instructor r0) df) ->
    In section_id (Py.range1 (Sections course_row)) ->
    In day days_main ->
    In (slot1, slot2) (windows2 time_slots_main) ->
    exists pen obj,
      nth_error (mvars s) pen = Some (Penalty_name (Instructor r0) day slot1 slot2)
      /\ mobjective s = Some obj
      /\ In (-8, pen) (terms obj)
      /\ forall v, solution s v ->
           let a := x_value variables v
                      (X_name (Course course_row) (Instructor r0) section_id 1 day slot1) in
           let b := x_value variables v
                      (X_name (Course course_row) (Instructor r0) section_id 2 day slot2) in
           (preference = "3-hour format" -> a - b <= v pen /\ b - a <= v pen)
           /\ (preference = "1.5+1.5 hour format" -> a + b - v pen <= 1).
Proof.
  intros df wb cm tm variables s sheet row email preference r0 rest course_row
    section_id day slot1 slot2 Hb Hs Hn Hrow He Hp Hf Hc Hsec Hd Hw.
  destruct (build_gp _ _ _ _ _ _ _ Hb Hs Hn)
    as (s0 & s1 & c0 & c1 & c2 & c3 & Hcv & Hfmt & Hday & Hcon & Ev & Ec & Eo).
  pose proof Hc as Hc'. apply filter_In in Hc' as [Hin Hi]. apply Py_eqb_eq in Hi.
  destruct (windows2_In _ _ _ Hw) as [Hs1 Hs2].
  pose proof (create_variables_present _ _ _ _ _ _ course_row section_id 1 day slot1
                Hcv Hin Hsec (or_introl eq_refl) Hd Hs1) as P1.
  pose proof (create_variables_present _ _ _ _ _ _ course_row section_id 2 day slot2
                Hcv Hin Hsec (or_intror (or_introl eq_refl)) Hd Hs2) as P2.
  rewrite Hi in P1, P2.
  destruct (vget (X_name (Course course_row) (Instructor r0) section_id 1 day slot1)
              variables) as [p1|] eqn:E1; [|contradiction].
  destruct (vget (X_name (Course course_row) (Instructor r0) section_id 2 day slot2)
              variables) as [p2|] eqn:E2; [|contradiction].
  destruct (add_format_preferences_hit _ _ _ _ _ _ _ _ _ _ _ _ _ _ _ _ _ _ _
              Hfmt Hrow He Hp Hf Hc Hsec Hd Hw E1 E2) as (pen & Hname & Hterm & H3 & H15).
  assert (G12 : grows_on format_penalty_sum c1 c2)
    by (eapply when_grows_on; [apply grows_on_format_day | exact Hday]).
  assert (G23 : grows_on format_penalty_sum c2 c3)
    by (eapply when_grows_on; [apply grows_on_format_consecutive | exact Hcon]).
  assert (G : grows_on format_penalty_sum c1 c3) by eauto using grows_on_trans.
  exists pen, (ladd (total_points c3) (format_penalty_sum c3)).
  split; [|split; [exact Eo | split]].
  - rewrite Ev. eapply extends_name; [eapply grows_on_extends; exact G | exact Hname].
  - cbn. apply in_or_app. right. eapply grows_on_term; [exact G | exact Hterm].
  - intros v Hv. unfold x_value. rewrite E1, E2. cbv zeta. split.
    + intros Hpref. destruct (H3 Hpref) as [Ca Cb].
      split; (eapply sat_diff_le, solution_sat; [exact Hv|]; rewrite Ec;
              eapply extends_constr; [eapply grows_on_extends; exact G|]);
        [exact Ca | exact Cb].
    + intros Hpref. specialize (H15 Hpref).
      eapply sat_pair_minus_le1, solution_sat; [exact Hv|]. rewrite Ec.
      eapply extends_constr; [eapply grows_on_extends; exact G | exact H15].
Qed.

(** X23. Consecutive slots are charged to instructors who answered "No":
    if the sheet has more than five columns and its entry for an e-mail
    address is "No", then for every section of the instructor the address
    belongs to, every day and every pair of adjacent slots the model has
    a variable [ConsecutivePenalty_...] that enters the objective with
    -2048, and in every solution part 1 in the first slot and part 2 in
    the second can both be placed only if that variable is 1. *)
Theorem X23_consecutive_preference_penalty :
  forall df wb cm tm variables s sheet email r0 rest day slot1 slot2 course row0 rest0
         section_id,
    build df wb cm tm = Ok variables s ->
    general_preferences wb = Some sheet ->
    (5 < gp_ncols sheet)%nat ->
    dict_get cell_eqb (Some email) (to_dict gp_Consecutive_Preference (gp_rows sheet))
    = Some (Some "No") ->
    filter (fun r => Email r =? email) df = r0 :: rest ->
    In day days_main ->
    In (slot1, slot2) (windows2 time_slots_main) ->
    In course (map Course df) ->
    filter (fun r => (Instructor r =? Instructor r0) && (Course r =? course)) df
    = row0 :: rest0 ->
    In section_id (Py.range1 (Sections row0)) ->
    exists pen obj,
      nth_error (mvars s) pen
      = Some (ConsecutivePenalty_name (Instructor r0) day slot1 slot2)
      /\ mobjective s = Some obj
      /\ In (-2048, pen) (terms obj)
      /\ forall v, solution s v ->
           x_value variables v (X_name course (Instructor r0) section_id 1 day slot1)
           + x_value variables v (X_name course (Instructor r0) section_id 2 day slot2)
           - 2 * v pen <= 1.
Proof.
  intros df wb cm tm variables s sheet email r0 rest day slot1 slot2 course row0 rest0
    section_id Hb Hs Hn Hno Hf Hd Hw Hc Hr Hsec.
  assert (Hn3 : (3 <= gp_ncols sheet)%nat) by lia.
  destruct (build_gp _ _ _ _ _ _ _ Hb Hs Hn3)
    as (s0 & s1 & c0 & c1 & c2 & c3 & Hcv & Hfmt & Hday & Hcon & Ev & Ec & Eo).
  apply Nat.ltb_lt in Hn. rewrite Hn in Hcon. apply when_true_Ok in Hcon.
  destruct (filter_head_In _ _ _ _ Hr) as [Hin Hk].
  apply andb_true_iff in Hk as [Hi Hco]. apply Py_eqb_eq in Hi, Hco.
  destruct (windows2_In _ _ _ Hw) as [Hs1 Hs2].
  pose proof (create_variables_present _ _ _ _ _ _ row0 section_id 1 day slot1
                Hcv Hin Hsec (or_introl eq_refl) Hd Hs1) as P1.
  pose proof (create_variables_present _ _ _ _ _ _ row0 section_id 2 day slot2
                Hcv Hin Hsec (or_intror (or_introl eq_refl)) Hd Hs2) as P2.
  rewrite Hi, Hco in P1, P2.
  destruct (vget (X_name course (Instructor r0) section_id 1 day slot1) variables)
    as [x1|] eqn:E1; [|contradiction].
  destruct (vget (X_name course (Instructor r0) section_id 2 day slot2) variables)
    as [x2|] eqn:E2; [|contradiction].
  destruct (add_consecutive_preferences_hit _ _ _ _ _ _ _ _ _ _ _ _ _ _ _ _ _ _ _
              Hcon Hno Hf Hd Hw Hc Hr Hsec E1 E2) as (pen & Hname & Hterm & Hcs).
  exists pen, (ladd (total_points c3) (format_penalty_sum c3)).
  split; [|split; [exact Eo | split]].
  - rewrite Ev. exact Hname.
  - cbn. apply in_or_app. now left.
  - intros v Hv. unfold x_value. rewrite E1, E2.
    eapply sat_pair_minus2_le1, solution_sat; [exact Hv|]. rewrite Ec. exact Hcs.
Qed.

(** X15. Teaching days are charged: if the General Preferences sheet has
    more than three columns, then for every instructor of the course
    table and every day the model has a variable [Z_instructor_day] that
    enters the objective with -8 when the instructor's entry asks for
    condensed days and with -3 otherwise (also when the sheet has no row
    for the instructor); in every solution it bounds every assignment
    variable of the instructor on that day, and it is 0 when there is
    none. *)
Theorem X15_teaching_days_are_charged :
  forall df wb cm tm variables s sheet instructor day,
    build df wb cm tm = Ok variables s ->
    general_preferences wb = Some sheet ->
    (3 < gp_ncols sheet)%nat ->
    In instructor (map Instructor df) ->
    In day days_main ->
    exists z obj,
      nth_error (mvars s) z = Some (Z_name instructor day)
      /\ mobjective s = Some obj
      /\ In (day_penalty df sheet instructor, z) (terms obj)
      /\ (day_penalty df sheet instructor = -8 \/ day_penalty df sheet instructor = -3)
      /\ forall v, solution s v ->
           (forall x, In x (relevant_x_vars df variables time_slots_main instructor day) ->
              v x <= v z)
           /\ (relevant_x_vars df variables time_slots_main instructor day = [] ->
               v z = 0).
Proof.
  intros df wb cm tm variables s sheet instructor day Hb Hs Hn Hi Hd.
  assert (Hn3 : (3 <= gp_ncols sheet)%nat) by lia.
  destruct (build_gp _ _ _ _ _ _ _ Hb Hs Hn3)
    as (s0 & s1 & c0 & c1 & c2 & c3 & Hcv & Hfmt & Hday & Hcon & Ev & Ec & Eo).
  apply Nat.ltb_lt in Hn. rewrite Hn in Hday. apply when_true_Ok in Hday.
  destruct (add_day_preferences_hit _ _ _ _ _ _ _ _ _ Hday Hi Hd)
    as (z & Hname & Hterm & Hle & H0).
  assert (G : grows_on total_points c2 c3)
    by (eapply when_grows_on; [apply grows_on_total_consecutive | exact Hcon]).
  exists z, (ladd (total_points c3) (format_penalty_sum c3)).
  split; [|split; [exact Eo | split; [|split]]].
  - rewrite Ev. eapply extends_name; [eapply grows_on_extends; exact G | exact Hname].
  - cbn. apply in_or_app. left. eapply grows_on_term; [exact G | exact Hterm].
  - unfold day_penalty.
    pose proof (instructor_rows_nonempty _ _ Hi) as Hne.
    destruct (filter (fun r => Instructor r =? instructor) df); [contradiction|].
    destruct (cell_eqb _ _); [now left | now right].
  - intros v Hv. split.
    + intros x Hx. eapply sat_var_le, solution_sat; [exact Hv|]. rewrite Ec.
      eapply extends_constr; [eapply grows_on_extends; exact G | now apply Hle].
    + intros Hnil. eapply sat_var_eq0, solution_sat; [exact Hv|]. rewrite Ec.
      eapply extends_constr; [eapply grows_on_extends; exact G | now apply H0].
Qed.
Lemma gp_facts :
  gp_build = Ok gp_vars gp_state
  /\ solution gp_state (valuation_of gp_state gp_ones).
Proof. apply check_solution_sound. vm_compute. reflexivity. Qed.

Lemma X15_teaching_days_are_charged_witness :
  (exists z obj,
     nth_error (mvars gp_state) z = Some (Z_name "Smith" "Monday")
     /\ mobjective gp_state = Some obj
     /\ In (day_penalty tiny_df gp_sheet "Smith", z) (terms obj)
     /\ (day_penalty tiny_df gp_sheet "Smith" = -8
         \/ day_penalty tiny_df gp_sheet "Smith" = -3)
     /\ forall v, solution gp_state v ->
          (forall x, In x (relevant_x_vars tiny_df gp_vars time_slots_main "Smith" "Monday") ->
             v x <= v z)
          /\ (relevant_x_vars tiny_df gp_vars time_slots_main "Smith" "Monday" = [] ->
              v z = 0))
  /\ solution gp_state (valuation_of gp_state gp_ones).
Proof.
  split; [|exact (proj2 gp_facts)].
  apply (X15_teaching_days_are_charged tiny_df gp_wb tiny_cap [] gp_vars gp_state
           gp_sheet "Smith" "Monday").
  - exact (proj1 gp_facts).
  - reflexivity.
  - cbn. lia.
  - left. reflexivity.
  - left. reflexivity.
Defined.

Lemma X22_format_preference_penalty_witness :
  (exists pen obj,
     nth_error (mvars gp_state) pen
     = Some (Penalty_name "Smith" "Monday" "8:30-10:00 AM" "10:00-11:30 AM")
     /\ mobjective gp_state = Some obj
     /\ In (-8, pen) (terms obj)
     /\ forall v, solution gp_state v ->
          let a := x_value gp_vars v
                     (X_name "CS300" "Smith" 1 1 "Monday" "8:30-10:00 AM") in
          let b := x_value gp_vars v
                     (X_name "CS300" "Smith" 1 2 "Monday" "10:00-11:30 AM") in
          ("3-hour format" = "3-hour format" -> a - b <= v pen /\ b - a <= v pen)
          /\ ("3-hour format" = "1.5+1.5 hour format" -> a + b - v pen <= 1))
  /\ solution gp_state (valuation_of gp_state gp_ones).
Proof.
  split; [|exact (proj2 gp_facts)].
  apply (X22_format_preference_penalty tiny_df gp_wb tiny_cap [] gp_vars gp_state
           gp_sheet gp_row "smith@x" "3-hour format" tiny_row [] tiny_row 1
           "Monday" "8:30-10:00 AM" "10:00-11:30 AM").
  - exact (proj1 gp_facts).
  - reflexivity.
  - cbn. lia.
  - left. reflexivity.
  - reflexivity.
  - reflexivity.
  - reflexivity.
  - left. reflexivity.
  - left. reflexivity.
  - left. reflexivity.
  - left. reflexivity.
Defined.

Lemma X23_consecutive_preference_penalty_witness :
  (exists pen obj,
     nth_error (mvars gp_state) pen
     = Some (ConsecutivePenalty_name "Smith" "Monday" "8:30-10:00 AM" "10:00-11:30 AM")
     /\ mobjective gp_state = Some obj
     /\ In (-2048, pen) (terms obj)
     /\ forall v, solution gp_state v ->
          x_value gp_vars v (X_name "CS300" "Smith" 1 1 "Monday" "8:30-10:00 AM")
          + x_value gp_vars v (X_name "CS300" "Smith" 1 2 "Monday" "10:00-11:30 AM")
          - 2 * v pen <= 1)
  /\ solution gp_state (valuation_of gp_state gp_ones).
Proof.
  split; [|exact (proj2 gp_facts)].
  apply (X23_consecutive_preference_penalty tiny_df gp_wb tiny_cap [] gp_vars gp_state
           gp_sheet "smith@x" tiny_row [] "Monday" "8:30-10:00 AM" "10:00-11:30 AM"
           "CS300" tiny_row [] 1).
  - exact (proj1 gp_facts).
  - reflexivity.
  - cbn. lia.
  - reflexivity.
  - reflexivity.
  - left. reflexivity.
  - left. reflexivity.
  - left. reflexivity.
  - reflexivity.
  - left. reflexivity.
Defined.
Lemma day_body_bounded df variables ts i d :
  pres (fun z s => penal s /\ z_bounded z s) (fun b => day_body df variables ts i b d).
Proof.
  intros b s b' s' [HI HB] Hrun.
  assert (K : keeps_sums s s').
  { eapply (mono_Ok (R := keeps_sums)); [|exact Hrun]. unfold day_body. keeps_tac. }
  apply day_body_run in Hrun as (-> & E & Hn & _).
  split; [eapply keeps_sums_penal; eassumption|].
  intros k z Hz.
  destruct (pair_eqb k (i, d)) eqn:Ek.
  - apply pair_eqb_eq in Ek. subst k.
    rewrite (dict_get_set_same pair_eqb pair_eqb_eq) in Hz. injection Hz as <-.
    apply nth_error_Some. congruence.
  - rewrite (dict_get_set_other pair_eqb pair_eqb_eq) in Hz.
    + pose proof (HB _ _ Hz). pose proof (extends_nvars _ _ E). lia.
    + intros Heq. rewrite Heq, (proj2 (pair_eqb_eq _ _) eq_refl) in Ek. discriminate.
Qed.

(** The day stage leaves sums of penalties. *)
Lemma add_day_preferences_penal df variables ts ds sheet t t' :
  add_day_preferences df variables ts ds sheet t = Ok tt t' -> penal t -> penal t'.
Proof.
  intros H HI. unfold add_day_preferences in H. cbv zeta in H.
  apply bind_Ok in H as (z_vars & t1 & Hz & H).
  assert (H1 : penal t1 /\ z_bounded z_vars t1).
  { eapply (foldM_pres (fun z s => penal s /\ z_bounded z s)
              (fun z i => foldM (day_body df variables ts i) ds z)); [| |exact Hz].
    - intros i _.
      apply (foldM_pres (fun z s => penal s /\ z_bounded z s)
               (day_body df variables ts i) ds).
      intros d _. apply day_body_bounded.
    - split; [exact HI | intros k z Hk; discriminate]. }
  destruct H1 as [HI1 HB1].
  apply bind_Ok in H as ([] & t2 & Hset & H).
  apply bind_Ok in H as ([] & t3 & Hloop & Hend).
  apply bind_Ok in Hend as (dp & t4 & Hget & Hend).
  unfold get_day_penalty_sum in Hget. injection Hget as <- <-.
  assert (H2 : penal t2 /\ penalty_expr t2 (day_penalty_sum t2) /\ z_bounded z_vars t2).
  { unfold set_day_penalty_sum in Hset. injection Hset as <-.
    split; [exact HI1 | split; [apply penalty_expr_lin0 | exact HB1]]. }
  assert (H3 : penal t3 /\ penalty_expr t3 (day_penalty_sum t3) /\ z_bounded z_vars t3).
  { eapply (invariant_run
              (fun s => penal s /\ penalty_expr s (day_penalty_sum s)
                        /\ z_bounded z_vars s)); [exact Hloop | | exact H2].
    apply invariant_for. intros i _.
    destruct (filter (fun r => Instructor r =? i) df) as [|r0 rest];
      [apply invariant_ret|].
    cbv zeta. apply invariant_for. intros d _.
    destruct (dict_get pair_eqb (i, d) z_vars) as [z|] eqn:Eg.
    - intros s a s' (HIs & HD & HBs) Hrun.
      unfold add_day_penalty_sum in Hrun. injection Hrun as <- <-.
      split; [exact HIs | split; [|exact HBs]]. cbn.
      apply penalty_expr_ladd; [exact HD|].
      apply penalty_expr_lterm; [destruct (cell_eqb _ _); lia | exact (HBs _ _ Eg)].
    - intros s a s' _ Hrun. discriminate. }
  destruct H3 as ((Ht3 & Hf3) & Hd3 & _).
  unfold add_total_points in Hend. injection Hend as <-.
  split; cbn; [apply penalty_expr_ladd|]; assumption.
Qed.

(** The consecutive-preference stage leaves sums of penalties. *)
Lemma add_consecutive_preferences_penal df variables ts ds sheet t t' :
  add_consecutive_preferences df variables ts ds sheet t = Ok tt t' -> penal t -> penal t'.
Proof.
  intros H HI. unfold add_consecutive_preferences in H. cbv zeta in H.
  apply bind_Ok in H as ([] & t0 & Hset & H).
  apply bind_Ok in H as ([] & t1 & Hloop & Hend).
  apply bind_Ok in Hend as (cp & t2 & Hget & Hend).
  unfold get_consecutive_penalty_sum in Hget. injection Hget as <- <-.
  assert (H0 : penal t0 /\ penalty_expr t0 (consecutive_penalty_sum t0)).
  { unfold set_consecutive_penalty_sum in Hset. injection Hset as <-.
    split; [exact HI | apply penalty_expr_lin0]. }
  assert (H1 : penal t1 /\ penalty_expr t1 (consecutive_penalty_sum t1)).
  { eapply (invariant_run
              (fun s => penal s /\ penalty_expr s (consecutive_penalty_sum s)));
      [exact Hloop | | exact H0].
    apply invariant_for. intros [email pc] _.
    destruct (negb (cell_eqb pc (Some "No"))); [apply invariant_ret|].
    destruct email as [email|]; [|apply invariant_ret].
    destruct (filter (fun r => Email r =? email) df) as [|r0 rest]; [apply invariant_ret|].
    cbv zeta. apply invariant_for. intros day _.
    apply invariant_for. intros [slot1 slot2] _.
    apply invariant_for. intros course _.
    destruct (filter _ df) as [|row0 rest0]; [apply invariant_ret|].
    apply invariant_for. intros section_id _.
    destruct (vget _ variables) as [x1|]; [|apply invariant_ret].
    destruct (vget _ variables) as [x2|]; [|apply invariant_ret].
    intros s a s' [HIs HCs] Hrun.
    apply bind_Ok in Hrun as (pen & s1 & Hv & Hrun).
    apply addVar_keeps in Hv as [K1 Hp].
    apply bind_Ok in Hrun as ([] & s2 & Hc & Hrun).
    assert (K2 : keeps_sums s1 s2).
    { eapply (mono_Ok (R := keeps_sums)); [|exact Hc]. keeps_tac. }
    pose proof (keeps_sums_trans _ _ _ K1 K2) as K.
    pose proof (keeps_sums_penal _ _ K HIs) as HI2.
    unfold add_consecutive_penalty_sum in Hrun. injection Hrun as <- <-.
    split; [exact HI2|]. cbn.
    destruct K as (E & _ & _ & _ & C). rewrite C.
    apply penalty_expr_ladd; [eapply penalty_expr_extends; eassumption|].
    apply penalty_expr_lterm; [lia|].
    destruct K2 as [E2 _]. pose proof (extends_nvars _ _ E2). cbn [mvars]. lia. }
  destruct H1 as ((Ht1 & Hf1) & Hc1).
  unfold add_total_points in Hend. injection Hend as <-.
  split; cbn; [apply penalty_expr_ladd|]; assumption.
Qed.

(** The last stage keeps [total_points] a sum of penalties, and leaves it
    alone when the sheet cannot be read. *)
Lemma add_additional_constraints_penal df variables ts ds wb cm a1 a2 :
  add_additional_constraints df variables ts ds wb cm a1 = Ok tt a2 ->
  (penalty_expr a1 (total_points a1) -> penalty_expr a2 (total_points a2))
  /\ (general_preferences wb = None -> total_points a2 = total_points a1).
Proof.
  intros H.
  destruct (general_preferences wb) as [sheet|] eqn:Hs.
  - split; [|discriminate]. intros HP.
    destruct (gp_ncols sheet <? 3)%nat eqn:Hn.
    + unfold add_additional_constraints in H.
      apply bind_Ok in H as ([] & b1 & H1 & H).
      apply bind_Ok in H as ([] & b2 & H2 & H).
      apply bind_Ok in H as ([] & b3 & H3 & H).
      rewrite Hs, Hn in H. cbv [try_except raise print] in H. injection H as <-.
      assert (K : keeps_sums a1 b3).
      { eapply keeps_sums_trans;
          [eapply (mono_Ok (R := keeps_sums)); [|exact H1]; keeps_tac|].
        eapply keeps_sums_trans;
          [eapply (mono_Ok (R := keeps_sums)); [|exact H2];
           unfold add_restricted_slot_constraints, course_number_of; keeps_tac|].
        eapply (mono_Ok (R := keeps_sums)); [|exact H3]. keeps_tac. }
      destruct K as (E & T & _). cbn. rewrite T.
      eapply penalty_expr_extends; [|exact HP].
      destruct E as [Ev Ec]. split; [exact Ev | exact Ec].
    + apply Nat.ltb_ge in Hn.
      destruct (gp_block _ _ _ _ _ _ _ _ _ Hs Hn H)
        as (b3 & c1 & c2 & c3 & K & Hf & Hd & Hc & Hend).
      assert (P3 : penalty_expr b3 (total_points b3)).
      { destruct K as (E & T & _). rewrite T. eapply penalty_expr_extends; eassumption. }
      pose proof (add_format_preferences_penal _ _ _ _ _ _ _ Hf P3) as P1.
      assert (P2 : penal c2).
      { destruct (3 <? gp_ncols sheet)%nat.
        - eapply add_day_preferences_penal; [exact Hd | exact P1].
        - injection Hd as <-. exact P1. }
      assert (P4 : penal c3).
      { destruct (5 <? gp_ncols sheet)%nat.
        - eapply add_consecutive_preferences_penal; [exact Hc | exact P2].
        - injection Hc as <-. exact P2. }
      unfold add_total_points in Hend. injection Hend as <-.
      destruct P4 as [Pt Pf]. cbn. apply penalty_expr_ladd; assumption.
  - unfold add_additional_constraints in H.
    apply bind_Ok in H as ([] & b1 & H1 & H).
    apply bind_Ok in H as ([] & b2 & H2 & H).
    apply bind_Ok in H as ([] & b3 & H3 & H).
    rewrite Hs in H. cbv [try_except raise print] in H. injection H as <-.
    assert (K : keeps_sums a1 b3).
    { eapply keeps_sums_trans;
        [eapply (mono_Ok (R := keeps_sums)); [|exact H1]; keeps_tac|].
      eapply keeps_sums_trans;
        [eapply (mono_Ok (R := keeps_sums)); [|exact H2];
         unfold add_restricted_slot_constraints, course_number_of; keeps_tac|].
      eapply (mono_Ok (R := keeps_sums)); [|exact H3]. keeps_tac. }
    destruct K as (E & T & _). split.
    + intros HP. cbn. rewrite T. eapply penalty_expr_extends; [|exact HP].
      destruct E as [Ev Ec]. split; [exact Ev | exact Ec].
    + intros _. cbn. exact T.
Qed.

Lemma build_objective_penal df wb cm tm variables s :
  build df wb cm tm = Ok variables s ->
  constraints_sheet wb = [] ->
  exists obj,
    mobjective s = Some obj /\ penalty_expr s obj
    /\ (general_preferences wb = None -> obj = lin0).
Proof.
  intros Hb Hsheet. unfold build in Hb.
  apply build_before_preferences in Hb as (s7 & _ & Hrun).
  unfold add_preference_constraints in Hrun.
  apply bind_Ok in Hrun as ([] & a0 & H0 & Hrun).
  rewrite Hsheet in Hrun. cbn [for_ctl] in Hrun.
  apply bind_Ok in Hrun as ([] & a1 & H1 & Hrun).
  injection H1 as <-.
  apply bind_Ok in Hrun as ([] & a2 & H2 & Hrun).
  apply bind_Ok in Hrun as (obj & a3 & H3 & Hrun).
  unfold get_total_points in H3. injection H3 as <- <-.
  unfold setObjective in Hrun. injection Hrun as <-.
  unfold set_total_points in H0. injection H0 as <-.
  destruct (add_additional_constraints_penal _ _ _ _ _ _ _ _ H2) as [HP Hnone].
  exists (total_points a2). split; [reflexivity|]. split.
  - apply HP. apply penalty_expr_lin0.
  - intros Hs. rewrite (Hnone Hs). reflexivity.
Qed.

Lemma eval_terms_penalty s v ts :
  solution s v ->
  Forall (fun t => fst t <= 0 /\ (snd t < List.length (mvars s))%nat) ts ->
  eval_terms v ts <= 0
  /\ forall k p, In (k, p) ts -> eval_terms v ts <= k * v p.
Proof.
  intros Hv H. induction H as [|[k0 x0] ts [Hk Hx] _ [IH0 IH]]; cbn [eval_terms fold_right].
  - split; [lia | contradiction].
  - cbn [fst snd] in *.
    assert (H0 : k0 * v x0 <= 0).
    { destruct (solution_binary _ _ _ Hv Hx) as [E|E]; rewrite E; lia. }
    split; [unfold eval_terms in *; lia|].
    intros k p [[= -> ->] | Hin].
    + unfold eval_terms in *. lia.
    + specialize (IH _ _ Hin). unfold eval_terms in *. lia.
Qed.

Lemma penalty_expr_eval s v e :
  solution s v -> penalty_expr s e ->
  (eval v e <= 0)%Q
  /\ forall k p, In (k, p) (terms e) -> (eval v e <= inject_Z (k * v p))%Q.
Proof.
  intros Hv [Ht Hc]. destruct (eval_terms_penalty _ _ _ Hv Ht) as [H0 H].
  unfold eval. split.
  - rewrite Hc, Qplus_0_r. change 0%Q with (inject_Z 0). now rewrite <- Zle_Qle.
  - intros k p Hin. rewrite Hc, Qplus_0_r. rewrite <- Zle_Qle. now apply H.
Qed.

(** X24. Without instructor preference rows the objective is a sum of
    penalties: every term of the objective has a coefficient that is not
    positive, so in every solution the objective value is at most 0, and
    at most the (negative) weight of each penalty or indicator variable
    that is 1. When the General Preferences sheet cannot be read either,
    the objective is the constant 0. *)
Theorem X24_objective_is_a_sum_of_penalties :
  forall df wb cm tm variables s v,
    build df wb cm tm = Ok variables s ->
    constraints_sheet wb = [] ->
    solution s v ->
    exists obj,
      mobjective s = Some obj
      /\ (forall k p, In (k, p) (terms obj) -> k <= 0)
      /\ (objective_value s v <= 0)%Q
      /\ (forall k p, In (k, p) (terms obj) ->
            (objective_value s v <= inject_Z (k * v p))%Q)
      /\ (general_preferences wb = None -> obj = lin0).
Proof.
  intros df wb cm tm variables s v Hb Hsheet Hv.
  destruct (build_objective_penal _ _ _ _ _ _ Hb Hsheet) as (obj & Ho & HP & Hnone).
  destruct (penalty_expr_eval _ _ _ Hv HP) as [H0 H].
  exists obj. split; [exact Ho|]. split; [|split; [|split]].
  - intros k p Hin. destruct HP as [Ht _]. rewrite Forall_forall in Ht.
    exact (proj1 (Ht _ Hin)).
  - unfold objective_value. rewrite Ho. exact H0.
  - intros k p Hin. unfold objective_value. rewrite Ho. now apply H.
  - exact Hnone.
Qed.

Lemma X24_objective_is_a_sum_of_penalties_witness :
  exists obj,
    mobjective gp_state = Some obj
    /\ (forall k p, In (k, p) (terms obj) -> k <= 0)
    /\ (objective_value gp_state (valuation_of gp_state gp_ones) <= 0)%Q
    /\ (forall k p, In (k, p) (terms obj) ->
          (objective_value gp_state (valuation_of gp_state gp_ones)
           <= inject_Z (k * valuation_of gp_state gp_ones p))%Q)
    /\ (general_preferences gp_wb = None -> obj = lin0).
Proof.
  apply (X24_objective_is_a_sum_of_penalties tiny_df gp_wb tiny_cap [] gp_vars gp_state
           (valuation_of gp_state gp_ones)).
  - exact (proj1 gp_facts).
  - reflexivity.
  - exact (proj2 gp_facts).
Defined.

(* ================================================================== *)
(** ** Reading the schedule off a solution *)
(* ================================================================== *)

Lemma digits_go_uint (d : Decimal.uint) (acc : Z) :
  Py.digits_go (DecimalString.NilEmpty.string_of_uint d) acc = Some (uint_val d acc).
Proof.
  revert acc. induction d; intros acc;
    cbn [DecimalString.NilEmpty.string_of_uint Py.digits_go uint_val];
    [reflexivity | ..];
    match goal with
    | |- context [Py.digit_of ?c] =>
        let r := eval vm_compute in (Py.digit_of c) in change (Py.digit_of c) with r
    end; apply IHd.
Qed.

Lemma uint_val_pos (d : Decimal.uint) (a : positive) :
  uint_val d (Z.pos a) = Z.pos (Pos.of_uint_acc d a).
Proof.
  revert a. induction d; intros a; cbn [uint_val Pos.of_uint_acc]; [reflexivity | ..];
    rewrite <- IHd; f_equal; lia.
Qed.

Lemma uint_val_0 (d : Decimal.uint) : uint_val d 0 = Z.of_N (Pos.of_uint d).
Proof.
  induction d; cbn [uint_val Pos.of_uint]; [reflexivity | exact IHd | ..];
    cbn [Z.mul Z.add Z.of_N]; apply uint_val_pos.
Qed.

Lemma rev_string_involutive (s : string) : Py.rev_string (Py.rev_string s) = s.
Proof.
  unfold Py.rev_string.
  now rewrite list_ascii_of_string_of_list_ascii, rev_involutive,
    string_of_list_ascii_of_string.
Qed.

Lemma lstrip_no_space (s : string) :
  Forall (fun c => Py.is_space c = false) (list_ascii_of_string s) -> Py.lstrip s = s.
Proof.
  destruct s as [|c s]; [reflexivity|]. cbn [list_ascii_of_string Py.lstrip].
  intros H. inversion H as [|? ? Hc _]. now rewrite Hc.
Qed.

Lemma strip_no_space (s : string) :
  Forall (fun c => Py.is_space c = false) (list_ascii_of_string s) -> Py.strip s = s.
Proof.
  intros H. unfold Py.strip. rewrite (lstrip_no_space s H).
  rewrite lstrip_no_space; [apply rev_string_involutive|].
  unfold Py.rev_string. rewrite list_ascii_of_string_of_list_ascii.
  now apply Forall_rev.
Qed.

Lemma uint_no_space (d : Decimal.uint) :
  Forall (fun c => Py.is_space c = false)
    (list_ascii_of_string (DecimalString.NilEmpty.string_of_uint d)).
Proof.
  induction d; cbn [DecimalString.NilEmpty.string_of_uint list_ascii_of_string];
    constructor; try assumption; reflexivity.
Qed.

(** [int(str(n)) == n] for a positive integer. *)
Lemma int_str (n : Z) : 0 < n -> Py.int (Py.str n) = Some n.
Proof.
  intros Hn. destruct n as [|p|p]; try lia.
  unfold Py.str. cbn [Z.to_int DecimalString.NilZero.string_of_int].
  unfold DecimalString.NilZero.string_of_uint.
  pose proof (DecimalPos.Unsigned.to_uint_nonnil p) as Hnil.
  pose proof (DecimalPos.Unsigned.of_to p) as Hval.
  pose proof (uint_val_0 (Pos.to_uint p)) as H0. rewrite Hval in H0.
  pose proof (digits_go_uint (Pos.to_uint p) 0) as Hd. rewrite H0 in Hd.
  pose proof (strip_no_space _ (uint_no_space (Pos.to_uint p))) as Hs.
  unfold Py.int.
  destruct (Pos.to_uint p); [contradiction | ..]; rewrite Hs;
    cbn [DecimalString.NilEmpty.string_of_uint] in *; exact Hd.
Qed.
Lemma prefix_X_name c i sec part day slot :
  String.prefix "X_" (X_name c i sec part day slot) = true.
Proof. unfold X_name, Py.cat. cbn [String.concat]. destruct c; reflexivity. Qed.

Lemma schedule_entry_X_name df tm c i sec part day slot :
  no_underscore c = true -> no_underscore i = true ->
  no_underscore day = true -> no_underscore slot = true ->
  schedule_entry df tm (X_name c i sec part day slot)
  = [(c, i, email_of df i, Py.str sec, Py.str part, day, slot,
      stype_of tm c i (Py.str sec))].
Proof.
  intros Hc Hi Hd Hs. unfold schedule_entry.
  rewrite (split_X_name _ _ _ _ _ _ Hc Hi Hd Hs). reflexivity.
Qed.

Lemma In_schedule s v df tm e :
  In e (schedule s v df tm)
  <-> exists x name,
        nth_error (mvars s) x = Some name /\ 0 < v x
        /\ String.prefix "X_" name = true /\ In e (schedule_entry df tm name).
Proof.
  unfold schedule. rewrite in_flat_map. split.
  - intros (x & _ & He).
    destruct (nth_error (mvars s) x) as [name|] eqn:Hn; [|contradiction].
    destruct ((0 <? v x)%Z && String.prefix "X_" name) eqn:E; [|contradiction].
    apply andb_true_iff in E as [Hv Hp]. apply Z.ltb_lt in Hv.
    exists x, name. repeat split; assumption.
  - intros (x & name & Hn & Hv & Hp & He). exists x. split.
    + apply in_seq. split; [lia|]. cbn. apply nth_error_Some. congruence.
    + rewrite Hn. apply Z.ltb_lt in Hv. rewrite Hv, Hp. exact He.
Qed.

(** *** Variables added after the assignment variables *)

Lemma no_new_X_refl s : no_new_X s s.
Proof.
  split; [apply extends_refl|]. intros x name Hn _. apply nth_error_Some. congruence.
Qed.

Lemma no_new_X_trans a b c : no_new_X a b -> no_new_X b c -> no_new_X a c.
Proof.
  intros [E1 H1] [E2 H2]. split; [eapply extends_trans; eassumption|].
  intros x name Hn Hp. pose proof (H2 x name Hn Hp) as Hx.
  apply (H1 x name); [|exact Hp].
  destruct E2 as [[vs Ev] _]. rewrite Ev in Hn. now rewrite nth_error_app1 in Hn.
Qed.

#[export] Instance Growth_no_new_X : Growth no_new_X :=
  {| growth_refl := no_new_X_refl; growth_trans := no_new_X_trans |}.

Lemma no_new_X_same {A} (m : M A) :
  mono m -> (forall s, mvars (state_of (m s)) = mvars s) -> mono_rel no_new_X m.
Proof.
  intros Hm Hs s. split; [apply Hm|]. rewrite Hs. intros x name Hn _.
  apply nth_error_Some. congruence.
Qed.

Lemma no_new_X_addVar n : String.prefix "X_" n = false -> mono_rel no_new_X (addVar n).
Proof.
  intros Hp s. split; [apply mono_addVar|]. cbn [addVar state_of mvars].
  intros x name Hn Hpre.
  destruct (Nat.lt_ge_cases x (List.length (mvars s))) as [Hlt|Hge]; [exact Hlt|].
  rewrite nth_error_app2 in Hn by exact Hge.
  destruct (x - List.length (mvars s))%nat as [|k]; cbn in Hn.
  - injection Hn as <-. congruence.
  - destruct k; discriminate.
Qed.

Ltac nox_step :=
  lazymatch goal with
  | |- mono_rel _ (bind _ _) => apply mono_bind; [| intros ?]
  | |- mono_rel _ (for_ _ _) => apply mono_for; intros ?
  | |- mono_rel _ (foldM _ _ _) => apply mono_foldM; intros ? ?
  | |- mono_rel _ (for_ctl _ _) => apply mono_for_ctl; intros ?
  | |- mono_rel _ (when _ _) => apply mono_when
  | |- mono_rel _ (try_except _ _) => apply mono_try; [| intros ?]
  | |- mono_rel _ (ret _) => apply mono_ret
  | |- mono_rel _ (raise _) => apply mono_raise
  | |- mono_rel _ (addVar _) => apply no_new_X_addVar; reflexivity
  | |- mono_rel _ (addConstr _ _ _ _) =>
      apply no_new_X_same; [apply mono_addConstr | intros ?; reflexivity]
  | |- mono_rel _ (match ?x with _ => _ end) => destruct x
  | |- mono_rel _ (let _ := _ in _) => cbv zeta
  | |- mono_rel _ _ =>
      apply no_new_X_same;
      [apply mono_same; intros ?; split; reflexivity | intros ?; reflexivity]
  end.

Ltac nox_tac := repeat nox_step.

Lemma nox_add_basic_constraints df vars ts ds :
  mono_rel no_new_X (add_basic_constraints df vars ts ds).
Proof. unfold add_basic_constraints. nox_tac. Qed.

Lemma nox_add_balance_constraints df vars ts ds wb tm :
  mono_rel no_new_X (add_balance_constraints df vars ts ds wb tm).
Proof. unfold add_balance_constraints. nox_tac. Qed.

Lemma nox_yget_all ks d : mono_rel no_new_X (yget_all ks d).
Proof. unfold yget_all, yget. nox_tac. Qed.

Lemma nox_create_pairs ts ds c i sec g u :
  mono_rel no_new_X (create_pairs ts ds c i sec g u).
Proof. unfold create_pairs, pair_step. nox_tac. Qed.

Lemma nox_add_no_8_30_constraints vars ds c i sec :
  mono_rel no_new_X (add_no_8_30_constraints vars ds c i sec).
Proof. unfold add_no_8_30_constraints. nox_tac. Qed.

Lemma nox_section_patterns vars ts ds c i sec :
  mono_rel no_new_X (section_patterns vars ts ds c i sec).
Proof.
  unfold section_patterns. nox_tac;
    first [apply nox_create_pairs | apply nox_add_no_8_30_constraints
          | apply nox_yget_all].
Qed.

Lemma nox_add_pattern_constraints df vars ts ds :
  mono_rel no_new_X (add_pattern_constraints df vars ts ds).
Proof. unfold add_pattern_constraints. nox_tac; apply nox_section_patterns. Qed.

Lemma nox_add_course_block_constraints df vars ts ds :
  mono_rel no_new_X (add_course_block_constraints df vars ts ds).
Proof. unfold add_course_block_constraints. nox_tac. Qed.

Lemma nox_add_consecutive_slots_constraints df vars ts ds :
  mono_rel no_new_X (add_consecutive_slots_constraints df vars ts ds).
Proof. unfold add_consecutive_slots_constraints. nox_tac. Qed.

Lemma nox_add_jersey_city_constraints df vars ts ds tm :
  mono_rel no_new_X (add_jersey_city_constraints df vars ts ds tm).
Proof. unfold add_jersey_city_constraints. nox_tac. Qed.

Lemma nox_add_additional_constraints df vars ts ds wb cm :
  mono_rel no_new_X (add_additional_constraints df vars ts ds wb cm).
Proof.
  unfold add_additional_constraints, add_restricted_slot_constraints, course_number_of,
    add_format_preferences, add_day_preferences, add_consecutive_preferences.
  nox_tac.
Qed.

Lemma nox_add_preference_constraints df vars ts ds wb cm :
  mono_rel no_new_X (add_preference_constraints df vars ts ds wb cm).
Proof.
  unfold add_preference_constraints, process_pref_row, process_slot_code,
    apply_preference, getitem.
  nox_tac; apply nox_add_additional_constraints.
Qed.

(** In a built model the variables whose name starts with ["X_"] are the
    ones [build_model] creates first. *)
Lemma build_X_first df wb cm tm variables s :
  build df wb cm tm = Ok variables s ->
  exists s1,
    create_variables df time_slots_main days_main empty_state = Ok variables s1
    /\ no_new_X s1 s.
Proof.
  intros Hb. unfold build in Hb.
  apply build_model_runs in Hb
    as (s1 & s2 & s3 & s4 & s5 & s6 & s7 & (H1 & H2 & H3 & H4 & H5 & H6 & H7 & H8) & _).
  exists s1. split; [exact H1|].
  pose proof (mono_Ok _ _ _ _ (nox_add_basic_constraints _ _ _ _) H2) as N2.
  pose proof (mono_Ok _ _ _ _ (nox_add_balance_constraints _ _ _ _ _ _) H3) as N3.
  pose proof (mono_Ok _ _ _ _ (nox_add_pattern_constraints _ _ _ _) H4) as N4.
  pose proof (mono_Ok _ _ _ _ (nox_add_course_block_constraints _ _ _ _) H5) as N5.
  pose proof (mono_Ok _ _ _ _ (nox_add_consecutive_slots_constraints _ _ _ _) H6) as N6.
  pose proof (mono_Ok _ _ _ _ (nox_add_jersey_city_constraints _ _ _ _ _) H7) as N7.
  pose proof (mono_Ok _ _ _ _ (nox_add_preference_constraints _ _ _ _ _ _) H8) as N8.
  eauto 10 using no_new_X_trans.
Qed.
(** *** The assignment variables, in the order of creation *)

Lemma create_variables_flat df ts ds s :
  create_variables df ts ds s
  = foldM (fun variables name => v <- addVar name ;; ret (vset name v variables))
      (all_names df ts ds) [] s.
Proof.
  unfold create_variables, all_names.
  apply foldM_flat_map. intros row b s1. cbv zeta.
  destruct (Sections row =? 0)%Z; [reflexivity|].
  apply foldM_flat_map. intros sec b2 s2.
  apply foldM_flat_map. intros part b3 s3.
  apply foldM_flat_map. intros day b4 s4.
  now rewrite foldM_map.
Qed.

Lemma foldM_new_var (names : list string) :
  forall d0 s0 d s,
    foldM (fun variables name => v <- addVar name ;; ret (vset name v variables))
      names d0 s0 = Ok d s ->
    mvars s = mvars s0 ++ names
    /\ (forall n, ~ In n names -> vget n d = vget n d0)
    /\ (NoDup names -> forall k n, nth_error names k = Some n ->
          vget n d = Some (List.length (mvars s0) + k)%nat).
Proof.
  induction names as [|a names IH]; intros d0 s0 d s H; cbn [foldM] in H.
  - injection H as <- <-. split; [now rewrite app_nil_r|]. split; [reflexivity|].
    intros _ [|k] n Hk; discriminate.
  - apply bind_Ok in H as (d1 & s1 & H1 & H2).
    cbv [bind addVar ret] in H1. injection H1 as <- <-.
    destruct (IH _ _ _ _ H2) as (Hm & Hout & Hv). cbn [mvars] in Hm, Hv.
    split; [rewrite Hm, <- app_assoc; reflexivity|]. split.
    + intros n Hn. rewrite Hout by (intros Hin; apply Hn; now right).
      apply vget_vset_other. intros ->. apply Hn. now left.
    + intros Hnd k n Hk. inversion Hnd as [|? ? Hnotin Hnd']; subst.
      destruct k as [|k]; cbn in Hk.
      * injection Hk as ->. rewrite (Hout _ Hnotin), vget_vset_same.
        f_equal. lia.
      * rewrite (Hv Hnd' k n Hk). f_equal. rewrite length_app. cbn. lia.
Qed.

(** With distinct names, the dictionary sends the name of every model
    variable of the first stage to that variable. *)
Lemma create_variables_index df ts ds variables s1 x name :
  create_variables df ts ds empty_state = Ok variables s1 ->
  NoDup (all_names df ts ds) ->
  nth_error (mvars s1) x = Some name ->
  vget name variables = Some x.
Proof.
  intros H Hnd Hn. rewrite create_variables_flat in H.
  destruct (foldM_new_var _ _ _ _ _ H) as (Hm & _ & Hv).
  cbn in Hm. rewrite Hm in Hn. exact (Hv Hnd x name Hn).
Qed.

(** *** Distinct rows have distinct names *)

Lemma X_name_inj c i sec part day slot c' i' sec' part' day' slot' :
  no_underscore c = true -> no_underscore i = true ->
  no_underscore day = true -> no_underscore slot = true ->
  no_underscore c' = true -> no_underscore i' = true ->
  no_underscore day' = true -> no_underscore slot' = true ->
  0 < sec -> 0 < sec' -> 0 < part -> 0 < part' ->
  X_name c i sec part day slot = X_name c' i' sec' part' day' slot' ->
  c = c' /\ i = i' /\ sec = sec' /\ part = part' /\ day = day' /\ slot = slot'.
Proof.
  intros Hc Hi Hd Hs Hc' Hi' Hd' Hs' Hsec Hsec' Hp Hp' E.
  apply (f_equal (fun n => Py.split n "_")) in E.
  rewrite (split_X_name _ _ _ _ _ _ Hc Hi Hd Hs) in E.
  rewrite (split_X_name _ _ _ _ _ _ Hc' Hi' Hd' Hs') in E.
  injection E as -> -> Es Ep -> ->.
  apply (f_equal Py.int) in Es, Ep.
  rewrite !int_str in Es, Ep by assumption.
  injection Es as ->. injection Ep as ->. repeat split.
Qed.

Lemma NoDup_flat_map_disjoint {A B} (g : A -> list B) (l : list A) :
  NoDup l ->
  (forall x, In x l -> NoDup (g x)) ->
  (forall x y b, In x l -> In y l -> In b (g x) -> In b (g y) -> x = y) ->
  NoDup (flat_map g l).
Proof.
  induction 1 as [|a l Hnotin Hnd IH]; intros Hg Hdis; cbn; [constructor|].
  apply NoDup_app.
  - apply Hg. now left.
  - apply IH.
    + intros x Hx. apply Hg. now right.
    + intros x y b Hx Hy. apply Hdis; now right.
  - intros b Hb Hin. apply in_flat_map in Hin as (y & Hy & Hby).
    assert (a = y) by (apply (Hdis a y b); auto; [now left | now right]).
    subst. contradiction.
Qed.

Lemma NoDup_map_inj_on {A B} (f : A -> B) (l : list A) :
  (forall a b, In a l -> In b l -> f a = f b -> a = b) -> NoDup l -> NoDup (map f l).
Proof.
  intros Hinj Hnd. induction Hnd as [|a l Hnin Hnd IH]; cbn; constructor.
  - rewrite in_map_iff. intros (b & E & Hb).
    assert (b = a) by (apply Hinj; [now right | now left | exact E]). now subst.
  - apply IH. intros x y Hx Hy. apply Hinj; now right.
Qed.

Lemma NoDup_range1 n : NoDup (Py.range1 n).
Proof.
  unfold Py.range1. apply NoDup_map_inj; [|apply seq_NoDup].
  intros a b E. lia.
Qed.

Lemma NoDup_parts12 : NoDup parts12.
Proof. repeat constructor; simpl; intuition discriminate. Qed.

Lemma parts12_pos part : In part parts12 -> 0 < part.
Proof. intros [<-|[<-|[]]]; lia. Qed.

Lemma range1_pos sec n : In sec (Py.range1 n) -> 0 < sec.
Proof. intros H. apply Py_range1_In in H. lia. Qed.

Lemma row_key_inj df r r' :
  NoDup (map row_key df) -> In r df -> In r' df ->
  Course r = Course r' -> Instructor r = Instructor r' -> r = r'.
Proof.
  intros Hnd. induction df as [|a df IH]; [contradiction|].
  cbn in Hnd. inversion Hnd as [|? ? Hnotin Hnd']; subst.
  intros [<-|Hr] [<-|Hr'] Ec Ei; [reflexivity | | |now apply IH].
  - exfalso. apply Hnotin. apply in_map_iff. exists r'. split; [|exact Hr'].
    unfold row_key. now rewrite Ec, Ei.
  - exfalso. apply Hnotin. apply in_map_iff. exists r. split; [|exact Hr].
    unfold row_key. now rewrite Ec, Ei.
Qed.

Lemma NoDup_all_names df :
  NoDup (map row_key df) ->
  (forall row, In row df ->
     no_underscore (Course row) = true /\ no_underscore (Instructor row) = true) ->
  NoDup (all_names df time_slots_main days_main).
Proof.
  intros Hnd Hnu. unfold all_names.
  assert (Hdec : forall row b,
            In row df ->
            In b (if (Sections row =? 0)%Z then []
                  else flat_map (fun section_id =>
                         flat_map (fun part =>
                           flat_map (fun day =>
                             map (fun slot => X_name (Course row) (Instructor row)
                                                section_id part day slot)
                                 time_slots_main)
                           days_main)
                         parts12)
                       (Py.range1 (Sections row))) ->
            exists sec part day slot,
              0 < sec /\ 0 < part /\ no_underscore day = true
              /\ no_underscore slot = true
              /\ b = X_name (Course row) (Instructor row) sec part day slot).
  { intros row b Hrow Hb. destruct (Sections row =? 0)%Z; [contradiction|].
    apply in_flat_map in Hb as (sec & Hsec & Hb).
    apply in_flat_map in Hb as (part & Hpart & Hb).
    apply in_flat_map in Hb as (day & Hday & Hb).
    apply in_map_iff in Hb as (slot & <- & Hslot).
    exists sec, part, day, slot.
    split; [eapply range1_pos; eassumption|]. split; [now apply parts12_pos|].
    split; [now apply no_underscore_days|]. split; [now apply no_underscore_slots|].
    reflexivity. }
  apply NoDup_flat_map_disjoint.
  - eapply NoDup_map_inv. exact Hnd.
  - intros row Hrow. destruct (Hnu row Hrow) as [Hc Hi].
    destruct (Sections row =? 0)%Z; [constructor|].
    apply NoDup_flat_map_disjoint; [apply NoDup_range1 | |].
    + intros sec Hsec. apply NoDup_flat_map_disjoint; [apply NoDup_parts12 | |].
      * intros part Hpart.
        apply NoDup_flat_map_disjoint; [apply NoDup_days_main | |].
        -- intros day Hday. apply NoDup_map_inj_on; [|apply NoDup_time_slots_main].
           intros a b Ha Hb E.
           apply X_name_inj in E; try assumption;
             try (now apply no_underscore_days); try (now apply no_underscore_slots);
             try (eapply range1_pos; eassumption); try (now apply parts12_pos).
           tauto.
        -- intros x y b Hx Hy Hbx Hby.
           apply in_map_iff in Hbx as (s1 & <- & Hs1).
           apply in_map_iff in Hby as (s2 & E & Hs2).
           apply X_name_inj in E; try assumption;
             try (now apply no_underscore_days); try (now apply no_underscore_slots);
             try (eapply range1_pos; eassumption); try (now apply parts12_pos).
           symmetry. tauto.
      * intros x y b Hx Hy Hbx Hby.
        apply in_flat_map in Hbx as (d1 & Hd1 & Hbx).
        apply in_map_iff in Hbx as (s1 & <- & Hs1).
        apply in_flat_map in Hby as (d2 & Hd2 & Hby).
        apply in_map_iff in Hby as (s2 & E & Hs2).
        apply X_name_inj in E; try assumption;
          try (now apply no_underscore_days); try (now apply no_underscore_slots);
          try (eapply range1_pos; eassumption); try (now apply parts12_pos).
        symmetry. tauto.
    + intros x y b Hx Hy Hbx Hby.
      apply in_flat_map in Hbx as (p1 & Hp1 & Hbx).
      apply in_flat_map in Hbx as (d1 & Hd1 & Hbx).
      apply in_map_iff in Hbx as (s1 & <- & Hs1).
      apply in_flat_map in Hby as (p2 & Hp2 & Hby).
      apply in_flat_map in Hby as (d2 & Hd2 & Hby).
      apply in_map_iff in Hby as (s2 & E & Hs2).
      apply X_name_inj in E; try assumption;
        try (now apply no_underscore_days); try (now apply no_underscore_slots);
        try (eapply range1_pos; eassumption); try (now apply parts12_pos).
      symmetry. tauto.
  - intros r r' b Hr Hr' Hb Hb'.
    destruct (Hdec r b Hr Hb) as (sec & part & day & slot & P1 & P2 & P3 & P4 & ->).
    destruct (Hdec r' _ Hr' Hb') as (sec' & part' & day' & slot' & Q1 & Q2 & Q3 & Q4 & E).
    destruct (Hnu r Hr) as [Hc Hi]. destruct (Hnu r' Hr') as [Hc' Hi'].
    apply X_name_inj in E; try assumption.
    apply (row_key_inj df); try assumption; tauto.
Qed.


(* ================================================================== *)
(** ** Counting the placed parts *)
(* ================================================================== *)

Lemma adds_id P : adds P 0 (fun _ => 0) (@Some (Counts * Z)).
Proof.
  intros counts total _. exists counts, total. split; [reflexivity|]. split; [lia|].
  intros k. destruct (dict_get pair_eqb k counts); cbn; [f_equal; lia | reflexivity].
Qed.

Lemma adds_ext P w w' wk wk' g :
  w = w' -> (forall k, wk k = wk' k) -> adds P w wk g -> adds P w' wk' g.
Proof.
  intros -> Hk H counts total HP. destruct (H counts total HP) as (c' & t' & E & Et & Ek).
  exists c', t'. split; [exact E|]. split; [exact Et|].
  intros k. rewrite Ek, Hk. reflexivity.
Qed.

Lemma adds_fold {A} P (w : A -> Z) (wk : A -> string * string -> Z)
  (f : A -> Counts * Z -> option (Counts * Z)) (l : list A) :
  (forall x, In x l -> adds P (w x) (wk x) (f x)) ->
  adds P (fold_right (fun x a => w x + a) 0 l)
    (fun k => fold_right (fun x a => wk x k + a) 0 l) (fold_opt f l).
Proof.
  induction l as [|x l IH]; intros H; cbn [fold_opt fold_right].
  - apply adds_id.
  - intros counts total HP.
    destruct (H x (or_introl eq_refl) counts total HP) as (c1 & t1 & E1 & Et1 & Ek1).
    rewrite E1.
    assert (HP1 : forall k, P k -> dict_get pair_eqb k c1 <> None).
    { intros k Hk. rewrite Ek1. specialize (HP k Hk).
      destruct (dict_get pair_eqb k counts); [discriminate | contradiction]. }
    destruct (IH (fun y Hy => H y (or_intror Hy)) c1 t1 HP1) as (c2 & t2 & E2 & Et2 & Ek2).
    exists c2, t2. split; [exact E2|]. split; [lia|].
    intros k. rewrite Ek2, Ek1.
    destruct (dict_get pair_eqb k counts); cbn; [f_equal; lia | reflexivity].
Qed.

Lemma adds_count_part P variables v s name day slot :
  vars_bounded variables s -> solution s v -> P (day, slot) ->
  adds P (x_value variables v name)
    (fun k => if pair_eqb (day, slot) k then x_value variables v name else 0)
    (count_part variables v name day slot).
Proof.
  intros Hb Hv HP counts total Hkeys. unfold count_part, x_value.
  destruct (vget name variables) as [x|] eqn:Hx.
  - destruct (solution_binary _ _ _ Hv (Hb _ _ Hx)) as [E|E]; rewrite E; cbn [Z.ltb Z.compare].
    + exists counts, total. split; [reflexivity|]. split; [lia|].
      intros k. destruct (pair_eqb (day, slot) k);
        destruct (dict_get pair_eqb k counts); cbn; try reflexivity; f_equal; lia.
    + specialize (Hkeys _ HP).
      destruct (dict_get pair_eqb (day, slot) counts) as [c|] eqn:Ec; [|contradiction].
      eexists _, _. split; [reflexivity|]. split; [reflexivity|].
      intros k. destruct (pair_eqb (day, slot) k) eqn:Ek.
      * apply pair_eqb_eq in Ek. subst k.
        rewrite (dict_get_set_same pair_eqb pair_eqb_eq), Ec. reflexivity.
      * rewrite (dict_get_set_other pair_eqb pair_eqb_eq).
        -- destruct (dict_get pair_eqb k counts); cbn; [f_equal; lia | reflexivity].
        -- intros ->. rewrite (proj2 (pair_eqb_eq _ _) eq_refl) in Ek. discriminate.
  - exists counts, total. split; [reflexivity|]. split; [lia|].
    intros k. destruct (pair_eqb (day, slot) k);
      destruct (dict_get pair_eqb k counts); cbn; try reflexivity; f_equal; lia.
Qed.

Lemma zero_counts_get (keys : list (string * string)) k :
  forall d, dict_get pair_eqb k d = Some 0 \/ In k keys ->
    dict_get pair_eqb k (fold_left (fun d k => dict_set pair_eqb k 0 d) keys d) = Some 0.
Proof.
  induction keys as [|k0 keys IH]; intros d H; cbn [fold_left].
  - destruct H as [H|[]]. exact H.
  - apply IH. destruct (pair_eqb k k0) eqn:E.
    + apply pair_eqb_eq in E. subst. left. apply (dict_get_set_same pair_eqb pair_eqb_eq).
    + assert (Hne : k <> k0).
      { intros ->. rewrite (proj2 (pair_eqb_eq _ _) eq_refl) in E. discriminate. }
      destruct H as [H|[H|H]].
      * left. now rewrite (dict_get_set_other pair_eqb pair_eqb_eq).
      * congruence.
      * now right.
Qed.

Lemma zero_counts_main day slot ts ds :
  In day ds -> In slot ts ->
  dict_get pair_eqb (day, slot) (zero_counts ts ds) = Some 0.
Proof.
  intros Hd Hs. apply zero_counts_get. right.
  apply in_flat_map. exists day. split; [exact Hd|].
  apply in_map_iff. now exists slot.
Qed.

Lemma fold_right_const {A} (f : A -> Z) (c : Z) (l : list A) :
  (forall x, In x l -> f x = c) ->
  fold_right (fun x a => f x + a) 0 l = c * Z.of_nat (List.length l).
Proof.
  induction l as [|x l IH]; intros H; cbn [fold_right List.length]; [lia|].
  rewrite IH by (intros y Hy; apply H; now right).
  rewrite (H x (or_introl eq_refl)). lia.
Qed.

Lemma fold_right_ext_in {A} (f g : A -> Z) (l : list A) :
  (forall x, In x l -> f x = g x) ->
  fold_right (fun x a => f x + a) 0 l = fold_right (fun x a => g x + a) 0 l.
Proof.
  induction l as [|x l IH]; intros H; cbn [fold_right]; [reflexivity|].
  rewrite IH by (intros y Hy; apply H; now right).
  now rewrite (H x (or_introl eq_refl)).
Qed.

Lemma sum_indicator (f : string -> Z) (k0 : string) (l : list string) :
  NoDup l -> In k0 l ->
  fold_right (fun x a => (if x =? k0 then f x else 0) + a) 0 l = f k0.
Proof.
  induction 1 as [|x l Hnin Hnd IH]; intros Hin; [contradiction|].
  cbn [fold_right]. destruct Hin as [->|Hin].
  - rewrite Py_eqb_refl.
    rewrite (fold_right_ext_in _ (fun _ => 0)).
    + rewrite (fold_right_const (fun _ => 0) 0) by reflexivity. lia.
    + intros y Hy. destruct (y =? k0) eqn:E; [|reflexivity].
      apply Py_eqb_eq in E. subst. contradiction.
  - rewrite IH by exact Hin. destruct (x =? k0) eqn:E; [|lia].
    apply Py_eqb_eq in E. subst. contradiction.
Qed.

Lemma sumv_flat_map {A} v (g : A -> list Var) (l : list A) :
  sumv v (flat_map g l) = fold_right (fun x a => sumv v (g x) + a) 0 l.
Proof.
  induction l as [|x l IH]; cbn [flat_map fold_right]; [reflexivity|].
  now rewrite sumv_app, IH.
Qed.

Lemma sum_sections (df : DataFrame) :
  (forall row, In row df -> 0 <= Sections row) ->
  fold_right (fun row a => 2 * Sections row + a) 0 df = total_section_parts df.
Proof.
  unfold total_section_parts. induction df as [|r df IH]; intros H; cbn [fold_right]; [lia|].
  rewrite IH by (intros y Hy; apply H; now right). lia.
Qed.
Lemma section_sum variables v ts ds c i sec part :
  fold_right (fun day a =>
    fold_right (fun slot a => x_value variables v (X_name c i sec part day slot) + a) 0 ts
    + a) 0 ds
  = sumv v (section_vars variables ts ds c i sec part).
Proof.
  unfold section_vars. rewrite sumv_flat_map. apply fold_right_ext_in. intros day _.
  rewrite sumv_flat_map. apply fold_right_ext_in. intros slot _.
  now rewrite sumv_present.
Qed.

(** In every solution a part of a section sits in exactly one place. *)
Lemma build_section_sum df wb cm tm variables s v row section_id part :
  build df wb cm tm = Ok variables s -> solution s v ->
  In row df -> In section_id (Py.range1 (Sections row)) -> In part parts12 ->
  sumv v (section_vars variables time_slots_main days_main
            (Course row) (Instructor row) section_id part) = 1.
Proof.
  intros Hb Hv Hrow Hsec Hpart. unfold build in Hb.
  apply build_model_runs in Hb
    as (s1 & s2 & s3 & s4 & s5 & s6 & s7 & (H1 & H2 & _) & _ & E2 & _).
  eapply sat_sum_eq, solution_sat; [exact Hv|].
  eapply extends_constr; [exact E2|].
  eapply add_basic_unique_slot; try eassumption.
  apply (section_vars_nonempty _ _ _ _ _ _ _ "Monday" "8:30-10:00 AM");
    [now left | now left |].
  eapply create_variables_present; try eassumption; now left.
Qed.

Lemma sum_indicator_pair (f : string -> string -> Z) (d0 s0 : string) (ds ts : list string) :
  NoDup ds -> NoDup ts -> In d0 ds -> In s0 ts ->
  fold_right (fun day a =>
    fold_right (fun slot a =>
      (if pair_eqb (day, slot) (d0, s0) then f day slot else 0) + a) 0 ts + a) 0 ds
  = f d0 s0.
Proof.
  intros Hds Hts Hd Hs.
  rewrite (fold_right_ext_in _ (fun day => if day =? d0 then f day s0 else 0)).
  - now apply (sum_indicator (fun day => f day s0)).
  - intros day _. unfold pair_eqb. cbn [fst snd].
    destruct (day =? d0).
    + now apply (sum_indicator (f day)).
    + rewrite (fold_right_const (fun _ => 0) 0) by reflexivity. lia.
Qed.

Lemma length_range1 n : 0 <= n -> Z.of_nat (List.length (Py.range1 n)) = n.
Proof. intros H. unfold Py.range1. rewrite length_map, length_seq. lia. Qed.

(** X26. Every part is counted once: in every solution the loops of
    [write_percentages_analysis] run without a missing key, the total
    they reach is twice the number of sections (every part of every
    section, once), and the count they reach for a (day, slot) is the
    number of parts placed there. *)
Theorem X26_every_part_is_counted_once :
  forall df wb cm tm variables s v,
    build df wb cm tm = Ok variables s ->
    solution s v ->
    (forall row, In row df -> 0 <= Sections row) ->
    exists schedule_counts,
      count_classes df variables v time_slots_main days_main
      = Some (schedule_counts, total_section_parts df)
      /\ forall day slot, In day days_main -> In slot time_slots_main ->
           dict_get pair_eqb (day, slot) schedule_counts
           = Some (parts_at df variables v day slot).
Proof.
  intros df wb cm tm variables s v Hb Hv Hpos.
  pose proof Hb as Hb'. unfold build in Hb'.
  pose proof (build_vars_bounded _ _ _ _ _ _ _ _ _ Hb') as Hbound. clear Hb'.
  set (P := fun k : string * string => In (fst k) days_main /\ In (snd k) time_slots_main).
  set (xv := fun (row : Row) sec part day slot =>
               x_value variables v (X_name (Course row) (Instructor row) sec part day slot)).
  set (W := fun row : Row =>
              if (Sections row =? 0)%Z then 0
              else fold_right (fun sec a =>
                     fold_right (fun part a =>
                       fold_right (fun day a =>
                         fold_right (fun slot a => xv row sec part day slot + a) 0
                           time_slots_main + a) 0 days_main + a) 0 parts12 + a) 0
                     (Py.range1 (Sections row))).
  set (WK := fun (row : Row) (k : string * string) =>
               if (Sections row =? 0)%Z then 0
               else fold_right (fun sec a =>
                      fold_right (fun part a =>
                        fold_right (fun day a =>
                          fold_right (fun slot a =>
                            (if pair_eqb (day, slot) k then xv row sec part day slot else 0)
                            + a) 0 time_slots_main + a) 0 days_main + a) 0 parts12 + a) 0
                      (Py.range1 (Sections row))).
  assert (A : adds P (fold_right (fun row a => W row + a) 0 df)
                (fun k => fold_right (fun row a => WK row k + a) 0 df)
                (fold_opt (fun row acc =>
                   if (Sections row =? 0)%Z then Some acc
                   else
                     fold_opt (fun section_id acc =>
                       fold_opt (fun part acc =>
                         fold_opt (fun day acc =>
                           fold_opt (fun slot acc =>
                             count_part variables v
                               (X_name (Course row) (Instructor row) section_id part day slot)
                               day slot acc)
                           time_slots_main acc)
                         days_main acc)
                       parts12 acc)
                     (Py.range1 (Sections row)) acc) df)).
  { apply (adds_fold P W WK). intros row _. unfold W, WK.
    destruct (Sections row =? 0)%Z; [apply adds_id|].
    apply (adds_fold P
             (fun sec => fold_right (fun part a =>
                fold_right (fun day a =>
                  fold_right (fun slot a => xv row sec part day slot + a) 0
                    time_slots_main + a) 0 days_main + a) 0 parts12)
             (fun sec k => fold_right (fun part a =>
                fold_right (fun day a =>
                  fold_right (fun slot a =>
                    (if pair_eqb (day, slot) k then xv row sec part day slot else 0) + a) 0
                    time_slots_main + a) 0 days_main + a) 0 parts12)).
    intros sec _.
    apply (adds_fold P
             (fun part => fold_right (fun day a =>
                  fold_right (fun slot a => xv row sec part day slot + a) 0
                    time_slots_main + a) 0 days_main)
             (fun part k => fold_right (fun day a =>
                  fold_right (fun slot a =>
                    (if pair_eqb (day, slot) k then xv row sec part day slot else 0) + a) 0
                    time_slots_main + a) 0 days_main)).
    intros part _.
    apply (adds_fold P
             (fun day => fold_right (fun slot a => xv row sec part day slot + a) 0
                    time_slots_main)
             (fun day k => fold_right (fun slot a =>
                    (if pair_eqb (day, slot) k then xv row sec part day slot else 0) + a) 0
                    time_slots_main)).
    intros day Hday.
    apply (adds_fold P (fun slot => xv row sec part day slot)
             (fun slot k => if pair_eqb (day, slot) k then xv row sec part day slot else 0)).
    intros slot Hslot.
    eapply adds_count_part; [exact Hbound | exact Hv | split; assumption]. }
  destruct (A (zero_counts time_slots_main days_main) 0) as (counts & total & E & Et & Ek).
  { intros [d sl] [Hd Hs]. cbn [fst snd] in Hd, Hs.
    now rewrite (zero_counts_main d sl _ _ Hd Hs). }
  assert (HW : forall row, In row df -> W row = 2 * Sections row).
  { intros row Hrow. unfold W. destruct (Sections row =? 0)%Z eqn:E0.
    - apply Z.eqb_eq in E0. lia.
    - rewrite (fold_right_const _ 2).
      + rewrite length_range1 by (now apply Hpos). lia.
      + intros sec Hsec. rewrite (fold_right_const _ 1); [reflexivity|].
        intros part Hpart. unfold xv. rewrite section_sum.
        eapply build_section_sum; eassumption. }
  exists counts. split.
  - transitivity (Some (counts, total)); [exact E|]. f_equal. f_equal. rewrite Et.
    rewrite (fold_right_ext_in _ (fun row => 2 * Sections row) df HW).
    rewrite sum_sections by exact Hpos. lia.
  - intros day slot Hd Hs. rewrite Ek, (zero_counts_main day slot _ _ Hd Hs). cbn [option_map].
    f_equal. unfold parts_at. rewrite sumv_flat_map. cbn [Z.add].
    apply fold_right_ext_in. intros row _. unfold WK.
    destruct (Sections row =? 0)%Z eqn:E0.
    + apply Z.eqb_eq in E0. rewrite E0. reflexivity.
    + rewrite sumv_flat_map. apply fold_right_ext_in. intros sec _.
      rewrite sumv_flat_map. apply fold_right_ext_in. intros part _.
      rewrite sumv_present.
      apply (sum_indicator_pair (fun d sl => xv row sec part d sl));
        [apply NoDup_days_main | apply NoDup_time_slots_main | exact Hd | exact Hs].
Qed.

Lemma X26_every_part_is_counted_once_witness :
  exists schedule_counts,
    count_classes tiny_df gp_vars (valuation_of gp_state gp_ones) time_slots_main days_main
    = Some (schedule_counts, total_section_parts tiny_df)
    /\ forall day slot, In day days_main -> In slot time_slots_main ->
         dict_get pair_eqb (day, slot) schedule_counts
         = Some (parts_at tiny_df gp_vars (valuation_of gp_state gp_ones) day slot).
Proof.
  apply (X26_every_part_is_counted_once tiny_df gp_wb tiny_cap [] gp_vars gp_state
           (valuation_of gp_state gp_ones)).
  - exact (proj1 gp_facts).
  - exact (proj2 gp_facts).
  - intros row [<-|[]]. cbn. lia.
Defined.

